(* ===== verification/_CoqProject ===== *)
-Q . S2P
Prelude.v
Json.v
History.v
Pipeline.v
Ingest.v
Classifier.v
Storyboard.v
Distribute.v
Lifecycle.v
Deciders.v
Workers.v
Metadata.v
Register.v
Sfn.v
Execution.v
Store.v
Effects.v
Scripts.v
SfnScripts.v
LifecycleRun.v
IngestRun.v
Dispatch.v
Harness.v

