(* ===== verification/Prelude.v ===== *)
(** * A verification development of the sdms media workflow core

    The repository (Python 2, AWS SWF and Step Functions) ingests uploaded
    media files and later moves or deletes them across storage tiers.  Its
    orchestration core is a set of long-polling loops:

    - two *deciders* ([src/workflowcode/decider.py] for the ingestion
      workflow, [src/SFNcode/fileManager.py] for the lifecycle workflow)
      that poll SWF for a decision task, pick the last non-[Decision*]
      event of the execution history and answer with one decision
      ([ScheduleActivityTask] or [CompleteWorkflowExecution]);
    - *activity workers* (one script per activity: [identifyAssetClass],
      [registerAsset], [createThumbnailFromImage], ..., [moveFiles],
      [deleteFiles]) that poll a task list, run one domain action and
      retire the task token with [respond_activity_task_completed] or
      [respond_activity_task_failed];
    - the *extension classifier* inside [identifyAssetClass.py]
      ([loadExts] and the lookup [EXT[fileExt[1:].lower()]]).

    The components only interact through the broker: the decider reads the
    history, the workers read their task input, and every result travels as
    a JSON document that must carry the asset, its class and its catalogue
    key forward.

    ** Layout of the development (the files, in dependency order)

    - [Prelude] (this file): the [py] error monad that models Python
      exceptions ([KeyError], [IndexError], [TypeError],
      [UnboundLocalError], [NameError], ...), Python's string operations
      used by the code ([str.startswith], [str.lower], the [in] substring
      test, the slices [s[1:]] and [s[:-1]]), Python list indexing with
      negative indices, the hint databases [sdms] / [sdms_rw] and the
      lemmas the components share.
    - [Json]: simplejson documents as the inductive [jvalue]; a Python
      [dict] as an insertion-ordered association list (Section [Dict]) with
      [d[k]], [d[k] = v] and [d.update(e)]; the no-duplicate-keys invariant
      and its preservation; the extensional equivalence of dicts and the
      [Proper] instances of the operations; [getitem] ([v[k]] with its
      [KeyError]).
    - [History]: SWF events (id, type, attributes), the filter on
      ["Decision"] prefixes, the last workflow event, the lookup of the
      scheduling event at position [scheduledEventId - 1], decisions,
      decision polls and [executeNextTask] (both deciders).
    - [Pipeline]: the abstract specification, not code: the spec's
      ingestion table (one stage sequence per asset class) and lifecycle
      table (stages per pair of storage tiers).
    - [Ingest] (Module [Ingest]): [decider.py].  The state of a decider
      process is the record [locals] of the Python locals of [main] that
      outlive an iteration ([taskName] is the only one read before it is
      written); [decide] is one iteration ([route_completed] the
      [ActivityTaskCompleted] branches), [run] the loop over polls, which
      stops at the first uncaught exception.
    - [Classifier] (Module [Classifier]): [loadExts], [readlines], the
      lookup [EXT[fileExt[1:].lower()]] of [identifyAssetClass.py];
      [parseHelper.splitFilename] is outside [src/] and modelled from
      [os.path.split] / [os.path.splitext].
    - [Lifecycle] (Module [Lifecycle]): [fileManager.py], stateless, with
      its own copy of [executeNextTask].
    - [Deciders] (Module [Deciders]): the [main] of each decider: its
      constants, the [poll_for_decision_task] request ([ingest_request],
      [fileManager_request]), [decider_main] ([Ingest.run] from the
      unbound locals) and [fileManager_run] / [fileManager_main], the loop
      of [fileManager.py] over the polls of its task list.
    - [Storyboard] (Module [Storyboard]): the storyboard computed by
      [createThumbnailFromVideo.py] after [ffmpeg] (lines 73-174):
      [fnmatch] and the frame count over the directory listing, the
      WebVTT cues with their [%02d] time spans, the key frame index
      [math.trunc(counter * .25)] and the values of the catalogue update.
    - [Distribute] (Module [Distribute]): the S3 keys the distribution
      worker uploads the asset's directory tree to ([os.walk] is an
      argument, [os.path.join] is modelled from the Python library).
    - [Workers] (Module [Worker]): the worker loop body [worker_step]
      against the broker's set of outstanding task tokens ([claim],
      [respond]); one action per worker script ([identifyAssetClass],
      [extractExifMetadata] and [extractMediainfoMetadata] with their
      [processFile], the two thumbnail workers,
      [transcodeVideoDefault], [distributeToS3], [cleanUpLandingPad],
      [moveFiles] with the [OUTPUT] local it keeps across tasks and the
      [NameError] of its download loop, [deleteFiles]); the user metadata
      loop [copy_metadata] as Python runs it on any value; the results of
      external tools are arguments ([tool_run] for
      [subprocess.check_output], [dirs_ok] for [os.makedirs]).
    - [Metadata] (Module [Metadata]): [parseMediaToDict] of both
      extraction workers: the reshaping of [exiftool]'s JSON into the
      [General] and [Image] tracks, and the loop over the tracks of
      [MediaInfo.parse] into [General], [Video] and [Audio]; the
      [parseHelper] functions it calls are Section parameters.
    - [Register] (Module [Register]): [registerAsset.py].  The [Assets]
      DynamoDB table is a [gmap] from [Checksum] to item (a dict);
      [put_item] is the put conditioned on [attribute_not_exists(Checksum)],
      [revive] the [update_item] conditioned on [File_Location = 'delete']
      with its [SET], [list_append] and [REMOVE] clauses, and
      [registerAsset] the task branch returning the new table and the
      report; Python 2's ['%s'] of a decoded value ([py_str], [py_repr])
      and [str(err)] of the refused update ([revive_error]).
    - [Sfn] (Module [Sfn]): the Step Functions workers of [src/SFNcode]:
      the activity's pending tokens ([service]), [send_task_success] /
      [send_task_failure] ([send]), the shared loop body
      [sfn_worker_step] and one loop per script, [registerAsset] with its
      table, and [distributeToS3] with its fallback to the first output
      of a [Parallel] state.  The relation [corresponds] between
      [Worker.broker] and [service] is the simulation that relates the
      two APIs.
    - [Execution] (Module [Execution]): the composition.  SWF itself is not
      code of the repository; its behaviour is stated as a step relation
      on histories ([step]: a decider step runs [Ingest.decide] in any
      process state on the history with a decision task appended, a worker
      step runs a worker on a scheduled task no worker has started (the
      broker hands a task to one claimant) and appends its report;
      event ids are assigned by [append]) and [reachable] closes it from
      the start event.  The workers are a parameter [runs]; [sdms_runs]
      instantiates it with the repository's ingestion workers (tools'
      results and catalogue table free).  The interface the workers offer
      the decider is the class [ThumbnailsKeepClass], discharged for the
      repository's workers by the instance [sdms_runs_keep_class].  The
      relation is generic in the decider ([decides]) and the workers.
    - [Store] (Module [Store]): the two stores the workers write, the
      [Assets] table and the S3 bucket, as one record threaded through a
      state-keeping error monad [io] (a write made before an exception
      stays); [databaseHelper.updateEntry] and [table.update_item] with
      its validation and upsert, [objects.filter(Prefix=...)],
      [Object.delete], [copy_object] with a storage class and
      [upload_file] (which S3 may refuse), from the services' documented
      behaviour.
    - [Effects] (Module [Effects]): the whole task branch of each writing
      worker on the stores, in the code's order of writes and reads; the
      relation [writes] (one task of any writing worker) and the
      relational invariants of Section [Writers] (a [PreOrder] on stores
      kept by every write, discharged once per write primitive).
      [store_runs] relates these branches to the workers of [Workers].
      [moveFiles] runs its download loop (each [os.makedirs] may fail)
      and writes the catalogue before [OUTPUT.update(INPUT)].
    - [Scripts] (Module [Scripts]): each script's [main]: its task list
      [os.path.basename(__file__)[:-3]], the [while True] loop over the
      polls of that task list ([serve], one iteration [serve_step]), the
      branch of [Effects] and the report; [moveFiles] threads its
      [OUTPUT].  The relation [iteration] is one iteration of any script,
      so that [rtc iteration] is any interleaving of the scripts running
      side by side.
    - [SfnScripts] (Module [SfnScripts]): the [main] of each Step
      Functions script: its [ARN] (the activity is the ARN's last field,
      [arn_activity]), the [get_activity_task] request, the loop
      [sfn_run] over the tasks of its activity (each handed out, then the
      body of [Sfn]) and its SWF counterpart [swf_run], which is what a
      script of [Scripts] with a branch that does not write runs; the two
      loops are related by the simulation of [Sfn] ([sfn_run_refines]).
    - [LifecycleRun] (Module [LifecycleRun]): the same composition for the
      lifecycle workflow: [Lifecycle.decide] with the workers [moveFiles]
      (its persistent [OUTPUT] free), [cleanUpLandingPad], [deleteFiles];
      the runs of a move to the archive and of a deletion as functions of
      the request, for any primary key and file key.
    - [IngestRun] (Module [IngestRun]): whole ingestion executions in the
      model of [Execution], driven by one decider process whose [taskName]
      is threaded from iteration to iteration, with the workers
      [fixed_runs] (the repository's, the extraction workers reading the
      key the decider writes); [reach_decide] and [reach_work] build a
      reachable history step by step.  Its two sample uploads document the
      diagnosis of C36 and are not claims: [fixed_runs] is not the
      repository's code.
    - [Dispatch] (Module [Dispatch]): the deciders' promise to schedule
      only on a start or completion event, as the class
      [DispatchOnEvents] with one instance per decider, and executable
      checkers of histories: [dispatch_ok] (every scheduling answers a
      fresh start or completion) and [dead_ok] (nothing after a failure),
      with the invariant [pending_last] (the only task not yet handed to a
      worker is the one just scheduled).
    - [Harness] (Module [Harness]): [testHarness.py]: the start requests
      of [runTest] and [delTest] (the record [start_request]), the
      catalogue deletion and the hand-written updates [dbTest] and
      [dbTest2] on the [Register] table, and [transcodeTest]'s storyboard
      through [Storyboard].  Its deletion request is an instance of the
      deletion run of [LifecycleRun].

    ** What the theorems show (claims C1-C40, by group)

    - Ingestion decider (C1-C7): refinement of the spec's pipeline table
      on complete histories (C1); the response depends on the history
      only, except in the one branch that reads a stale [taskName] (C2),
      and that exception carries the task a process scheduled for one
      execution into any execution whose thumbnail stage reports an
      unknown class, where a fresh process dies (C3); the uuid only
      reaches the activity id (C4); the start branch (C5); failed
      activities get no decision at all (C6); carried-forward fields (C7).
    - Classifier (C9, C11, C13, C14): [loadExts] builds the intended
      table from newline-terminated files (C9); lookup is case-insensitive
      in the query (C11); an entry with an upper-case letter never changes
      a classification (C13); a last line without newline loses its last
      character, for any contents of the three files (C14).
    - Storyboard (C10, C12): the key frame index is within [0, counter / 4]
      and names an existing frame only from four frames on (C10, a bounds
      theorem); every printed cue span reads back as its second (C12, a
      round trip through a parser of the [HH:MM:SS.000] format).
    - Lifecycle decider (C15, C18): refinement of the lifecycle table
      with the extra [deleteFiles] stage of archive moves (C15); the walk
      from stage to stage terminates within two more stages on every
      request, so the fuel of [code_path] is enough (C18).
    - Metadata (C20): the type of the EXIF tracks: the [General] track
      has only the nine catalogue keys, the [Image] track none of the
      mapped fields or the thumbnail, and no string with a double quote.
    - Workers (C22, C25, C26): a failed transcode is never reported
      (C22); user metadata can overwrite the checksum (C25); a move that
      takes neither branch answers the previous task's [OUTPUT] updated
      with its input, or dies on a process's first task (C26).
    - Scripts (C23): every activity either decider schedules goes to the
      task list of its own name, which a script polls wherever the
      scripts are installed, except the two extraction activities and
      [transcodeAudioDefault] (the composition of the deciders with the
      scripts' [taskName]).
    - Step Functions (C24): on the array of a [Parallel] state the
      distribution worker answers as on the first branch, carrying its
      input's fields.
    - Distribution (C27): every frame of the [thumbnails] directory is
      uploaded under the S3 key its storyboard cue names, so the video
      thumbnail worker and the distribution worker agree on the URLs.
    - Registration (C28-C31): registering a live file twice fails the
      second time (C28); a fresh file is stored (C29), a live duplicate
      is refused with [REG-0001] and botocore's text of the failed
      condition (C30), a deleted one is revived (C31).
    - Writes to the stores (C8, C16, C19, C21, C32, C33): the three
      branches of [moveFiles] on the stores: a move that takes neither
      branch writes the catalogue and then dies of [UnboundLocalError] on
      a process's first task (C8), a move to the archive dies of
      [NameError] when a directory of its download cannot be made and
      otherwise writes the catalogue only (C19), a move between the S3
      tiers changes the storage class of exactly the asset's objects
      (C21); the lifecycle deletion removes exactly the objects uploaded
      for the assets of its file name, those of other assets of the same
      base name included (C16); audit trails are append-only across all
      writing workers (C32); [deleteFiles] removes the objects before an
      update the table can refuse, which leaves the catalogue pointing at
      deleted objects (C33).
    - Executions (C17, C34-C40): on every history the system produces
      the stale [taskName] branch is never taken (C34) and no decider
      dies of [UnboundLocalError] (C35), so the bug of C3 is latent; but
      with the repository's extraction workers every ingestion execution
      stops at extraction and never completes (C36), because the decider
      writes the user metadata under [METADATA] and the workers read
      [metadata].  In the lifecycle workflow a request from the archive
      never completes (C37), while for every S3 source tier, primary key
      and file key a move to the archive completes after move, clean-up
      and the extra delete stage (C38) and a deletion completes after
      [deleteFiles] alone (C17).  For both deciders, no start or
      completion event is ever answered by two dispatches (C39), and after
      a failed activity no workflow event follows, so the execution is
      never completed (C40).

    Further lemmas, not claims: [deleteFiles] orphans archive tasks
    ([Worker.deleteFiles_archive_orphans]); the decider's input to
    extraction has no ['metadata'] key
    ([Ingest.classify_input_renames_metadata]), and with the key renamed
    sample uploads run to completion
    ([IngestRun.ingest_completes_with_fixed_extraction]); one iteration
    of the Step Functions loop refines one of the SWF loop
    ([Sfn.sfn_step_refines]), and so does the whole loop
    ([SfnScripts.sfn_run_refines]); the lifecycle decider keeps no state
    between iterations ([Deciders.fileManager_run_ok]); the catalogue
    invariant holds under any interleaving of the scripts
    ([Scripts.scripts_keep_catalogue_wf]); the two deciders poll
    different task lists and the harness's tests reach them
    ([Deciders.deciders_poll_apart], [Harness.harness_requests_routed]);
    the harness's deletion test completes ([Harness.delTest_completes]);
    two Step Functions scripts serve activities not named after them
    ([SfnScripts.sfn_activity_own_name], [SfnScripts.sfn_offers_ingest]);
    a reporting SWF worker retires exactly its token and tokens are
    single-use ([Worker.worker_step_retires],
    [Worker.respond_single_use]); the archive test of [fileManager.py] is
    a substring test ([Lifecycle.touches_archive_substring]); the
    MediaInfo loop never stores an [other*] or raw location key
    ([Metadata.mi_parse_keys]); both parsers crash on a geocoder answer
    without result ([Metadata.exif_address_no_result]); the extraction
    worker rejects the decider's input
    ([Worker.extract_rejects_decider_input]); a duplicate whose document
    lacks [UserFields] crashes the registration worker
    ([Register.registerAsset_duplicate_without_userfields]); the error
    text of a refused revival names its code ([Register.revive_error_code]);
    the image thumbnail worker writes the catalogue before a read that
    can raise ([Effects.createThumbnailFromImage_writes_then_raises]);
    every branch of [Effects] answers what [Workers] says
    ([Effects.store_runs_sdms]); a script's [main] is a sequence of its
    iterations ([Scripts.main_run_iterations]); [dbTest]'s fallback dies
    of [NameError] and [dbTest2] writes an attribute no worker reads.

    ** Bounds and fuel

    Every definition is structurally recursive and total; the decider and
    worker loops are modelled one iteration at a time ([decide],
    [worker_step], [sfn_worker_step], [Scripts.serve_step]) or over a
    finite list of polls or items ([Ingest.run], [Scripts.serve],
    [Deciders.fileManager_run], [SfnScripts.sfn_run],
    [Worker.run_moveFiles], [py_fold] for the loops of
    [parseMediaToDict]), so no fuel is needed there: the scripts' loops
    never end, and a run is any finite prefix of their polls.  Whole
    executions are the inductive relation [Execution.reachable], whose
    invariants are proved by rule induction.  The lifecycle route
    [Lifecycle.code_path] follows at most 3 stages after the first; C18
    shows that the walk ends with the completion decision within two
    more stages from any stage, so any fuel of at least 3 gives the same
    result.  Python 2 integers are unbounded and are modelled as [Z]; its
    [/] and [%] on integers round towards minus infinity like [Z.div] and
    [Z.modulo]; [math.trunc(counter * .25)] is [Z.quot counter 4] (the
    product is exact in binary floating point); ['%d'] and ['%02d'] are
    stdpp's [pretty] with the zero padding.

    ** Plan for the next parts

    The execution model of [Execution] carrying the stores of [Store], so
    that a whole execution's writes are those of [Effects]; liveness of
    the lifecycle runs under every scheduling of the broker, not only
    along the run the decider and the workers make by themselves.

    ** Not modelled

    The AWS SDK calls themselves (boto3 transport, pagination of
    histories, task timeouts and redelivery), the media tools (exiftool,
    mediainfo, ffmpeg, convert), file-system operations ([shutil],
    [parseHelper.createDir], the VTT file written to the local disk;
    [os.listdir] and [os.walk] are arguments), the geocoder and logging:
    they are external collaborators whose effect on the orchestration is
    only the result or failure they report.  [databaseHelper] and the
    DynamoDB and S3 services are outside the repository; [Store] models
    the calls the workers make from the services' documented behaviour.
    The archive branch of [moveFiles] only downloads its objects (no
    Glacier upload is written), so it changes neither store; whether each
    [os.makedirs] and each S3 upload succeeds is an argument.  Python 2
    dicts list their keys in hash order, which [Register.py_repr] does not
    model (it lists them in the dict's order).  JSON
    serialisation ([json.dumps] / [json.loads]) is the identity on
    [jvalue].  The state machine that drives the Step Functions workers
    is not in the repository, so their composition into executions is
    not modelled; the SWF deciders schedule the extraction activities,
    for which the repository has Step Functions workers only (C23). *)

From stdpp Require Import base list strings pretty.
From Stdlib Require Import String Ascii ZArith Lia.

Declare Scope py_scope.
Delimit Scope py_scope with py.
Open Scope string_scope.

(** ** Python exceptions and the error monad *)

(** The exceptions the modelled code can raise.  An uncaught exception
    ends the polling loop of the process (the script dies). *)
Inductive py_exc :=
| KeyError (key : string)
| IndexError
| TypeError (what : string)
| UnboundLocalError (name : string)
| NameError (name : string)
| ClientError (code : string)
| IOError (filename : string)
| OSError (what : string)
| AttributeError (what : string)
| S3UploadFailedError (key : string).

(** A computation that returns an [A] or raises. *)
Definition py (A : Type) : Type := sum py_exc A.

Definition py_ret {A} (a : A) : py A := inr a.
Definition py_raise {A} (e : py_exc) : py A := inl e.
Definition py_bind {A B} (c : py A) (k : A -> py B) : py B :=
  match c with
  | inl e => inl e
  | inr a => k a
  end.

Notation "x <- c ;; k" := (py_bind c (fun x => k))
  (at level 100, c at next level, right associativity) : py_scope.
Notation "'ret' a" := (py_ret a) (at level 10) : py_scope.

Definition py_map {A B} (f : A -> B) (c : py A) : py B :=
  match c with
  | inl e => inl e
  | inr a => inr (f a)
  end.

(** [opt_or_raise e o] is a lookup that raises [e] when it finds nothing. *)
Definition opt_or_raise {A} (e : py_exc) (o : option A) : py A :=
  match o with
  | Some a => inr a
  | None => inl e
  end.

(** ** Python string operations *)

(** [s.startswith(p)] *)
Definition startswith (s p : string) : bool := String.prefix p s.

(** [a in b] for two Python strings: [a] is a substring of [b]. *)
Fixpoint str_in (a b : string) : bool :=
  String.prefix a b ||
  match b with
  | EmptyString => false
  | String _ b' => str_in a b'
  end.

(** [str.lower] on ASCII characters. *)
Definition ascii_lower (c : ascii) : ascii :=
  let n := nat_of_ascii c in
  if (65 <=? n)%nat && (n <=? 90)%nat then ascii_of_nat (n + 32) else c.

Fixpoint py_lower (s : string) : string :=
  match s with
  | EmptyString => EmptyString
  | String c s' => String (ascii_lower c) (py_lower s')
  end.

(** [s[1:]] *)
Definition drop_first (s : string) : string :=
  match s with
  | EmptyString => EmptyString
  | String _ s' => s'
  end.

(** [s[:-1]] *)
Fixpoint drop_last (s : string) : string :=
  match s with
  | EmptyString => EmptyString
  | String _ EmptyString => EmptyString
  | String c s' => String c (drop_last s')
  end.

(** ** Python list indexing [l[i]] with negative indices *)

Definition py_index {A} (l : list A) (i : Z) : py A :=
  let n := Z.of_nat (List.length l) in
  if (0 <=? i)%Z && (i <? n)%Z then opt_or_raise IndexError (nth_error l (Z.to_nat i))
  else if (- n <=? i)%Z && (i <? 0)%Z then opt_or_raise IndexError (nth_error l (Z.to_nat (n + i)))
  else inl IndexError.

(** [l[-1]] *)
Definition py_last {A} (l : list A) : py A := py_index l (-1).

(** ** Loops and handlers *)

(** [for x in l: acc = body(acc, x)], stopping at the first exception. *)
Fixpoint py_fold {A B} (body : A -> B -> py A) (l : list B) (acc : A) : py A :=
  match l with
  | [] => inr acc
  | x :: l' => py_bind (body acc x) (py_fold body l')
  end.

(** [try: c except KeyError: handler] *)
Definition try_KeyError {A} (c : py A) (handler : py A) : py A :=
  match c with
  | inl (KeyError _) => handler
  | _ => c
  end.

(** ** Python integers printed and read in decimal *)

(** [str(n)] and ['%d' % n] of a Python int. *)
Definition py_str_int (n : Z) : string := pretty n.

(** ['%02d' % n]: zero-padded to at least two characters. *)
Definition py_pad2 (n : Z) : string :=
  let s := py_str_int n in
  if (String.length s <? 2)%nat then String "0" s else s.

(** [range(a, b)] *)
Definition py_range (a b : Z) : list Z :=
  map (fun k => (a + Z.of_nat k)%Z) (seq 0 (Z.to_nat (b - a))).

(** The value of a decimal digit. *)
Definition digit_val (c : ascii) : option Z :=
  let n := (Z.of_nat (nat_of_ascii c) - 48)%Z in
  if ((0 <=? n) && (n <? 10))%Z then Some n else None.

(** Reading a string of decimal digits (Horner's rule from [acc]). *)
Fixpoint dec_go (acc : Z) (s : string) : option Z :=
  match s with
  | EmptyString => Some acc
  | String c s' => d ← digit_val c; dec_go (acc * 10 + d)%Z s'
  end.

Definition read_dec (s : string) : option Z := dec_go 0 s.

(** [s.split(c, 1)] when [c] occurs in [s]: the text before and after its
    first occurrence. *)
Fixpoint split_at (c : ascii) (s : string) : option (string * string) :=
  match s with
  | EmptyString => None
  | String c' s' =>
      if Ascii.eqb c c' then Some (EmptyString, s')
      else (fun '(a, b) => (String c' a, b)) <$> split_at c s'
  end.

(** ** Automation *)

Create HintDb sdms.
Create Rewrite HintDb sdms_rw.

Ltac py_simpl := cbn [py_bind py_map py_ret py_raise opt_or_raise] in *.

(** ** Shared lemmas *)

Lemma py_bind_inr {A B} (a : A) (k : A -> py B) : py_bind (inr a) k = k a.
Proof. reflexivity. Qed.

Lemma py_bind_inl {A B} (e : py_exc) (k : A -> py B) : py_bind (inl e) k = inl e.
Proof. reflexivity. Qed.

Lemma py_bind_inr_inv {A B} (c : py A) (k : A -> py B) b :
  py_bind c k = inr b -> exists a, c = inr a /\ k a = inr b.
Proof. destruct c as [e|a]; simpl; [discriminate | eauto]. Qed.

Lemma str_in_prefix a b : String.prefix a b = true -> str_in a b = true.
Proof. destruct b; simpl; intros ->; reflexivity. Qed.

Lemma str_in_refl a : str_in a a = true.
Proof.
  apply str_in_prefix. induction a as [|c a IH]; simpl; [reflexivity|].
  destruct (ascii_dec c c); [exact IH | congruence].
Qed.

Lemma str_in_empty b : str_in "" b = true.
Proof. destruct b; reflexivity. Qed.

Lemma py_lower_idem s : py_lower (py_lower s) = py_lower s.
Proof.
  induction s as [|c s IH]; simpl; [reflexivity|]. rewrite IH. f_equal.
  destruct c as [b0 b1 b2 b3 b4 b5 b6 b7].
  destruct b0, b1, b2, b3, b4, b5, b6, b7; vm_compute; reflexivity.
Qed.

Lemma py_index_nonneg {A} (l : list A) (i : nat) x :
  nth_error l i = Some x -> py_index l (Z.of_nat i) = inr x.
Proof.
  intros H. unfold py_index.
  assert (Hlt : (i < List.length l)%nat) by (apply nth_error_Some; congruence).
  replace ((0 <=? Z.of_nat i)%Z && (Z.of_nat i <? Z.of_nat (List.length l))%Z) with true
    by (symmetry; apply andb_true_iff; split; [apply Z.leb_le | apply Z.ltb_lt]; lia).
  rewrite Nat2Z.id, H. reflexivity.
Qed.

Lemma py_last_app {A} (l : list A) (x : A) : py_last (l ++ [x]) = inr x.
Proof.
  unfold py_last, py_index. rewrite length_app. simpl.
  replace (Z.of_nat (List.length l + 1) + -1)%Z with (Z.of_nat (List.length l)) by lia.
  rewrite Nat2Z.id, nth_error_app2, Nat.sub_diag by lia. simpl.
  replace ((- Z.of_nat (List.length l + 1) <=? -1)%Z && (-1 <? 0)%Z) with true
    by (symmetry; apply andb_true_iff; split; [apply Z.leb_le | apply Z.ltb_lt]; lia).
  reflexivity.
Qed.

Lemma py_map_bind {A B C} (f : B -> C) (c : py A) (k : A -> py B) :
  py_map f (py_bind c k) = py_bind c (fun a => py_map f (k a)).
Proof. by destruct c. Qed.

Lemma py_last_nil {A} : @py_last A [] = inl IndexError.
Proof. reflexivity. Qed.

Lemma opt_or_raise_inr {A} e (o : option A) x : opt_or_raise e o = inr x -> o = Some x.
Proof. destruct o; simpl; congruence. Qed.

(** [l[i]] only raises [IndexError]. *)
Lemma py_index_err {A} (l : list A) i e : py_index l i = inl e -> e = IndexError.
Proof.
  unfold py_index. destruct (_ && _); [destruct (nth_error _ _); cbn; congruence|].
  destruct (_ && _); [destruct (nth_error _ _); cbn|]; congruence.
Qed.

(** Whatever the index, an element [l[i]] is an element of [l]. *)
Lemma py_index_in {A} (l : list A) i x : py_index l i = inr x -> In x l.
Proof.
  unfold py_index.
  destruct (_ && _); [intros H%opt_or_raise_inr; by apply nth_error_In in H|].
  destruct (_ && _); [intros H%opt_or_raise_inr; by apply nth_error_In in H|discriminate].
Qed.

#[export] Hint Resolve str_in_refl str_in_empty : sdms.
#[export] Hint Rewrite @py_bind_inr @py_bind_inl @py_last_app : sdms_rw.

(** An invariant of the loop body is one of the loop. *)
Lemma py_fold_inv {A B} (P : A -> Prop) (body : A -> B -> py A) l a a' :
  (forall a x a', P a -> body a x = inr a' -> P a') ->
  P a -> py_fold body l a = inr a' -> P a'.
Proof.
  intros Hbody. revert a. induction l as [|x l IH]; intros a Ha; cbn; [congruence|].
  destruct (body a x) as [|a1] eqn:Hb; cbn; [discriminate|]. apply IH. exact (Hbody _ _ _ Ha Hb).
Qed.

(** The same, for a body that keeps the invariant on the elements of the
    loop's list only. *)
Lemma py_fold_inv_in {A B} (P : A -> Prop) (body : A -> B -> py A) l a a' :
  (forall a x a', In x l -> P a -> body a x = inr a' -> P a') ->
  P a -> py_fold body l a = inr a' -> P a'.
Proof.
  revert a. induction l as [|x l IH]; intros a Hbody Ha; cbn; [congruence|].
  destruct (body a x) as [|a1] eqn:Hb; cbn; [discriminate|].
  apply IH; [intros; eapply Hbody; eauto using in_cons|]. eapply Hbody; [left| |]; eauto.
Qed.

Lemma try_KeyError_inr {A} (c h : py A) x : try_KeyError c h = inr x -> c = inr x \/ h = inr x.
Proof. destruct c as [[]|]; cbn; auto. Qed.

(** ** Postconditions *)

(** [P] holds of every value [c] returns. *)
Definition py_post {A} (P : A -> Prop) (c : py A) : Prop := forall x, c = inr x -> P x.

Lemma py_post_ret {A} (P : A -> Prop) a : P a -> py_post P (py_ret a).
Proof. by intros ? ? [= <-]. Qed.

Lemma py_post_raise {A} (P : A -> Prop) e : py_post P (py_raise e).
Proof. by intros ?. Qed.

Lemma py_post_bind {A B} (P : B -> Prop) (c : py A) (k : A -> py B) :
  (forall a, c = inr a -> py_post P (k a)) -> py_post P (py_bind c k).
Proof. intros H x. destruct c as [|a]; [discriminate|]. exact (H a eq_refl x). Qed.

Lemma py_post_if {A} (P : A -> Prop) (b : bool) (c1 c2 : py A) :
  (b = true -> py_post P c1) -> (b = false -> py_post P c2) -> py_post P (if b then c1 else c2).
Proof. destruct b; auto. Qed.

(** Walks a computation down to the values it returns. *)
Ltac py_post_tac :=
  repeat match goal with
  | |- py_post _ (py_bind _ _) => apply py_post_bind; intros ? ?
  | |- py_post _ (if _ then _ else _) => apply py_post_if; intros ?
  | |- py_post _ (py_ret _) => apply py_post_ret
  | |- py_post _ (py_raise _) => apply py_post_raise
  | |- py_post _ (let _ := _ in _) => cbv zeta
  | |- py_post _ (match ?x with _ => _ end) => destruct x
  end.

Lemma existsb_ext_in {A} (f g : A -> bool) l :
  (forall x, In x l -> f x = g x) -> existsb f l = existsb g l.
Proof. induction l as [|x l IH]; intros H; [done|]. cbn. rewrite H, IH; auto using in_eq, in_cons. Qed.

(** ** Decimal printing and reading *)

Lemma str_app_cons x (a b : string) : (String x a ++ b = String x (a ++ b))%string.
Proof. reflexivity. Qed.

Lemma str_app_char x (b : string) : (String x EmptyString ++ b = String x b)%string.
Proof. reflexivity. Qed.

Lemma str_app_nil_r (a : string) : (a ++ EmptyString = a)%string.
Proof. induction a as [|x a IH]; [done|]. by rewrite str_app_cons, IH. Qed.

Lemma str_app_assoc (a b c : string) : (a ++ b ++ c = (a ++ b) ++ c)%string.
Proof. induction a as [|x a IH]; [done|]. by rewrite !str_app_cons, IH. Qed.

Lemma dec_go_app acc a b : dec_go acc (a ++ b) = dec_go acc a ≫= fun v => dec_go v b.
Proof.
  revert acc. induction a as [|c a IH]; intros acc; [done|].
  rewrite str_app_cons. simpl. destruct (digit_val c); simpl; [apply IH|done].
Qed.

Lemma digit_val_pretty_char x : (x < 10)%N -> digit_val (pretty_N_char x) = Some (Z.of_N x).
Proof.
  intros Hx. assert (x = 0 ∨ x = 1 ∨ x = 2 ∨ x = 3 ∨ x = 4 ∨ x = 5 ∨ x = 6 ∨ x = 7 ∨ x = 8 ∨ x = 9)%N
    as Hc by lia.
  repeat (destruct Hc as [->|Hc]; [reflexivity|]). by subst.
Qed.

Lemma pretty_N_go_app x s : pretty_N_go x s = (pretty_N_go x "" ++ s)%string.
Proof.
  revert s. induction (N.lt_wf_0 x) as [x _ IH]; intros s.
  destruct (decide (x = 0)%N) as [->|?]; [by rewrite !pretty_N_go_0|].
  rewrite !(pretty_N_go_step x) by lia.
  assert (Hlt : (x `div` 10 < x)%N) by (apply N.div_lt; lia).
  rewrite (IH _ Hlt (String _ s)), (IH _ Hlt (String _ "")).
  by rewrite <- str_app_assoc.
Qed.

Lemma read_dec_pretty_N_go x : read_dec (pretty_N_go x "") = Some (Z.of_N x).
Proof.
  induction (N.lt_wf_0 x) as [x _ IH].
  destruct (decide (x = 0)%N) as [->|?]; [by rewrite pretty_N_go_0|].
  rewrite pretty_N_go_step, pretty_N_go_app by lia. unfold read_dec.
  rewrite dec_go_app. fold (read_dec (pretty_N_go (x `div` 10) "")).
  rewrite IH by (apply N.div_lt; lia). simpl.
  rewrite digit_val_pretty_char by (apply N.mod_lt; lia). simpl. f_equal.
  rewrite (N.div_mod x 10) at 3 by lia. lia.
Qed.

Lemma read_dec_py_str_int n : (0 <= n)%Z -> read_dec (py_str_int n) = Some n.
Proof.
  intros Hn. destruct n as [|p|p]; [done| |lia].
  change (py_str_int (Zpos p)) with (pretty (Npos p)). unfold pretty, pretty_N.
  rewrite decide_False by done. apply (read_dec_pretty_N_go (Npos p)).
Qed.

Lemma read_dec_py_pad2 n : (0 <= n)%Z -> read_dec (py_pad2 n) = Some n.
Proof.
  intros Hn. unfold py_pad2. destruct (_ <? _)%nat; [|by apply read_dec_py_str_int].
  unfold read_dec. simpl. by apply read_dec_py_str_int.
Qed.

(** A string that reads as a number holds no other character than digits,
    so it ends before the first separator that is not a digit. *)
Lemma split_at_digits c acc a v r :
  dec_go acc a = Some v -> digit_val c = None -> split_at c (a ++ String c r) = Some (a, r).
Proof.
  revert acc. induction a as [|c' a IH]; intros acc Ha Hc; [by simpl; rewrite Ascii.eqb_refl|].
  rewrite str_app_cons. simpl in Ha |- *. destruct (digit_val c') eqn:Hc'; [|done].
  destruct (Ascii.eqb_spec c c') as [->|_]; [congruence|].
  by rewrite (IH _ Ha Hc).
Qed.

Lemma in_py_range x a b : In x (py_range a b) <-> (a <= x < b)%Z.
Proof.
  unfold py_range. rewrite in_map_iff. split.
  - intros (k & <- & Hk%in_seq). lia.
  - intros Hx. exists (Z.to_nat (x - a)). rewrite in_seq. lia.
Qed.

#[export] Hint Rewrite str_app_char : sdms_rw.
