(* ===== verification/Json.v ===== *)
(** * JSON documents and Python dicts

    Every document exchanged between the deciders and the workers is a
    Python [dict] serialised with simplejson.  This file models the values
    ([jvalue]), the dict as an insertion-ordered association list
    ([d[k]], [d[k] = v], [d.update(e)]), the no-duplicate-keys invariant
    that every operation preserves, and the extensional equivalence of
    dicts (two dicts with the same lookups), under which the operations
    are [Proper]. *)

From stdpp Require Import base list strings.
From Stdlib Require Import String ZArith Morphisms.
From S2P Require Import Prelude.

Open Scope string_scope.

#[warnings="-register-all"]
Inductive jvalue :=
| JNull
| JBool (b : bool)
| JNum (n : Z)
| JStr (s : string)
| JList (l : list jvalue)
| JObj (fields : list (string * jvalue)).

Section Dict.
Context {V : Type}.

Definition dict := list (string * V).

(** [d[k]] without the exception: the value of the key, if any. *)
Fixpoint dict_get (d : dict) (k : string) : option V :=
  match d with
  | [] => None
  | (k', v) :: d' => if String.eqb k k' then Some v else dict_get d' k
  end.

(** [d[k] = v]: an existing key keeps its position, a new key goes last. *)
Fixpoint dict_set (d : dict) (k : string) (v : V) : dict :=
  match d with
  | [] => [(k, v)]
  | (k', v') :: d' =>
      if String.eqb k k' then (k', v) :: d' else (k', v') :: dict_set d' k v
  end.

(** [d.update(e)]: the items of [e] are assigned one by one. *)
Definition dict_update (d e : dict) : dict :=
  fold_left (fun acc kv => dict_set acc kv.1 kv.2) e d.

Definition dict_keys (d : dict) : list string := map fst d.

(** A dict never holds a key twice. *)
Definition dict_wf (d : dict) : Prop := NoDup (dict_keys d).

Definition dict_equiv (d1 d2 : dict) : Prop :=
  forall k, dict_get d1 k = dict_get d2 k.

(** ** Lookup after assignment *)

Lemma dict_get_set_eq d k v : dict_get (dict_set d k v) k = Some v.
Proof.
  induction d as [|[k' v'] d IH]; simpl; [by rewrite String.eqb_refl|].
  destruct (String.eqb_spec k k') as [->|Hne]; simpl.
  - by rewrite String.eqb_refl.
  - apply String.eqb_neq in Hne. by rewrite Hne.
Qed.

Lemma dict_get_set_ne d k k0 v :
  k <> k0 -> dict_get (dict_set d k v) k0 = dict_get d k0.
Proof.
  intros Hne. induction d as [|[k' v'] d IH]; simpl.
  - apply not_eq_sym, String.eqb_neq in Hne. by rewrite Hne.
  - destruct (String.eqb_spec k k') as [->|Hk]; simpl.
    + apply not_eq_sym, String.eqb_neq in Hne. by rewrite Hne.
    + by rewrite IH.
Qed.

Lemma dict_get_set d k k0 v :
  dict_get (dict_set d k v) k0 = if String.eqb k0 k then Some v else dict_get d k0.
Proof.
  destruct (String.eqb_spec k0 k) as [->|Hne].
  - apply dict_get_set_eq.
  - apply dict_get_set_ne. congruence.
Qed.

Lemma dict_keys_set d k v :
  dict_keys (dict_set d k v) =
    if bool_decide (k ∈ dict_keys d) then dict_keys d else (dict_keys d ++ [k])%list.
Proof.
  induction d as [|[k' v'] d IH]; simpl; [done|].
  destruct (String.eqb_spec k k') as [->|Hne]; simpl.
  - rewrite bool_decide_true; [done|]. by left.
  - rewrite IH. unfold dict_keys in *.
    case_bool_decide as Hin; case_bool_decide as Hin'; simpl; try done.
    + exfalso. apply Hin'. by right.
    + exfalso. apply elem_of_cons in Hin' as [->|?]; [done | by apply Hin].
Qed.

Lemma dict_set_wf d k v : dict_wf d -> dict_wf (dict_set d k v).
Proof.
  unfold dict_wf. rewrite dict_keys_set. case_bool_decide as Hin; [done|].
  intros Hnd. apply NoDup_app. split; [done|]. split; [|apply NoDup_singleton].
  intros x Hx ->%list_elem_of_singleton. done.
Qed.

(** ** [update] *)

Lemma dict_update_wf d e : dict_wf d -> dict_wf (dict_update d e).
Proof.
  unfold dict_update. revert d.
  induction e as [|[k v] e IH]; intros d Hd; simpl; [done|].
  apply IH, dict_set_wf, Hd.
Qed.

(** The updated dict answers with [e]'s value where [e] has the key and
    with [d]'s value elsewhere. *)
Lemma dict_get_update d e k :
  dict_wf e ->
  dict_get (dict_update d e) k =
    match dict_get e k with Some v => Some v | None => dict_get d k end.
Proof.
  unfold dict_update, dict_wf, dict_keys. revert d.
  induction e as [|[k' v'] e IH]; intros d Hnd; simpl; [done|].
  inversion Hnd as [|? ? Hnotin Hnd']; subst.
  rewrite IH by done. rewrite dict_get_set.
  destruct (String.eqb_spec k k') as [->|Hne]; [|done].
  destruct (dict_get e k') eqn:Hg; [|done].
  exfalso. apply Hnotin. clear -Hg. induction e as [|[k'' v''] e IH]; simpl in *; [done|].
  destruct (String.eqb_spec k' k'') as [->|]; [by left | right; auto].
Qed.

(** ** Extensional equivalence *)

#[export] Instance dict_equiv_equivalence : Equivalence dict_equiv.
Proof.
  split; unfold dict_equiv; [done | by intros ?? H k; rewrite H |
    by intros ??? H1 H2 k; rewrite H1, H2].
Qed.

#[export] Instance dict_get_proper : Proper (dict_equiv ==> eq ==> eq) dict_get.
Proof. intros d1 d2 H k ? <-. apply H. Qed.

#[export] Instance dict_set_proper : Proper (dict_equiv ==> eq ==> eq ==> dict_equiv) dict_set.
Proof. intros d1 d2 H k ? <- v ? <- k0. by rewrite !dict_get_set, H. Qed.

#[export] Instance dict_update_proper e :
  Proper (dict_equiv ==> dict_equiv) (fun d => dict_update d e).
Proof.
  unfold dict_update. induction e as [|[k v] e IH]; intros d1 d2 H; simpl; [done|].
  apply IH. by rewrite H.
Qed.

End Dict.

Arguments dict : clear implicits.

(** ** Reading a document the way the Python code does *)

(** [v[k]]: a [KeyError] when the dict has no such key, a [TypeError] when
    [v] is not a dict. *)
Definition getitem (v : jvalue) (k : string) : py jvalue :=
  match v with
  | JObj d => opt_or_raise (KeyError k) (dict_get d k)
  | _ => inl (TypeError "subscript of a non-dict")
  end.

(** [v[0]]: the first item of a list, the first character of a string;
    a dict (with string keys) has no key [0]. *)
Definition item0 (v : jvalue) : py jvalue :=
  match v with
  | JList l => py_index l 0
  | JStr EmptyString => inl IndexError
  | JStr (String c _) => inr (JStr (String c EmptyString))
  | JObj _ => inl (KeyError "0")
  | _ => inl (TypeError "object has no attribute '__getitem__'")
  end.

(** [d.pop(k, None)], the value dropped. *)
Definition dict_pop {V} (d : @dict V) (k : string) : @dict V :=
  List.filter (fun kv => negb (String.eqb kv.1 k)) d.

(** [v == s] for a Python string literal [s]. *)
Definition jv_eq_str (v : jvalue) (s : string) : bool :=
  match v with
  | JStr s' => String.eqb s' s
  | _ => false
  end.

(** [v in s] for a Python string literal [s]: a substring test when [v] is
    a string, a [TypeError] otherwise. *)
Definition jv_in_str (v : jvalue) (s : string) : py bool :=
  match v with
  | JStr s' => inr (str_in s' s)
  | _ => inl (TypeError "'in <string>' requires string as left operand")
  end.

Lemma dict_get_pop {V} (d : dict V) k k' :
  dict_get (dict_pop d k) k' = if String.eqb k' k then None else dict_get d k'.
Proof.
  unfold dict_pop. induction d as [|[k0 v0] d IH]; simpl; [by case_match|].
  destruct (String.eqb k0 k) eqn:E1; simpl.
  - apply String.eqb_eq in E1 as ->. rewrite IH. by destruct (String.eqb k' k).
  - destruct (String.eqb k' k0) eqn:E2; [|exact IH].
    apply String.eqb_eq in E2 as ->. by rewrite E1.
Qed.

(** [{k: f(v) for (k, v) in d.items()}], as an in-place loop over the values. *)
Lemma dict_get_map {V W} (f : V -> W) (d : dict V) k :
  dict_get (map (fun kv => (kv.1, f kv.2)) d) k = f <$> dict_get d k.
Proof. induction d as [|[k0 v0] d IH]; simpl; [done|]. by destruct (String.eqb k k0). Qed.

Lemma getitem_obj d k v : dict_get d k = Some v -> getitem (JObj d) k = inr v.
Proof. intros H. simpl. by rewrite H. Qed.

(** [v[k]] only raises [KeyError] or [TypeError]. *)
Lemma getitem_not_unbound v k x : getitem v k <> inl (UnboundLocalError x).
Proof. destruct v; cbn; try congruence. by destruct (dict_get _ k). Qed.

Lemma getitem_obj_missing d k : dict_get d k = None -> getitem (JObj d) k = inl (KeyError k).
Proof. intros H. simpl. by rewrite H. Qed.

Lemma jv_eq_str_spec v s : jv_eq_str v s = true <-> v = JStr s.
Proof.
  destruct v; simpl; split; try discriminate.
  - by intros ->%String.eqb_eq.
  - intros [= ->]. apply String.eqb_refl.
Qed.

#[export] Hint Resolve dict_set_wf dict_update_wf dict_get_set_eq : sdms.
#[export] Hint Rewrite @dict_get_set_eq : sdms_rw.
