(* ===== verification/History.v ===== *)
(** * SWF execution histories, decision tasks and decisions

    What the deciders receive from [poll_for_decision_task] and what they
    send back with [respond_decision_task_completed].  An event carries its
    [eventId] (SWF numbers the events of an execution 1, 2, 3, ...), its
    [eventType] and the attributes of that type.  The deciders keep the
    events whose type does not start with ["Decision"], take the last one,
    and, for a completed activity, find the activity's name in the
    scheduling event at position [scheduledEventId - 1] of the event list.
    The theorems show when that lookup by position is the lookup by id. *)

From stdpp Require Import base list strings.
From Stdlib Require Import String ZArith Lia.
From S2P Require Import Prelude Json.

Open Scope string_scope.

Inductive event_attrs :=
| WorkflowExecutionStarted (input : jvalue)
| ActivityTaskScheduled (activityName : string) (activityInput : jvalue) (taskList : string)
| ActivityTaskStarted (scheduledEventId : Z)
| ActivityTaskCompleted (scheduledEventId : Z) (result : option jvalue)
| ActivityTaskFailed (scheduledEventId : Z) (reason details : string)
| DecisionTaskScheduled
| DecisionTaskStarted
| DecisionTaskCompleted
| OtherEvent (eventType : string).

Record event := mkEvent { eventId : Z ; attrs : event_attrs }.

Definition eventType (e : event) : string :=
  match attrs e with
  | WorkflowExecutionStarted _ => "WorkflowExecutionStarted"
  | ActivityTaskScheduled _ _ _ => "ActivityTaskScheduled"
  | ActivityTaskStarted _ => "ActivityTaskStarted"
  | ActivityTaskCompleted _ _ => "ActivityTaskCompleted"
  | ActivityTaskFailed _ _ _ => "ActivityTaskFailed"
  | DecisionTaskScheduled => "DecisionTaskScheduled"
  | DecisionTaskStarted => "DecisionTaskStarted"
  | DecisionTaskCompleted => "DecisionTaskCompleted"
  | OtherEvent t => t
  end.

(** [not e['eventType'].startswith('Decision')] *)
Definition is_workflow_event (e : event) : bool :=
  negb (startswith (eventType e) "Decision").

(** [workflow_events = [e for e in newTask['events'] if ...]] *)
Definition workflow_events (evs : list event) : list event :=
  List.filter is_workflow_event evs.

(** [last_event = workflow_events[-1]] *)
Definition last_event (evs : list event) : py event :=
  py_last (workflow_events evs).

(** ** Attribute access, with the [KeyError] of a missing attribute map *)

(** [last_event['workflowExecutionStartedEventAttributes']['input']] *)
Definition started_input (e : event) : py jvalue :=
  match attrs e with
  | WorkflowExecutionStarted i => inr i
  | _ => inl (KeyError "workflowExecutionStartedEventAttributes")
  end.

(** [last_event_attrs['scheduledEventId']] *)
Definition completed_scheduled_id (e : event) : py Z :=
  match attrs e with
  | ActivityTaskCompleted sid _ => inr sid
  | _ => inl (KeyError "activityTaskCompletedEventAttributes")
  end.

(** [json.loads(attrs.get('result'))]: [json.loads(None)] is a [TypeError]. *)
Definition completed_result (e : event) : py jvalue :=
  match attrs e with
  | ActivityTaskCompleted _ (Some r) => inr r
  | ActivityTaskCompleted _ None => inl (TypeError "json.loads(None)")
  | _ => inl (KeyError "activityTaskCompletedEventAttributes")
  end.

(** [activity_data['activityTaskScheduledEventAttributes']['activityType']['name']] *)
Definition scheduled_name (e : event) : py string :=
  match attrs e with
  | ActivityTaskScheduled n _ _ => inr n
  | _ => inl (KeyError "activityTaskScheduledEventAttributes")
  end.

(** Steps 1) and 2) of the deciders: the name of the activity that has just
    completed, found at position [scheduledEventId - 1]. *)
Definition completed_activity_name (evs : list event) (last : event) : py string :=
  py_bind (completed_scheduled_id last) (fun sid =>
  py_bind (py_index evs (sid - 1)) scheduled_name).

(** ** Decisions and decision tasks *)

Inductive decision :=
| ScheduleActivityTask (activityName version activityId : string)
    (input : jvalue) (taskList : string)
| CompleteWorkflowExecution (result : string).

(** The answer of [poll_for_decision_task]: no ['taskToken'] (the long poll
    timed out), or a task with its token and, when present, its events. *)
Inductive decision_poll :=
| NoDecisionTask
| DecisionTask (token : string) (events : option (list event)).

(** [executeNextTask]: one [ScheduleActivityTask] decision with the activity
    id ['activityid-' + str(uuid.uuid4())]. *)
Definition executeNextTask (uuid taskName taskVersion : string) (taskInput : jvalue)
    (taskList : string) : decision :=
  ScheduleActivityTask taskName taskVersion ("activityid-" ++ uuid) taskInput taskList.

(** ** Well-formed histories *)

(** The event ids of [evs] are [n], [n+1], ... in list order. *)
Fixpoint ids_from (n : Z) (evs : list event) : bool :=
  match evs with
  | [] => true
  | e :: evs' => (eventId e =? n)%Z && ids_from (n + 1) evs'
  end.

(** A complete history, as SWF returns it when it fits in one page: event
    ids are consecutive from 1. *)
Definition history_wf (evs : list event) : bool := ids_from 1 evs.

Lemma ids_from_nth n evs i e :
  ids_from n evs = true -> nth_error evs i = Some e -> eventId e = (n + Z.of_nat i)%Z.
Proof.
  revert n i. induction evs as [|e' evs IH]; intros n i Hids Hnth; [by destruct i|].
  simpl in Hids. apply andb_true_iff in Hids as [Hid Hids]. apply Z.eqb_eq in Hid.
  destruct i as [|i]; simpl in Hnth.
  - injection Hnth as <-. lia.
  - rewrite (IH (n + 1)%Z i) by done. lia.
Qed.

(** In a well-formed history the event at position [id - 1] is the event
    whose id is [id]. *)
Lemma py_index_by_id evs e :
  history_wf evs = true -> In e evs -> py_index evs (eventId e - 1) = inr e.
Proof.
  intros Hwf Hin. apply In_nth_error in Hin as [i Hnth].
  rewrite (ids_from_nth _ _ _ _ Hwf Hnth).
  replace (1 + Z.of_nat i - 1)%Z with (Z.of_nat i) by lia.
  by apply py_index_nonneg.
Qed.

Lemma workflow_events_app evs evs' :
  workflow_events (evs ++ evs') = (workflow_events evs ++ workflow_events evs')%list.
Proof. apply List.filter_app. Qed.

(** The last workflow event is found whatever decision bookkeeping
    follows it. *)
Lemma last_event_skips_decisions evs e ds :
  is_workflow_event e = true -> Forall (fun d => is_workflow_event d = false) ds ->
  last_event (evs ++ e :: ds) = inr e.
Proof.
  intros He Hds. unfold last_event. rewrite workflow_events_app.
  assert (Hnil : workflow_events ds = []).
  { induction Hds as [|d ds Hd _ IH]; [done|]. unfold workflow_events in *. simpl. by rewrite Hd. }
  unfold workflow_events at 2. simpl. rewrite He. fold (workflow_events ds). rewrite Hnil.
  apply py_last_app.
Qed.

(** Steps 1) and 2) of the deciders on a well-formed history: the name is
    the one of the scheduling event the completion points to. *)
Lemma completed_activity_name_wf evs last sched r n i l :
  history_wf evs = true -> In sched evs ->
  attrs last = ActivityTaskCompleted (eventId sched) r ->
  attrs sched = ActivityTaskScheduled n i l ->
  completed_activity_name evs last = inr n.
Proof.
  intros Hwf Hin Hl Hs. unfold completed_activity_name, completed_scheduled_id.
  rewrite Hl. simpl. rewrite (py_index_by_id _ _ Hwf Hin). simpl.
  unfold scheduled_name. by rewrite Hs.
Qed.

#[export] Hint Rewrite workflow_events_app : sdms_rw.
