(* ===== verification/Pipeline.v ===== *)
(** * The declarative pipeline definitions (abstract specification)

    The spec describes each pipeline as a table from (completed stage,
    branch key) to the next stage or to completion.  For ingestion the
    branch key is the asset class and the table is given by one stage
    sequence per class: Image skips transcoding, Audio skips the
    thumbnail, Other skips both.  This file states that table; it is
    the contract the ingestion decider of [decider.py] is proved to
    implement in [Ingest].  Nothing here translates code. *)

From stdpp Require Import base list strings.
From Stdlib Require Import String.
From S2P Require Import Prelude Json.

Open Scope string_scope.

Inductive asset_class := Image | Video | Audio | Other.

#[export] Instance asset_class_eq_dec : EqDecision asset_class.
Proof. solve_decision. Defined.

(** The spelling of a class in the documents ([result['assetClass']]). *)
Definition class_name (c : asset_class) : string :=
  match c with
  | Image => "Image"
  | Video => "Video"
  | Audio => "Audio"
  | Other => "Other"
  end.

Inductive ingest_stage :=
| Classify | ExtractExif | ExtractContainer | Register
| ThumbImage | ThumbVideo | TranscodeVideo | TranscodeAudio
| Distribute | CleanUp.

#[export] Instance ingest_stage_eq_dec : EqDecision ingest_stage.
Proof. solve_decision. Defined.

(** The stages an asset of class [c] goes through, in order. *)
Definition ingest_path (c : asset_class) : list ingest_stage :=
  match c with
  | Image => [Classify; ExtractExif; Register; ThumbImage; Distribute; CleanUp]
  | Video => [Classify; ExtractContainer; Register; ThumbVideo; TranscodeVideo; Distribute; CleanUp]
  | Audio => [Classify; ExtractContainer; Register; TranscodeAudio; Distribute; CleanUp]
  | Other => [Classify; ExtractContainer; Register; Distribute; CleanUp]
  end.

Inductive route := Next (s : ingest_stage) | Finish.

(** The successor of [s] in a stage sequence: [None] when [s] is not on
    it (the spec's routing configuration error). *)
Fixpoint next_in (path : list ingest_stage) (s : ingest_stage) : option route :=
  match path with
  | [] => None
  | s' :: rest =>
      if decide (s = s') then
        match rest with
        | [] => Some Finish
        | s'' :: _ => Some (Next s'')
        end
      else next_in rest s
  end.

(** The pipeline table of the spec: the entry for (completed stage, class). *)
Definition ingest_next (s : ingest_stage) (c : asset_class) : option route :=
  next_in (ingest_path c) s.

(** The lifecycle pipeline of the spec: delete goes straight to the delete
    stage; a move completes after the move stage, with one extra clean-up
    stage when the archive tier is involved. *)
Inductive lifecycle_stage := MoveStage | CleanUpStage | DeleteStage.

Inductive tier := CDN | NearLine | Archive | Deleted.

#[export] Instance tier_eq_dec : EqDecision tier.
Proof. solve_decision. Defined.

Definition lifecycle_path (src dst : tier) : list lifecycle_stage :=
  match dst with
  | Deleted => [DeleteStage]
  | _ => if bool_decide (src = Archive \/ dst = Archive)
         then [MoveStage; CleanUpStage]
         else [MoveStage]
  end.
