(* ===== verification/Ingest.v ===== *)
(** * The ingestion decider ([src/workflowcode/decider.py])

    One iteration of the [while True] loop of [main]: poll, select the last
    workflow event, and answer with one decision.  The Python locals of
    [main] survive from one iteration to the next; the only one that the
    code can read before the current iteration writes it is [taskName]
    (in the branch after a thumbnail, when the class is neither Image nor
    Video), so the process state is a record with that one field, [None]
    while the name is still unbound.  The uuid drawn by [executeNextTask]
    is an argument of the step.

    The theorems give the behaviour of every branch, prove that on the
    documents the workers produce the decider implements the pipeline
    table of [Pipeline] (a functional refinement), that the decision does
    not depend on the process state except through the stale [taskName],
    and that this exception is real. *)

From stdpp Require Import base list strings.
From Stdlib Require Import String ZArith Lia.
From S2P Require Import Prelude Json History Pipeline.

Open Scope string_scope.
Local Open Scope py_scope.

Module Ingest.

(** ** Activity names (lines 51-60) *)

Definition ACTIVITY1 := "identifyAssetClass".
Definition ACTIVITY2a := "extractExifMetadata".
Definition ACTIVITY2b := "extractMediainfoMetadata".
Definition ACTIVITY3 := "registerAsset".
Definition ACTIVITY4a := "createThumbnailFromImage".
Definition ACTIVITY4b := "createThumbnailFromVideo".
Definition ACTIVITY5b := "transcodeVideoDefault".
Definition ACTIVITY5c := "transcodeAudioDefault".
Definition ACTIVITY6 := "distributeToS3".
Definition ACTIVITY7 := "cleanUpLandingPad".

(** ** Process state: the locals of [main] that outlive an iteration *)

Record locals := mkLocals { taskName : option string }.

Definition locals0 : locals := mkLocals None.

(** What one iteration sends back: nothing, or a decision answered with
    the token of the decision task. *)
Definition response := option (string * decision).

(** [executeNextTask(swf, taskToken, taskName, '1', taskInput, taskName)]
    with the new value of the local [taskName]. *)
Definition schedule (token uuid name : string) (input : jvalue) : py (locals * response) :=
  ret (mkLocals (Some name), Some (token, executeNextTask uuid name "1" input name)).

(** The input every stage after registration receives. *)
Definition carried (asset assetClass dbPrimaryKey : jvalue) : jvalue :=
  JObj [("asset", asset); ("assetClass", assetClass); ("dbPrimaryKey", dbPrimaryKey)].

(** ** The [ActivityTaskCompleted] branches (lines 159-303) *)

Definition route_completed (st : locals) (token uuid activity_name : string)
    (result : jvalue) : py (locals * response) :=
  if String.eqb activity_name ACTIVITY1 then
    assetClass <- getitem result "assetClass" ;;
    let name := if jv_eq_str assetClass "Image" then ACTIVITY2a else ACTIVITY2b in
    asset <- getitem result "asset" ;;
    metadata <- getitem result "metadata" ;;
    schedule token uuid name
      (JObj [("asset", asset); ("METADATA", metadata); ("assetClass", assetClass)])
  else if String.eqb activity_name ACTIVITY2a || String.eqb activity_name ACTIVITY2b then
    DOC <- getitem result "DOC" ;;
    asset <- getitem result "asset" ;;
    assetClass <- getitem result "assetClass" ;;
    schedule token uuid ACTIVITY3
      (JObj [("DOC", DOC); ("asset", asset); ("assetClass", assetClass)])
  else if String.eqb activity_name ACTIVITY3 then
    assetClass <- getitem result "assetClass" ;;
    let name :=
      if jv_eq_str assetClass "Image" then ACTIVITY4a
      else if jv_eq_str assetClass "Video" then ACTIVITY4b
      else if jv_eq_str assetClass "Audio" then ACTIVITY5c
      else ACTIVITY6 in
    asset <- getitem result "asset" ;;
    dbPrimaryKey <- getitem result "dbPrimaryKey" ;;
    schedule token uuid name (carried asset assetClass dbPrimaryKey)
  else if String.eqb activity_name ACTIVITY4a || String.eqb activity_name ACTIVITY4b then
    assetClass <- getitem result "assetClass" ;;
    (* no [else]: [taskName] keeps the value of an earlier iteration *)
    let name :=
      if jv_eq_str assetClass "Image" then Some ACTIVITY6
      else if jv_eq_str assetClass "Video" then Some ACTIVITY5b
      else taskName st in
    name <- opt_or_raise (UnboundLocalError "taskName") name ;;
    asset <- getitem result "asset" ;;
    dbPrimaryKey <- getitem result "dbPrimaryKey" ;;
    schedule token uuid name (carried asset assetClass dbPrimaryKey)
  else if String.eqb activity_name ACTIVITY5b || String.eqb activity_name ACTIVITY5c then
    asset <- getitem result "asset" ;;
    assetClass <- getitem result "assetClass" ;;
    dbPrimaryKey <- getitem result "dbPrimaryKey" ;;
    schedule token uuid ACTIVITY6 (carried asset assetClass dbPrimaryKey)
  else if String.eqb activity_name ACTIVITY6 then
    asset <- getitem result "asset" ;;
    assetClass <- getitem result "assetClass" ;;
    dbPrimaryKey <- getitem result "dbPrimaryKey" ;;
    schedule token uuid ACTIVITY7 (carried asset assetClass dbPrimaryKey)
  else if String.eqb activity_name ACTIVITY7 then
    ret (st, Some (token, CompleteWorkflowExecution "success"))
  else ret (st, None).

(** ** One iteration of the loop (lines 77-303) *)

Definition decide (st : locals) (uuid : string) (p : decision_poll) : py (locals * response) :=
  match p with
  | NoDecisionTask => ret (st, None)
  | DecisionTask _ None => ret (st, None)
  | DecisionTask token (Some evs) =>
      last <- last_event evs ;;
      if String.eqb (eventType last) "WorkflowExecutionStarted" then
        parameters <- started_input last ;;
        fileName <- getitem parameters "fileName" ;;
        metadata <- getitem parameters "metadata" ;;
        schedule token uuid ACTIVITY1 (JObj [("asset", fileName); ("metadata", metadata)])
      else if String.eqb (eventType last) "ActivityTaskCompleted" then
        activity_name <- completed_activity_name evs last ;;
        result <- completed_result last ;;
        route_completed st token uuid activity_name result
      else ret (st, None)
  end.

(** The loop over a sequence of polls (each with its uuid); it stops at the
    first uncaught exception, which ends the process. *)
Fixpoint run (st : locals) (polls : list (string * decision_poll))
    : list response * option py_exc :=
  match polls with
  | [] => ([], None)
  | (uuid, p) :: rest =>
      match decide st uuid p with
      | inl e => ([], Some e)
      | inr (st', r) => let '(rs, e) := run st' rest in (r :: rs, e)
      end
  end.

(** ** Correspondence with the pipeline table of [Pipeline] *)

(** The activity type that implements each stage of the table. *)
Definition stage_name (s : ingest_stage) : string :=
  match s with
  | Classify => ACTIVITY1
  | ExtractExif => ACTIVITY2a
  | ExtractContainer => ACTIVITY2b
  | Register => ACTIVITY3
  | ThumbImage => ACTIVITY4a
  | ThumbVideo => ACTIVITY4b
  | TranscodeVideo => ACTIVITY5b
  | TranscodeAudio => ACTIVITY5c
  | Distribute => ACTIVITY6
  | CleanUp => ACTIVITY7
  end.

Definition all_stages : list ingest_stage :=
  [Classify; ExtractExif; ExtractContainer; Register; ThumbImage; ThumbVideo;
   TranscodeVideo; TranscodeAudio; Distribute; CleanUp].

Definition stage_of_name (n : string) : option ingest_stage :=
  List.find (fun s => String.eqb (stage_name s) n) all_stages.

(** The keys of the completed stage's result that the branch reads, besides
    ['assetClass']. *)
Definition stage_reads (s : ingest_stage) : list string :=
  match s with
  | Classify => ["asset"; "metadata"]
  | ExtractExif | ExtractContainer => ["DOC"; "asset"]
  | CleanUp => []
  | _ => ["asset"; "dbPrimaryKey"]
  end.

(** The table entry a response stands for, when it answers task [tok]. *)
Definition response_route (tok : string) (r : response) : option route :=
  match r with
  | Some (tok', CompleteWorkflowExecution _) => if String.eqb tok tok' then Some Finish else None
  | Some (tok', ScheduleActivityTask n _ _ _ _) =>
      if String.eqb tok tok' then Next <$> stage_of_name n else None
  | None => None
  end.

(** The response with the activity id blanked out. *)
Definition erase_activity_id (r : response) : response :=
  match r with
  | Some (tok, ScheduleActivityTask n v _ i l) => Some (tok, ScheduleActivityTask n v "" i l)
  | _ => r
  end.

(** The one situation where the decision reads [taskName] before writing
    it: the last workflow event completes a thumbnail activity whose result
    has a class other than Image and Video. *)
Definition reads_stale_taskName (p : decision_poll) : bool :=
  match p with
  | DecisionTask _ (Some evs) =>
      match last_event evs with
      | inr last =>
          String.eqb (eventType last) "ActivityTaskCompleted" &&
          match completed_activity_name evs last, completed_result last with
          | inr n, inr r =>
              (String.eqb n ACTIVITY4a || String.eqb n ACTIVITY4b) &&
              match getitem r "assetClass" with
              | inr c => negb (jv_eq_str c "Image" || jv_eq_str c "Video")
              | inl _ => false
              end
          | _, _ => false
          end
      | inl _ => false
      end
  | _ => false
  end.

(** The stages whose input is the carried triple (asset, class, key). *)
Definition after_register (s : ingest_stage) : bool :=
  match s with
  | Register | ThumbImage | ThumbVideo | TranscodeVideo | TranscodeAudio | Distribute => true
  | _ => false
  end.

(** A response and the new state, with the activity id blanked out. *)
Definition erase_id (x : locals * response) : locals * response :=
  (x.1, erase_activity_id x.2).

(** ** Sample histories *)

Definition ev (i : Z) (a : event_attrs) : event := mkEvent i a.

(** The history of a video execution right after its thumbnail activity
    completed, as SWF returns it to the decider. *)
Definition video_thumb_history : list event :=
  [ev 1 (WorkflowExecutionStarted (JObj [("fileName", JStr "/up/v/v.mov"); ("metadata", JObj [])]));
   ev 2 DecisionTaskScheduled; ev 3 DecisionTaskStarted; ev 4 DecisionTaskCompleted;
   ev 5 (ActivityTaskScheduled ACTIVITY4b (carried (JStr "/up/v/v.mov") (JStr "Video") (JStr "k1")) ACTIVITY4b);
   ev 6 (ActivityTaskStarted 5);
   ev 7 (ActivityTaskCompleted 5 (Some (carried (JStr "/up/v/v.mov") (JStr "Video") (JStr "k1"))));
   ev 8 DecisionTaskScheduled; ev 9 DecisionTaskStarted].

(** The same point of a second execution whose thumbnail result carries the
    class Audio. *)
Definition audio_thumb_history : list event :=
  [ev 1 (WorkflowExecutionStarted (JObj [("fileName", JStr "/up/a/a.mp3"); ("metadata", JObj [])]));
   ev 2 DecisionTaskScheduled; ev 3 DecisionTaskStarted; ev 4 DecisionTaskCompleted;
   ev 5 (ActivityTaskScheduled ACTIVITY4a (carried (JStr "/up/a/a.mp3") (JStr "Audio") (JStr "k2")) ACTIVITY4a);
   ev 6 (ActivityTaskStarted 5);
   ev 7 (ActivityTaskCompleted 5 (Some (carried (JStr "/up/a/a.mp3") (JStr "Audio") (JStr "k2"))));
   ev 8 DecisionTaskScheduled; ev 9 DecisionTaskStarted].

(** ** Theorems *)

Ltac split_branches :=
  repeat (match goal with
  | |- context [String.eqb ?a ?b] => destruct (String.eqb a b)
  | |- context [getitem ?r ?k] => destruct (getitem r k)
  | |- context [jv_eq_str ?a ?b] => destruct (jv_eq_str a b)
  | |- context [taskName ?s] => destruct (taskName s)
  end; cbn [py_bind py_map py_ret opt_or_raise andb orb negb fst snd]).

Ltac read_fields Hf :=
  repeat (cbn -[getitem];
    match goal with
    | H : getitem ?r ?k = inr _ |- context [getitem ?r ?k] => rewrite H
    | |- context [getitem ?r ?k] =>
        let v := fresh "v" in let Hv := fresh "Hv" in
        destruct (Hf k ltac:(cbn; tauto)) as [v Hv]; rewrite Hv
    end).

Lemma route_completed_refines c s st tok uuid r :
  In s (ingest_path c) ->
  getitem r "assetClass" = inr (JStr (class_name c)) ->
  (forall k, In k (stage_reads s) -> exists v, getitem r k = inr v) ->
  exists st' resp, route_completed st tok uuid (stage_name s) r = inr (st', resp) /\
    response_route tok resp = ingest_next s c.
Proof.
  intros Hin Hc Hf.
  destruct c; cbn in Hin; repeat destruct Hin as [<-|Hin]; try contradiction;
    unfold route_completed; read_fields Hf; eexists _, _; split; try reflexivity;
    cbn; rewrite ?String.eqb_refl; reflexivity.
Qed.

Lemma decide_completed_wf st uuid tok evs last sched r n i l :
  history_wf evs = true -> last_event evs = inr last -> In sched evs ->
  attrs last = ActivityTaskCompleted (eventId sched) (Some r) ->
  attrs sched = ActivityTaskScheduled n i l ->
  decide st uuid (DecisionTask tok (Some evs)) = route_completed st tok uuid n r.
Proof.
  intros Hwf Hlast Hin Hl Hs. unfold decide. rewrite Hlast. cbn [py_bind].
  unfold eventType. rewrite Hl. cbn [String.eqb Ascii.eqb Bool.eqb andb].
  rewrite (completed_activity_name_wf _ _ _ _ _ _ _ Hwf Hin Hl Hs). cbn [py_bind].
  unfold completed_result. by rewrite Hl.
Qed.

(** C1. Refinement of the pipeline table: on a complete history whose last
    workflow event completes the activity of stage [s], with a result of
    class [c] that holds the keys the branch reads, the ingestion decider
    answers the decision task with the entry [ingest_next s c] of the
    spec's table (the next stage, or completion), whatever the state the
    process was in. *)
Theorem decide_refines_pipeline c s st uuid tok evs last sched r i l :
  history_wf evs = true -> last_event evs = inr last -> In sched evs ->
  attrs last = ActivityTaskCompleted (eventId sched) (Some r) ->
  attrs sched = ActivityTaskScheduled (stage_name s) i l ->
  In s (ingest_path c) ->
  getitem r "assetClass" = inr (JStr (class_name c)) ->
  (forall k, In k (stage_reads s) -> exists v, getitem r k = inr v) ->
  exists st' resp, decide st uuid (DecisionTask tok (Some evs)) = inr (st', resp) /\
    response_route tok resp = ingest_next s c.
Proof.
  intros Hwf Hlast Hin Hl Hs Hpath Hc Hf.
  rewrite (decide_completed_wf _ _ _ _ _ _ _ _ _ _ Hwf Hlast Hin Hl Hs).
  by apply route_completed_refines.
Qed.

(** C2. The decider's answer is a function of the history alone (the
    spec's idempotence requirement) in every case but one: unless the last
    event completes a thumbnail activity with a class other than Image and
    Video, two processes in any two states answer the same decision task
    with the same response. *)
Theorem decide_state_independent st1 st2 uuid p :
  reads_stale_taskName p = false ->
  py_map snd (decide st1 uuid p) = py_map snd (decide st2 uuid p).
Proof.
  destruct p as [|tok [evs|]]; try reflexivity. unfold reads_stale_taskName, decide.
  destruct (last_event evs) as [e|last]; [reflexivity|]. cbn [py_bind].
  destruct (String.eqb (eventType last) "WorkflowExecutionStarted"); [reflexivity|].
  destruct (String.eqb (eventType last) "ActivityTaskCompleted"); cbn [andb]; [|reflexivity].
  destruct (completed_activity_name evs last); [reflexivity|].
  destruct (completed_result last); [reflexivity|]. cbn [py_bind].
  unfold route_completed, schedule; cbv [py_bind py_map py_ret opt_or_raise].
  split_branches; done.
Qed.

(** Every iteration that schedules an activity leaves its name in the
    local [taskName]. *)
Lemma decide_sets_taskName st uuid p :
  py_post (fun x => forall tok n v a i l, x.2 = Some (tok, ScheduleActivityTask n v a i l) ->
                                          taskName x.1 = Some n)
          (decide st uuid p).
Proof.
  unfold decide, route_completed, schedule, executeNextTask.
  py_post_tac; cbn; intros; simplify_eq; reflexivity.
Qed.

(** C3. The stale [taskName] is a real dependence on another execution:
    after any iteration, of any execution, that scheduled an activity [n],
    the same process answers the completion of a thumbnail activity of
    any other execution whose result has a class other than Image and
    Video by scheduling [n] again, with that execution's asset, class and
    key, and keeps its state; a process whose [taskName] is still unbound
    dies of [UnboundLocalError] on the same task. *)
Theorem stale_taskName_crosses_executions st uuid0 p0 st1 tok0 n v a0 i0 l0
    uuid tok evs last sched tn i l r c a k :
  decide st uuid0 p0 = inr (st1, Some (tok0, ScheduleActivityTask n v a0 i0 l0)) ->
  history_wf evs = true -> last_event evs = inr last -> In sched evs ->
  attrs last = ActivityTaskCompleted (eventId sched) (Some r) ->
  attrs sched = ActivityTaskScheduled tn i l -> tn = ACTIVITY4a \/ tn = ACTIVITY4b ->
  getitem r "assetClass" = inr c -> jv_eq_str c "Image" = false -> jv_eq_str c "Video" = false ->
  getitem r "asset" = inr a -> getitem r "dbPrimaryKey" = inr k ->
  decide st1 uuid (DecisionTask tok (Some evs)) =
    inr (mkLocals (Some n), Some (tok, executeNextTask uuid n "1" (carried a c k) n)) /\
  decide locals0 uuid (DecisionTask tok (Some evs)) = inl (UnboundLocalError "taskName").
Proof.
  intros H0 Hwf Hlast Hin Hl Hs Htn Hc Hi Hv Ha Hk.
  pose proof (decide_sets_taskName st uuid0 p0 _ H0 _ _ _ _ _ _ eq_refl) as Hst. cbn in Hst.
  rewrite !(decide_completed_wf _ _ _ _ _ _ _ _ _ _ Hwf Hlast Hin Hl Hs).
  destruct Htn as [->| ->]; unfold route_completed; cbn -[getitem jv_eq_str];
    repeat progress (rewrite ?Hc, ?Hi, ?Hv, ?Ha, ?Hk, ?Hst; cbn [py_bind opt_or_raise taskName locals0]);
    split; reflexivity.
Qed.

(** C4. Apart from the activity id built from [uuid.uuid4()], the decision
    does not depend on the uuid drawn: two runs of the same iteration with
    different uuids give the same state and the same decision once the
    activity id is blanked out. *)
Theorem decide_uuid_only_activity_id st u1 u2 p :
  py_map erase_id (decide st u1 p) = py_map erase_id (decide st u2 p).
Proof.
  destruct p as [|tok [evs|]]; try reflexivity. unfold decide.
  destruct (last_event evs) as [e|last]; [reflexivity|]. cbn [py_bind].
  unfold route_completed, schedule; cbv [py_bind py_map py_ret opt_or_raise].
  repeat (match goal with
  | |- context [started_input ?l] => destruct (started_input l)
  | |- context [completed_activity_name ?h ?l] => destruct (completed_activity_name h l)
  | |- context [completed_result ?l] => destruct (completed_result l)
  end; cbn [py_bind]); split_branches; done.
Qed.

(** C5. For every history whose last workflow event is the start of the
    execution, the decider schedules [identifyAssetClass] on its task list
    with the input [{'asset': fileName, 'metadata': metadata}] taken from
    the start payload, in any process state. *)
Theorem decide_started st uuid tok evs e params f m :
  last_event evs = inr e -> attrs e = WorkflowExecutionStarted params ->
  getitem params "fileName" = inr f -> getitem params "metadata" = inr m ->
  decide st uuid (DecisionTask tok (Some evs)) =
    inr (mkLocals (Some ACTIVITY1),
         Some (tok, executeNextTask uuid ACTIVITY1 "1"
                      (JObj [("asset", f); ("metadata", m)]) ACTIVITY1)).
Proof.
  intros Hlast He Hf Hm. unfold decide. rewrite Hlast. cbn [py_bind].
  unfold eventType, started_input. rewrite He. cbn [String.eqb Ascii.eqb Bool.eqb andb py_bind].
  by rewrite Hf, Hm.
Qed.

(** C6. A failed activity is not routed anywhere: when the last workflow
    event is [ActivityTaskFailed], the decider sends no decision at all
    (the spec asks for a [CompleteWorkflowExecution] carrying the reason),
    and its state is unchanged. *)
Theorem decide_failed_no_decision st uuid tok evs e sid reason details :
  last_event evs = inr e -> attrs e = ActivityTaskFailed sid reason details ->
  decide st uuid (DecisionTask tok (Some evs)) = inr (st, None).
Proof.
  intros Hlast He. unfold decide. rewrite Hlast. cbn [py_bind].
  unfold eventType. by rewrite He.
Qed.

(** C7. Carried-forward fields: from registration on, every scheduled
    stage receives exactly [{'asset', 'assetClass', 'dbPrimaryKey'}] with
    the values of the completed stage's result. *)
Theorem route_completed_carries c s st tok uuid r a k :
  In s (ingest_path c) ->
  after_register s = true ->
  getitem r "assetClass" = inr (JStr (class_name c)) ->
  getitem r "asset" = inr a -> getitem r "dbPrimaryKey" = inr k ->
  exists st' n, route_completed st tok uuid (stage_name s) r =
    inr (st', Some (tok, executeNextTask uuid n "1" (carried a (JStr (class_name c)) k) n)).
Proof.
  intros Hin Hs Hc Ha Hk.
  destruct c; cbn in Hin; repeat destruct Hin as [<-|Hin]; try contradiction;
    try discriminate Hs; unfold route_completed;
    repeat (cbn -[getitem]; rewrite ?Hc, ?Ha, ?Hk); eexists _, _; reflexivity.
Qed.

(** The input scheduled after classification has no ['metadata'] key:
    the decider renames it ['METADATA'], while the extraction workers read
    [INPUT['metadata']]. *)
Theorem classify_input_renames_metadata st tok uuid r n input :
  route_completed st tok uuid ACTIVITY1 r =
    inr (mkLocals (Some n), Some (tok, executeNextTask uuid n "1" input n)) ->
  getitem input "metadata" = inl (KeyError "metadata") /\
  getitem input "METADATA" = getitem r "metadata".
Proof.
  unfold route_completed. cbn [String.eqb Ascii.eqb Bool.eqb andb ACTIVITY1].
  destruct (getitem r "assetClass"); [discriminate|]. cbn [py_bind].
  destruct (getitem r "asset"); [discriminate|]. cbn [py_bind].
  destruct (getitem r "metadata"); [discriminate|]. cbn [py_bind].
  unfold schedule, py_ret. intros H. injection H. intros; subst. split; reflexivity.
Qed.

(** Witnesses at the video history. *)

Lemma decide_refines_pipeline_witness :
  exists st' resp,
    decide locals0 "u" (DecisionTask "tok" (Some video_thumb_history)) = inr (st', resp) /\
    response_route "tok" resp = ingest_next ThumbVideo Video.
Proof.
  apply (decide_refines_pipeline Video ThumbVideo locals0 "u" "tok" video_thumb_history
           (ev 7 (ActivityTaskCompleted 5 (Some (carried (JStr "/up/v/v.mov") (JStr "Video") (JStr "k1")))))
           (ev 5 (ActivityTaskScheduled ACTIVITY4b (carried (JStr "/up/v/v.mov") (JStr "Video") (JStr "k1")) ACTIVITY4b))
           (carried (JStr "/up/v/v.mov") (JStr "Video") (JStr "k1"))
           (carried (JStr "/up/v/v.mov") (JStr "Video") (JStr "k1")) ACTIVITY4b).
  - vm_compute. reflexivity.
  - vm_compute. reflexivity.
  - simpl. tauto.
  - reflexivity.
  - reflexivity.
  - simpl. tauto.
  - reflexivity.
  - intros k [<-|[<-|[]]]; eexists; reflexivity.
Defined.

Lemma stale_taskName_crosses_executions_witness :
  decide (mkLocals (Some ACTIVITY5b)) "u2" (DecisionTask "tokB" (Some audio_thumb_history)) =
    inr (mkLocals (Some ACTIVITY5b),
         Some ("tokB", executeNextTask "u2" ACTIVITY5b "1" (carried (JStr "/up/a/a.mp3") (JStr "Audio") (JStr "k2")) ACTIVITY5b)) /\
  decide locals0 "u2" (DecisionTask "tokB" (Some audio_thumb_history)) = inl (UnboundLocalError "taskName").
Proof.
  apply (stale_taskName_crosses_executions locals0 "u1" (DecisionTask "tokA" (Some video_thumb_history))
           (mkLocals (Some ACTIVITY5b)) "tokA" ACTIVITY5b "1" "activityid-u1"
           (carried (JStr "/up/v/v.mov") (JStr "Video") (JStr "k1")) ACTIVITY5b
           "u2" "tokB" audio_thumb_history
           (ev 7 (ActivityTaskCompleted 5 (Some (carried (JStr "/up/a/a.mp3") (JStr "Audio") (JStr "k2")))))
           (ev 5 (ActivityTaskScheduled ACTIVITY4a (carried (JStr "/up/a/a.mp3") (JStr "Audio") (JStr "k2")) ACTIVITY4a))
           ACTIVITY4a (carried (JStr "/up/a/a.mp3") (JStr "Audio") (JStr "k2")) ACTIVITY4a
           (carried (JStr "/up/a/a.mp3") (JStr "Audio") (JStr "k2")) (JStr "Audio") (JStr "/up/a/a.mp3") (JStr "k2"));
    try (vm_compute; reflexivity).
  - simpl. tauto.
  - by left.
Defined.

Lemma decide_state_independent_witness :
  reads_stale_taskName (DecisionTask "tok" (Some video_thumb_history)) = false /\
  py_map snd (decide locals0 "u" (DecisionTask "tok" (Some video_thumb_history))) =
  py_map snd (decide (mkLocals (Some ACTIVITY7)) "u" (DecisionTask "tok" (Some video_thumb_history))).
Proof.
  split; [vm_compute; reflexivity|].
  apply decide_state_independent. vm_compute. reflexivity.
Defined.

Lemma decide_started_witness :
  decide locals0 "u" (DecisionTask "tok" (Some (firstn 3 video_thumb_history))) =
    inr (mkLocals (Some ACTIVITY1),
         Some ("tok", executeNextTask "u" ACTIVITY1 "1"
                        (JObj [("asset", JStr "/up/v/v.mov"); ("metadata", JObj [])]) ACTIVITY1)).
Proof.
  apply (decide_started locals0 "u" "tok" (firstn 3 video_thumb_history)
           (ev 1 (WorkflowExecutionStarted (JObj [("fileName", JStr "/up/v/v.mov"); ("metadata", JObj [])])))
           (JObj [("fileName", JStr "/up/v/v.mov"); ("metadata", JObj [])])); vm_compute; reflexivity.
Defined.

Lemma decide_failed_no_decision_witness :
  decide locals0 "u" (DecisionTask "tok"
     (Some (firstn 6 video_thumb_history ++ [ev 7 (ActivityTaskFailed 5 "THB-0002" "ffmpeg")])%list))
  = inr (locals0, None).
Proof.
  apply (decide_failed_no_decision _ _ _ _ (ev 7 (ActivityTaskFailed 5 "THB-0002" "ffmpeg")) 5 "THB-0002" "ffmpeg");
    vm_compute; reflexivity.
Defined.

Lemma route_completed_carries_witness :
  exists st' n,
    route_completed locals0 "tok" "u" (stage_name ThumbVideo)
      (carried (JStr "/up/v/v.mov") (JStr "Video") (JStr "k1")) =
    inr (st', Some ("tok", executeNextTask "u" n "1"
                             (carried (JStr "/up/v/v.mov") (JStr (class_name Video)) (JStr "k1")) n)).
Proof.
  apply (route_completed_carries Video ThumbVideo); (simpl; tauto) || reflexivity.
Defined.

Lemma classify_input_renames_metadata_witness :
  getitem (JObj [("asset", JStr "a.jpg"); ("METADATA", JObj []); ("assetClass", JStr "Image")]) "metadata"
    = inl (KeyError "metadata") /\
  getitem (JObj [("asset", JStr "a.jpg"); ("METADATA", JObj []); ("assetClass", JStr "Image")]) "METADATA"
    = getitem (JObj [("assetClass", JStr "Image"); ("metadata", JObj []); ("asset", JStr "a.jpg")]) "metadata".
Proof.
  apply (classify_input_renames_metadata locals0 "tok" "u"
           (JObj [("assetClass", JStr "Image"); ("metadata", JObj []); ("asset", JStr "a.jpg")]) ACTIVITY2a).
  vm_compute. reflexivity.
Defined.

End Ingest.
