(* ===== verification/Classifier.v ===== *)
(** * The extension classifier ([identifyAssetClass.py])

    [loadExts] reads the files [TypeAudio], [TypeImage] and [TypeVideo]
    line by line and maps every line with its last character cut off
    ([e[:-1]], meant to drop the newline) to the type; the worker then
    classifies an asset by [EXT[fileExt[1:].lower()]], ["Other"] on a
    [KeyError].  The file system is a function from file names to
    contents; [open] of a missing file raises.  [parseHelper.splitFilename]
    lives in [/Assets/sharedLibraries], outside the repository's [src/]:
    it is modelled from [os.path.split] and [os.path.splitext].

    The theorems: the table holds, for each extension, the last type
    whose file lists it (when every line ends with a newline); lookup is
    insensitive to the case of the query; and two ways the table differs
    from the spec's "case-insensitive table": upper-case entries are
    never found, and a last line without a newline loses a character. *)

From stdpp Require Import base list strings gmap.
From Stdlib Require Import String Ascii.
From S2P Require Import Prelude Json.

Open Scope string_scope.
Local Open Scope py_scope.

Module Classifier.

Definition nl : ascii := "010"%char.

(** [f.readlines()]: the lines of the file, each with its newline, the last
    one without when the file does not end with a newline. *)
Fixpoint readlines (s : string) : list string :=
  match s with
  | EmptyString => []
  | String c s' =>
      if Ascii.eqb c nl then String c EmptyString :: readlines s'
      else match readlines s' with
           | [] => [String c EmptyString]
           | l :: ls => String c l :: ls
           end
  end.

Definition Types : list string := ["Audio"; "Image"; "Video"].

(** [loadExts()] (lines 81-101), with the file system [fs]. *)
Definition loadExts (fs : string -> option string) : py (gmap string string) :=
  fold_left
    (fun acc t =>
       EXTENSIONS <- acc ;;
       f <- opt_or_raise (IOError ("Type" ++ t)) (fs ("Type" ++ t)) ;;
       ret (fold_left (fun m e => <[drop_last e := t]> m) (readlines f) EXTENSIONS))
    Types (ret ∅).

(** ** [parseHelper.splitFilename], from [os.path] *)

(** The position of the last [c] in [s]. *)
Fixpoint rfind_from (c : ascii) (s : string) (i : nat) (best : option nat) : option nat :=
  match s with
  | EmptyString => best
  | String c' s' => rfind_from c s' (S i) (if Ascii.eqb c c' then Some i else best)
  end.

Definition rfind (c : ascii) (s : string) : option nat := rfind_from c s 0 None.

Definition slash : ascii := "/"%char.
Definition dot : ascii := "."%char.

Definition all_char (c : ascii) (s : string) : bool :=
  forallb (fun c' => Ascii.eqb c c') (list_ascii_of_string s).

Fixpoint drop_while_slash (l : list ascii) : list ascii :=
  match l with
  | c :: l' => if Ascii.eqb c slash then drop_while_slash l' else l
  | [] => []
  end.

(** [head.rstrip('/')] *)
Definition rstrip_slash (s : string) : string :=
  string_of_list_ascii (rev (drop_while_slash (rev (list_ascii_of_string s)))).

(** [os.path.split(p)] *)
Definition os_path_split (p : string) : string * string :=
  let i := match rfind slash p with Some j => S j | None => 0 end in
  let head := substring 0 i p in
  let tail := substring i (String.length p - i) p in
  (if negb (String.eqb head "") && negb (all_char slash head) then rstrip_slash head else head,
   tail).

(** [os.path.splitext(name)] for a name without a separator: the extension
    starts at the last dot unless only dots precede it. *)
Definition os_path_splitext (name : string) : string * string :=
  match rfind dot name with
  | Some d =>
      if all_char dot (substring 0 d name) then (name, "")
      else (substring 0 d name, substring d (String.length name - d) name)
  | None => (name, "")
  end.

(** [(filePath, fileName, fileExt) = parseHelper.splitFilename(asset)] *)
Definition splitFilename (asset : string) : string * string * string :=
  let '(filePath, base) := os_path_split asset in
  let '(fileName, fileExt) := os_path_splitext base in
  (filePath, fileName, fileExt).

(** ** Classification (lines 57-64) *)

(** [try: EXT[fileExt[1:].lower()] except KeyError: "Other"] *)
Definition classify_ext (EXT : gmap string string) (fileExt : string) : string :=
  match EXT !! py_lower (drop_first fileExt) with
  | Some t => t
  | None => "Other"
  end.

Definition classify (EXT : gmap string string) (asset : string) : string :=
  let '(_, _, fileExt) := splitFilename asset in classify_ext EXT fileExt.

(** The worker's result for one task (lines 53-71): [metadata] and [asset]
    pass through. *)
Definition identify_result (EXT : gmap string string) (parameters : jvalue) : py jvalue :=
  asset <- getitem parameters "asset" ;;
  match asset with
  | JStr a =>
      metadata <- getitem parameters "metadata" ;;
      ret (JObj [("assetClass", JStr (classify EXT a)); ("metadata", metadata); ("asset", asset)])
  | _ => py_raise (TypeError "splitFilename of a non-string")
  end.

(** ** Files as the tables are meant to be written *)

(** One extension per line, each line ended by a newline. *)
Definition file_of_lines (ls : list string) : string :=
  fold_right (fun l acc => l ++ String nl EmptyString ++ acc) "" ls.

Definition no_nl (s : string) : bool := negb (existsb (fun c => Ascii.eqb c nl) (list_ascii_of_string s)).

(** The type the table should give to extension [e]: the last of Audio,
    Image, Video whose list holds it. *)
Definition expected_type (L : string -> list string) (e : string) : option string :=
  if bool_decide (e ∈ L "Video") then Some "Video"
  else if bool_decide (e ∈ L "Image") then Some "Image"
  else if bool_decide (e ∈ L "Audio") then Some "Audio"
  else None.

Definition fs_of (L : string -> list string) (name : string) : option string :=
  if String.eqb name "TypeAudio" then Some (file_of_lines (L "Audio"))
  else if String.eqb name "TypeImage" then Some (file_of_lines (L "Image"))
  else if String.eqb name "TypeVideo" then Some (file_of_lines (L "Video"))
  else None.

(** A character that [str.lower] changes, and a string holding one. *)
Definition is_upper (c : ascii) : bool := negb (Ascii.eqb (ascii_lower c) c).
Definition has_upper (s : string) : bool := existsb is_upper (list_ascii_of_string s).

(** Type files whose last line [W t] may lack its newline. *)
Definition fs_trail (L : string -> list string) (W : string -> string) (name : string) : option string :=
  if String.eqb name "TypeAudio" then Some (file_of_lines (L "Audio") ++ W "Audio")
  else if String.eqb name "TypeImage" then Some (file_of_lines (L "Image") ++ W "Image")
  else if String.eqb name "TypeVideo" then Some (file_of_lines (L "Video") ++ W "Video")
  else None.

(** What [e[:-1]] makes of a last line without newline. *)
Definition trunc (w : string) : list string := if String.eqb w "" then [] else [drop_last w].

(** ** Theorems *)

Lemma readlines_line l rest :
  no_nl l = true -> readlines (l ++ String nl rest) = (l ++ String nl EmptyString) :: readlines rest.
Proof.
  induction l as [|c l IH]; intros Hl; [reflexivity|].
  unfold no_nl in Hl. simpl in Hl. apply negb_true_iff, orb_false_iff in Hl as [Hc Hl].
  simpl. rewrite Hc, IH by (unfold no_nl; by rewrite Hl). reflexivity.
Qed.

Lemma readlines_file_of_lines ls :
  Forall (fun l => no_nl l = true) ls ->
  readlines (file_of_lines ls) = map (fun l => l ++ String nl EmptyString) ls.
Proof.
  induction 1 as [|l ls Hl _ IH]; [reflexivity|].
  change (file_of_lines (l :: ls)) with (String.append l (String nl (file_of_lines ls))).
  rewrite readlines_line by done. by rewrite IH.
Qed.

Lemma drop_last_line l : drop_last (l ++ String nl EmptyString) = l.
Proof.
  induction l as [|c l IH]; [reflexivity|]. destruct l as [|c' l']; [reflexivity|].
  change (String c (drop_last (String.append (String c' l') (String nl EmptyString)))
          = String c (String c' l')).
  by rewrite IH.
Qed.

Lemma lookup_fold_lines (ls : list string) (t k : string) (m : gmap string string) :
  fold_left (fun m e => <[drop_last e := t]> m) (map (fun l => l ++ String nl EmptyString) ls) m !! k
  = if bool_decide (k ∈ ls) then Some t else m !! k.
Proof.
  revert m. induction ls as [|l ls IH]; intros m.
  { cbn. case_bool_decide as H; [set_solver | done]. }
  cbn [map fold_left]. rewrite IH, drop_last_line. case_bool_decide as Hk; case_bool_decide as Hk'; try done.
  - exfalso. apply Hk'. by right.
  - apply elem_of_cons in Hk' as [->|?]; [by rewrite lookup_insert_eq | done].
  - rewrite lookup_insert_ne; [done|]. intros ->. apply Hk'. by left.
Qed.

Lemma drop_first_lower s : drop_first (py_lower s) = py_lower (drop_first s).
Proof. by destruct s. Qed.

Lemma py_lower_fixed s : py_lower s = s -> has_upper s = false.
Proof.
  induction s as [|c s IH]; [done|]. cbn. intros [= Hc Hs].
  unfold is_upper. rewrite Hc, Ascii.eqb_refl. cbn. by apply IH.
Qed.

(** The key of the lookup never holds an upper-case character. *)
Lemma lower_key_not_upper k s : has_upper k = true -> k <> py_lower s.
Proof. intros Hk ->. by rewrite py_lower_fixed in Hk by apply py_lower_idem. Qed.

Lemma readlines_no_nl w : no_nl w = true -> w <> "" -> readlines w = [w].
Proof.
  induction w as [|c w IH]; intros Hw Hne; [done|].
  unfold no_nl in Hw. cbn in Hw. apply negb_true_iff, orb_false_iff in Hw as [Hc Hw].
  cbn. rewrite Hc. destruct w as [|c' w']; [reflexivity|].
  rewrite IH; [reflexivity| |done]. unfold no_nl. by rewrite Hw.
Qed.

Lemma readlines_app_lines ls w :
  Forall (fun l => no_nl l = true) ls ->
  readlines (file_of_lines ls ++ w) = app (map (fun l => l ++ String nl EmptyString) ls) (readlines w).
Proof.
  induction 1 as [|l ls Hl _ IH]; [reflexivity|].
  change (file_of_lines (l :: ls)) with (String.append l (String nl (file_of_lines ls))).
  rewrite <- str_app_assoc, str_app_cons, readlines_line by done. cbn. by rewrite IH.
Qed.

(** A last line without newline loads as its [e[:-1]]. *)
Lemma fold_trunc (t : string) ls w (m : gmap string string) :
  no_nl w = true ->
  fold_left (fun m e => <[drop_last e := t]> m) (app (map (fun l => l ++ String nl EmptyString) ls) (readlines w)) m =
  fold_left (fun m e => <[drop_last e := t]> m) (map (fun l => l ++ String nl EmptyString) (app ls (trunc w))) m.
Proof.
  intros Hw. unfold trunc. destruct (String.eqb_spec w "") as [->|Hne]; [by rewrite !app_nil_r|].
  rewrite readlines_no_nl by done. rewrite map_app, !fold_left_app. cbn. by rewrite drop_last_line.
Qed.

(** C9. [loadExts] builds the intended table: when each of the three type
    files holds one extension per newline-terminated line, loading
    succeeds and an extension maps to the last of Audio, Image, Video
    whose file lists it, and to nothing if none does. *)
Theorem loadExts_lookup (L : string -> list string) :
  Forall (fun l => no_nl l = true) (L "Audio") ->
  Forall (fun l => no_nl l = true) (L "Image") ->
  Forall (fun l => no_nl l = true) (L "Video") ->
  exists EXT, loadExts (fs_of L) = inr EXT /\ forall e, EXT !! e = expected_type L e.
Proof.
  intros HA HI HV. eexists. split; [reflexivity|]. intros e.
  unfold fs_of. cbn -[file_of_lines readlines fold_left].
  rewrite !readlines_file_of_lines by done. rewrite !lookup_fold_lines.
  unfold expected_type. rewrite lookup_empty.
  by repeat case_bool_decide.
Qed.

(** The lookup ignores the case of the queried extension: an
    extension and its lower-case spelling always get the same class. *)
Theorem classify_ext_case_insensitive EXT fileExt :
  classify_ext EXT fileExt = classify_ext EXT (py_lower fileExt).
Proof. unfold classify_ext. by rewrite drop_first_lower, py_lower_idem. Qed.

(** C11. End to end from the files: an asset whose extension is listed
    (in lower case) in the type files gets that type, in whatever case its
    extension is written, and an unlisted extension gets ["Other"]. *)
Theorem classify_listed (L : string -> list string) EXT asset filePath fileName ext :
  Forall (fun l => no_nl l = true) (L "Audio") ->
  Forall (fun l => no_nl l = true) (L "Image") ->
  Forall (fun l => no_nl l = true) (L "Video") ->
  loadExts (fs_of L) = inr EXT ->
  splitFilename asset = (filePath, fileName, String dot ext) ->
  classify EXT asset =
    match expected_type L (py_lower ext) with Some t => t | None => "Other" end.
Proof.
  intros HA HI HV Hload Hsplit.
  destruct (loadExts_lookup L HA HI HV) as (EXT' & Hl & Hlook).
  rewrite Hload in Hl. injection Hl as <-.
  unfold classify. rewrite Hsplit. unfold classify_ext. simpl. by rewrite Hlook.
Qed.

(** C13. The table itself is not case-insensitive: an entry whose
    extension holds an upper-case character (as a type file may list it)
    is never found, so adding it to any table changes the class of no
    asset. *)
Theorem classify_uppercase_entry_unreachable EXT k t asset :
  has_upper k = true -> classify (<[k := t]> EXT) asset = classify EXT asset.
Proof.
  intros Hk. unfold classify. destruct (splitFilename asset) as [[p n] e]. unfold classify_ext.
  by rewrite lookup_insert_ne by exact (lower_key_not_upper _ _ Hk).
Qed.

(** C14. [e[:-1]] assumes every line ends with a newline: when the last
    line [w] of a type file has none, [loadExts] registers [w] with its
    last character cut off, not [w]; the rest of the table is as in C9. *)
Theorem loadExts_last_line_truncated (L : string -> list string) (W : string -> string) :
  Forall (fun l => no_nl l = true) (L "Audio") ->
  Forall (fun l => no_nl l = true) (L "Image") ->
  Forall (fun l => no_nl l = true) (L "Video") ->
  (forall t, no_nl (W t) = true) ->
  exists EXT, loadExts (fs_trail L W) = inr EXT /\
    forall e, EXT !! e = expected_type (fun t => app (L t) (trunc (W t))) e.
Proof.
  intros HA HI HV HW. eexists. split; [reflexivity|]. intros e.
  unfold fs_trail. cbn -[file_of_lines readlines fold_left trunc].
  rewrite !readlines_app_lines, !fold_trunc, !lookup_fold_lines by done.
  unfold expected_type. rewrite lookup_empty.
  by repeat case_bool_decide.
Qed.

(** Sample tables. *)
Definition sample_L (t : string) : list string :=
  if String.eqb t "Image" then ["jpg"; "jpeg"; "png"]
  else if String.eqb t "Video" then ["mov"; "mp4"]
  else if String.eqb t "Audio" then ["mp3"; "wav"]
  else [].

(** The spec's examples hold with tables listing the extensions:
    [jpg] is Image, [mov] Video, [mp3] Audio, [xyz] Other, and [JPG]
    classifies like [jpg]. *)
Example classify_spec_examples :
  py_map (fun EXT => [classify EXT "/up/a/a.jpg"; classify EXT "/up/a/a.mov";
                      classify EXT "/up/a/a.mp3"; classify EXT "/up/a/a.xyz";
                      classify EXT "/up/a/a.JPG"]) (loadExts (fs_of sample_L))
  = inr ["Image"; "Video"; "Audio"; "Other"; "Image"].
Proof. vm_compute. reflexivity. Qed.

Lemma sample_L_wf t : Forall (fun l => no_nl l = true) (sample_L t).
Proof. unfold sample_L. repeat case_match; repeat constructor. Qed.

Lemma loadExts_lookup_witness :
  exists EXT, loadExts (fs_of sample_L) = inr EXT /\ forall e, EXT !! e = expected_type sample_L e.
Proof. apply loadExts_lookup; apply sample_L_wf. Defined.

Lemma classify_listed_witness :
  exists EXT, loadExts (fs_of sample_L) = inr EXT /\ classify EXT "/up/a/a.Mov" = "Video".
Proof.
  eexists. split; [reflexivity|].
  apply (classify_listed sample_L _ "/up/a/a.Mov" "/up/a" "a" "Mov");
    [apply sample_L_wf | apply sample_L_wf | apply sample_L_wf | reflexivity | vm_compute; reflexivity].
Defined.

Lemma classify_uppercase_entry_unreachable_witness :
  has_upper "JPG" = true /\
  classify (<["JPG" := "Image"]> ∅) "/up/a/a.JPG" = classify ∅ "/up/a/a.JPG".
Proof. split; [reflexivity|]. apply classify_uppercase_entry_unreachable. reflexivity. Defined.

(** [TypeImage] ends with ["png"] and no newline. *)
Definition sample_W (t : string) : string := if String.eqb t "Image" then "png" else "".

Lemma loadExts_last_line_truncated_witness :
  exists EXT, loadExts (fs_trail sample_L sample_W) = inr EXT /\
    forall e, EXT !! e = expected_type (fun t => app (sample_L t) (trunc (sample_W t))) e.
Proof.
  apply loadExts_last_line_truncated; [apply sample_L_wf ..|].
  intros t. unfold sample_W. by destruct (String.eqb t "Image").
Defined.

End Classifier.
