(* ===== verification/Storyboard.v ===== *)
(** * The storyboard of a video: thumbnail count, WebVTT file, key frame

    After [ffmpeg] has written one frame per second as
    [<fileName>_thumbnail_<n>.jpg] into the asset's [thumbnails]
    directory, [createThumbnailFromVideo.py] (lines 124-174) counts the
    files of the directory that match ['*_thumbnail_*.jpg'], writes a
    WebVTT file with one cue per counted frame, picks the frame 25% of the
    way through as the key frame and sets [thumbnail] and [storyboard] in
    the catalogue.  [transcodeTest] of [testHarness.py] (lines 135-209)
    runs the same computation with relative paths.  This file models the
    computation: [fnmatch] for patterns of literal characters and ['*'],
    the counting loop, the cues with their ['%02d:%02d:%02d.000'] spans
    (Python 2 integer division and modulo, [fps = 1]), the key frame index
    [math.trunc(counter * .25)] and the values of the catalogue update.

    The theorems: every span reads back as the second it was printed from
    (so the cue fields are in range and the cues tile the video second by
    second); the key frame index lies between 0 and a quarter of the
    count and names a frame of the storyboard exactly when there are at
    least four frames; the count takes every matching file of the
    directory, whoever wrote it. *)

From stdpp Require Import base list strings pretty.
From Stdlib Require Import String Ascii ZArith Lia.
From S2P Require Import Prelude Json Classifier.

Open Scope string_scope.

Module Storyboard.

(** ** The directory listing *)

(** [fnmatch.fnmatch(name, pat)] for a pattern made of literal characters
    and ['*'] (any run of characters); on POSIX the match is
    case-sensitive and anchored at both ends. *)
Fixpoint fnmatch (pat name : string) : bool :=
  match pat with
  | EmptyString => bool_decide (name = EmptyString)
  | String c pat' =>
      if Ascii.eqb c "*" then
        (fix star (s : string) : bool :=
           fnmatch pat' s || match s with EmptyString => false | String _ s' => star s' end) name
      else match name with
           | EmptyString => false
           | String c' name' => Ascii.eqb c c' && fnmatch pat' name'
           end
  end.

Definition thumb_pattern : string := "*_thumbnail_*.jpg".

(** Lines 125-131: [counter] over [os.listdir(subDir)]. *)
Definition count_thumbs (listing : list string) : Z :=
  fold_left (fun counter thumb => if fnmatch thumb_pattern thumb then (counter + 1)%Z else counter)
    listing 0%Z.

(** ** The WebVTT file *)

Definition newDir : string := "thumbnails".
Definition fps : Z := 1.
Definition baseURL : string := "https://dnt4vq51jg2tj.cloudfront.net".
Definition nl : string := String "010" EmptyString.

(** ['%02d:%02d:%02d.000' % (t / 3600, t / 60 % 60, t % 60)] with Python 2
    integer [/] and [%] (both rounding towards minus infinity). *)
Definition span (t : Z) : string :=
  py_pad2 (t / 3600) ++ ":" ++ py_pad2 (t / 60 mod 60) ++ ":" ++ py_pad2 (t mod 60) ++ ".000".

(** Lines 143-152: the cue of frame [i]; [src] is the image of frame
    [i + 1] (ffmpeg numbers the frames from 1). *)
Definition cue (src : Z -> string) (i : Z) : string :=
  let startSecond := (i * (1 / fps))%Z in
  let endSecond := ((i + 1) * (1 / fps))%Z in
  nl ++ nl ++ span startSecond ++ " --> " ++ span endSecond ++ nl ++ src (i + 1)%Z.

(** Lines 135-154: what [vttFile] holds when it is closed. *)
Definition vtt_text (src : Z -> string) (counter : Z) : string :=
  "WEBVTT" ++ String.concat "" (map (cue src) (py_range 0 counter)).

(** Line 150: [thumbSpan] of the worker, an absolute CDN URL. *)
Definition worker_src (fileName : string) (n : Z) : string :=
  baseURL ++ "/" ++ fileName ++ "/" ++ newDir ++ "/" ++ fileName ++ "_thumbnail_" ++ py_str_int n ++ ".jpg".

(** The frame numbers the cues point at: [i + 1] for [i] in [range(0, counter)]. *)
Definition frame_numbers (counter : Z) : list Z := map (fun i => (i + 1)%Z) (py_range 0 counter).

(** ** The key frame and the catalogue update *)

(** Line 157: [math.trunc(counter * thumbnailTime)] with [thumbnailTime =
    .25]; the product is exact in binary floating point and [trunc]
    rounds towards zero, which is [Z.quot]. *)
Definition keyframe_index (counter : Z) : Z := Z.quot counter 4.

(** Lines 73-174 after [ffmpeg] succeeded: the name of the VTT file in
    [subDir], its contents and the [expressionValues] of
    [databaseHelper.updateEntry(dbPrimaryKey, 'set thumbnail = :t,
    storyboard = :s', expressionValues)]. *)
Definition storyboard_update (asset : string) (listing : list string) : string * string * dict jvalue :=
  let '(_, fileName, _) := Classifier.splitFilename asset in
  let counter := count_thumbs listing in
  let vtt := fileName ++ ".vtt" in
  let index := py_str_int (keyframe_index counter) in
  let thumbnail := "/" ++ newDir ++ "/" ++ fileName ++ "_thumbnail_" ++ index ++ ".jpg" in
  let storyboard := "/" ++ newDir ++ "/" ++ vtt in
  (vtt, vtt_text (worker_src fileName) counter,
   [(":t", JStr thumbnail); (":s", JStr storyboard)]).

(** ** Reading a span back *)

(** The inverse of [span]: [HH:MM:SS.000] to seconds. *)
Definition parse_span (s : string) : option Z :=
  '(hh, r1) ← split_at ":" s;
  '(mm, r2) ← split_at ":" r1;
  '(ss, r3) ← split_at "." r2;
  guard (r3 = "000");;
  h ← read_dec hh; m ← read_dec mm; sec ← read_dec ss;
  Some (h * 3600 + m * 60 + sec)%Z.

(** ** Theorems *)

Lemma digit_val_colon : digit_val ":" = None.
Proof. reflexivity. Qed.

Lemma digit_val_dot : digit_val "." = None.
Proof. reflexivity. Qed.

(** Splitting a printed field off at a separator that is not a digit. *)
Lemma split_at_pad2 c n r :
  (0 <= n)%Z -> digit_val c = None -> split_at c (py_pad2 n ++ String c r) = Some (py_pad2 n, r).
Proof. intros Hn Hc. exact (split_at_digits c 0 _ n r (read_dec_py_pad2 n Hn) Hc). Qed.

Lemma span_fields t :
  (0 <= t)%Z ->
  (0 <= t / 3600 /\ 0 <= t / 60 mod 60 < 60 /\ 0 <= t mod 60 < 60 /\
   t / 3600 * 3600 + t / 60 mod 60 * 60 + t mod 60 = t)%Z.
Proof. intros. Z.to_euclidean_division_equations. lia. Qed.

Lemma count_thumbs_go l c :
  fold_left (fun counter thumb => if fnmatch thumb_pattern thumb then (counter + 1)%Z else counter) l c =
  (c + count_thumbs l)%Z.
Proof.
  unfold count_thumbs. revert c. induction l as [|x l IH]; intros c; cbn [fold_left]; [lia|].
  rewrite (IH (if fnmatch thumb_pattern x then (c + 1)%Z else c)),
    (IH (if fnmatch thumb_pattern x then (0 + 1)%Z else 0%Z)).
  destruct (fnmatch _ _); lia.
Qed.

(** The count is additive over the directory listing: every file that
    matches the pattern counts, whichever video it is a frame of. *)
Lemma count_thumbs_app l1 l2 : count_thumbs (l1 ++ l2) = (count_thumbs l1 + count_thumbs l2)%Z.
Proof. unfold count_thumbs at 1. rewrite fold_left_app. apply count_thumbs_go. Qed.

(** C12. Round trip of the cue time format: for every second [t >= 0],
    the span ['%02d:%02d:%02d.000'] the worker prints reads back as [t];
    the hours field is at least two digits and grows as needed, and the
    minutes and seconds fields are below 60. *)
Theorem span_roundtrip t : (0 <= t)%Z -> parse_span (span t) = Some t.
Proof.
  intros Ht. destruct (span_fields t Ht) as (Hh & Hm & Hs & Heq).
  unfold parse_span, span. autorewrite with sdms_rw.
  rewrite split_at_pad2 by (lia || reflexivity). cbn [mbind option_bind].
  rewrite split_at_pad2 by (lia || reflexivity). cbn [mbind option_bind].
  rewrite split_at_pad2 by (lia || reflexivity). cbn [mbind option_bind].
  rewrite option_guard_True by done. cbn [mbind option_bind].
  rewrite !read_dec_py_pad2 by lia. cbn [mbind option_bind]. by rewrite Heq.
Qed.

(** C10. Bounds of the key frame: for a count [counter >= 0], the index
    [math.trunc(counter * .25)] lies between 0 and [counter / 4], and it
    is one of the frames the storyboard lists ([1 .. counter]) exactly
    when [counter >= 4]; with fewer frames the catalogue's [thumbnail]
    names [_thumbnail_0.jpg], which ffmpeg never writes. *)
Theorem keyframe_index_bounds counter :
  (0 <= counter)%Z ->
  (0 <= keyframe_index counter <= counter / 4)%Z /\
  (In (keyframe_index counter) (frame_numbers counter) <-> (4 <= counter)%Z).
Proof.
  intros Hc. unfold keyframe_index, frame_numbers.
  rewrite Z.quot_div_nonneg by lia. rewrite in_map_iff.
  setoid_rewrite in_py_range. split; [split; [apply Z.div_pos|]; lia|].
  split.
  - intros (i & Hi & Hr). Z.to_euclidean_division_equations. lia.
  - intros H4. exists (counter / 4 - 1)%Z. Z.to_euclidean_division_equations. lia.
Qed.

(** A directory shared by two videos: the frames of [b.mov] are counted
    for [a.mov], whose storyboard lists frames 2 to 4 that do not exist. *)
Example storyboard_counts_foreign_frames :
  storyboard_update "/up/a.mov" ["a_thumbnail_1.jpg"; "b_thumbnail_1.jpg"; "b_thumbnail_2.jpg";
                                 "b_thumbnail_3.jpg"; "b.vtt"] =
  ("a.vtt", vtt_text (worker_src "a") 4,
   [(":t", JStr "/thumbnails/a_thumbnail_1.jpg"); (":s", JStr "/thumbnails/a.vtt")]).
Proof. vm_compute. reflexivity. Qed.

(** A three-second video: the catalogue's key frame is frame 0. *)
Lemma keyframe_index_bounds_witness :
  (0 <= count_thumbs ["v_thumbnail_1.jpg"; "v_thumbnail_2.jpg"; "v_thumbnail_3.jpg"; "v.vtt"])%Z /\
  ((0 <= keyframe_index 3 <= 3 / 4)%Z /\ (In (keyframe_index 3) (frame_numbers 3) <-> (4 <= 3)%Z)).
Proof.
  split; [vm_compute; discriminate|].
  change 3%Z with (count_thumbs ["v_thumbnail_1.jpg"; "v_thumbnail_2.jpg"; "v_thumbnail_3.jpg"; "v.vtt"]).
  apply keyframe_index_bounds. vm_compute. discriminate.
Defined.

Lemma span_roundtrip_witness : (0 <= 3725)%Z /\ parse_span (span 3725) = Some 3725%Z.
Proof. split; [lia | apply span_roundtrip; lia]. Defined.

End Storyboard.
