(* ===== verification/Distribute.v ===== *)
(** * The uploads of the distribution worker

    [distributeToS3.py] (both variants) walks the asset's directory with
    [os.walk(filePath)] and uploads every file [f] of every directory
    [dirName] to the key [os.path.join(fileName, key, f)] of the bucket,
    where [key = os.path.split(dirName)[1]] is the directory's own name
    (lines 72-80 of [src/workflowcode/distributeToS3.py]).  The storyboard
    of the video thumbnail worker points at
    [baseURL/fileName/thumbnails/<frame>], so the two components agree on
    a naming scheme the code does not state anywhere.

    [Distribute] models [os.path.join] (posixpath, from the Python
    library) and the upload plan; the directory tree is an argument.  The
    theorem: every frame file of the [thumbnails] directory is uploaded
    under the key its storyboard URL names. *)

From stdpp Require Import base list strings.
From Stdlib Require Import String Ascii ZArith.
From S2P Require Import Prelude Json Classifier Storyboard.

Open Scope string_scope.

Module Distribute.

(** [path.endswith('/')] *)
Fixpoint ends_with_slash (s : string) : bool :=
  match s with
  | EmptyString => false
  | String c EmptyString => Ascii.eqb c "/"
  | String _ s' => ends_with_slash s'
  end.

(** One step of [posixpath.join(a, *p)]: an absolute component restarts
    the path, otherwise it is appended after a separator. *)
Definition path_join2 (path b : string) : string :=
  if startswith b "/" then b
  else if String.eqb path "" || ends_with_slash path then path ++ b
  else path ++ "/" ++ b.

(** [os.path.join(a, *p)] *)
Definition os_path_join (a : string) (p : list string) : string := fold_left path_join2 p a.

(** Lines 72-80: for each directory [(dirName, fileList)] of
    [os.walk(filePath)], the pairs [(upfile, s3key)] of
    [bucket.upload_file(upfile, s3key, ...)], in order. *)
Definition upload_keys (fileName : string) (walk : list (string * list string)) : list (string * string) :=
  flat_map (fun '(dirName, fileList) =>
              let key := (Classifier.os_path_split dirName).2 in
              map (fun f => (os_path_join dirName [f], os_path_join fileName [key; f])) fileList)
    walk.

(** A name without a path separator. *)
Definition no_slash (s : string) : bool :=
  forallb (fun c => negb (Ascii.eqb c "/")) (list_ascii_of_string s).

(** ** Theorems *)

Lemma no_slash_ends s : no_slash s = true -> ends_with_slash s = false.
Proof.
  unfold no_slash. induction s as [|c s IH]; [done|]. cbn.
  intros [Hc Hs]%andb_true_iff. destruct s as [|c' s'].
  - by destruct (Ascii.eqb c "/").
  - exact (IH Hs).
Qed.

Lemma ends_with_slash_app a b : b <> "" -> ends_with_slash (a ++ b) = ends_with_slash b.
Proof.
  intros Hb. induction a as [|c a IH]; [done|].
  rewrite str_app_cons. cbn [ends_with_slash].
  destruct (a ++ b)%string as [|c' s] eqn:E; [|exact IH].
  destruct a; [destruct (Hb E)|discriminate].
Qed.

Lemma no_slash_startswith s r : s <> "" -> no_slash s = true -> startswith (s ++ r) "/" = false.
Proof.
  destruct s as [|c s]; [done|]. intros _. unfold no_slash. cbn.
  intros [Hc _]%andb_true_iff. rewrite str_app_cons. unfold startswith, String.prefix.
  destruct (ascii_dec "/" c) as [Heq|Hne]; [subst c; discriminate Hc|reflexivity].
Qed.

(** Joining names without separators puts exactly one separator between
    them. *)
Lemma os_path_join_plain a key f :
  a <> "" -> no_slash a = true -> key <> "" -> no_slash key = true -> startswith f "/" = false ->
  os_path_join a [key; f] = a ++ "/" ++ key ++ "/" ++ f.
Proof.
  intros Ha Has Hk Hks Hf. unfold os_path_join. cbn [fold_left]. unfold path_join2.
  assert (Hkey : startswith key "/" = false).
  { rewrite <- (str_app_nil_r key). by apply no_slash_startswith. }
  rewrite Hkey, (no_slash_ends a Has). destruct (String.eqb_spec a "") as [|_]; [done|]. cbn [orb].
  rewrite Hf. rewrite (ends_with_slash_app a ("/" ++ key)) by done.
  assert (Hend : ends_with_slash ("/" ++ key) = false).
  { rewrite str_app_char. destruct key as [|c k]; [done|]. exact (no_slash_ends _ Hks). }
  rewrite Hend. destruct (String.eqb_spec (a ++ "/" ++ key) "") as [Habs|_]; [by destruct a|].
  cbn [orb]. by rewrite <- !str_app_assoc.
Qed.

(** ** The asset's prefix in the bucket *)

Lemma no_slash_get s : (forall m, get m s <> Some "/"%char) -> no_slash s = true.
Proof.
  unfold no_slash. induction s as [|c s IH]; intros H; [done|]. cbn.
  apply andb_true_iff. split.
  - apply negb_true_iff, Ascii.eqb_neq. intros ->. exact (H 0 eq_refl).
  - apply IH. intros m. exact (H (S m)).
Qed.

Lemma no_slash_get_inv s m : no_slash s = true -> get m s <> Some "/"%char.
Proof.
  unfold no_slash. revert m. induction s as [|c s IH]; intros m; [done|]. cbn.
  intros [Hc Hs]%andb_true_iff. destruct m as [|m]; [|exact (IH m Hs)].
  intros [= ->]. discriminate Hc.
Qed.

Lemma rfind_from_ge c s i m : m < i -> exists j, Classifier.rfind_from c s i (Some m) = Some j /\ m <= j.
Proof.
  revert i m. induction s as [|c' s IH]; intros i m Hm; cbn; [by exists m|].
  destruct (Ascii.eqb c c').
  - destruct (IH (S i) i) as (j & Hj & Hle); [lia|]. exists j. split; [done|lia].
  - apply IH. lia.
Qed.

(** [rfind] finds the last occurrence: every occurrence is at or before it. *)
Lemma rfind_from_last c s i best k :
  (forall m, best = Some m -> m < i) -> get k s = Some c ->
  exists j, Classifier.rfind_from c s i best = Some j /\ i + k <= j.
Proof.
  revert i best k. induction s as [|c' s IH]; intros i best k Hb Hk; [done|]. cbn.
  destruct k as [|k]; cbn in Hk.
  - injection Hk as ->. rewrite (proj2 (Ascii.eqb_eq c c) eq_refl).
    destruct (rfind_from_ge c s (S i) i) as (j & Hj & Hle); [lia|]. exists j. split; [done|lia].
  - destruct (IH (S i) (if Ascii.eqb c c' then Some i else best) k) as (j & Hj & Hle); [|done|].
    + intros m. destruct (Ascii.eqb c c'); [intros [= <-]; lia|]. intros Hm. specialize (Hb m Hm). lia.
    + exists j. split; [done|lia].
Qed.

(** The tail of [os.path.split] holds no separator. *)
Lemma os_path_split_tail p : no_slash (Classifier.os_path_split p).2 = true.
Proof.
  unfold Classifier.os_path_split. cbn [snd]. apply no_slash_get. intros m.
  set (i0 := match Classifier.rfind Classifier.slash p with Some j => S j | None => 0 end).
  destruct (Nat.lt_ge_cases m (String.length p - i0)) as [Hlt|Hge];
    [|rewrite substring_correct2 by done; discriminate].
  rewrite substring_correct1 by done. intros Hget.
  destruct (rfind_from_last "/" p 0 None (m + i0)) as (j & Hj & Hle); [discriminate|exact Hget|].
  unfold i0, Classifier.rfind in Hle. change Classifier.slash with "/"%char in Hle. rewrite Hj in Hle. lia.
Qed.

(** So does the file name [splitFilename] gives. *)
Lemma splitFilename_name asset : no_slash (Classifier.splitFilename asset).1.2 = true.
Proof.
  unfold Classifier.splitFilename.
  pose proof (os_path_split_tail asset) as Ht.
  destruct (Classifier.os_path_split asset) as [h t]. cbn [snd] in Ht.
  unfold Classifier.os_path_splitext.
  destruct (Classifier.rfind Classifier.dot t) as [d|]; [|exact Ht].
  destruct (Classifier.all_char _ _); [exact Ht|]. cbn. apply no_slash_get. intros m.
  destruct (Nat.lt_ge_cases m d) as [Hlt|Hge]; [|rewrite substring_correct2 by done; discriminate].
  rewrite substring_correct1 by done. rewrite Nat.add_0_r. exact (no_slash_get_inv t m Ht).
Qed.

(** Every key uploaded for [fileName] lies under [fileName/]. *)
Lemma upload_key_under fileName key f :
  fileName <> "" -> no_slash fileName = true -> no_slash key = true -> f <> "" -> no_slash f = true ->
  exists r, os_path_join fileName [key; f] = fileName ++ "/" ++ r.
Proof.
  intros Hn Hns Hk Hf Hfs. unfold os_path_join. cbn [fold_left]. unfold path_join2.
  assert (Hs : forall x, x <> "" -> no_slash x = true -> startswith x "/" = false).
  { intros x Hx Hxs. rewrite <- (str_app_nil_r x). by apply no_slash_startswith. }
  rewrite (Hs f Hf Hfs), (no_slash_ends _ Hns). destruct (String.eqb_spec fileName "") as [|_]; [done|].
  cbn [orb]. destruct (String.eqb_spec key "") as [->|Hk0].
  - cbn. rewrite (str_app_nil_r "/"), (ends_with_slash_app fileName "/") by discriminate. cbn.
    destruct (String.eqb_spec (fileName ++ "/") "") as [Habs|_]; [by destruct fileName|].
    exists f. by rewrite <- str_app_assoc.
  - rewrite (Hs key Hk0 Hk), (ends_with_slash_app fileName ("/" ++ key)) by (rewrite str_app_char; discriminate).
    rewrite (ends_with_slash_app "/" key Hk0), (no_slash_ends key Hk). cbn [orb].
    destruct (String.eqb_spec (fileName ++ "/" ++ key) "") as [Habs|_]; [by destruct fileName|].
    exists (key ++ "/" ++ f). by rewrite <- !str_app_assoc.
Qed.

Lemma startswith_own a r : startswith (a ++ "/" ++ r) (a ++ "/") = true.
Proof.
  unfold startswith. induction a as [|c a IH]; cbn.
  - rewrite str_app_char. cbn. destruct (ascii_dec "/" "/"); [|done]. by destruct r.
  - rewrite !str_app_cons. cbn. destruct (ascii_dec c c); [exact IH|done].
Qed.

(** The prefix [a/] of one name is never the prefix of another name's key. *)
Lemma startswith_other a a' r :
  no_slash a = true -> no_slash a' = true -> startswith (a' ++ "/" ++ r) (a ++ "/") = true -> a' = a.
Proof.
  unfold startswith. revert a'. induction a as [|c a IH]; intros a' Ha Ha'.
  - change ("" ++ "/") with "/". destruct a' as [|c' a']; [done|]. rewrite str_app_cons. cbn [String.prefix].
    unfold no_slash in Ha'. cbn in Ha'. apply andb_true_iff in Ha' as [Hc' _].
    destruct (ascii_dec "/" c') as [<-|]; [discriminate Hc'|discriminate].
  - rewrite (str_app_cons c a). unfold no_slash in Ha. cbn in Ha. apply andb_true_iff in Ha as [Hc Ha].
    destruct a' as [|c' a'].
    + change ("" ++ "/" ++ r) with ("/" ++ r). rewrite str_app_char. cbn [String.prefix].
      destruct (ascii_dec c "/") as [->|]; [discriminate Hc|discriminate].
    + rewrite str_app_cons. cbn [String.prefix]. destruct (ascii_dec c c') as [<-|]; [|discriminate].
      unfold no_slash in Ha'. cbn in Ha'. apply andb_true_iff in Ha' as [_ Ha'].
      intros H. f_equal. exact (IH a' Ha Ha' H).
Qed.

(** C27. The storyboard points at uploaded objects: when the asset's
    directory tree holds a [thumbnails] directory with the frame
    [<fileName>_thumbnail_<n>.jpg], the distribution worker uploads that
    frame under an S3 key [s3key] such that the frame's cue in the VTT
    file is exactly [baseURL/s3key] (for a file name without separator,
    which [splitFilename] guarantees). *)
Theorem storyboard_frames_uploaded fileName walk dirName files n :
  fileName <> "" -> no_slash fileName = true ->
  In (dirName, files) walk -> (Classifier.os_path_split dirName).2 = Storyboard.newDir ->
  In (fileName ++ "_thumbnail_" ++ py_str_int n ++ ".jpg") files ->
  exists upfile s3key, In (upfile, s3key) (upload_keys fileName walk) /\
    Storyboard.worker_src fileName n = Storyboard.baseURL ++ "/" ++ s3key.
Proof.
  intros Hf Hfs Hwalk Hdir Hframe.
  exists (os_path_join dirName [fileName ++ "_thumbnail_" ++ py_str_int n ++ ".jpg"]),
    (os_path_join fileName [Storyboard.newDir; fileName ++ "_thumbnail_" ++ py_str_int n ++ ".jpg"]).
  split.
  - apply in_flat_map. exists (dirName, files). split; [exact Hwalk|].
    rewrite <- Hdir.
    exact (in_map (fun f => (os_path_join dirName [f],
                             os_path_join fileName [(Classifier.os_path_split dirName).2; f])) _ _ Hframe).
  - rewrite os_path_join_plain; [reflexivity|done|done|done|reflexivity|].
    by apply no_slash_startswith.
Qed.

Definition sample_walk : list (string * list string) :=
  [("/Assets/upload/v1", ["v.mov"]);
   ("/Assets/upload/v1/thumbnails", ["v_thumbnail_1.jpg"; "v_thumbnail_2.jpg"; "v.vtt"]);
   ("/Assets/upload/v1/converted", ["v_PDL.mp4"])].

Lemma storyboard_frames_uploaded_witness :
  ("v" <> "" /\ no_slash "v" = true /\
   In ("/Assets/upload/v1/thumbnails", ["v_thumbnail_1.jpg"; "v_thumbnail_2.jpg"; "v.vtt"]) sample_walk /\
   (Classifier.os_path_split "/Assets/upload/v1/thumbnails").2 = Storyboard.newDir /\
   In ("v" ++ "_thumbnail_" ++ py_str_int 2 ++ ".jpg") ["v_thumbnail_1.jpg"; "v_thumbnail_2.jpg"; "v.vtt"]) /\
  exists upfile s3key, In (upfile, s3key) (upload_keys "v" sample_walk) /\
    Storyboard.worker_src "v" 2 = Storyboard.baseURL ++ "/" ++ s3key.
Proof.
  assert (H : "v" <> "" /\ no_slash "v" = true /\
   In ("/Assets/upload/v1/thumbnails", ["v_thumbnail_1.jpg"; "v_thumbnail_2.jpg"; "v.vtt"]) sample_walk /\
   (Classifier.os_path_split "/Assets/upload/v1/thumbnails").2 = Storyboard.newDir /\
   In ("v" ++ "_thumbnail_" ++ py_str_int 2 ++ ".jpg") ["v_thumbnail_1.jpg"; "v_thumbnail_2.jpg"; "v.vtt"]).
  { split; [discriminate|]. split; [reflexivity|]. split; [right; left; reflexivity|].
    split; [vm_compute; reflexivity|]. vm_compute. right; left; reflexivity. }
  split; [exact H|]. destruct H as (H1 & H2 & H3 & H4 & H5).
  exact (storyboard_frames_uploaded "v" sample_walk _ _ 2 H1 H2 H3 H4 H5).
Defined.

End Distribute.
