(* ===== verification/Lifecycle.v ===== *)
(** * The lifecycle decider ([src/SFNcode/fileManager.py])

    The decider of the workflow that moves, archives, restores and deletes
    stored assets.  Unlike the ingestion decider, every branch writes
    [taskName] before reading it, so one iteration is a function of the
    uuid and the polled task only.  The routing tests
    [result['locationDestination'] in 'archive'] are Python substring
    tests, modelled as such ([jv_in_str]).

    The theorems give the three routes of the spec (delete, warm-tier
    move, archive move), the extra [deleteFiles] stage the code runs after
    the clean-up of an archive move, the substring behaviour, and the
    termination of the walk from stage to stage (so the fuel of
    [code_path] is enough). *)

From stdpp Require Import base list strings.
From Stdlib Require Import String ZArith.
From S2P Require Import Prelude Json History Pipeline.

Open Scope string_scope.
Local Open Scope py_scope.

Module Lifecycle.

(** The decision task list the decider polls (line 73). *)
Definition TASKLIST := "fileManager".

Definition ACTIVITY1 := "moveFiles".
Definition ACTIVITY2 := "cleanUpLandingPad".
Definition ACTIVITY3 := "deleteFiles".

Definition response := option (string * decision).

(** [executeNextTask(swf, taskToken, taskName, taskVersion, taskInput,
    taskList)] of [fileManager.py] (lines 214-238), a copy of the
    decider's: the decision it sends with [respond_decision_task_completed],
    its activity id ['activityid-' + str(uuid.uuid4())]. *)
Definition executeNextTask (uuid taskName taskVersion : string) (taskInput : jvalue)
    (taskList : string) : decision :=
  ScheduleActivityTask taskName taskVersion ("activityid-" ++ uuid) taskInput taskList.

(** [result['locationDestination'] in 'archive' or result['locationSource'] in 'archive'],
    with the short-circuit of [or]. *)
Definition touches_archive (result : jvalue) : py bool :=
  d <- getitem result "locationDestination" ;;
  b <- jv_in_str d "archive" ;;
  if b then ret true
  else (s <- getitem result "locationSource" ;; jv_in_str s "archive").

(** The [ActivityTaskCompleted] branches (lines 168-208). *)
Definition route_completed (token uuid activity_name : string) (result : jvalue) : py response :=
  cond1 <- (if String.eqb activity_name ACTIVITY1 then touches_archive result else ret false) ;;
  if cond1 then ret (Some (token, executeNextTask uuid ACTIVITY2 "1" result ACTIVITY2))
  else if String.eqb activity_name ACTIVITY2 then
    ret (Some (token, executeNextTask uuid ACTIVITY3 "1" result ACTIVITY3))
  else
    cond3 <- (if String.eqb activity_name ACTIVITY3 then ret true
              else if String.eqb activity_name ACTIVITY1 then
                (b <- touches_archive result ;; ret (negb b))
              else ret false) ;;
    if cond3 then ret (Some (token, CompleteWorkflowExecution "success")) else ret None.

(** One iteration of the loop (lines 88-208). *)
Definition decide (uuid : string) (p : decision_poll) : py response :=
  match p with
  | NoDecisionTask => ret None
  | DecisionTask _ None => ret None
  | DecisionTask token (Some evs) =>
      last <- last_event evs ;;
      if String.eqb (eventType last) "WorkflowExecutionStarted" then
        parameters <- started_input last ;;
        locationDestination <- getitem parameters "locationDestination" ;;
        let name := if jv_eq_str locationDestination "delete" then ACTIVITY3 else ACTIVITY1 in
        ret (Some (token, executeNextTask uuid name "1" parameters name))
      else if String.eqb (eventType last) "ActivityTaskCompleted" then
        activity_name <- completed_activity_name evs last ;;
        result <- completed_result last ;;
        route_completed token uuid activity_name result
      else ret None
  end.

(** ** Correspondence with the spec's tiers *)

(** The spelling of a tier in the workflow input. *)
Definition tier_name (t : tier) : string :=
  match t with
  | CDN => "CDN"
  | NearLine => "near_line"
  | Archive => "archive"
  | Deleted => "delete"
  end.

(** A lifecycle request: the input the decider passes from stage to stage. *)
Definition request (src dst : tier) (key fileKey : jvalue) : jvalue :=
  JObj [("dbPrimaryKey", key); ("fileKey", fileKey); ("assetClass", JStr "Video");
        ("locationSource", JStr (tier_name src)); ("locationDestination", JStr (tier_name dst))].

(** The stage a response schedules, or completion. *)
Definition response_stage (r : response) : option (option lifecycle_stage) :=
  match r with
  | Some (_, ScheduleActivityTask n _ _ _ _) =>
      if String.eqb n ACTIVITY1 then Some (Some MoveStage)
      else if String.eqb n ACTIVITY2 then Some (Some CleanUpStage)
      else if String.eqb n ACTIVITY3 then Some (Some DeleteStage)
      else None
  | Some (_, CompleteWorkflowExecution _) => Some None
  | None => None
  end.

Definition stage_name (s : lifecycle_stage) : string :=
  match s with
  | MoveStage => ACTIVITY1
  | CleanUpStage => ACTIVITY2
  | DeleteStage => ACTIVITY3
  end.

(** The stages the code runs for a request, following the decider from
    the start through the completion of each stage whose result is the
    request itself (the workers pass their input through), with [fuel]
    bounding the number of stages. *)
Fixpoint code_path_from (fuel : nat) (req : jvalue) (last : lifecycle_stage) : py (list lifecycle_stage) :=
  match fuel with
  | O => ret []
  | S fuel' =>
      r <- route_completed "t" "u" (stage_name last) req ;;
      match response_stage r with
      | Some (Some s) => rest <- code_path_from fuel' req s ;; ret (s :: rest)
      | _ => ret []
      end
  end.

Definition code_path (req : jvalue) : py (list lifecycle_stage) :=
  d <- getitem req "locationDestination" ;;
  let first := if jv_eq_str d "delete" then DeleteStage else MoveStage in
  rest <- code_path_from 3 req first ;;
  ret (first :: rest).

(** ** Theorems *)

(** Whether a move involves the archive tier, as the spec means it. *)
Definition archive_involved (src dst : tier) : bool :=
  bool_decide (src = Archive \/ dst = Archive).

(** C15. Refinement of the lifecycle table, with one divergence: for every
    pair of tiers, the stages the code runs are the spec's stages
    ([lifecycle_path]), except that a move to or from the archive tier
    runs [deleteFiles] after the clean-up, where the spec completes. *)
Theorem code_path_lifecycle src dst key fileKey :
  code_path (request src dst key fileKey) =
    inr (lifecycle_path src dst ++
         (if negb (bool_decide (dst = Deleted)) && archive_involved src dst
          then [DeleteStage] else []))%list.
Proof. destruct src, dst; reflexivity. Qed.

(** The archive test is Python's substring test: after [moveFiles],
    the clean-up route is taken exactly when the destination or the
    source is a substring of ['archive'] (so the empty string, ['a'] or
    ['chive'] count as the archive tier). *)
Theorem touches_archive_substring d src r :
  getitem r "locationDestination" = inr (JStr d) ->
  getitem r "locationSource" = inr (JStr src) ->
  touches_archive r = inr (str_in d "archive" || str_in src "archive").
Proof.
  intros Hd Hs. unfold touches_archive. rewrite Hd. cbn [py_bind jv_in_str].
  destruct (str_in d "archive"); [reflexivity|]. by rewrite Hs.
Qed.

(** A request to delete goes straight to [deleteFiles] (the spec's
    scenario 3): when the last workflow event starts the execution with
    [locationDestination = 'delete'], the decider schedules [deleteFiles]
    with the whole request as input. *)
Theorem decide_started_delete uuid tok evs e params :
  last_event evs = inr e -> attrs e = WorkflowExecutionStarted params ->
  getitem params "locationDestination" = inr (JStr "delete") ->
  decide uuid (DecisionTask tok (Some evs)) =
    inr (Some (tok, executeNextTask uuid ACTIVITY3 "1" params ACTIVITY3)).
Proof.
  intros Hlast He Hd. unfold decide. rewrite Hlast. cbn [py_bind].
  unfold eventType, started_input. rewrite He. cbn [String.eqb Ascii.eqb Bool.eqb andb py_bind].
  by rewrite Hd.
Qed.

(** After [moveFiles] between the two S3 tiers (CDN and near_line,
    in either direction), the decider completes the execution at once on
    a well-formed history (the spec's scenario 4, first half). *)
Theorem decide_warm_move_completes uuid tok evs last sched i l r src dst :
  history_wf evs = true -> last_event evs = inr last -> In sched evs ->
  attrs last = ActivityTaskCompleted (eventId sched) (Some r) ->
  attrs sched = ActivityTaskScheduled ACTIVITY1 i l ->
  In src [CDN; NearLine] -> In dst [CDN; NearLine] ->
  getitem r "locationDestination" = inr (JStr (tier_name dst)) ->
  getitem r "locationSource" = inr (JStr (tier_name src)) ->
  decide uuid (DecisionTask tok (Some evs)) = inr (Some (tok, CompleteWorkflowExecution "success")).
Proof.
  intros Hwf Hlast Hin Hl Hs Hsrc Hdst Hd Hso. unfold decide. rewrite Hlast. cbn [py_bind].
  unfold eventType. rewrite Hl. cbn [String.eqb Ascii.eqb Bool.eqb andb].
  rewrite (completed_activity_name_wf _ _ _ _ _ _ _ Hwf Hin Hl Hs). cbn [py_bind].
  unfold completed_result. rewrite Hl. cbn [py_bind].
  unfold route_completed. rewrite (touches_archive_substring _ _ _ Hd Hso).
  destruct Hsrc as [<-|[<-|[]]], Hdst as [<-|[<-|[]]]; reflexivity.
Qed.

(** C18. Termination of the lifecycle route, and adequacy of the fuel of
    [code_path]: for any request whose archive test does not raise and
    any stage the walk starts from, following the decider's answers from
    stage to stage with any fuel of at least 3 performs at most two more
    stages, and the decider's answer to the completion of the last one is
    [CompleteWorkflowExecution]. *)
Theorem code_path_terminates req first fuel b :
  touches_archive req = inr b -> (3 <= fuel)%nat ->
  exists path, code_path_from fuel req first = inr path /\ (List.length path <= 2)%nat /\
    route_completed "t" "u" (stage_name (List.last path first)) req =
      inr (Some ("t", CompleteWorkflowExecution "success")).
Proof.
  intros Ht Hf. destruct fuel as [|[|[|fuel]]]; [lia..|].
  destruct first; cbn [code_path_from]; unfold route_completed; cbn [stage_name];
    rewrite ?Ht; destruct b; cbn; eexists; (split; [reflexivity|]); cbn; rewrite ?Ht; cbn; split;
    (lia || reflexivity).
Qed.

Definition sample_history (src dst : tier) : list event :=
  [mkEvent 1 (WorkflowExecutionStarted (request src dst (JStr "k") (JStr "f")));
   mkEvent 2 DecisionTaskScheduled; mkEvent 3 DecisionTaskStarted; mkEvent 4 DecisionTaskCompleted;
   mkEvent 5 (ActivityTaskScheduled ACTIVITY1 (request src dst (JStr "k") (JStr "f")) ACTIVITY1);
   mkEvent 6 (ActivityTaskStarted 5);
   mkEvent 7 (ActivityTaskCompleted 5 (Some (request src dst (JStr "k") (JStr "f"))));
   mkEvent 8 DecisionTaskScheduled; mkEvent 9 DecisionTaskStarted].

Lemma touches_archive_substring_witness :
  touches_archive (JObj [("locationSource", JStr ""); ("locationDestination", JStr "CDN")]) = inr true.
Proof. apply (touches_archive_substring "CDN" ""); reflexivity. Defined.

Lemma decide_started_delete_witness :
  decide "u" (DecisionTask "tok" (Some (firstn 3 (sample_history CDN Deleted)))) =
    inr (Some ("tok", executeNextTask "u" ACTIVITY3 "1" (request CDN Deleted (JStr "k") (JStr "f")) ACTIVITY3)).
Proof.
  apply (decide_started_delete "u" "tok" _ (mkEvent 1 (WorkflowExecutionStarted (request CDN Deleted (JStr "k") (JStr "f")))));
    reflexivity.
Defined.

Lemma decide_warm_move_completes_witness :
  decide "u" (DecisionTask "tok" (Some (sample_history NearLine CDN))) =
    inr (Some ("tok", CompleteWorkflowExecution "success")).
Proof.
  apply (decide_warm_move_completes "u" "tok" (sample_history NearLine CDN)
           (mkEvent 7 (ActivityTaskCompleted 5 (Some (request NearLine CDN (JStr "k") (JStr "f")))))
           (mkEvent 5 (ActivityTaskScheduled ACTIVITY1 (request NearLine CDN (JStr "k") (JStr "f")) ACTIVITY1))
           (request NearLine CDN (JStr "k") (JStr "f")) ACTIVITY1
           (request NearLine CDN (JStr "k") (JStr "f")) NearLine CDN);
    (vm_compute; reflexivity) || (simpl; tauto).
Defined.

Lemma code_path_terminates_witness :
  touches_archive (request CDN Archive (JStr "k") (JStr "f")) = inr true /\ (3 <= 3)%nat /\
  exists path, code_path_from 3 (request CDN Archive (JStr "k") (JStr "f")) MoveStage = inr path /\
    (List.length path <= 2)%nat /\
    route_completed "t" "u" (stage_name (List.last path MoveStage)) (request CDN Archive (JStr "k") (JStr "f")) =
      inr (Some ("t", CompleteWorkflowExecution "success")).
Proof.
  split; [reflexivity|]. split; [lia|].
  apply (code_path_terminates _ _ _ true); [reflexivity | lia].
Defined.

End Lifecycle.
