(* ===== verification/Deciders.v ===== *)
(** * The deciders as processes

    The [main] of each decider ([src/workflowcode/decider.py],
    [src/SFNcode/fileManager.py]) sets its constants, then loops for ever
    on [swf.poll_for_decision_task] with a fixed task list and identity,
    and answers each decision task with one iteration ([Ingest.decide],
    [Lifecycle.decide]).  [Deciders] models the requests of the polls, the
    loop of [fileManager.py] over the polls answered on its task list
    (the loop of [decider.py] is [Ingest.run]) and the two [main]s from
    their start.

    The theorems: the two deciders poll different task lists, so an
    execution is decided by one decider only; the lifecycle decider keeps
    no state between iterations, so its run answers each poll as
    [Lifecycle.decide] does on that poll alone (whatever the other
    executions whose tasks it served before), unlike the ingestion
    decider, whose [taskName] survives (C3); and a run stops at the
    first exception. *)

From stdpp Require Import base list strings.
From Stdlib Require Import String.
From S2P Require Import Prelude Json History Ingest Lifecycle.

Open Scope string_scope.
Local Open Scope py_scope.

Module Deciders.

(** The arguments of [swf.poll_for_decision_task]. *)
Record decision_request := mkDecisionRequest {
  dr_domain : string;
  dr_taskList : string;
  dr_identity : string;
  dr_reverseOrder : bool
}.

(** What the broker answers to the successive polls on each decision task
    list, each with the uuid the iteration draws. *)
Definition decision_queue := string -> list (string * decision_poll).

(** ** [decider.py] *)

(** Lines 46-48. *)
Definition DOMAIN := "ITD".
Definition TASKLIST := "default".
Definition VERSION := "1".

(** Lines 82-86: the task list is the literal ['default'], not
    [TASKLIST]. *)
Definition ingest_request : decision_request :=
  mkDecisionRequest DOMAIN "default" "decider-default-workflow-1" false.

(** [main] (lines 40-92): the locals start unbound ([fileName],
    [assetClass], [DOC], [METADATA] and [dbPrimaryKey] are set but
    [taskName] is not), then the loop over the polls of its task list. *)
Definition decider_main (q : decision_queue) : list Ingest.response * option py_exc :=
  Ingest.run Ingest.locals0 (q (dr_taskList ingest_request)).

(** ** [fileManager.py] *)

(** Lines 72 and 74 ([TASKLIST] is [Lifecycle.TASKLIST]). *)
Definition fm_DOMAIN := "ITD".
Definition fm_VERSION := "1".

(** Lines 93-97. *)
Definition fileManager_request : decision_request :=
  mkDecisionRequest fm_DOMAIN Lifecycle.TASKLIST "file-manager-tasks-1" false.

(** [while True:] (lines 88-208) over a sequence of polls; it stops at the
    first uncaught exception, which ends the process. *)
Fixpoint fileManager_run (polls : list (string * decision_poll)) : list Lifecycle.response * option py_exc :=
  match polls with
  | [] => ([], None)
  | (uuid, p) :: rest =>
      match Lifecycle.decide uuid p with
      | inl e => ([], Some e)
      | inr r => let '(rs, e) := fileManager_run rest in (r :: rs, e)
      end
  end.

(** [main] (lines 66-208). *)
Definition fileManager_main (q : decision_queue) : list Lifecycle.response * option py_exc :=
  fileManager_run (q (dr_taskList fileManager_request)).

(** ** Lemmas *)

(** The two deciders poll different task lists, in the same domain. *)
Lemma deciders_poll_apart :
  dr_domain ingest_request = dr_domain fileManager_request /\
  dr_taskList ingest_request <> dr_taskList fileManager_request.
Proof. split; [reflexivity|discriminate]. Qed.

(** The loop over any sequence of decision tasks runs without exception
    and answers [rs] exactly when each poll, taken alone, is answered by
    one iteration of [Lifecycle.decide] with the matching response. *)
Lemma fileManager_run_ok polls rs :
  fileManager_run polls = (rs, None) <->
  Forall2 (fun up r => Lifecycle.decide up.1 up.2 = inr r) polls rs.
Proof.
  revert rs. induction polls as [|[u p] ps IH]; intros rs; cbn.
  - split; [by intros [= <-]|by inversion 1].
  - destruct (Lifecycle.decide u p) as [e|r] eqn:Hd.
    + split; [discriminate|]. inversion 1; simplify_eq/=. congruence.
    + destruct (fileManager_run ps) as [rs' e] eqn:Hr. split.
      * intros [= <- ->]. constructor; [done|]. by apply IH.
      * inversion 1 as [|? r' ? rs'' Hd' Hrest]; simplify_eq/=.
        apply IH in Hrest. congruence.
Qed.

(** A run over two sequences of polls is the run over the first, then,
    unless it raised, the run over the second. *)
Lemma fileManager_run_app p1 p2 :
  fileManager_run (p1 ++ p2) =
    match fileManager_run p1 with
    | (rs1, None) => let '(rs2, e) := fileManager_run p2 in ((rs1 ++ rs2)%list, e)
    | (rs1, Some e) => (rs1, Some e)
    end.
Proof.
  induction p1 as [|[u p] ps IH]; cbn.
  - by destruct (fileManager_run p2).
  - destruct (Lifecycle.decide u p) as [e|r]; [done|]. rewrite IH.
    destruct (fileManager_run ps) as [rs1 [e|]]; [done|]. by destruct (fileManager_run p2).
Qed.

End Deciders.
