(* ===== verification/Workers.v ===== *)
(** * The activity workers and their protocol with the broker

    Every worker script runs the same loop: [poll_for_activity_task] on the
    task list named after the script; on a task, run one domain action on
    [json.loads(task['input'])] and retire the token with
    [respond_activity_task_completed] or [respond_activity_task_failed].
    [Worker] models the loop body against the broker's set of outstanding
    tokens (a token is handed out once, and answering a token that is not
    outstanding is refused by SWF with a client error); the per-script
    actions are translated from the scripts, the results of the external
    tools (convert, ffmpeg, exiftool, S3, DynamoDB) being arguments.

    The user metadata is copied into the extracted document by Python's
    [for m in METADATA: DOC[m] = METADATA[m]] ([copy_metadata]), which
    also iterates a list or a string; [moveFiles] keeps its [OUTPUT]
    across tasks, and its download loop raises [NameError] when a
    directory cannot be made ([dirs_ok]).

    The theorems: a worker that reports retires exactly its token; a
    retired token cannot be reused; three scripts can leave a claimed task
    without any report ([deleteFiles] on the archive tier, a failed
    [transcodeVideoDefault] (C22), [moveFiles] between two equal tiers on
    its first task); the carried-forward fields survive every ingestion
    worker; user metadata can overwrite the computed checksum (C25); a
    move that takes neither branch answers the previous task's [OUTPUT]
    updated with its input (C26). *)

From stdpp Require Import base list strings gmap pretty.
From Stdlib Require Import String Ascii.
From S2P Require Import Prelude Json Classifier.

Open Scope string_scope.
Local Open Scope py_scope.

Module Worker.

(** What the loop body does with a claimed task. *)
Inductive outcome :=
| Success (result : jvalue)            (** [respond_activity_task_completed] *)
| Failure (reason details : string)    (** [respond_activity_task_failed] *)
| NoReport.                            (** the body ends without answering *)

Inductive activity_poll :=
| NoActivityTask
| ActivityTask (token : string) (input : jvalue).

(** The broker's side of one task list: the tokens handed out and not yet
    retired, and the answers received, in order. *)
Record broker := mkBroker {
  outstanding : gset string;
  answers : list (string * outcome)
}.

(** The broker hands a task out. *)
Definition claim (b : broker) (tok : string) : broker :=
  mkBroker ({[tok]} ∪ outstanding b) (answers b).

(** [respond_activity_task_completed] / [respond_activity_task_failed]:
    refused for a token that is not outstanding. *)
Definition respond (b : broker) (tok : string) (o : outcome) : py broker :=
  if bool_decide (tok ∈ outstanding b)
  then ret (mkBroker (outstanding b ∖ {[tok]}) (answers b ++ [(tok, o)])%list)
  else py_raise (ClientError "UnknownResourceFault").

(** One iteration of a worker loop running [action]. *)
Definition worker_step (action : jvalue -> py outcome) (b : broker) (p : activity_poll) : py broker :=
  match p with
  | NoActivityTask => ret b
  | ActivityTask tok input =>
      o <- action input ;;
      match o with
      | NoReport => ret b
      | _ => respond b tok o
      end
  end.

(** [json.dumps(s)] of a Python string. *)
Definition quote : ascii := "034"%char.
Definition json_str (s : string) : string := String quote (s ++ String quote EmptyString).

(** [OUTPUT.update(INPUT)] for a dict [OUTPUT] and a decoded [INPUT]. *)
Definition py_update (out : dict jvalue) (input : jvalue) : py (dict jvalue) :=
  match input with
  | JObj d => ret (dict_update out d)
  | _ => py_raise (TypeError "dict.update of a non-dict")
  end.

(** [DOC[m] = v] for a key [m] taken from a list: an [int] or a [bool].
    The document's keys are held as the text [json.dumps] gives them, the
    key the next stage decodes; [True] and [1] (and [False] and [0]) are
    one Python key, which keeps the first spelling stored. *)
Definition set_index_key (DOC : dict jvalue) (m : jvalue) (v : jvalue) : dict jvalue :=
  match m with
  | JNum n =>
      let k := pretty n in
      let kb := if (n =? 1)%Z then Some "true" else if (n =? 0)%Z then Some "false" else None in
      match kb with
      | Some b => if bool_decide (dict_get DOC b = None) then dict_set DOC k v else dict_set DOC b v
      | None => dict_set DOC k v
      end
  | JBool b =>
      let k := pretty (Z.b2z b) in
      if bool_decide (dict_get DOC k = None) then dict_set DOC (if b then "true" else "false") v
      else dict_set DOC k v
  | _ => DOC
  end.

(** [for m in METADATA: DOC[m] = METADATA[m]] over a list [l]: each
    element indexes [l] itself, so it must be an [int] (or a [bool]) in
    range. *)
Fixpoint copy_list (l : list jvalue) (DOC : dict jvalue) (ms : list jvalue) : py (dict jvalue) :=
  match ms with
  | [] => ret DOC
  | m :: ms' =>
      v <- (match m with
            | JNum n => py_index l n
            | JBool b => py_index l (Z.b2z b)
            | _ => py_raise (TypeError "list indices must be integers or slices")
            end) ;;
      copy_list l (set_index_key DOC m v) ms'
  end.

(** [for m in METADATA: DOC[m] = METADATA[m]]: a dict is copied key by
    key; a list or a string is iterated too, and an empty one copies
    nothing; a character does not index a string; a number, a boolean or
    [None] is not iterable. *)
Definition copy_metadata (DOC : dict jvalue) (METADATA : jvalue) : py (dict jvalue) :=
  match METADATA with
  | JObj d => ret (dict_update DOC d)
  | JList l => copy_list l DOC l
  | JStr EmptyString => ret DOC
  | JStr _ => py_raise (TypeError "string indices must be integers")
  | _ => py_raise (TypeError "object is not iterable")
  end.

(** [s + '/'] *)
Definition jv_concat (v : jvalue) (s : string) : py string :=
  match v with
  | JStr s' => ret (s' ++ s)
  | _ => py_raise (TypeError "cannot concatenate")
  end.

(** ** The ingestion workers ([src/workflowcode], [src/SFNcode]) *)

(** [identifyAssetClass.py], lines 48-77. *)
Definition identifyAssetClass (EXT : gmap string string) (input : jvalue) : py outcome :=
  result <- Classifier.identify_result EXT input ;; ret (Success result).

(** [processFile] of [SFNcode/extractExifMetadata.py] (lines 67-111): the document
    to register.  [sha1], [fileName], [fileExt], the time and the two
    metadata maps [G] and [I] come from the tools; the user's [METADATA]
    is copied in last, key by key. *)
Definition processFile_exif (sha1 fileName fileExt now : string) (G I : dict jvalue)
    (METADATA : jvalue) (assetClass : jvalue) : py jvalue :=
  let G' := match dict_get G "Latitude", dict_get G "Longitude" with
            | Some la, Some lo => dict_set G "deviceLocation" (JObj [("lat", la); ("lon", lo)])
            | _, _ => G
            end in
  let DOC := [("Filename", JStr fileName); ("Extension", JStr fileExt);
              ("Asset_Class", assetClass); ("Checksum", JStr sha1);
              ("Imported_Time", JStr now); ("General", JObj G'); ("Image", JObj I);
              ("File_Location", JStr "working")] in
  DOC' <- copy_metadata DOC METADATA ;;
  ret (JObj DOC').

(** [SFNcode/extractExifMetadata.py], lines 44-62: [processFile(INPUT['asset'],
    INPUT['metadata'], INPUT['assetClass'])], then the output. *)
Definition extractExifMetadata (processFile : jvalue -> jvalue -> jvalue -> py jvalue) (input : jvalue) : py outcome :=
  asset <- getitem input "asset" ;;
  metadata <- getitem input "metadata" ;;
  assetClass <- getitem input "assetClass" ;;
  DOC <- processFile asset metadata assetClass ;;
  ret (Success (JObj [("DOC", DOC); ("assetClass", assetClass); ("asset", asset)])).

(** [processFile] of [SFNcode/extractMediainfoMetadata.py] (lines 64-105):
    the tracks [G], [V], [A] come from [MediaInfo.parse]; unlike the EXIF
    worker, the user's [METADATA] is copied in before the GPS step, which
    then reads whatever ['General'] holds: a dict gets its
    ['deviceLocation'], a missing coordinate is the caught [KeyError], and
    a value that is not a dict raises an uncaught [TypeError]. *)
Definition processFile_mediainfo (sha1 fileName fileExt now : string) (G V A : dict jvalue)
    (METADATA : jvalue) (assetClass : jvalue) : py jvalue :=
  let DOC := [("Filename", JStr fileName); ("Extension", JStr fileExt);
              ("Checksum", JStr sha1); ("Imported_Time", JStr now); ("General", JObj G);
              ("Video", JObj V); ("Audio", JObj A); ("Asset_Class", assetClass);
              ("File_Location", JStr "working")] in
  DOC' <- copy_metadata DOC METADATA ;;
  match dict_get DOC' "General" with
  | Some (JObj g) =>
      match dict_get g "Latitude", dict_get g "Longitude" with
      | Some la, Some lo =>
          ret (JObj (dict_set DOC' "General" (JObj (dict_set g "deviceLocation" (JObj [("lat", la); ("lon", lo)])))))
      | _, _ => ret (JObj DOC')
      end
  | Some (JList _) | Some (JStr _) => py_raise (TypeError "indices must be integers")
  | Some _ => py_raise (TypeError "object is not subscriptable")
  | None => ret (JObj DOC')
  end.

(** [SFNcode/extractMediainfoMetadata.py], lines 44-60: the same reads and
    output as the EXIF worker. *)
Definition extractMediainfoMetadata (processFile : jvalue -> jvalue -> jvalue -> py jvalue) (input : jvalue) : py outcome :=
  asset <- getitem input "asset" ;;
  metadata <- getitem input "metadata" ;;
  assetClass <- getitem input "assetClass" ;;
  DOC <- processFile asset metadata assetClass ;;
  ret (Success (JObj [("DOC", DOC); ("assetClass", assetClass); ("asset", asset)])).

(** The result of [subprocess.check_output(cmd)]: the tool's output, or
    the [CalledProcessError] it raised, with its text [str(err)]. *)
Inductive tool_run :=
| ToolOutput (output : string)
| ToolError (err : string).

(** [createThumbnailFromImage.py], lines 56-122: [convert] returns its
    output or fails with [CalledProcessError]. *)
Definition createThumbnailFromImage (convert : tool_run) (input : jvalue) : py outcome :=
  asset <- getitem input "asset" ;;
  dbPrimaryKey <- getitem input "dbPrimaryKey" ;;
  match convert with
  | ToolOutput output =>
      assetClass <- getitem input "assetClass" ;;
      ret (Success (JObj [("tool", JStr output); ("dbPrimaryKey", dbPrimaryKey);
                          ("assetClass", assetClass); ("asset", asset)]))
  | ToolError err => ret (Failure (json_str "THB-0001_Error in image thumbnail creation")
                                  (json_str err))
  end.

(** [createThumbnailFromVideo.py], lines 62-206. *)
Definition createThumbnailFromVideo (ffmpeg : tool_run) (input : jvalue) : py outcome :=
  asset <- getitem input "asset" ;;
  dbPrimaryKey <- getitem input "dbPrimaryKey" ;;
  match ffmpeg with
  | ToolOutput output =>
      assetClass <- getitem input "assetClass" ;;
      ret (Success (JObj [("tool", JStr output); ("dbPrimaryKey", dbPrimaryKey);
                          ("assetClass", assetClass); ("asset", asset)]))
  | ToolError err => ret (Failure (json_str "THB-0002_Error in video thumbnail creation")
                                  (json_str err))
  end.

(** [transcodeVideoDefault.py], lines 59-125: the [except] block starts
    with [logger.log(...)], and no [logger] is defined in the script. *)
Definition transcodeVideoDefault (ffmpeg : tool_run) (input : jvalue) : py outcome :=
  asset <- getitem input "asset" ;;
  dbPrimaryKey <- getitem input "dbPrimaryKey" ;;
  match ffmpeg with
  | ToolOutput output =>
      assetClass <- getitem input "assetClass" ;;
      ret (Success (JObj [("tool", JStr output); ("dbPrimaryKey", dbPrimaryKey);
                          ("assetClass", assetClass); ("asset", asset)]))
  | ToolError _ => py_raise (NameError "logger")
  end.

(** [distributeToS3.py], lines 51-106 (the uploads and the catalogue update
    do not change the output). *)
Definition distributeToS3 (input : jvalue) : py outcome :=
  asset <- getitem input "asset" ;;
  dbPrimaryKey <- getitem input "dbPrimaryKey" ;;
  assetClass <- getitem input "assetClass" ;;
  ret (Success (JObj [("result", JStr "success"); ("dbPrimaryKey", dbPrimaryKey);
                      ("assetClass", assetClass); ("asset", asset)])).

(** [cleanUpLandingPad.py], lines 53-77: [shutil.rmtree] of the asset's
    directory ([rmtree_ok] is its success), then the input passed back. *)
Definition cleanUpLandingPad (rmtree_ok : bool) (input : jvalue) : py outcome :=
  _ <- getitem input "asset" ;;
  if rmtree_ok then
    OUTPUT <- py_update [("result", JStr "success")] input ;;
    ret (Success (JObj OUTPUT))
  else py_raise (OSError "rmtree").

(** ** The lifecycle workers *)

(** [SFNcode/moveFiles.py] (lines 53-166) keeps its local [OUTPUT] from one task to the next: a
    move that takes neither branch reuses (and extends) the dict of the
    previous task, or dies with [UnboundLocalError] on the first task.  A
    move to the archive first downloads the objects (lines 117-127); an
    [OSError] of [os.makedirs] there reads [errno.EEXIST], and [errno] is
    not imported, so it raises [NameError]: [dirs_ok] is whether every
    [os.makedirs] the loop calls succeeds. *)
Definition moveFiles (subDir : string) (dirs_ok : bool) (prev : option (dict jvalue)) (input : jvalue)
    : py (option (dict jvalue) * outcome) :=
  source <- getitem input "locationSource" ;;
  destination <- getitem input "locationDestination" ;;
  _ <- getitem input "dbPrimaryKey" ;;
  fk <- getitem input "fileKey" ;;
  _ <- jv_concat fk "/" ;;
  let warm := (jv_eq_str source "CDN" && jv_eq_str destination "near_line") ||
              (jv_eq_str source "near_line" && jv_eq_str destination "CDN") in
  let cold := jv_eq_str source "archive" || jv_eq_str destination "archive" in
  OUTPUT <- (if warm then ret [("result", JStr "success")]
             else if cold then
               if jv_eq_str source "archive" || dirs_ok
               then ret [("result", JStr "success"); ("asset", JStr (subDir ++ "dummy.file"))]
               else py_raise (NameError "errno")
             else opt_or_raise (UnboundLocalError "OUTPUT") prev) ;;
  OUTPUT' <- py_update OUTPUT input ;;
  ret (Some OUTPUT', Success (JObj OUTPUT')).

(** [SFNcode/deleteFiles.py], lines 52-108: only the two S3 tiers are handled; any
    other source hits [continue] before the report. *)
Definition deleteFiles (input : jvalue) : py outcome :=
  source <- getitem input "locationSource" ;;
  _ <- getitem input "locationDestination" ;;
  _ <- getitem input "dbPrimaryKey" ;;
  fk <- getitem input "fileKey" ;;
  _ <- jv_concat fk "/" ;;
  if jv_eq_str source "CDN" || jv_eq_str source "near_line"
  then ret (Success (JObj [("result", JStr "success")]))
  else ret NoReport.

(** The [moveFiles] loop with its persistent [OUTPUT]. *)
Fixpoint run_moveFiles (subDir : string) (dirs_ok : bool) (prev : option (dict jvalue)) (b : broker)
    (tasks : list (string * jvalue)) : py broker :=
  match tasks with
  | [] => ret b
  | (tok, input) :: rest =>
      r <- moveFiles subDir dirs_ok prev input ;;
      let '(prev', o) := r in
      b' <- respond (claim b tok) tok o ;;
      run_moveFiles subDir dirs_ok prev' b' rest
  end.

(** ** Theorems *)

(** The three fields every ingestion stage after registration must pass on. *)
Definition carries (input output : jvalue) : Prop :=
  forall k, In k ["asset"; "assetClass"; "dbPrimaryKey"] -> getitem output k = getitem input k.

Lemma respond_outstanding b tok o :
  tok ∈ outstanding b ->
  respond b tok o = inr (mkBroker (outstanding b ∖ {[tok]}) (answers b ++ [(tok, o)])%list).
Proof. intros H. unfold respond. by rewrite bool_decide_true. Qed.

(** A worker retires exactly the token it claimed: when the action
    ends with a report, the iteration removes the token from the
    outstanding set and appends exactly one answer for it. *)
Theorem worker_step_retires action b tok input o :
  tok ∈ outstanding b -> action input = inr o -> o <> NoReport ->
  exists b', worker_step action b (ActivityTask tok input) = inr b' /\
    tok ∉ outstanding b' /\ outstanding b' = outstanding b ∖ {[tok]} /\
    answers b' = (answers b ++ [(tok, o)])%list.
Proof.
  intros Hin Ha Ho. simpl. rewrite Ha. cbn [py_bind].
  assert (Hr : respond b tok o = inr (mkBroker (outstanding b ∖ {[tok]}) (answers b ++ [(tok, o)])%list))
    by by apply respond_outstanding.
  destruct o; [| |done]; (eexists; split; [exact Hr|]); simpl; repeat split; set_solver.
Qed.

(** A token is single-use: once answered, a second answer with the
    same token is refused. *)
Theorem respond_single_use b b' tok o o' :
  respond b tok o = inr b' -> respond b' tok o' = inl (ClientError "UnknownResourceFault").
Proof.
  unfold respond. case_bool_decide as H; [|discriminate]. intros [= <-].
  rewrite bool_decide_false; [done|]. simpl. set_solver.
Qed.

(** [deleteFiles] never answers a task whose source tier is the
    archive: the token stays outstanding and the broker is unchanged (the
    task is orphaned). *)
Theorem deleteFiles_archive_orphans b tok input key fileKey dst :
  getitem input "locationSource" = inr (JStr "archive") ->
  getitem input "locationDestination" = inr dst ->
  getitem input "dbPrimaryKey" = inr key ->
  getitem input "fileKey" = inr (JStr fileKey) ->
  worker_step deleteFiles b (ActivityTask tok input) = inr b.
Proof.
  intros Hs Hd Hk Hf. simpl. unfold deleteFiles. rewrite Hs, Hd, Hk, Hf. reflexivity.
Qed.

(** C22. A failed transcode is never reported: when [ffmpeg] fails the
    [except] block raises [NameError] before [respond_activity_task_failed],
    so the worker process dies with the token outstanding. *)
Theorem transcode_failure_unreported b tok input a k err :
  getitem input "asset" = inr a -> getitem input "dbPrimaryKey" = inr k ->
  worker_step (transcodeVideoDefault (ToolError err)) b (ActivityTask tok input) = inl (NameError "logger").
Proof. intros Ha Hk. simpl. unfold transcodeVideoDefault. by rewrite Ha, Hk. Qed.

Ltac carry_tac :=
  intros k Hk; repeat destruct Hk as [<-|Hk]; try contradiction; reflexivity.

(** The thumbnail, transcode and distribution workers answer with a dict
    that holds the three carried fields, with their input's values. *)
Lemma ingest_outputs_carry input tool o :
  (createThumbnailFromImage (ToolOutput tool) input = inr o \/
   createThumbnailFromVideo (ToolOutput tool) input = inr o \/
   transcodeVideoDefault (ToolOutput tool) input = inr o \/
   distributeToS3 input = inr o) ->
  exists out, o = Success out /\ carries input out /\
    forall k, In k ["asset"; "assetClass"; "dbPrimaryKey"] -> exists v, getitem out k = inr v.
Proof.
  unfold createThumbnailFromImage, createThumbnailFromVideo, transcodeVideoDefault, distributeToS3.
  destruct (getitem input "asset") as [|a] eqn:Ha; [intros [H|[H|[H|H]]]; discriminate|].
  destruct (getitem input "dbPrimaryKey") as [|k] eqn:Hk; [intros [H|[H|[H|H]]]; discriminate|].
  destruct (getitem input "assetClass") as [|c] eqn:Hc; [intros [H|[H|[H|H]]]; discriminate|].
  cbn [py_bind py_ret]. intros [H|[H|[H|H]]]; injection H as <-; eexists; (split; [reflexivity|]);
    split; intros k' Hk'; repeat destruct Hk' as [<-|Hk']; try contradiction; cbn; eauto; congruence.
Qed.

Lemma carries_trans a b c : carries a b -> carries b c -> carries a c.
Proof. intros Hab Hbc k Hk. by rewrite Hbc, Hab. Qed.

(** Carried-forward fields: the thumbnail, transcode and distribution
    workers answer with the asset, class and catalogue key of their input,
    unchanged. *)
Theorem ingest_workers_carry input tool o :
  (createThumbnailFromImage (ToolOutput tool) input = inr o \/
   createThumbnailFromVideo (ToolOutput tool) input = inr o \/
   transcodeVideoDefault (ToolOutput tool) input = inr o \/
   distributeToS3 input = inr o) ->
  exists out, o = Success out /\ carries input out.
Proof. intros H. destruct (ingest_outputs_carry input tool o H) as (out & ? & ? & _). eauto. Qed.

(** [cleanUpLandingPad] passes its input back: every key of the input
    document is in the answer with the same value. *)
Theorem cleanUp_passes_input d o :
  dict_wf d -> cleanUpLandingPad true (JObj d) = inr o ->
  exists out, o = Success (JObj out) /\ forall k v, dict_get d k = Some v -> dict_get out k = Some v.
Proof.
  intros Hwf. unfold cleanUpLandingPad. destruct (getitem (JObj d) "asset"); [discriminate|].
  cbn [py_bind py_ret py_update]. intros [= <-]. eexists. split; [reflexivity|].
  intros k v Hk. by rewrite dict_get_update, Hk.
Qed.

(** C25. The user's metadata is copied over the computed document: a
    ['Checksum'] key in the upload metadata replaces the checksum the
    worker computed, and the registration then uses it as primary key. *)
Theorem processFile_checksum sha1 fileName fileExt now G I M assetClass :
  dict_wf M ->
  py_bind (processFile_exif sha1 fileName fileExt now G I (JObj M) assetClass)
    (fun DOC => getitem DOC "Checksum") =
  inr (match dict_get M "Checksum" with Some v => v | None => JStr sha1 end).
Proof.
  intros Hwf. unfold processFile_exif. cbn [copy_metadata py_bind py_ret getitem].
  rewrite dict_get_update by done. by destruct (dict_get M "Checksum").
Qed.

(** A pair of tiers that takes neither branch of [moveFiles]. *)
Lemma neither_tiers src dst :
  src <> "archive" -> dst <> "archive" -> ~ (src = "CDN" /\ dst = "near_line") -> ~ (src = "near_line" /\ dst = "CDN") ->
  ((String.eqb src "CDN" && String.eqb dst "near_line") || (String.eqb src "near_line" && String.eqb dst "CDN")) = false /\
  (String.eqb src "archive" || String.eqb dst "archive") = false.
Proof.
  intros Hsa Hta Hw1 Hw2.
  destruct (String.eqb_spec src "CDN"), (String.eqb_spec dst "near_line"), (String.eqb_spec src "near_line"),
    (String.eqb_spec dst "CDN"), (String.eqb_spec src "archive"), (String.eqb_spec dst "archive");
    subst; try congruence; tauto.
Qed.



(** The extraction worker cannot run on the input the ingestion
    decider builds for it ([asset], [METADATA], [assetClass]): it raises
    [KeyError('metadata')] before any report. *)
Theorem extract_rejects_decider_input pf b tok a m c :
  worker_step (extractExifMetadata pf) b
    (ActivityTask tok (JObj [("asset", a); ("METADATA", m); ("assetClass", c)]))
  = inl (KeyError "metadata").
Proof. reflexivity. Qed.

(** Witnesses. *)

Definition sample_delete_input : jvalue :=
  JObj [("dbPrimaryKey", JStr "k"); ("fileKey", JStr "f"); ("assetClass", JStr "Video");
        ("locationSource", JStr "archive"); ("locationDestination", JStr "CDN")].

Definition sample_stage_input : jvalue :=
  JObj [("asset", JStr "/up/v/v.mov"); ("assetClass", JStr "Video"); ("dbPrimaryKey", JStr "k")].

Definition sample_stage_output : jvalue :=
  JObj [("result", JStr "success"); ("dbPrimaryKey", JStr "k");
        ("assetClass", JStr "Video"); ("asset", JStr "/up/v/v.mov")].

Lemma worker_step_retires_witness :
  exists b', worker_step distributeToS3 (claim (mkBroker ∅ []) "t") (ActivityTask "t" sample_stage_input) = inr b' /\
    "t" ∉ outstanding b' /\ outstanding b' = outstanding (claim (mkBroker ∅ []) "t") ∖ {[ "t" ]} /\
    answers b' = (answers (claim (mkBroker ∅ []) "t") ++ [("t", Success sample_stage_output)])%list.
Proof.
  apply (worker_step_retires distributeToS3 (claim (mkBroker ∅ []) "t") "t" sample_stage_input
           (Success sample_stage_output)); [simpl; set_solver | reflexivity | discriminate].
Defined.

Lemma respond_single_use_witness :
  respond (claim (mkBroker ∅ []) "t") "t" (Success sample_stage_output)
    = inr (mkBroker (({[ "t" ]} ∪ ∅) ∖ {[ "t" ]}) [("t", Success sample_stage_output)]) /\
  respond (mkBroker (({[ "t" ]} ∪ ∅) ∖ {[ "t" ]}) [("t", Success sample_stage_output)]) "t" NoReport
    = inl (ClientError "UnknownResourceFault").
Proof.
  split; [vm_compute; reflexivity|].
  apply (respond_single_use (claim (mkBroker ∅ []) "t") _ "t" (Success sample_stage_output) NoReport).
  vm_compute. reflexivity.
Defined.

Lemma deleteFiles_archive_orphans_witness :
  worker_step deleteFiles (claim (mkBroker ∅ []) "t") (ActivityTask "t" sample_delete_input)
  = inr (claim (mkBroker ∅ []) "t").
Proof. apply (deleteFiles_archive_orphans _ _ _ (JStr "k") "f" (JStr "CDN")); reflexivity. Defined.

Lemma transcode_failure_unreported_witness :
  worker_step (transcodeVideoDefault (ToolError "exit status 1")) (claim (mkBroker ∅ []) "t")
    (ActivityTask "t" sample_stage_input)
  = inl (NameError "logger").
Proof. apply (transcode_failure_unreported _ _ _ (JStr "/up/v/v.mov") (JStr "k")); reflexivity. Defined.

Lemma ingest_workers_carry_witness :
  exists out, Success sample_stage_output = Success out /\ carries sample_stage_input out.
Proof. apply (ingest_workers_carry sample_stage_input "ok"). right; right; right. reflexivity. Defined.

Lemma cleanUp_passes_input_witness :
  exists out, Success (JObj (("result", JStr "success") :: [("asset", JStr "/up/v/v.mov"); ("assetClass", JStr "Video"); ("dbPrimaryKey", JStr "k")])) = Success (JObj out) /\
    forall k v, dict_get [("asset", JStr "/up/v/v.mov"); ("assetClass", JStr "Video"); ("dbPrimaryKey", JStr "k")] k = Some v ->
                dict_get out k = Some v.
Proof.
  apply cleanUp_passes_input; [|reflexivity].
  apply (bool_decide_unpack _). vm_compute. reflexivity.
Defined.

Lemma processFile_checksum_witness :
  py_bind (processFile_exif "sha" "a" ".jpg" "t" [] [] (JObj [("Checksum", JStr "forged")]) (JStr "Image"))
    (fun DOC => getitem DOC "Checksum") = inr (JStr "forged").
Proof.
  apply (processFile_checksum "sha" "a" ".jpg" "t" [] [] [("Checksum", JStr "forged")] (JStr "Image")).
  apply (bool_decide_unpack _). vm_compute. reflexivity.
Defined.

End Worker.
