(* ===== verification/Metadata.v ===== *)
(** * Reshaping the tools' metadata: [parseMediaToDict]

    The two extraction workers of [src/SFNcode] turn the output of a
    metadata tool into the tracks of the catalogue document.
    [extractExifMetadata.py] reads the JSON of [exiftool]: it trims the
    altitude to its number, drops the embedded thumbnail, removes the
    double quotes its own [-d] / [-c] formats put around dates and
    coordinates, moves the fields of [initMapping] to the [General] track
    under their catalogue names, and adds the address of the coordinates
    and a fallback recording date.  [extractMediainfoMetadata.py] walks the
    tracks of [MediaInfo.parse]: it skips [other*] keys, renames the
    QuickTime keys of its [initMapping], turns the ISO 6709 location into
    coordinates and an address (first one wins), normalises dates and
    files each key under the [General], [Video] or [Audio] track (last one
    wins).

    [Metadata] models both functions.  The helpers of [parseHelper]
    ([reverseLookup], [parseGPS], [parseDate], outside the repository and
    calling external services) are parameters of Sections.  Python 2
    iterates a dict in an order of its own; the model iterates
    [initMapping] in its insertion order (the result of the EXIF loop does
    not depend on it: its keys and names are distinct) and a track's items
    in the order given.  The theorems give the shape of the EXIF tracks
    (the keys the [General] track can have, what is left in the [Image]
    track), the invariant of the MediaInfo loop (no [other*] key and no
    raw location key is ever stored), and the crash of both parsers on a
    geocoding answer without result. *)

From stdpp Require Import base list strings.
From Stdlib Require Import String Ascii ZArith.
From S2P Require Import Prelude Json.

Open Scope string_scope.
Local Open Scope py_scope.

Module Metadata.

(** ** Shared helpers *)

Definition dquote : ascii := "034"%char.

(** [string.split(s, ' ')[0]]: the text before the first space. *)
Fixpoint first_field (s : string) : string :=
  match s with
  | EmptyString => EmptyString
  | String c s' => if Ascii.eqb c " " then EmptyString else String c (first_field s')
  end.

(** [s.replace(dquote, '')], [dquote] being the double quote character. *)
Fixpoint remove_quotes (s : string) : string :=
  match s with
  | EmptyString => EmptyString
  | String c s' => if Ascii.eqb c dquote then remove_quotes s' else String c (remove_quotes s')
  end.

(** A value the code uses as a dict. *)
Definition as_dict (v : jvalue) : py (dict jvalue) :=
  match v with
  | JObj d => ret d
  | _ => py_raise (TypeError "indices must be integers")
  end.

Definition has_key (d : dict jvalue) (k : string) : bool :=
  match dict_get d k with Some _ => true | None => false end.

(** ** EXIF: [SFNcode/extractExifMetadata.py], lines 113-197 *)

(** [initMapping()], lines 113-136. *)
Definition exif_MAPPING : dict string :=
  [("GPSLatitude", "Latitude"); ("GPSAltitude", "Altitude"); ("GPSLongitude", "Longitude");
   ("Make", "make"); ("Model", "model"); ("Software", "software");
   ("GPSDateTime", "recorded_date"); ("FileSize", "file_size")].

(** Lines 159-162: [I['GPSAltitude'] = string.split(I['GPSAltitude'], ' ')[0]],
    the [KeyError] of a missing altitude caught; a value that is not a
    string has no [split]. *)
Definition trim_altitude (I : dict jvalue) : py (dict jvalue) :=
  match dict_get I "GPSAltitude" with
  | None => ret I
  | Some (JStr s) => ret (dict_set I "GPSAltitude" (JStr (first_field s)))
  | Some _ => py_raise (AttributeError "split")
  end.

(** Lines 168-172: [I[k] = v.replace(dquote, '')], the [AttributeError] of a
    value that is not a string caught. *)
Definition strip_value (v : jvalue) : jvalue :=
  match v with
  | JStr s => JStr (remove_quotes s)
  | _ => v
  end.

(** Lines 176-181, one item of [MAPPING]: [G[v] = I[k]; I.pop(k)], the
    [KeyError] of a missing field caught. *)
Definition move_mapped (GI : dict jvalue * dict jvalue) (kv : string * string) : dict jvalue * dict jvalue :=
  let '(Gen, Img) := GI in
  let '(k, v) := kv in
  match dict_get Img k with
  | Some x => (dict_set Gen v x, dict_pop Img k)
  | None => (Gen, Img)
  end.

(** Lines 191-195: [if 'recorded_date' not in G: G['recorded_date'] =
    I['DateTimeOriginal']], the [KeyError] caught. *)
Definition recorded_fallback (G I : dict jvalue) : py (dict jvalue) :=
  try_KeyError
    (if has_key G "recorded_date" then ret G
     else d <- opt_or_raise (KeyError "DateTimeOriginal") (dict_get I "DateTimeOriginal") ;;
          ret (dict_set G "recorded_date" d))
    (ret G).

Section Exif.

(** [parseHelper.reverseLookup(lat, lon)]: the geocoder's answer. *)
Context (reverseLookup : jvalue -> jvalue -> py jvalue).

(** Lines 184-187: [G['Address'] = reverseLookup(G['Latitude'],
    G['Longitude'])[0]['formatted_address']], only [KeyError] caught. *)
Definition exif_address (G : dict jvalue) : py (dict jvalue) :=
  try_KeyError
    (la <- opt_or_raise (KeyError "Latitude") (dict_get G "Latitude") ;;
     lo <- opt_or_raise (KeyError "Longitude") (dict_get G "Longitude") ;;
     res <- reverseLookup la lo ;;
     first <- item0 res ;;
     a <- getitem first "formatted_address" ;;
     ret (dict_set G "Address" a))
    (ret G).

(** [parseMediaToDict(info)], lines 138-197, on the decoded output of
    [exiftool -j] ([json.loads(info)[0]] is the one file's record). *)
Definition exif_parseMediaToDict (info : jvalue) : py (dict jvalue * dict jvalue) :=
  top <- item0 info ;;
  I0 <- as_dict top ;;
  I1 <- trim_altitude I0 ;;
  let I2 := dict_pop I1 "ThumbnailImage" in
  let I3 := map (fun kv => (kv.1, strip_value kv.2)) I2 in
  let '(G, I4) := fold_left move_mapped exif_MAPPING ([], I3) in
  G1 <- exif_address G ;;
  G2 <- recorded_fallback G1 I4 ;;
  ret (G2, I4).

End Exif.

(** ** MediaInfo: [SFNcode/extractMediainfoMetadata.py], lines 107-195 *)

(** [initMapping()], lines 107-115. *)
Definition mi_MAPPING : dict string :=
  [("comapplequicktimemake", "make"); ("comapplequicktimemodel", "model");
   ("comapplequicktimecreationdate", "recorded_date"); ("comapplequicktimesoftware", "software");
   ("comapplequicktimelocationiso6709", "xyz")].

Definition DATES : list string := ["encoded_date"; "tagged_date"; "file_last_modification_date"].
Definition GPS : list string := ["xyz"].

(** The three tracks [G], [V], [A]. *)
Record tracks := mkTracks { G : dict jvalue; V : dict jvalue; A : dict jvalue }.

Definition tracks0 : tracks := mkTracks [] [] [].

(** [d[k] = v] if [k] is not yet in [d]. *)
Definition set_default (d : dict jvalue) (k : string) (v : jvalue) : dict jvalue :=
  if has_key d k then d else dict_set d k v.

Section Mediainfo.

(** [parseHelper.parseGPS], [parseHelper.parseDate],
    [parseHelper.reverseLookup]. *)
Context (parseGPS : jvalue -> py (jvalue * jvalue * jvalue))
        (parseDate : jvalue -> py jvalue)
        (reverseLookup : jvalue -> jvalue -> py jvalue).

(** Lines 144-183: one [(key, value)] of a track of type [trackType]. *)
Definition mi_item (trackType : string) (acc : tracks) (kv : string * jvalue) : py tracks :=
  let '(key0, value) := kv in
  if String.eqb (substring 0 5 key0) "other" then ret acc
  else
    let key := match dict_get mi_MAPPING key0 with Some k => k | None => key0 end in
    if bool_decide (key ∈ GPS) then
      r <- parseGPS value ;;
      let '(latitude, longitude, altitude) := r in
      let G1 := set_default (set_default (G acc) "Latitude" latitude) "Longitude" longitude in
      let G2 := if negb (jv_eq_str altitude "") then set_default G1 "Altitude" altitude else G1 in
      address <- reverseLookup latitude longitude ;;
      G3 <- (if has_key G2 "Address" then ret G2
             else first <- item0 address ;;
                  a <- getitem first "formatted_address" ;;
                  ret (dict_set G2 "Address" a)) ;;
      ret (mkTracks G3 (V acc) (A acc))
    else
      value' <- (if bool_decide (key ∈ DATES) then parseDate value else ret value) ;;
      if String.eqb trackType "General" then ret (mkTracks (dict_set (G acc) key value') (V acc) (A acc))
      else if String.eqb trackType "Video" then ret (mkTracks (G acc) (dict_set (V acc) key value') (A acc))
      else if String.eqb trackType "Audio" then ret (mkTracks (G acc) (V acc) (dict_set (A acc) key value'))
      else ret acc.

(** [parseMediaToDict(asset)], lines 118-195, on the tracks of
    [MediaInfo.parse(asset)]: each track's type and [to_data()] items. *)
Definition mi_parseMediaToDict (MI : list (string * dict jvalue)) : py tracks :=
  py_fold (fun acc track => py_fold (mi_item track.1) track.2 acc) MI tracks0.

End Mediainfo.

(** ** Theorems *)

(** The keys the [General] track of an EXIF document can have. *)
Definition exif_general_keys : list string :=
  ["Latitude"; "Altitude"; "Longitude"; "make"; "model"; "software"; "recorded_date"; "file_size";
   "Address"].

(** A string without double quote. *)
Definition no_quote (s : string) : bool :=
  forallb (fun c => negb (Ascii.eqb c dquote)) (list_ascii_of_string s).

Lemma remove_quotes_no_quote s : no_quote (remove_quotes s) = true.
Proof.
  unfold no_quote. induction s as [|c s IH]; [done|]. cbn [remove_quotes].
  destruct (Ascii.eqb c dquote) eqn:Hc; [exact IH|]. cbn. by rewrite Hc, IH.
Qed.

(** The mapping loop moves each mapped field out of the image track and
    writes only the catalogue names into the general track. *)
Lemma move_mapped_fold ms Gen Img :
  let '(Gen', Img') := fold_left move_mapped ms (Gen, Img) in
  (forall k v, dict_get Gen' k = Some v -> dict_get Gen k = Some v \/ In k (map snd ms)) /\
  (forall k, In k (map fst ms) -> dict_get Img' k = None) /\
  (forall k v, dict_get Img' k = Some v -> dict_get Img k = Some v).
Proof.
  revert Gen Img. induction ms as [|[k0 v0] ms IH]; intros Gen Img; cbn [fold_left].
  { split; [auto|]. split; [intros ? []|auto]. }
  destruct (dict_get Img k0) as [x|] eqn:Hx; cbn [move_mapped];
    rewrite Hx; [specialize (IH (dict_set Gen v0 x) (dict_pop Img k0))|specialize (IH Gen Img)];
    destruct (fold_left move_mapped ms _) as [Gen' Img']; destruct IH as (HG & HI & Hv);
    (split; [|split]).
  - intros k v Hk. destruct (HG k v Hk) as [Hg|]; [|by right; right].
    rewrite dict_get_set in Hg. destruct (String.eqb_spec k v0) as [->|]; [by right; left|by left].
  - intros k [<-|Hk]; [|by apply HI]. destruct (dict_get Img' k0) as [v|] eqn:Hv'; [|done].
    apply Hv in Hv'. rewrite dict_get_pop, String.eqb_refl in Hv'. discriminate.
  - intros k v Hk. apply Hv in Hk. rewrite dict_get_pop in Hk. by destruct (String.eqb k k0).
  - intros k v Hk. destruct (HG k v Hk) as [|]; [by left|by right; right].
  - intros k [<-|Hk]; [|by apply HI]. destruct (dict_get Img' k0) as [v|] eqn:Hv'; [|done].
    apply Hv in Hv'. congruence.
  - exact Hv.
Qed.

Lemma exif_address_keys rl Gen Gen' :
  exif_address rl Gen = inr Gen' ->
  forall k v, dict_get Gen' k = Some v -> dict_get Gen k = Some v \/ k = "Address".
Proof.
  unfold exif_address. intros [H|H]%try_KeyError_inr k v Hk; [|injection H as ->; by left].
  apply py_bind_inr_inv in H as (la & _ & H). apply py_bind_inr_inv in H as (lo & _ & H).
  apply py_bind_inr_inv in H as (res & _ & H). apply py_bind_inr_inv in H as (first & _ & H).
  apply py_bind_inr_inv in H as (a & _ & H). injection H as <-.
  rewrite dict_get_set in Hk. destruct (String.eqb_spec k "Address"); [by right|by left].
Qed.

Lemma recorded_fallback_keys Gen Img Gen' :
  recorded_fallback Gen Img = inr Gen' ->
  forall k v, dict_get Gen' k = Some v -> dict_get Gen k = Some v \/ k = "recorded_date".
Proof.
  unfold recorded_fallback. intros [H|H]%try_KeyError_inr k v Hk; [|injection H as ->; by left].
  destruct (has_key Gen "recorded_date"); [injection H as ->; by left|].
  apply py_bind_inr_inv in H as (d & _ & H). injection H as <-.
  rewrite dict_get_set in Hk. destruct (String.eqb_spec k "recorded_date"); [by right|by left].
Qed.

(** C20. The shape of the EXIF tracks: whatever [exiftool] reports and
    whatever the geocoder answers, a successful [parseMediaToDict] gives a
    [General] track whose keys are among the nine catalogue names, and an
    [Image] track that holds none of the mapped [exiftool] fields nor the
    embedded [ThumbnailImage], and whose strings hold no double quote. *)
Theorem exif_tracks_shape rl info Gen Img :
  exif_parseMediaToDict rl info = inr (Gen, Img) ->
  (forall k v, dict_get Gen k = Some v -> In k exif_general_keys) /\
  (forall k, In k (map fst exif_MAPPING) \/ k = "ThumbnailImage" -> dict_get Img k = None) /\
  (forall k s, dict_get Img k = Some (JStr s) -> no_quote s = true).
Proof.
  unfold exif_parseMediaToDict. intros H.
  apply py_bind_inr_inv in H as (top & _ & H). apply py_bind_inr_inv in H as (I0 & _ & H).
  apply py_bind_inr_inv in H as (I1 & _ & H).
  pose proof (move_mapped_fold exif_MAPPING []
    (map (fun kv => (kv.1, strip_value kv.2)) (dict_pop I1 "ThumbnailImage"))) as Hf.
  destruct (fold_left move_mapped exif_MAPPING _) as [G0 I4]. destruct Hf as (HG & HI & Hv).
  apply py_bind_inr_inv in H as (G1 & H1 & H). apply py_bind_inr_inv in H as (G2 & H2 & H).
  injection H as <- <-. split; [|split].
  - intros k v Hk. destruct (recorded_fallback_keys _ _ _ H2 k v Hk) as [Hk1| ->]; [|cbn; tauto].
    destruct (exif_address_keys _ _ _ H1 k v Hk1) as [Hk0| ->]; [|cbn; tauto].
    destruct (HG k v Hk0) as [Habs|Hin]; [discriminate|]. cbn in Hin. cbn. tauto.
  - intros k [Hk| ->]; [by apply HI|]. destruct (dict_get I4 "ThumbnailImage") as [v|] eqn:Hv4; [|done].
    apply Hv in Hv4. by rewrite dict_get_map, dict_get_pop, String.eqb_refl in Hv4.
  - intros k s Hk. apply Hv in Hk. rewrite dict_get_map in Hk.
    destruct (dict_get _ k) as [[| | |s0| |]|]; cbn in Hk; try discriminate.
    injection Hk as <-. apply remove_quotes_no_quote.
Qed.

(** An answer of the geocoder without result ([[]], for coordinates
    nowhere near an address) is an [IndexError] the EXIF parser does not
    catch: the extraction worker dies. *)
Lemma exif_address_no_result rl Gen la lo :
  dict_get Gen "Latitude" = Some la -> dict_get Gen "Longitude" = Some lo ->
  rl la lo = inr (JList []) -> exif_address rl Gen = inl IndexError.
Proof. intros Hla Hlo Hr. unfold exif_address. by rewrite Hla, Hlo; cbn; rewrite Hr. Qed.

(** The keys the MediaInfo loop may store: never an [other*] key and
    never the raw location key [xyz]. *)
Definition mi_key_ok (k : string) : Prop := substring 0 5 k <> "other" /\ k <> "xyz".

Definition dict_ok (d : dict jvalue) : Prop := forall k x, dict_get d k = Some x -> mi_key_ok k.

Definition tracks_ok (t : tracks) : Prop := dict_ok (G t) /\ dict_ok (V t) /\ dict_ok (A t).

Lemma dict_ok_set d k v : mi_key_ok k -> dict_ok d -> dict_ok (dict_set d k v).
Proof. intros Hk Hd k' x. rewrite dict_get_set. destruct (String.eqb_spec k' k) as [->|]; eauto. Qed.

Lemma dict_ok_set_default d k v : mi_key_ok k -> dict_ok d -> dict_ok (set_default d k v).
Proof. intros Hk Hd. unfold set_default. destruct (has_key d k); [done|]. by apply dict_ok_set. Qed.

Lemma mi_key_ok_literal k : bool_decide (mi_key_ok k) = true -> mi_key_ok k.
Proof. apply bool_decide_eq_true. Qed.

Ltac key_ok := apply mi_key_ok_literal; vm_compute; reflexivity.

Section MediainfoInv.
Context (parseGPS : jvalue -> py (jvalue * jvalue * jvalue)) (parseDate : jvalue -> py jvalue)
        (reverseLookup : jvalue -> jvalue -> py jvalue).

Lemma mi_item_ok trackType acc kv acc' :
  tracks_ok acc -> mi_item parseGPS parseDate reverseLookup trackType acc kv = inr acc' -> tracks_ok acc'.
Proof.
  destruct kv as [key0 value]. unfold mi_item. intros (HG & HV & HA).
  destruct (String.eqb_spec (substring 0 5 key0) "other") as [_|Hother]; [by intros [= <-]|].
  set (key := match dict_get mi_MAPPING key0 with Some k => k | None => key0 end).
  assert (Hkey : substring 0 5 key <> "other").
  { subst key. unfold mi_MAPPING; cbn [dict_get]. repeat case_match; simplify_eq; try exact Hother; intros Habs; vm_compute in Habs; congruence. }
  case_bool_decide as Hgps.
  - intros H. apply py_bind_inr_inv in H as ([[la lo] al] & _ & H).
    apply py_bind_inr_inv in H as (address & _ & H). apply py_bind_inr_inv in H as (G3 & HG3 & H).
    injection H as <-. split; [|done].
    assert (Hd : dict_ok (if negb (jv_eq_str al "")
                          then set_default (set_default (set_default (G acc) "Latitude" la) "Longitude" lo)
                                 "Altitude" al
                          else set_default (set_default (G acc) "Latitude" la) "Longitude" lo)).
    { destruct (negb _); repeat apply dict_ok_set_default; try key_ok; done. }
    destruct (has_key _ "Address"); [by injection HG3 as <-|].
    apply py_bind_inr_inv in HG3 as (first & _ & HG3). apply py_bind_inr_inv in HG3 as (a & _ & HG3).
    injection HG3 as <-. apply dict_ok_set; [key_ok|done].
  - intros H. apply py_bind_inr_inv in H as (value' & _ & H).
    assert (Hok : mi_key_ok key) by (split; [done|intros Hx; apply Hgps; rewrite Hx; by left]).
    repeat case_match; injection H as <-; (split; [|split]); cbn; try done; by apply dict_ok_set.
Qed.

(** The invariant of the MediaInfo loop: whatever the tracks and the
    helpers' answers, the three tracks of a successful parse hold no key
    starting with [other] and no raw [xyz] location key. *)
Lemma mi_parse_keys MI t :
  mi_parseMediaToDict parseGPS parseDate reverseLookup MI = inr t -> tracks_ok t.
Proof.
  unfold mi_parseMediaToDict. apply py_fold_inv.
  - intros acc track acc' Hacc. apply py_fold_inv; [|exact Hacc].
    intros a x a'. apply mi_item_ok.
  - split; [|split]; intros k0 x0 [=].
Qed.

End MediainfoInv.

(** A photo with coordinates, as [exiftool -j] reports it with the
    repository's formats: the coordinates and the date in double quotes. *)
Definition sample_exif : jvalue :=
  JList [JObj [("SourceFile", JStr "/up/p.jpg"); ("Make", JStr "Apple");
               ("GPSLatitude", JStr (String dquote ("+48.85800000" ++ String dquote EmptyString)));
               ("GPSLongitude", JStr (String dquote ("+2.29450000" ++ String dquote EmptyString)));
               ("GPSAltitude", JStr "35 m Above Sea Level"); ("ThumbnailImage", JStr "(Binary data)");
               ("DateTimeOriginal", JStr (String dquote ("2016-05-01T10:00:00+0000" ++ String dquote EmptyString)));
               ("ImageWidth", JNum 4032)]].

Definition sample_geocoder (la lo : jvalue) : py jvalue :=
  inr (JList [JObj [("formatted_address", JStr "Champ de Mars, Paris")]]).

Definition sample_tracks : dict jvalue * dict jvalue :=
  Eval vm_compute in
    match exif_parseMediaToDict sample_geocoder sample_exif with inr r => r | inl _ => ([], []) end.

Lemma exif_tracks_shape_witness :
  exif_parseMediaToDict sample_geocoder sample_exif = inr sample_tracks /\
  (forall k v, dict_get sample_tracks.1 k = Some v -> In k exif_general_keys) /\
  (forall k, In k (map fst exif_MAPPING) \/ k = "ThumbnailImage" -> dict_get sample_tracks.2 k = None) /\
  (forall k s, dict_get sample_tracks.2 k = Some (JStr s) -> no_quote s = true).
Proof.
  assert (H : exif_parseMediaToDict sample_geocoder sample_exif = inr (sample_tracks.1, sample_tracks.2))
    by (vm_compute; reflexivity).
  split; [exact H | exact (exif_tracks_shape _ _ _ _ H)].
Defined.

End Metadata.
