(* ===== verification/Register.v ===== *)
(** * Registration in the catalogue ([registerAsset.py])

    The [Assets] DynamoDB table is a finite map from the [Checksum] (the
    primary key) to the stored item.  Registration first tries a put
    conditioned on [attribute_not_exists(Checksum)]; on any client error
    it tries to revive an entry whose [File_Location] is ['delete'] (an
    earlier upload of the same file that was deleted): [SET File_Location,
    Filename, UserFields], [Audit = list_append(Audit, :a)], [REMOVE PDL,
    thumbnail, storyboard].  If that fails too the task fails with
    [REG-0001], naming the checksum with ['%s'] (Python 2's [str], [py_str])
    and giving [str(err)] of the refused update as detail
    ([revive_error]: botocore's text with DynamoDB's message for the
    cause).

    The theorems give the three outcomes (fresh file, live duplicate,
    deleted duplicate: C29-C31), the invariant that every item is stored
    under its own checksum and is preserved by registration, and that
    registering the same live file twice fails the second time (C28). *)

From stdpp Require Import base list strings gmap pretty.
From Stdlib Require Import String Ascii ZArith.
From S2P Require Import Prelude Json Workers.

Open Scope string_scope.
Local Open Scope py_scope.

Module Register.

Import Worker.

(** The table: checksum -> item. *)
Abbreviation table := (gmap string (dict jvalue)).

(** [del item[k]] if present (DynamoDB [REMOVE]). *)
Fixpoint dict_remove (d : dict jvalue) (k : string) : dict jvalue :=
  match d with
  | [] => []
  | (k', v) :: d' => if String.eqb k k' then dict_remove d' k else (k', v) :: dict_remove d' k
  end.

(** [table.put_item(Item=DOC, ConditionExpression='attribute_not_exists(Checksum)')]:
    a document that is not a map is refused by boto3 before any request;
    a missing or non-string key is a [ValidationException]. *)
Definition put_item (t : table) (DOC : jvalue) : py table :=
  match DOC with
  | JObj d =>
      match dict_get d "Checksum" with
      | Some (JStr c) =>
          match t !! c with
          | None => ret (<[c := d]> t)
          | Some _ => py_raise (ClientError "ConditionalCheckFailedException")
          end
      | _ => py_raise (ClientError "ValidationException")
      end
  | _ => py_raise (TypeError "ParamValidationError")
  end.

(** The condition [File_Location = :l]. *)
Definition location_is (item : dict jvalue) (l : string) : bool :=
  match dict_get item "File_Location" with
  | Some v => jv_eq_str v l
  | None => false
  end.

(** [list_append(Audit, :a)] *)
Definition list_append (old new : option jvalue) : py jvalue :=
  match old, new with
  | Some (JList l1), Some (JList l2) => ret (JList (l1 ++ l2))
  | _, _ => py_raise (ClientError "ValidationException")
  end.

(** [table.update_item(Key={'Checksum': key}, ConditionExpression='File_Location = :l',
    UpdateExpression='SET File_Location = :d, Filename = :f, UserFields = :u,
    Audit = list_append(Audit, :a) REMOVE PDL, thumbnail, storyboard')] *)
Definition revive (t : table) (key : jvalue) (audit userFields filename : jvalue) : py table :=
  match key with
  | JStr c =>
      match t !! c with
      | Some item =>
          if location_is item "delete" then
            audit' <- list_append (dict_get item "Audit") (Some audit) ;;
            let item1 := dict_set (dict_set (dict_set (dict_set item
                           "File_Location" (JStr "working")) "Filename" filename)
                           "UserFields" userFields) "Audit" audit' in
            let item2 := dict_remove (dict_remove (dict_remove item1 "PDL") "thumbnail") "storyboard" in
            ret (<[c := item2]> t)
          else py_raise (ClientError "ConditionalCheckFailedException")
      | None => py_raise (ClientError "ConditionalCheckFailedException")
      end
  | _ => py_raise (ClientError "ValidationException")
  end.

(** ** Python 2's [str] and [repr] of a decoded JSON value

    [json.loads] of a task input (a [unicode] text) gives [unicode]
    strings, whose [repr] is [u'...] with every character outside
    printable ASCII escaped; an integer beyond [sys.maxint] (64-bit) is a
    [long], whose [repr] ends in [L].  The characters of a [string] are
    code points below 256.  A Python 2 dict lists its keys in the order
    of its hash table, which is not modelled: [repr] of a dict lists them
    in the dict's order. *)

Definition dquote : ascii := "034"%char.

Definition hex_digit (n : nat) : ascii := ascii_of_nat (if (n <? 10)%nat then 48 + n else 87 + n).

Definition str_has (c : ascii) (s : string) : bool := existsb (Ascii.eqb c) (list_ascii_of_string s).

(** The characters of [repr(s)] between the quotes [q]: backslash, the
    quote, tab, newline and carriage return escaped, the other characters
    outside printable ASCII as [\xNN]. *)
Fixpoint repr_body (q : ascii) (s : string) : string :=
  match s with
  | EmptyString => EmptyString
  | String c s' =>
      let n := nat_of_ascii c in
      let e := if Ascii.eqb c "\"%char then "\\"
               else if Ascii.eqb c q then String "\"%char (String q EmptyString)
               else if Ascii.eqb c "009"%char then "\t"
               else if Ascii.eqb c "010"%char then "\n"
               else if Ascii.eqb c "013"%char then "\r"
               else if (n <? 32)%nat || (126 <? n)%nat
                    then "\x" ++ String (hex_digit (n / 16)) (String (hex_digit (n mod 16)) EmptyString)
               else String c EmptyString in
      e ++ repr_body q s'
  end.

(** [repr(u)] of a [unicode] string: single quotes, unless it holds a
    single quote and no double quote. *)
Definition repr_str (s : string) : string :=
  let q := if str_has "'"%char s && negb (str_has dquote s) then dquote else "'"%char in
  String "u"%char (String q (repr_body q s ++ String q EmptyString)).

Definition py_maxint : Z := (2 ^ 63 - 1)%Z.

(** [repr(v)]: [None], [True], [False], the integer ([L] for a [long]),
    the quoted string, and the elements of lists and dicts by their
    [repr]. *)
Fixpoint py_repr (v : jvalue) : string :=
  match v with
  | JNull => "None"
  | JBool true => "True"
  | JBool false => "False"
  | JNum n => if (py_maxint <? n)%Z || (n <? - py_maxint - 1)%Z then pretty n ++ "L" else pretty n
  | JStr s => repr_str s
  | JList l => "[" ++ String.concat ", " (map py_repr l) ++ "]"
  | JObj d => "{" ++ String.concat ", " (map (fun kv => match kv with (k, x) => repr_str k ++ ": " ++ py_repr x end) d) ++ "}"
  end.

(** ['%s' % v], that is [str(v)]: a string as it is, an integer in
    decimal, any other value as its [repr]. *)
Definition py_str (v : jvalue) : string :=
  match v with
  | JStr s => s
  | JNum n => pretty n
  | _ => py_repr v
  end.

(** [str(err)] of a [botocore.exceptions.ClientError]. *)
Definition botocore_str (op code message : string) : string :=
  "An error occurred (" ++ code ++ ") when calling the " ++ op ++ " operation: " ++ message.

(** [str(err)] of an [update_item] whose condition fails. *)
Definition condition_refused : string :=
  botocore_str "UpdateItem" "ConditionalCheckFailedException" "The conditional request failed".

(** [str(err)] of the [update_item] of [revive] when DynamoDB refuses it,
    by the same cases as [revive]: a key that is not a string, a failed
    condition (or no item), an [Audit] attribute that is missing or an
    operand of [list_append] that is not a list. *)
Definition revive_error (t : table) (key audit : jvalue) : string :=
  match key with
  | JStr c =>
      match t !! c with
      | Some item =>
          if location_is item "delete" then
            match dict_get item "Audit" with
            | None => botocore_str "UpdateItem" "ValidationException"
                        "The provided expression refers to an attribute that does not exist in the item"
            | Some _ => botocore_str "UpdateItem" "ValidationException"
                          "An operand in the update expression has an incorrect data type"
            end
          else condition_refused
      | None => condition_refused
      end
  | _ => botocore_str "UpdateItem" "ValidationException" "The provided key element does not match the schema"
  end.

(** The task branch of [main] (lines 48-150): the new table and the report. *)
Definition registerAsset (t : table) (input : jvalue) : py (table * outcome) :=
  DOC <- getitem input "DOC" ;;
  match put_item t DOC with
  | inr t' =>
      checksum <- getitem DOC "Checksum" ;;
      assetClass <- getitem input "assetClass" ;;
      asset <- getitem input "asset" ;;
      ret (t', Success (JObj [("dbPrimaryKey", JObj [("Checksum", checksum)]);
                              ("assetClass", assetClass); ("asset", asset)]))
  | inl (ClientError _) =>
      checksum <- getitem DOC "Checksum" ;;
      audit <- getitem DOC "Audit" ;;
      userFields <- getitem DOC "UserFields" ;;
      filename <- getitem DOC "Filename" ;;
      match revive t checksum audit userFields filename with
      | inr t' =>
          assetClass <- getitem input "assetClass" ;;
          asset <- getitem input "asset" ;;
          ret (t', Success (JObj [("dbPrimaryKey", JObj [("Checksum", checksum)]);
                                  ("assetClass", assetClass); ("asset", asset)]))
      | inl (ClientError _) =>
          ret (t, Failure
                 (json_str ("REG-0001_Duplicate file entry: The file with ID " ++ py_str checksum ++
                            " already exists"))
                 (json_str (revive_error t checksum audit)))
      | inl e => py_raise e
      end
  | inl e => py_raise e
  end.

(** Every item is stored under its own checksum. *)
Definition table_wf (t : table) : Prop :=
  forall c item, t !! c = Some item -> dict_get item "Checksum" = Some (JStr c).

(** ** Theorems *)

Lemma dict_get_remove_ne d k k0 : k <> k0 -> dict_get (dict_remove d k) k0 = dict_get d k0.
Proof.
  intros Hne. induction d as [|[k' v] d IH]; [done|]. simpl.
  destruct (String.eqb_spec k k') as [->|Hk]; simpl.
  - rewrite IH. destruct (String.eqb_spec k0 k') as [->|]; [done|done].
  - by rewrite IH.
Qed.

Lemma dict_get_remove_eq d k : dict_get (dict_remove d k) k = None.
Proof.
  induction d as [|[k' v] d IH]; [done|]. simpl.
  destruct (String.eqb_spec k k') as [->|Hk]; simpl; [done|].
  apply String.eqb_neq in Hk. by rewrite Hk.
Qed.

(** Evaluates [dict_get] through [dict_set] and [dict_remove] on literal keys. *)
Ltac dict_simpl :=
  repeat first [ rewrite dict_get_remove_eq | rewrite dict_get_remove_ne by discriminate
               | rewrite dict_get_set_eq | rewrite dict_get_set_ne by discriminate ].

Lemma put_item_obj t d c :
  dict_get d "Checksum" = Some (JStr c) ->
  put_item t (JObj d) = match t !! c with
                        | None => ret (<[c := d]> t)
                        | Some _ => py_raise (ClientError "ConditionalCheckFailedException")
                        end.
Proof. intros Hc. unfold put_item. by rewrite Hc. Qed.

Lemma put_item_wf t DOC t' : table_wf t -> put_item t DOC = inr t' -> table_wf t'.
Proof.
  intros Hwf. unfold put_item.
  destruct DOC as [| | | | |d]; try discriminate.
  destruct (dict_get d "Checksum") as [[| | |c| |]|] eqn:Hc; try discriminate.
  destruct (t !! c); [discriminate|]. intros [= <-] c' item.
  rewrite lookup_insert. case_decide; [intros [= <-]; congruence | apply Hwf].
Qed.

Lemma revive_wf t key a u f t' : table_wf t -> revive t key a u f = inr t' -> table_wf t'.
Proof.
  intros Hwf. unfold revive.
  destruct key as [| | |c| |]; try discriminate.
  destruct (t !! c) as [item|] eqn:Hi; [|discriminate].
  destruct (location_is item "delete"); [|discriminate].
  destruct (list_append _ _); [discriminate|]. cbn [py_bind py_ret]. intros [= <-] c' item'.
  rewrite lookup_insert. case_decide as Heq; [|apply Hwf]. intros [= <-]. subst c'.
  dict_simpl. by apply Hwf.
Qed.

(** [revive_error] names the error code [revive] raises. *)
Lemma revive_error_code t key a u f code :
  revive t key a u f = inl (ClientError code) -> exists msg, revive_error t key a = botocore_str "UpdateItem" code msg.
Proof.
  unfold revive, revive_error. destruct key as [| | |c| |]; try (intros [= <-]; eexists; reflexivity).
  destruct (t !! c) as [item|]; [|intros [= <-]; eexists; reflexivity].
  destruct (location_is item "delete"); [|intros [= <-]; eexists; reflexivity].
  destruct (dict_get item "Audit") as [[| | | |l|]|], a as [| | | |l'|]; cbn; try (intros [= <-]; eexists; reflexivity).
Qed.

(** The catalogue invariant: if every item is stored under its own
    checksum before a registration task, it still is after it, whatever
    the outcome of the task. *)
Theorem registerAsset_preserves_wf t input t' o :
  table_wf t -> registerAsset t input = inr (t', o) -> table_wf t'.
Proof.
  intros Hwf. unfold registerAsset.
  destruct (getitem input "DOC") as [|DOC]; [discriminate|]. cbn [py_bind].
  destruct (put_item t DOC) as [e|t1] eqn:Hput.
  - destruct e; try discriminate.
    repeat (destruct (getitem DOC _); [discriminate|]; cbn [py_bind]).
    destruct (revive t _ _ _ _) as [e'|t1] eqn:Hrev.
    + destruct e'; try discriminate. intros [= <- _]. exact Hwf.
    + repeat (destruct (getitem input _); [discriminate|]; cbn [py_bind]).
      intros [= <- _]. by apply (revive_wf t _ _ _ _ _ Hwf Hrev).
  - repeat (destruct (getitem _ _); [discriminate|]; cbn [py_bind]).
    intros [= <- _]. by apply (put_item_wf t DOC _ Hwf Hput).
Qed.

(** C29. A fresh file is registered: when no item has the document's
    checksum, the document is stored under it and the task succeeds with
    [dbPrimaryKey = {'Checksum': checksum}] and the asset and class of the
    input. *)
Theorem registerAsset_fresh t d c input asset assetClass :
  getitem input "DOC" = inr (JObj d) -> dict_get d "Checksum" = Some (JStr c) -> t !! c = None ->
  getitem input "assetClass" = inr assetClass -> getitem input "asset" = inr asset ->
  registerAsset t input =
    inr (<[c := d]> t, Success (JObj [("dbPrimaryKey", JObj [("Checksum", JStr c)]);
                                      ("assetClass", assetClass); ("asset", asset)])).
Proof.
  intros HD Hc Ht Hcl Ha. unfold registerAsset. rewrite HD. cbn [py_bind].
  rewrite (put_item_obj _ _ _ Hc), Ht, (getitem_obj _ _ _ Hc). cbn [py_bind]. by rewrite Hcl, Ha.
Qed.

(** C30. A live duplicate is refused: when the checksum is already stored
    for an item whose [File_Location] is not ['delete'], the table is left
    unchanged and the task fails with the [REG-0001] reason naming the
    checksum. *)
Theorem registerAsset_live_duplicate t d c item input a u f :
  getitem input "DOC" = inr (JObj d) -> dict_get d "Checksum" = Some (JStr c) ->
  t !! c = Some item -> location_is item "delete" = false ->
  dict_get d "Audit" = Some a -> dict_get d "UserFields" = Some u -> dict_get d "Filename" = Some f ->
  registerAsset t input =
    inr (t, Failure (json_str ("REG-0001_Duplicate file entry: The file with ID " ++ c ++ " already exists"))
                    (json_str condition_refused)).
Proof.
  intros HD Hc Ht Hl Ha Hu Hf. unfold registerAsset. rewrite HD. cbn [py_bind].
  rewrite (put_item_obj _ _ _ Hc), Ht. cbn [py_bind].
  rewrite (getitem_obj _ _ _ Hc), (getitem_obj _ _ _ Ha), (getitem_obj _ _ _ Hu), (getitem_obj _ _ _ Hf).
  cbn [py_bind revive revive_error]. by rewrite Ht, Hl.
Qed.

(** C31. Re-uploading a deleted file revives its entry: the stored item
    keeps its checksum, gets [File_Location = 'working'], the new
    [Filename] and [UserFields], the audit trail extended by the new one,
    and loses [PDL], [thumbnail] and [storyboard]. *)
Theorem registerAsset_revives_deleted t d c item input aud aud_old u f asset assetClass t' o :
  getitem input "DOC" = inr (JObj d) -> dict_get d "Checksum" = Some (JStr c) ->
  t !! c = Some item -> location_is item "delete" = true ->
  dict_get d "Audit" = Some (JList aud) -> dict_get item "Audit" = Some (JList aud_old) ->
  dict_get d "UserFields" = Some u -> dict_get d "Filename" = Some f ->
  getitem input "assetClass" = inr assetClass -> getitem input "asset" = inr asset ->
  registerAsset t input = inr (t', o) ->
  exists item', t' !! c = Some item' /\
    dict_get item' "File_Location" = Some (JStr "working") /\
    dict_get item' "Filename" = Some f /\ dict_get item' "UserFields" = Some u /\
    dict_get item' "Audit" = Some (JList (aud_old ++ aud)) /\
    dict_get item' "PDL" = None /\ dict_get item' "thumbnail" = None /\
    dict_get item' "storyboard" = None /\
    o = Success (JObj [("dbPrimaryKey", JObj [("Checksum", JStr c)]);
                       ("assetClass", assetClass); ("asset", asset)]).
Proof.
  intros HD Hc Ht Hl Ha Hao Hu Hf Hcl Has. unfold registerAsset. rewrite HD. cbn [py_bind].
  rewrite (put_item_obj _ _ _ Hc), Ht. cbn [py_bind].
  rewrite (getitem_obj _ _ _ Hc), (getitem_obj _ _ _ Ha), (getitem_obj _ _ _ Hu), (getitem_obj _ _ _ Hf).
  cbn [py_bind revive]. rewrite Ht, Hl, Hao. cbn [list_append py_bind py_ret].
  rewrite Hcl, Has. cbn [py_bind py_ret]. intros [= <- <-].
  eexists. rewrite lookup_insert_eq. split; [reflexivity|]. dict_simpl.
  repeat split; reflexivity.
Qed.

(** After a successful registration the document's checksum holds an item
    that is not marked deleted. *)
Lemma registerAsset_success_live t input d c t1 r :
  getitem input "DOC" = inr (JObj d) -> dict_get d "Checksum" = Some (JStr c) ->
  location_is d "delete" = false ->
  registerAsset t input = inr (t1, Success r) ->
  exists item, t1 !! c = Some item /\ location_is item "delete" = false.
Proof.
  intros HD Hc Hd. unfold registerAsset. rewrite HD. cbn [py_bind].
  rewrite (put_item_obj _ _ _ Hc), (getitem_obj _ _ _ Hc).
  destruct (t !! c) as [item|] eqn:Ht; cbn [py_bind py_raise py_ret].
  - repeat (destruct (getitem (JObj d) _); [discriminate|]; cbn [py_bind]).
    cbn [revive]. rewrite Ht. destruct (location_is item "delete"); cbn [py_bind py_raise].
    + destruct (list_append _ _) as [[]|]; cbn [py_bind py_ret]; try discriminate.
      repeat (destruct (getitem input _); [discriminate|]; cbn [py_bind]).
      intros [= <- _]. eexists. rewrite lookup_insert_eq. split; [reflexivity|].
      unfold location_is. by dict_simpl.
    + discriminate.
  - repeat (destruct (getitem input _); [discriminate|]; cbn [py_bind]).
    intros [= <- _]. exists d. by rewrite lookup_insert_eq.
Qed.

(** C28. Duplicate detection across runs: once a document that is not
    marked deleted has been registered (as a new file or by reviving a
    deleted entry), registering it again leaves the table unchanged and
    fails with [REG-0001], with the text of the failed condition as
    [str(err)]. *)
Theorem registerAsset_second_refused t input d c a u f t1 r :
  getitem input "DOC" = inr (JObj d) -> dict_get d "Checksum" = Some (JStr c) ->
  location_is d "delete" = false ->
  dict_get d "Audit" = Some a -> dict_get d "UserFields" = Some u -> dict_get d "Filename" = Some f ->
  registerAsset t input = inr (t1, Success r) ->
  registerAsset t1 input =
    inr (t1, Failure (json_str ("REG-0001_Duplicate file entry: The file with ID " ++ c ++ " already exists"))
                     (json_str condition_refused)).
Proof.
  intros HD Hc Hd Ha Hu Hf Hreg.
  destruct (registerAsset_success_live _ _ _ _ _ _ HD Hc Hd Hreg) as (item & Ht & Hl).
  unfold registerAsset. rewrite HD. cbn [py_bind].
  rewrite (put_item_obj _ _ _ Hc), Ht. cbn [py_bind].
  rewrite (getitem_obj _ _ _ Hc), (getitem_obj _ _ _ Ha), (getitem_obj _ _ _ Hu), (getitem_obj _ _ _ Hf).
  cbn [py_bind revive revive_error]. by rewrite Ht, Hl.
Qed.

(** A duplicate whose document has no [UserFields] crashes the
    worker: when the checksum is already in the table (deleted or not) and
    [DOC] has an [Audit] but no [UserFields] key, building the update's
    values raises [KeyError('UserFields')] before any update, so no
    completion or failure is reported.  [processFile] never adds the key,
    so only user metadata that happens to carry it avoids the crash. *)
Theorem registerAsset_duplicate_without_userfields t input d c item a :
  getitem input "DOC" = inr (JObj d) -> dict_get d "Checksum" = Some (JStr c) ->
  t !! c = Some item -> dict_get d "Audit" = Some a -> dict_get d "UserFields" = None ->
  registerAsset t input = inl (KeyError "UserFields").
Proof.
  intros HD Hc Ht Ha Hu. unfold registerAsset. rewrite HD. cbn [py_bind].
  rewrite (put_item_obj _ _ _ Hc), Ht. cbn [py_bind].
  by rewrite (getitem_obj _ _ _ Hc), (getitem_obj _ _ _ Ha), (getitem_obj_missing _ _ Hu).
Qed.

(** ** Witnesses *)

Definition doc_live : dict jvalue :=
  [("Checksum", JStr "abc"); ("Filename", JStr "a.jpg"); ("Audit", JList [JStr "upload"]);
   ("UserFields", JObj []); ("File_Location", JStr "working")].

(** The document of the repository's test harness: an [Audit] but no [UserFields]. *)
Definition doc_harness : dict jvalue :=
  [("Checksum", JStr "abc"); ("Filename", JStr "a.jpg"); ("Audit", JList [JStr "upload"]);
   ("File_Location", JStr "working")].

Definition item_deleted : dict jvalue :=
  [("Checksum", JStr "abc"); ("Filename", JStr "old.jpg"); ("Audit", JList [JStr "first"]);
   ("UserFields", JObj []); ("File_Location", JStr "delete"); ("PDL", JStr "s3://pdl");
   ("thumbnail", JStr "s3://thumb")].

Definition reg_input (d : dict jvalue) : jvalue :=
  JObj [("DOC", JObj d); ("asset", JStr "/up/a.jpg"); ("assetClass", JStr "Image")].

Lemma table_wf_deleted : table_wf {[ "abc" := item_deleted ]}.
Proof.
  intros c item H. destruct (decide (c = "abc")) as [->|Hne].
  - rewrite lookup_singleton_eq in H. by injection H as <-.
  - by rewrite lookup_singleton_ne in H.
Qed.

Lemma registerAsset_preserves_wf_witness :
  exists t' o, registerAsset {[ "abc" := item_deleted ]} (reg_input doc_live) = inr (t', o) /\ table_wf t'.
Proof.
  destruct (registerAsset {[ "abc" := item_deleted ]} (reg_input doc_live)) as [e|[t' o]] eqn:H.
  - vm_compute in H. discriminate.
  - exists t', o. split; [reflexivity|].
    apply (registerAsset_preserves_wf _ _ _ o table_wf_deleted H).
Defined.

Lemma registerAsset_fresh_witness :
  registerAsset ∅ (reg_input doc_live) =
    inr (<[ "abc" := doc_live ]> ∅, Success (JObj [("dbPrimaryKey", JObj [("Checksum", JStr "abc")]);
                                                   ("assetClass", JStr "Image"); ("asset", JStr "/up/a.jpg")])).
Proof. apply registerAsset_fresh; reflexivity. Defined.

Lemma registerAsset_live_duplicate_witness :
  registerAsset {[ "abc" := doc_live ]} (reg_input doc_live) =
    inr ({[ "abc" := doc_live ]},
         Failure (json_str ("REG-0001_Duplicate file entry: The file with ID " ++ "abc" ++ " already exists"))
                 (json_str condition_refused)).
Proof.
  apply (registerAsset_live_duplicate _ doc_live "abc" doc_live _ (JList [JStr "upload"]) (JObj []) (JStr "a.jpg"));
    reflexivity.
Defined.

Lemma registerAsset_revives_deleted_witness :
  exists t' o, registerAsset {[ "abc" := item_deleted ]} (reg_input doc_live) = inr (t', o) /\
  exists item', t' !! "abc" = Some item' /\
    dict_get item' "File_Location" = Some (JStr "working") /\
    dict_get item' "Filename" = Some (JStr "a.jpg") /\ dict_get item' "UserFields" = Some (JObj []) /\
    dict_get item' "Audit" = Some (JList ([JStr "first"] ++ [JStr "upload"])) /\
    dict_get item' "PDL" = None /\ dict_get item' "thumbnail" = None /\
    dict_get item' "storyboard" = None /\
    o = Success (JObj [("dbPrimaryKey", JObj [("Checksum", JStr "abc")]);
                       ("assetClass", JStr "Image"); ("asset", JStr "/up/a.jpg")]).
Proof.
  destruct (registerAsset {[ "abc" := item_deleted ]} (reg_input doc_live)) as [e|[t' o]] eqn:H.
  - vm_compute in H. discriminate.
  - exists t', o. split; [reflexivity|].
    apply (registerAsset_revives_deleted {[ "abc" := item_deleted ]} doc_live "abc" item_deleted (reg_input doc_live)); try reflexivity.
    exact H.
Defined.

Lemma registerAsset_second_refused_witness :
  exists t1 r, registerAsset {[ "abc" := item_deleted ]} (reg_input doc_live) = inr (t1, Success r) /\
  registerAsset t1 (reg_input doc_live) =
    inr (t1, Failure (json_str ("REG-0001_Duplicate file entry: The file with ID " ++ "abc" ++ " already exists"))
                     (json_str condition_refused)).
Proof.
  destruct (registerAsset {[ "abc" := item_deleted ]} (reg_input doc_live)) as [e|[t1 [r| |]]] eqn:H;
    try (vm_compute in H; discriminate).
  exists t1, r. split; [reflexivity|].
  apply (registerAsset_second_refused {[ "abc" := item_deleted ]} _ doc_live "abc" (JList [JStr "upload"]) (JObj []) (JStr "a.jpg") t1 r);
    try reflexivity.
  exact H.
Defined.

Lemma registerAsset_duplicate_without_userfields_witness :
  registerAsset {[ "abc" := item_deleted ]} (reg_input doc_harness) = inl (KeyError "UserFields").
Proof.
  apply (registerAsset_duplicate_without_userfields _ _ doc_harness "abc" item_deleted (JList [JStr "upload"]));
    reflexivity.
Defined.

End Register.
