(* ===== verification/Execution.v ===== *)
(** * Executions of the ingestion workflow

    The deciders and the workers never call each other: SWF records every
    decision and every report as events of the execution history, and each
    poll hands the current history (to a decider) or one scheduled task (to
    a worker).  This file composes the models of [Ingest] and [Workers] into
    a step relation on histories:

    - a decider step: SWF appends [DecisionTaskScheduled] and
      [DecisionTaskStarted], a decider process in any state runs one
      iteration of [Ingest.decide] on that history, and its answer is
      recorded ([DecisionTaskCompleted] and the scheduled activity, or the
      completion of the execution); no answer, or an uncaught exception,
      leaves the decision task to time out;
    - a worker step: a worker is handed a scheduled activity that no
      worker has started yet (the broker delivers a task to one claimant)
      and its report is recorded ([ActivityTaskStarted], then
      [ActivityTaskCompleted] or [ActivityTaskFailed]; a worker that does
      not report leaves the task started).

    SWF numbers the events 1, 2, 3, ... ([append]).  The deciders are a
    parameter [decides poll answer] ([ingest_decides]: [decider.py] in any
    state) and so are the workers [runs name input outcome] ([sdms_runs]:
    the repository's workers with any tool results and any catalogue
    table); [reachable decides runs input] holds of the histories of an
    execution started with [input].  The model is an over-approximation
    where the code leaves a choice to the environment: any decider state,
    any uuid and token, any pending task may be handed out, and the
    execution may go on after it completes.  Safety theorems over it
    therefore hold of every real run.

    The theorems: reachable histories are well-formed; a thumbnail
    activity is only ever scheduled and completed with its own class, so
    the decider never reads the stale [taskName] on a history the system
    produced (given workers that keep the class, which the repository's
    do); and with the repository's extraction workers no execution ever
    reaches registration or completes. *)

From stdpp Require Import base list strings gmap.
From Stdlib Require Import String ZArith Lia.
From S2P Require Import Prelude Json History Ingest Workers Register.

Open Scope string_scope.
Local Open Scope py_scope.

Module Execution.

Import Worker.

(** SWF appends an event with the next id. *)
Definition append (h : list event) (a : event_attrs) : list event :=
  (h ++ [mkEvent (Z.of_nat (List.length h) + 1) a])%list.

Definition appends (h : list event) (l : list event_attrs) : list event :=
  fold_left append l h.

(** The history a decider receives: SWF has scheduled and started a
    decision task. *)
Definition poll_view (h : list event) : list event :=
  appends h [DecisionTaskScheduled; DecisionTaskStarted].

(** What SWF records of one decider iteration. *)
Definition decision_events (r : py (option (string * decision))) : list event_attrs :=
  match r with
  | inr (Some (_, ScheduleActivityTask n _ _ i l)) => [DecisionTaskCompleted; ActivityTaskScheduled n i l]
  | inr (Some (_, CompleteWorkflowExecution _)) =>
      [DecisionTaskCompleted; OtherEvent "WorkflowExecutionCompleted"]
  | _ => [OtherEvent "DecisionTaskTimedOut"]
  end.

(** What SWF records of one worker iteration on the task scheduled by
    event [sid]. *)
Definition report_events (sid : Z) (o : outcome) : list event_attrs :=
  match o with
  | Success r => [ActivityTaskStarted sid; ActivityTaskCompleted sid (Some r)]
  | Failure reason details => [ActivityTaskStarted sid; ActivityTaskFailed sid reason details]
  | NoReport => [ActivityTaskStarted sid]
  end.

(** Whether the task scheduled by event [sid] has been handed to a worker. *)
Definition started (h : list event) (sid : Z) : bool :=
  existsb (fun e => match attrs e with ActivityTaskStarted sid' => Z.eqb sid' sid | _ => false end) h.

Section Steps.

(** [decides p r]: a decider process may answer the decision task [p]
    with [r]. *)
Variable decides : decision_poll -> py (option (string * decision)) -> Prop.

(** [runs n i o]: a worker for activity type [n] may answer input [i] with [o]. *)
Variable runs : string -> jvalue -> outcome -> Prop.

Inductive step : list event -> list event -> Prop :=
| step_decide h tok r :
    decides (DecisionTask tok (Some (poll_view h))) r ->
    step h (appends (poll_view h) (decision_events r))
| step_work h s n i l o :
    In s h -> attrs s = ActivityTaskScheduled n i l -> started h (eventId s) = false -> runs n i o ->
    step h (appends h (report_events (eventId s) o)).

(** The histories of an execution started with [input]. *)
Inductive reachable (input : jvalue) : list event -> Prop :=
| reach_start : reachable input [mkEvent 1 (WorkflowExecutionStarted input)]
| reach_step h h' : reachable input h -> step h h' -> reachable input h'.

End Steps.

(** A process of [decider.py], in any state and with any uuid. *)
Inductive ingest_decides (p : decision_poll) : py (option (string * decision)) -> Prop :=
| ingest_dec st uuid : ingest_decides p (py_map snd (Ingest.decide st uuid p)).

(** The repository's ingestion workers; the tools' results and the
    catalogue table are left free.  [transcodeAudioDefault] has no script,
    so no rule. *)
Inductive sdms_runs : string -> jvalue -> outcome -> Prop :=
| run_identify EXT i o :
    identifyAssetClass EXT i = inr o -> sdms_runs Ingest.ACTIVITY1 i o
| run_exif pf i o :
    extractExifMetadata pf i = inr o -> sdms_runs Ingest.ACTIVITY2a i o
| run_mediainfo pf i o :
    extractMediainfoMetadata pf i = inr o -> sdms_runs Ingest.ACTIVITY2b i o
| run_register t i t' o :
    Register.registerAsset t i = inr (t', o) -> sdms_runs Ingest.ACTIVITY3 i o
| run_thumb_image tool i o :
    createThumbnailFromImage tool i = inr o -> sdms_runs Ingest.ACTIVITY4a i o
| run_thumb_video tool i o :
    createThumbnailFromVideo tool i = inr o -> sdms_runs Ingest.ACTIVITY4b i o
| run_transcode tool i o :
    transcodeVideoDefault tool i = inr o -> sdms_runs Ingest.ACTIVITY5b i o
| run_distribute i o :
    distributeToS3 i = inr o -> sdms_runs Ingest.ACTIVITY6 i o
| run_cleanup ok i o :
    cleanUpLandingPad ok i = inr o -> sdms_runs Ingest.ACTIVITY7 i o.

(** The class a thumbnail activity is scheduled for. *)
Definition class_for (n : string) : option string :=
  if String.eqb n Ingest.ACTIVITY4a then Some "Image"
  else if String.eqb n Ingest.ACTIVITY4b then Some "Video"
  else None.

(** A document fits activity [n]: a thumbnail activity's input or result
    has the activity's class. *)
Definition class_ok (n : string) (v : jvalue) : bool :=
  match class_for n with
  | Some c => match getitem v "assetClass" with inr c' => jv_eq_str c' c | inl _ => false end
  | None => true
  end.

(** The interface the workers offer the execution: a thumbnail worker
    answers with the class of its input. *)
Class ThumbnailsKeepClass (runs : string -> jvalue -> outcome -> Prop) :=
  thumbnails_keep_class : forall n i r, class_for n <> None -> runs n i (Success r) ->
    getitem r "assetClass" = getitem i "assetClass".

(** ** Histories built by [append] *)

Lemma ids_from_snoc n l e :
  ids_from n (l ++ [e])%list = ids_from n l && (eventId e =? n + Z.of_nat (List.length l))%Z.
Proof.
  revert n. induction l as [|e' l IH]; intros n; simpl.
  - by rewrite Z.add_0_r, andb_true_r.
  - rewrite IH, andb_assoc. f_equal. f_equal. lia.
Qed.

Lemma append_wf h a : history_wf h = true -> history_wf (append h a) = true.
Proof.
  unfold history_wf, append. intros H. rewrite ids_from_snoc, H. simpl. apply Z.eqb_eq. lia.
Qed.

Lemma appends_wf h l : history_wf h = true -> history_wf (appends h l) = true.
Proof. revert h. induction l; intros h H; [done|]. apply IHl, append_wf, H. Qed.

(** An event of [appends h l] is an event of [h] or carries one of the
    attributes of [l]. *)
Lemma in_appends h l e : In e (appends h l) -> In e h \/ In (attrs e) l.
Proof.
  revert h. induction l as [|a l IH]; intros h Hin; [by left|].
  destruct (IH _ Hin) as [Hh|Hl]; [|by right; right].
  unfold append in Hh. apply in_app_or in Hh as [Hh|[<-|[]]]; [by left|by right; left].
Qed.

Lemma appends_incl h l e : In e h -> In e (appends h l).
Proof. revert h. induction l; intros h Hin; [done|]. apply IHl. unfold append. apply in_or_app. by left. Qed.

Lemma last_event_in evs e : last_event evs = inr e -> In e evs.
Proof. unfold last_event, py_last. intros H%py_index_in. unfold workflow_events in H. apply filter_In in H. tauto. Qed.

Lemma reachable_wf decides runs input h : reachable decides runs input h -> history_wf h = true.
Proof. induction 1 as [|h h' _ IH Hs]; [done|]. destruct Hs; unfold poll_view; by repeat apply appends_wf. Qed.

(** ** The class invariant of thumbnail activities *)

Definition inv_event (h : list event) (e : event) : Prop :=
  match attrs e with
  | ActivityTaskScheduled n i _ => class_ok n i = true
  | ActivityTaskCompleted sid (Some r) =>
      exists s n i l, In s h /\ eventId s = sid /\ attrs s = ActivityTaskScheduled n i l /\ class_ok n r = true
  | _ => True
  end.

Definition thumb_inv (h : list event) : Prop := forall e, In e h -> inv_event h e.

Lemma inv_event_mono h h' e : (forall x, In x h -> In x h') -> inv_event h e -> inv_event h' e.
Proof.
  intros Hsub. unfold inv_event. destruct (attrs e) as [| | |sid [r|]| | | | |]; try done.
  intros (s & n & i & l & ? & ? & ? & ?). exists s, n, i, l. auto.
Qed.

(** Appending events that carry no schedule and no completion keeps the
    invariant. *)
Lemma thumb_inv_appends h l :
  thumb_inv h -> (forall a, In a l -> forall e, attrs e = a -> inv_event (appends h l) e) ->
  thumb_inv (appends h l).
Proof.
  intros Hinv Hl e Hin. destruct (in_appends _ _ _ Hin) as [Hh|Ha].
  - apply (inv_event_mono h); [apply appends_incl | apply Hinv, Hh].
  - by apply (Hl _ Ha).
Qed.

(** On a well-formed history with the invariant, the completed activity the
    decider finds has a result of its class. *)
Lemma completed_class_ok h last n r :
  history_wf h = true -> thumb_inv h -> last_event h = inr last ->
  completed_activity_name h last = inr n -> completed_result last = inr r -> class_ok n r = true.
Proof.
  intros Hwf Hinv Hlast Hn Hr.
  specialize (Hinv _ (last_event_in _ _ Hlast)). unfold inv_event in Hinv.
  unfold completed_result in Hr. destruct (attrs last) as [| | |sid [r'|]| | | | |] eqn:Ha; try discriminate.
  injection Hr as ->. destruct Hinv as (s & n' & i & l & Hs & <- & Hsa & Hok).
  rewrite (completed_activity_name_wf _ _ _ _ _ _ _ Hwf Hs Ha Hsa) in Hn. by injection Hn as ->.
Qed.

Lemma poll_view_inv h : thumb_inv h -> thumb_inv (poll_view h).
Proof. intros H. apply thumb_inv_appends; [done|]. intros a [<-|[<-|[]]] e He; unfold inv_event; by rewrite He. Qed.

(** The stale branch is not taken on a history with the invariant. *)
Lemma inv_not_stale h tok :
  history_wf h = true -> thumb_inv h -> Ingest.reads_stale_taskName (DecisionTask tok (Some h)) = false.
Proof.
  intros Hwf Hinv. unfold Ingest.reads_stale_taskName.
  destruct (last_event h) as [|last] eqn:Hlast; [done|].
  destruct (String.eqb _ _); [|done]. cbn [andb].
  destruct (completed_activity_name h last) as [|n] eqn:Hn; [done|].
  destruct (completed_result last) as [|r] eqn:Hr; [done|].
  pose proof (completed_class_ok _ _ _ _ Hwf Hinv Hlast Hn Hr) as Hok.
  unfold class_ok, class_for in Hok.
  destruct (String.eqb n Ingest.ACTIVITY4a), (String.eqb n Ingest.ACTIVITY4b); try done;
    destruct (getitem r "assetClass"); try done; by rewrite Hok, ?orb_true_r.
Qed.

(** Case analysis on the conditions of [route_completed], remembering
    each outcome. *)
Ltac split_conditions :=
  repeat (match goal with
  | |- context [String.eqb ?a ?b] => let E := fresh "E" in destruct (String.eqb a b) eqn:E
  | |- context [getitem ?r ?k] => let E := fresh "E" in destruct (getitem r k) eqn:E
  | |- context [jv_eq_str ?a ?b] => let E := fresh "E" in destruct (jv_eq_str a b) eqn:E
  | |- context [Ingest.taskName ?s] => destruct (Ingest.taskName s)
  end; cbn [py_bind py_map py_ret opt_or_raise andb orb negb fst snd]).

(** Outside the stale branch, the decider schedules a thumbnail activity
    only with an input of that activity's class. *)
Lemma decide_schedule_class st uuid p st' tok n v a i l :
  Ingest.reads_stale_taskName p = false ->
  Ingest.decide st uuid p = inr (st', Some (tok, ScheduleActivityTask n v a i l)) ->
  class_ok n i = true.
Proof.
  intros Hs Hd. unfold Ingest.decide in Hd. destruct p as [|tk [evs|]]; try (cbn in Hd; unfold py_ret in Hd; congruence).
  unfold Ingest.reads_stale_taskName in Hs.
  destruct (last_event evs) as [|last]; [cbn in Hd; unfold py_ret in Hd; congruence|]. cbn [py_bind] in Hd.
  destruct (String.eqb (eventType last) "WorkflowExecutionStarted").
  { destruct (started_input last); [cbn in Hd; unfold py_ret in Hd; congruence|]. cbn [py_bind] in Hd.
    destruct (getitem _ "fileName"); [cbn in Hd; unfold py_ret in Hd; congruence|].
    destruct (getitem _ "metadata"); [cbn in Hd; unfold py_ret in Hd; congruence|].
    cbv [Ingest.schedule py_ret py_bind executeNextTask] in Hd. simplify_eq. reflexivity. }
  destruct (String.eqb (eventType last) "ActivityTaskCompleted"); cbn [andb] in Hs; [|cbn in Hd; unfold py_ret in Hd; congruence].
  destruct (completed_activity_name evs last) as [|an]; [cbn in Hd; unfold py_ret in Hd; congruence|].
  destruct (completed_result last) as [|r]; [cbn in Hd; unfold py_ret in Hd; congruence|]. cbn [py_bind] in Hd.
  revert Hs Hd. unfold Ingest.route_completed, Ingest.schedule. split_conditions;
    intros Hs Hd; cbv [py_ret executeNextTask] in Hd; simplify_eq/=; try reflexivity;
    unfold class_ok; cbn; congruence.
Qed.

(** The only [UnboundLocalError] of an iteration is the stale branch. *)
Lemma decide_unbound_stale st uuid p :
  Ingest.reads_stale_taskName p = false ->
  Ingest.decide st uuid p <> inl (UnboundLocalError "taskName").
Proof.
  intros Hs Hd. unfold Ingest.decide in Hd. destruct p as [|tk [evs|]]; try (cbn in Hd; unfold py_ret in Hd; congruence).
  unfold Ingest.reads_stale_taskName in Hs.
  destruct (last_event evs) as [e|last] eqn:Hl;
    [apply py_index_err in Hl; subst; cbn in Hd; congruence|]. cbn [py_bind] in Hd.
  destruct (String.eqb (eventType last) "WorkflowExecutionStarted").
  { destruct (started_input last) eqn:Hi;
      [cbn in Hd; unfold started_input in Hi; destruct (attrs last); congruence|]. cbn [py_bind] in Hd.
    destruct (getitem _ "fileName") eqn:E; [cbn in Hd; injection Hd as ->; by eapply getitem_not_unbound|].
    destruct (getitem _ "metadata") eqn:E'; cbn in Hd; unfold Ingest.schedule, py_ret in Hd;
      [injection Hd as ->; by eapply getitem_not_unbound|congruence]. }
  destruct (String.eqb (eventType last) "ActivityTaskCompleted"); cbn [andb] in Hs; [|cbn in Hd; unfold py_ret in Hd; congruence].
  destruct (completed_activity_name evs last) as [e|an] eqn:Hn.
  { cbn in Hd. injection Hd as ->. revert Hn. unfold completed_activity_name, completed_scheduled_id.
    destruct (attrs last); cbn; try congruence.
    match goal with |- context [py_index ?l ?i] => destruct (py_index l i) eqn:Hp end; cbn.
    - apply py_index_err in Hp. congruence.
    - unfold scheduled_name. destruct (attrs _); congruence. }
  destruct (completed_result last) as [|r] eqn:Hr; [cbn in Hd; unfold completed_result in Hr;
    destruct (attrs last) as [| | |? []| | | | |]; congruence|]. cbn [py_bind] in Hd.
  revert Hs Hd. unfold Ingest.route_completed, Ingest.schedule. split_conditions;
    intros Hs Hd; cbv [py_ret py_raise] in Hd; try congruence;
    injection Hd as ->; exfalso; eapply getitem_not_unbound; eassumption.
Qed.

Section Invariant.

Context (runs : string -> jvalue -> outcome -> Prop) `{!ThumbnailsKeepClass runs}.

Lemma class_ok_keep n i r :
  runs n i (Success r) -> class_ok n i = true -> class_ok n r = true.
Proof.
  unfold class_ok. intros Hrun. destruct (class_for n) eqn:Hc; [|done].
  by rewrite (thumbnails_keep_class n i r ltac:(congruence) Hrun).
Qed.

Lemma step_inv h h' :
  history_wf h = true -> thumb_inv h -> step ingest_decides runs h h' -> thumb_inv h'.
Proof.
  intros Hwf Hinv Hstep. destruct Hstep as [h tok r [st uuid]|h s n i l o Hs Hsa Hst Hrun].
  - assert (Hwf1 : history_wf (poll_view h) = true) by by apply appends_wf.
    pose proof (poll_view_inv _ Hinv) as Hinv1.
    apply thumb_inv_appends; [done|]. intros a Ha e He. unfold inv_event. rewrite He.
    unfold decision_events in Ha.
    destruct (Ingest.decide st uuid _) as [|[st' [[tk' [n v a' i l|res]]|]]] eqn:Hd; cbn [py_map] in Ha;
      simpl in Ha; repeat destruct Ha as [<-|Ha]; try contradiction; try exact I.
    eapply decide_schedule_class; [apply (inv_not_stale _ tok Hwf1 Hinv1)|exact Hd].
  - apply thumb_inv_appends; [done|]. intros a Ha e He. unfold inv_event. rewrite He.
    destruct o as [r| |]; simpl in Ha; repeat destruct Ha as [<-|Ha]; try contradiction; try exact I.
    exists s, n, i, l. split; [by apply appends_incl|]. do 2 (split; [done|]).
    apply (class_ok_keep n i r Hrun). specialize (Hinv s Hs). unfold inv_event in Hinv. by rewrite Hsa in Hinv.
Qed.

Lemma reachable_inv input h : reachable ingest_decides runs input h -> thumb_inv h.
Proof.
  induction 1 as [|h h' Hr IH Hs].
  - intros e [<-|[]]. exact I.
  - apply (step_inv h); [apply (reachable_wf _ _ _ _ Hr)|done|done].
Qed.

(** C34. The stale [taskName] is never read on a history the system
    produces: with workers whose thumbnail activities keep the class of
    their input (the repository's do, [sdms_runs_keep_class]), on every
    reachable history the decision task the decider receives does not take
    the branch that reads [taskName] before writing it. *)
Theorem reachable_no_stale_taskName input h tok :
  reachable ingest_decides runs input h ->
  Ingest.reads_stale_taskName (DecisionTask tok (Some (poll_view h))) = false.
Proof.
  intros Hr. apply inv_not_stale; [by apply appends_wf, (reachable_wf _ _ _ _ Hr)|].
  apply poll_view_inv, (reachable_inv input), Hr.
Qed.

(** C35. On a history the system produces, no decider process, whatever
    its state (a fresh one included), dies of [UnboundLocalError] on
    [taskName]. *)
Theorem reachable_decide_no_unbound input h st uuid tok :
  reachable ingest_decides runs input h ->
  Ingest.decide st uuid (DecisionTask tok (Some (poll_view h))) <> inl (UnboundLocalError "taskName").
Proof.
  intros Hr. apply decide_unbound_stale.
  apply inv_not_stale; [by apply appends_wf, (reachable_wf _ _ _ _ Hr)|].
  apply poll_view_inv, (reachable_inv input), Hr.
Qed.

End Invariant.

(** The repository's thumbnail workers answer with the class of their input. *)
#[export] Instance sdms_runs_keep_class : ThumbnailsKeepClass sdms_runs.
Proof.
  intros n i r Hc Hrun. remember (Success r) as o eqn:Ho.
  destruct Hrun as [| | | |tool i o H|tool i o H| | |];
    try (vm_compute in Hc; congruence); subst o; revert H;
    [unfold createThumbnailFromImage | unfold createThumbnailFromVideo];
    destruct (getitem i "asset"), (getitem i "dbPrimaryKey"), tool; cbn; try congruence;
    destruct (getitem i "assetClass") eqn:E; cbn; intros [=]; subst; cbn; congruence.
Qed.

(** ** With the repository's workers, no execution gets past extraction *)

(** [INPUT['metadata']] raises. *)
Definition no_metadata (i : jvalue) : bool :=
  match getitem i "metadata" with inl _ => true | inr _ => false end.

(** The activities a stalled execution schedules: classification, or an
    extraction whose input has no ['metadata']. *)
Definition sched_ok (n : string) (i : jvalue) : bool :=
  String.eqb n Ingest.ACTIVITY1 ||
  ((String.eqb n Ingest.ACTIVITY2a || String.eqb n Ingest.ACTIVITY2b) && no_metadata i).

Definition stall_event (h : list event) (e : event) : Prop :=
  match attrs e with
  | ActivityTaskScheduled n i _ => sched_ok n i = true
  | ActivityTaskCompleted sid _ =>
      exists s i l, In s h /\ eventId s = sid /\ attrs s = ActivityTaskScheduled Ingest.ACTIVITY1 i l
  | OtherEvent t => t <> "WorkflowExecutionCompleted"
  | _ => True
  end.

Definition stall_inv (h : list event) : Prop := forall e, In e h -> stall_event h e.

Lemma stall_event_mono h h' e : (forall x, In x h -> In x h') -> stall_event h e -> stall_event h' e.
Proof.
  intros Hsub. unfold stall_event. destruct (attrs e); try done.
  intros (s & i & l & ? & ? & ?). exists s, i, l. auto.
Qed.

Lemma stall_inv_appends h l :
  stall_inv h -> (forall a, In a l -> forall e, attrs e = a -> stall_event (appends h l) e) ->
  stall_inv (appends h l).
Proof.
  intros Hinv Hl e Hin. destruct (in_appends _ _ _ Hin) as [Hh|Ha].
  - apply (stall_event_mono h); [apply appends_incl | apply Hinv, Hh].
  - by apply (Hl _ Ha).
Qed.

(** The extraction workers fail on an input without ['metadata']. *)
Lemma extract_no_metadata pf i o :
  no_metadata i = true -> extractExifMetadata pf i <> inr o /\ extractMediainfoMetadata pf i <> inr o.
Proof.
  unfold no_metadata, extractExifMetadata, extractMediainfoMetadata.
  destruct (getitem i "metadata") eqn:Hm; [|done]. intros _.
  destruct (getitem i "asset"); cbn; rewrite ?Hm; cbn; split; congruence.
Qed.

(** On a stalled history the decider only schedules classification or an
    extraction without ['metadata'], and never completes. *)
Lemma decide_stall h st uuid tok st' r :
  history_wf h = true -> stall_inv h ->
  Ingest.decide st uuid (DecisionTask tok (Some h)) = inr (st', r) ->
  match r with
  | Some (_, ScheduleActivityTask n _ _ i _) => sched_ok n i = true
  | Some (_, CompleteWorkflowExecution _) => False
  | None => True
  end.
Proof.
  intros Hwf Hinv Hd. unfold Ingest.decide in Hd.
  destruct (last_event h) as [|last] eqn:Hl; [cbn in Hd; congruence|]. cbn [py_bind] in Hd.
  destruct (String.eqb (eventType last) "WorkflowExecutionStarted").
  { destruct (started_input last); [cbn in Hd; congruence|]. cbn [py_bind] in Hd.
    destruct (getitem _ "fileName"); [cbn in Hd; congruence|].
    destruct (getitem _ "metadata"); cbn in Hd; [congruence|].
    cbv [Ingest.schedule py_ret executeNextTask] in Hd. simplify_eq. reflexivity. }
  destruct (String.eqb (eventType last) "ActivityTaskCompleted");
    [|cbn in Hd; unfold py_ret in Hd; simplify_eq; exact I].
  destruct (completed_activity_name h last) as [|an] eqn:Hn; [cbn in Hd; congruence|].
  destruct (completed_result last) as [|res]; [cbn in Hd; congruence|]. cbn [py_bind] in Hd.
  assert (an = Ingest.ACTIVITY1) as ->.
  { specialize (Hinv _ (last_event_in _ _ Hl)). unfold stall_event in Hinv.
    destruct (attrs last) eqn:Ha;
      try (unfold completed_activity_name, completed_scheduled_id in Hn; rewrite Ha in Hn; cbn in Hn; congruence).
    destruct Hinv as (s & i & l & Hs & <- & Hsa).
    rewrite (completed_activity_name_wf _ _ _ _ _ _ _ Hwf Hs Ha Hsa) in Hn. congruence. }
  revert Hd. unfold Ingest.route_completed, Ingest.schedule. cbn [String.eqb Ingest.ACTIVITY1 Ascii.eqb Bool.eqb andb].
  destruct (getitem res "assetClass"); cbn; [congruence|].
  destruct (getitem res "asset"); cbn; [congruence|].
  destruct (getitem res "metadata"); cbn; [congruence|].
  intros [= <- <-]. by destruct (jv_eq_str _ "Image").
Qed.

Lemma step_stall h h' :
  history_wf h = true -> stall_inv h -> step ingest_decides sdms_runs h h' -> stall_inv h'.
Proof.
  intros Hwf Hinv Hstep. destruct Hstep as [h tok r [st uuid]|h s n i l o Hs Hsa Hst Hrun].
  - assert (Hwf1 : history_wf (poll_view h) = true) by by apply appends_wf.
    assert (Hinv1 : stall_inv (poll_view h)).
    { apply stall_inv_appends; [done|]. intros a [<-|[<-|[]]] e He; unfold stall_event; by rewrite He. }
    apply stall_inv_appends; [done|]. intros a Ha e He. unfold stall_event. rewrite He.
    unfold decision_events in Ha.
    destruct (Ingest.decide st uuid _) as [|[st' r']] eqn:Hd; cbn [py_map] in Ha;
      [simpl in Ha; destruct Ha as [<-|[]]; discriminate|].
    pose proof (decide_stall _ _ _ _ _ _ Hwf1 Hinv1 Hd) as Hr.
    destruct r' as [[tk' [n v a' i l|res]]|]; simpl in Ha; repeat destruct Ha as [<-|Ha];
      try contradiction; try exact I; try discriminate. exact Hr.
  - pose proof (Hinv s Hs) as Hss. unfold stall_event in Hss. rewrite Hsa in Hss.
    apply stall_inv_appends; [done|]. intros a Ha e He. unfold stall_event. rewrite He.
    destruct Hrun as [EXT i o H|pf i o H|pf i o H|t i t' o H|tool i o H|tool i o H|tool i o H|i o H|ok i o H];
      cbn in Hss; try discriminate;
      try (destruct (extract_no_metadata pf i o Hss); contradiction).
    destruct o as [r| |]; simpl in Ha; repeat destruct Ha as [<-|Ha]; try contradiction; try exact I.
    exists s, i, l. split; [by apply appends_incl|done].
Qed.

(** C36. With the repository's workers, no ingestion execution gets past
    extraction: the decider hands the extraction step the user metadata
    under ['METADATA'], both extraction workers read [INPUT['metadata']]
    and die of [KeyError] before reporting, so on every reachable history
    the only activities ever scheduled are classification and extraction,
    registration is never scheduled, and the execution never completes. *)
Theorem sdms_ingest_stalls_at_extraction input h :
  reachable ingest_decides sdms_runs input h ->
  forall e, In e h ->
    attrs e <> OtherEvent "WorkflowExecutionCompleted" /\
    forall n i l, attrs e = ActivityTaskScheduled n i l ->
      n = Ingest.ACTIVITY1 \/ n = Ingest.ACTIVITY2a \/ n = Ingest.ACTIVITY2b.
Proof.
  intros Hr. assert (Hinv : stall_inv h).
  { induction Hr as [|h h' Hr IH Hs].
    - intros e [<-|[]]. exact I.
    - apply (step_stall h); [apply (reachable_wf _ _ _ _ Hr)|done|done]. }
  intros e He. specialize (Hinv e He). unfold stall_event in Hinv. split.
  - intros Ha. rewrite Ha in Hinv. by apply Hinv.
  - intros n i l Ha. rewrite Ha in Hinv. unfold sched_ok in Hinv.
    destruct (String.eqb_spec n Ingest.ACTIVITY1); [by left|].
    destruct (String.eqb_spec n Ingest.ACTIVITY2a); [by right; left|].
    destruct (String.eqb_spec n Ingest.ACTIVITY2b); [by right; right|]. discriminate.
Qed.

(** ** A sample execution: upload, classification, extraction scheduled *)

Definition sample_EXT : gmap string string := {[ "jpg" := "Image" ]}.

Definition sample_start : jvalue :=
  JObj [("fileName", JStr "/up/a/a.jpg"); ("metadata", JObj [("Description", JStr "beach")])].

Definition sample_h0 : list event := [mkEvent 1 (WorkflowExecutionStarted sample_start)].

Definition sample_h1 : list event :=
  Eval vm_compute in appends (poll_view sample_h0)
    (decision_events (py_map snd (Ingest.decide Ingest.locals0 "u1" (DecisionTask "t1" (Some (poll_view sample_h0)))))).

Definition identify_input : jvalue :=
  JObj [("asset", JStr "/up/a/a.jpg"); ("metadata", JObj [("Description", JStr "beach")])].

Definition identify_outcome : outcome :=
  Eval vm_compute in match identifyAssetClass sample_EXT identify_input with inr o => o | inl _ => NoReport end.

Definition sample_h2 : list event :=
  Eval vm_compute in appends sample_h1 (report_events 5 identify_outcome).

Definition sample_h3 : list event :=
  Eval vm_compute in appends (poll_view sample_h2)
    (decision_events (py_map snd (Ingest.decide Ingest.locals0 "u2" (DecisionTask "t2" (Some (poll_view sample_h2)))))).

Lemma sample_h3_reachable : reachable ingest_decides sdms_runs sample_start sample_h3.
Proof.
  apply (reach_step _ _ _ sample_h2 sample_h3);
    [|exact (step_decide _ sdms_runs sample_h2 "t2" _ (ingest_dec _ Ingest.locals0 "u2"))].
  apply (reach_step _ _ _ sample_h1 sample_h2).
  - apply (reach_step _ _ _ sample_h0 sample_h1); [apply reach_start|].
    exact (step_decide _ sdms_runs sample_h0 "t1" _ (ingest_dec _ Ingest.locals0 "u1")).
  - apply (step_work _ sdms_runs sample_h1 (mkEvent 5 (ActivityTaskScheduled Ingest.ACTIVITY1 identify_input Ingest.ACTIVITY1))
             Ingest.ACTIVITY1 identify_input Ingest.ACTIVITY1 identify_outcome).
    + vm_compute. tauto.
    + reflexivity.
    + vm_compute. reflexivity.
    + apply (run_identify sample_EXT). vm_compute. reflexivity.
Qed.

Lemma reachable_no_stale_taskName_witness :
  Ingest.reads_stale_taskName (DecisionTask "t3" (Some (poll_view sample_h3))) = false.
Proof. apply (reachable_no_stale_taskName sdms_runs sample_start sample_h3 "t3" sample_h3_reachable). Defined.

Lemma reachable_decide_no_unbound_witness :
  Ingest.decide Ingest.locals0 "u3" (DecisionTask "t3" (Some (poll_view sample_h3))) <>
    inl (UnboundLocalError "taskName").
Proof.
  apply (reachable_decide_no_unbound sdms_runs sample_start sample_h3 Ingest.locals0 "u3" "t3" sample_h3_reachable).
Defined.

Lemma sdms_ingest_stalls_at_extraction_witness :
  (exists e i l, In e sample_h3 /\ attrs e = ActivityTaskScheduled Ingest.ACTIVITY2a i l) /\
  forall e, In e sample_h3 ->
    attrs e <> OtherEvent "WorkflowExecutionCompleted" /\
    forall n i l, attrs e = ActivityTaskScheduled n i l ->
      n = Ingest.ACTIVITY1 \/ n = Ingest.ACTIVITY2a \/ n = Ingest.ACTIVITY2b.
Proof.
  split.
  - exists (nth 10 sample_h3 (mkEvent 0 DecisionTaskScheduled)). do 2 eexists.
    split; [apply nth_In; vm_compute; lia | reflexivity].
  - apply (sdms_ingest_stalls_at_extraction sample_start sample_h3 sample_h3_reachable).
Defined.

End Execution.
