(* ===== verification/Store.v ===== *)
(** * The external stores: the catalogue table and the S3 bucket

    Besides answering their tasks, the workers write two stores that live
    outside the processes: the [Assets] DynamoDB table, through
    [databaseHelper.updateEntry(key, updateExpression, expressionValues)]
    (a shared library outside the repository, which passes its arguments
    to [table.update_item]), and the S3 bucket [schulerfiles], through
    [upload_file], [Object.delete] and [copy_object].  Both outlive a
    task: a write made before an exception stays.

    [Store] models the two stores as one record threaded through an error
    monad that keeps the state when it raises ([io]), the update
    expressions of the scripts as lists of [action]s (the scripts'
    strings are quoted next to each use), and the services' calls from
    their documented behaviour:
    - [update_item] creates the item when its key is absent, applies its
      actions to the one item, and refuses (ValidationException) a key
      that is not the table's key, an action on the key attribute, a
      placeholder without a value, a value without a placeholder, and a
      [list_append] whose attribute is not a list;
    - [bucket.objects.filter(Prefix=p)] lists the stored keys that start
      with [p]; [copy_object] of a key onto itself with a [StorageClass]
      changes only its storage class (NoSuchKey for an absent key);
      [upload_file] without a storage class stores with STANDARD, and
      raises [S3UploadFailedError] when S3 refuses the upload (whether
      it does is an argument). *)

From stdpp Require Import base list strings gmap.
From Stdlib Require Import String.
From S2P Require Import Prelude Json Workers Register.

Open Scope string_scope.
Local Open Scope py_scope.

Module Store.

Import Worker Register.

(** ** Update expressions *)

Inductive action :=
| SetTo (attr placeholder : string)      (** [SET attr = :p] *)
| AppendTo (attr placeholder : string)   (** [SET attr = list_append(attr, :p)] *)
| RemoveAttr (attr : string).            (** [REMOVE attr] *)

Definition action_attr (a : action) : string :=
  match a with SetTo x _ | AppendTo x _ | RemoveAttr x => x end.

Definition uses (a : action) (p : string) : bool :=
  match a with SetTo _ q | AppendTo _ q => String.eqb p q | RemoveAttr _ => false end.

(** ** The stores *)

Inductive storage_class := STANDARD | STANDARD_IA.

#[global] Instance storage_class_eq_dec : EqDecision storage_class.
Proof. solve_decision. Defined.

Abbreviation bucket := (gmap string storage_class).

Record store := mkStore { catalogue : table; objects : bucket }.

(** ** Computations on the stores *)

Definition io (A : Type) : Type := store -> store * py A.

Definition io_ret {A} (a : A) : io A := fun s => (s, inr a).
Definition io_lift {A} (c : py A) : io A := fun s => (s, c).
Definition io_bind {A B} (c : io A) (k : A -> io B) : io B :=
  fun s => match c s with
           | (s', inl e) => (s', inl e)
           | (s', inr a) => k a s'
           end.

Declare Scope io_scope.
Delimit Scope io_scope with io.
Notation "x <-! c ;; k" := (io_bind c (fun x => k))
  (at level 100, c at next level, right associativity) : io_scope.
Notation "c ;;! k" := (io_bind c (fun _ => k))
  (at level 100, right associativity) : io_scope.

(** [for x in l: f(x)] *)
Fixpoint io_iter {A} (f : A -> io unit) (l : list A) : io unit :=
  match l with
  | [] => io_ret tt
  | x :: l' => io_bind (f x) (fun _ => io_iter f l')
  end.

(** [try: c except e: h(e)] *)
Definition io_catch {A} (c : io A) (h : py_exc -> io A) : io A :=
  fun s => match c s with
           | (s', inl e) => h e s'
           | (s', inr a) => (s', inr a)
           end.

(** ** The catalogue: [table.update_item] *)

(** [Key=key]: the table's key is the string attribute [Checksum]. *)
Definition key_of (key : jvalue) : py string :=
  match key with
  | JObj [(k, JStr c)] => if String.eqb k "Checksum" then ret c else py_raise (ClientError "ValidationException")
  | _ => py_raise (ClientError "ValidationException")
  end.

Definition value_of (vals : dict jvalue) (p : string) : py jvalue :=
  opt_or_raise (ClientError "ValidationException") (dict_get vals p).

Definition apply_action (vals : dict jvalue) (item : dict jvalue) (a : action) : py (dict jvalue) :=
  match a with
  | SetTo x p => v <- value_of vals p ;; ret (dict_set item x v)
  | AppendTo x p =>
      v <- value_of vals p ;;
      l <- list_append (dict_get item x) (Some v) ;;
      ret (dict_set item x l)
  | RemoveAttr x => ret (dict_remove item x)
  end.

(** The expression is checked before anything is written. *)
Definition expression_ok (acts : list action) (vals : dict jvalue) : bool :=
  negb (existsb (fun a => String.eqb (action_attr a) "Checksum") acts) &&
  forallb (fun kv => existsb (fun a => uses a kv.1) acts) vals.

(** The item [update_item] creates for an absent key. *)
Definition new_item (c : string) : dict jvalue := [("Checksum", JStr c)].

Definition update_table (t : table) (key : jvalue) (acts : list action) (vals : dict jvalue) : py table :=
  c <- key_of key ;;
  if expression_ok acts vals then
    item <- py_fold (apply_action vals) acts (default (new_item c) (t !! c)) ;;
    ret (<[c := item]> t)
  else py_raise (ClientError "ValidationException").

(** [databaseHelper.updateEntry(key, updateExpression, expressionValues)] *)
Definition updateEntry (key : jvalue) (acts : list action) (vals : dict jvalue) : io unit :=
  fun s => match update_table (catalogue s) key acts vals with
           | inl e => (s, inl e)
           | inr t' => (mkStore t' (objects s), inr tt)
           end.

(** ** The bucket *)

(** [bucket.upload_file(upfile, s3key, {'ServerSideEncryption': 'AES256'})];
    [ok] is whether S3 accepts the upload, which otherwise raises
    [boto3.exceptions.S3UploadFailedError] and stores nothing. *)
Definition upload_file (ok : bool) (s3key : string) : io unit :=
  fun s => if ok then (mkStore (catalogue s) (<[s3key := STANDARD]> (objects s)), inr tt)
           else (s, inl (S3UploadFailedError s3key)).

(** [bucket.objects.filter(Prefix=p)] *)
Definition filter_prefix (b : bucket) (p : string) : list string :=
  List.filter (fun k => startswith k p) (map fst (map_to_list b)).

(** [s3.Object(bucket.name, k).delete()] *)
Definition delete_object (k : string) : io unit :=
  fun s => (mkStore (catalogue s) (delete k (objects s)), inr tt).

(** [s3.meta.client.copy_object(CopySource={..., 'Key': k}, Key=k, StorageClass=cls)] *)
Definition copy_object (k : string) (cls : storage_class) : io unit :=
  fun s => match objects s !! k with
           | Some _ => (mkStore (catalogue s) (<[k := cls]> (objects s)), inr tt)
           | None => (s, inl (ClientError "NoSuchKey"))
           end.

(** [for obj in bucket.objects.filter(Prefix=p): f(obj.key)] *)
Definition for_prefix (p : string) (f : string -> io unit) : io unit :=
  fun s => io_iter f (filter_prefix (objects s) p) s.

(** The catalogue invariant of [Register], on a store. *)
Definition store_wf (s : store) : Prop := table_wf (catalogue s).

(** ** Lemmas *)

Lemma io_bind_inr {A B} (c : io A) (k : A -> io B) s s' a :
  c s = (s', inr a) -> io_bind c k s = k a s'.
Proof. intros H. unfold io_bind. by rewrite H. Qed.

Lemma io_bind_inl {A B} (c : io A) (k : A -> io B) s s' e :
  c s = (s', inl e) -> io_bind c k s = (s', inl e).
Proof. intros H. unfold io_bind. by rewrite H. Qed.

Lemma key_of_inr key c : key_of key = inr c -> key = JObj [("Checksum", JStr c)].
Proof.
  destruct key as [| | | | |[|[k [| | |c'| |]] [|]]]; try discriminate. cbn.
  destruct (String.eqb_spec k "Checksum") as [->|]; [by intros [= ->]|discriminate].
Qed.

Lemma key_of_checksum c : key_of (JObj [("Checksum", JStr c)]) = inr c.
Proof. reflexivity. Qed.

(** An action changes its own attribute only. *)
Lemma apply_action_other vals item a item' x :
  x <> action_attr a -> apply_action vals item a = inr item' -> dict_get item' x = dict_get item x.
Proof.
  intros Hx. destruct a as [y p|y p|y]; cbn in Hx |- *.
  - destruct (value_of vals p); [discriminate|]. intros [= <-]. by apply dict_get_set_ne.
  - destruct (value_of vals p); [discriminate|]. cbn.
    destruct (list_append _ _); [discriminate|]. intros [= <-]. by apply dict_get_set_ne.
  - intros [= <-]. by apply dict_get_remove_ne.
Qed.

Lemma apply_fold_other vals acts item item' x :
  ~ In x (map action_attr acts) -> py_fold (apply_action vals) acts item = inr item' ->
  dict_get item' x = dict_get item x.
Proof.
  intros Hx. apply (py_fold_inv_in (fun i => dict_get i x = dict_get item x)); [|done].
  intros i a i' Ha Hi Hs. rewrite <- Hi. apply (apply_action_other vals i a); [|done].
  intros ->. apply Hx, in_map, Ha.
Qed.

Lemma expression_ok_key acts vals :
  expression_ok acts vals = true -> ~ In "Checksum" (map action_attr acts).
Proof.
  unfold expression_ok. intros [Hn _]%andb_true_iff (a & Ha & Hin)%in_map_iff.
  apply negb_true_iff, not_true_iff_false in Hn. apply Hn, existsb_exists.
  exists a. split; [done|]. by apply String.eqb_eq.
Qed.

(** What a successful update does: the item under the key, created when
    absent, gets the actions; every other item is kept. *)
Lemma update_table_inr t key acts vals t' :
  update_table t key acts vals = inr t' ->
  exists c item, key = JObj [("Checksum", JStr c)] /\ expression_ok acts vals = true /\
    py_fold (apply_action vals) acts (default (new_item c) (t !! c)) = inr item /\
    t' = <[c := item]> t.
Proof.
  unfold update_table. destruct (key_of key) as [|c] eqn:Hk; [discriminate|]. cbn [py_bind].
  destruct (expression_ok acts vals) eqn:He; [|discriminate].
  destruct (py_fold _ _ _) as [|item] eqn:Hf; [discriminate|]. intros [= <-].
  exists c, item. by rewrite (key_of_inr _ _ Hk).
Qed.

Lemma update_table_wf t key acts vals t' :
  table_wf t -> update_table t key acts vals = inr t' -> table_wf t'.
Proof.
  intros Hwf Hu. destruct (update_table_inr _ _ _ _ _ Hu) as (c & item & _ & He & Hf & ->).
  intros c' i'.
  rewrite lookup_insert. case_decide as Hc; [|apply Hwf]. subst c'. intros [= <-].
  rewrite (apply_fold_other _ _ _ _ _ (expression_ok_key _ _ He) Hf).
  destruct (t !! c) eqn:Ht; cbn; [by apply Hwf|reflexivity].
Qed.

Lemma updateEntry_wf key acts vals s : store_wf s -> store_wf (updateEntry key acts vals s).1.
Proof.
  unfold updateEntry, store_wf. destruct (update_table _ _ _ _) eqn:Hu; [done|].
  intros Hwf. exact (update_table_wf _ _ _ _ _ Hwf Hu).
Qed.

Lemma updateEntry_objects key acts vals s : objects (updateEntry key acts vals s).1 = objects s.
Proof. unfold updateEntry. by destruct (update_table _ _ _ _). Qed.

(** A refused update changes nothing. *)
Lemma updateEntry_inl key acts vals s e :
  update_table (catalogue s) key acts vals = inl e -> updateEntry key acts vals s = (s, inl e).
Proof. intros H. unfold updateEntry. by rewrite H. Qed.

Lemma updateEntry_inr key acts vals s t' :
  update_table (catalogue s) key acts vals = inr t' ->
  updateEntry key acts vals s = (mkStore t' (objects s), inr tt).
Proof. intros H. unfold updateEntry. by rewrite H. Qed.

Lemma in_filter_prefix b p k : In k (filter_prefix b p) <-> startswith k p = true /\ is_Some (b !! k).
Proof.
  unfold filter_prefix. rewrite filter_In, in_map_iff. split.
  - intros [([k' c] & <- & Hin) Hp]. split; [done|]. exists c.
    by apply elem_of_map_to_list, list_elem_of_In.
  - intros [Hp [c Hc]]. split; [|done]. exists (k, c). split; [done|].
    by apply list_elem_of_In, elem_of_map_to_list.
Qed.

Lemma io_iter_delete l s :
  io_iter delete_object l s = (mkStore (catalogue s) (fold_left (fun b k => delete k b) l (objects s)), inr tt).
Proof.
  revert s. induction l as [|k l IH]; intros [t b]; [done|]. cbn. exact (IH (mkStore t (delete k b))).
Qed.

Lemma fold_delete_lookup (l : list string) (b : bucket) k :
  fold_left (fun b k => delete k b) l b !! k = if bool_decide (k ∈ l) then None else b !! k.
Proof.
  revert b. induction l as [|k' l IH]; intros b; cbn; [done|]. rewrite IH.
  destruct (decide (k = k')) as [->|Hne].
  - rewrite (bool_decide_eq_true_2 (k' ∈ k' :: l)) by set_solver.
    case_bool_decide; [done|]. by rewrite lookup_delete_eq.
  - rewrite lookup_delete_ne by done.
    by rewrite (bool_decide_ext (k ∈ k' :: l) (k ∈ l)) by set_solver.
Qed.

(** Deleting the listed objects removes exactly the keys with the prefix. *)
Lemma for_prefix_delete p s k :
  for_prefix p delete_object s = ((for_prefix p delete_object s).1, inr tt) /\
  catalogue (for_prefix p delete_object s).1 = catalogue s /\
  objects (for_prefix p delete_object s).1 !! k = if startswith k p then None else objects s !! k.
Proof.
  unfold for_prefix. rewrite io_iter_delete. cbn. split; [done|]. split; [done|].
  rewrite fold_delete_lookup. case_bool_decide as H; rewrite list_elem_of_In in H.
  - by apply in_filter_prefix in H as [-> _].
  - destruct (startswith k p) eqn:Hp; [|done].
    destruct (objects s !! k) eqn:Hk; [|done]. destruct H. apply in_filter_prefix. by rewrite Hk.
Qed.

Lemma io_iter_copy cls l s :
  Forall (fun k => is_Some (objects s !! k)) l ->
  io_iter (fun k => copy_object k cls) l s =
    (mkStore (catalogue s) (fold_left (fun b k => <[k := cls]> b) l (objects s)), inr tt).
Proof.
  revert s. induction l as [|k l IH]; intros [t b] Hl; [done|]. cbn in Hl |- *.
  apply Forall_cons in Hl as [[c Hc] Hl]. unfold io_bind, copy_object. cbn. rewrite Hc.
  refine (IH (mkStore t (<[k := cls]> b)) _). cbn.
  eapply Forall_impl; [exact Hl|]. intros k' Hk'. rewrite lookup_insert. by case_decide.
Qed.

Lemma fold_insert_lookup cls (l : list string) (b : bucket) k :
  fold_left (fun b k => <[k := cls]> b) l b !! k = if bool_decide (k ∈ l) then Some cls else b !! k.
Proof.
  revert b. induction l as [|k' l IH]; intros b; cbn; [done|]. rewrite IH.
  destruct (decide (k = k')) as [->|Hne].
  - rewrite (bool_decide_eq_true_2 (k' ∈ k' :: l)) by set_solver.
    case_bool_decide; [done|]. by rewrite lookup_insert_eq.
  - rewrite lookup_insert_ne by done.
    by rewrite (bool_decide_ext (k ∈ k' :: l) (k ∈ l)) by set_solver.
Qed.

(** Copying the listed objects onto themselves changes the storage class
    of exactly the keys with the prefix. *)
Lemma for_prefix_copy p cls s k :
  for_prefix p (fun k => copy_object k cls) s = ((for_prefix p (fun k => copy_object k cls) s).1, inr tt) /\
  catalogue (for_prefix p (fun k => copy_object k cls) s).1 = catalogue s /\
  objects (for_prefix p (fun k => copy_object k cls) s).1 !! k =
    if startswith k p then (fun _ => cls) <$> objects s !! k else objects s !! k.
Proof.
  unfold for_prefix. rewrite io_iter_copy; [|apply Forall_forall; intros k' Hk'%list_elem_of_In; by apply in_filter_prefix in Hk' as [_ ?]].
  cbn. split; [done|]. split; [done|]. rewrite fold_insert_lookup. case_bool_decide as H; rewrite list_elem_of_In in H.
  - apply in_filter_prefix in H as [-> [c ->]]. done.
  - destruct (startswith k p) eqn:Hp; [|done].
    destruct (objects s !! k) eqn:Hk; [|done]. destruct H. apply in_filter_prefix. by rewrite Hk.
Qed.

(** ** Relations kept by computations *)

(** [c] relates every store to the store it leaves, whatever it returns. *)
Definition io_rel (R : store -> store -> Prop) {A} (c : io A) : Prop := forall s, R s (c s).1.

Section IoRel.

Context (R : store -> store -> Prop) `{!PreOrder R}.

Lemma io_rel_ret {A} (a : A) : io_rel R (io_ret a).
Proof. intros s. reflexivity. Qed.

Lemma io_rel_lift {A} (c : py A) : io_rel R (io_lift c).
Proof. intros s. reflexivity. Qed.

Lemma io_rel_bind {A B} (c : io A) (k : A -> io B) :
  io_rel R c -> (forall a, io_rel R (k a)) -> io_rel R (io_bind c k).
Proof.
  intros Hc Hk s. unfold io_bind. specialize (Hc s).
  destruct (c s) as [s' [e|a]]; [exact Hc|]. etrans; [exact Hc|apply Hk].
Qed.

Lemma io_rel_catch {A} (c : io A) (h : py_exc -> io A) :
  io_rel R c -> (forall e, io_rel R (h e)) -> io_rel R (io_catch c h).
Proof.
  intros Hc Hh s. unfold io_catch. specialize (Hc s).
  destruct (c s) as [s' [e|a]]; [|exact Hc]. etrans; [exact Hc|apply Hh].
Qed.

Lemma io_rel_iter {A} (f : A -> io unit) l : (forall x, io_rel R (f x)) -> io_rel R (io_iter f l).
Proof.
  intros Hf. induction l as [|x l IH]; [apply io_rel_ret|]. cbn. by apply io_rel_bind.
Qed.

Lemma io_rel_for_prefix p f : (forall k, io_rel R (f k)) -> io_rel R (for_prefix p f).
Proof. intros Hf s. exact (io_rel_iter f _ Hf s). Qed.

(** The bucket operations leave the catalogue alone. *)
Hypothesis R_objects : forall s s', catalogue s' = catalogue s -> R s s'.

Lemma io_rel_upload ok k : io_rel R (upload_file ok k).
Proof. intros s. unfold upload_file. destruct ok; [by apply R_objects | reflexivity]. Qed.

Lemma io_rel_delete k : io_rel R (delete_object k).
Proof. intros s. by apply R_objects. Qed.

Lemma io_rel_copy k cls : io_rel R (copy_object k cls).
Proof. intros s. unfold copy_object. destruct (objects s !! k); [by apply R_objects|reflexivity]. Qed.

End IoRel.

Lemma updateEntry_rel (R : store -> store -> Prop) `{!PreOrder R} key acts vals :
  (forall s t', update_table (catalogue s) key acts vals = inr t' -> R s (mkStore t' (objects s))) ->
  io_rel R (updateEntry key acts vals).
Proof.
  intros H s. unfold updateEntry. destruct (update_table _ _ _ _) eqn:Hu; [reflexivity|]. exact (H s _ Hu).
Qed.

(** ** Inverting a successful computation *)

Lemma io_bind_inv {A B} (c : io A) (k : A -> io B) s s' b :
  io_bind c k s = (s', inr b) -> exists s1 a, c s = (s1, inr a) /\ k a s1 = (s', inr b).
Proof. unfold io_bind. destruct (c s) as [s1 [e|a]]; [discriminate|]. eauto. Qed.

Lemma io_lift_inv {A} (c : py A) s s' a : io_lift c s = (s', inr a) -> s' = s /\ c = inr a.
Proof. by intros [= -> ->]. Qed.

Lemma io_ret_inv {A} (a : A) s s' a' : io_ret a s = (s', inr a') -> s' = s /\ a' = a.
Proof. by intros [= -> ->]. Qed.

Lemma io_catch_inv {A} (c : io A) h s s' b :
  io_catch c h s = (s', inr b) -> c s = (s', inr b) \/ exists s1 e, c s = (s1, inl e) /\ h e s1 = (s', inr b).
Proof. unfold io_catch. destruct (c s) as [s1 [e|a]]; [eauto|intros [= -> ->]; auto]. Qed.

(** Splits a successful run into its steps, one hypothesis per step. *)
Ltac io_inv :=
  repeat match goal with
  | H : io_bind _ _ _ = (_, inr _) |- _ =>
      let s1 := fresh "s" in let a := fresh "a" in let H1 := fresh "Hstep" in
      apply io_bind_inv in H as (s1 & a & H1 & H);
      try (apply io_lift_inv in H1 as [-> H1])
  | H : (match ?x with _ => _ end) _ = (_, inr _) |- _ => destruct x eqn:?
  | H : io_ret _ _ = (_, inr _) |- _ => apply io_ret_inv in H as [-> ->]
  | H : io_lift _ _ = (_, inr _) |- _ => apply io_lift_inv in H as [-> H]
  end.

End Store.
