(* ===== verification/Effects.v ===== *)
(** * The workers' writes to the catalogue and the bucket

    The task branches of [Workers] give what a worker answers; this file
    gives the whole branch, with the writes it makes to the [Assets]
    table and the S3 bucket ([Store]) in the order the code makes them,
    around the reads of the input that can raise.  Each branch is a
    computation of [Store.io]: an exception after a write keeps the
    write, and the task is then left unanswered.

    The theorems: each branch answers what [Workers] says it answers
    (so the results on executions hold for the scripts with their
    writes); the catalogue invariant of [Register] and the growth of
    every audit trail hold in every store the workers produce; the
    lifecycle deletion removes exactly the objects the distribution
    uploaded under the asset's name, so that two assets with one name
    share them (C16); the three branches of [moveFiles]: the warm move
    changes the storage class of exactly those objects (C21), the move to
    the archive dies of [NameError] when a directory of its download
    cannot be made and otherwise writes only the catalogue (C19), and a
    move that takes neither branch writes the catalogue before it dies of
    [UnboundLocalError] on a process's first task (C8); and the orders of
    writes and reads: the image thumbnail and the distribution record in
    the catalogue before a read that can still fail, and [deleteFiles]
    deletes the objects before an update the table can refuse (C33). *)

From stdpp Require Import base list strings gmap.
From Stdlib Require Import String.
From S2P Require Import Prelude Json Classifier Storyboard Distribute Ingest Workers Register Execution Store.

Open Scope string_scope.
Local Open Scope py_scope.

Module Effects.

Import Store.
Local Open Scope io_scope.

(** The asset of the input as the string [parseHelper.splitFilename] needs. *)
Definition asset_str (asset : jvalue) : py string :=
  match asset with
  | JStr a => ret a
  | _ => py_raise (TypeError "splitFilename of a non-string")
  end.

(** ** The ingestion workers *)

(** [workflowcode/createThumbnailFromImage.py], lines 60-120: the
    catalogue update comes before [INPUT['assetClass']] is read. *)
Definition createThumbnailFromImage (convert : Worker.tool_run) (input : jvalue) : io Worker.outcome :=
  asset <-! io_lift (getitem input "asset") ;;
  dbPrimaryKey <-! io_lift (getitem input "dbPrimaryKey") ;;
  a <-! io_lift (asset_str asset) ;;
  let '(_, fileName, _) := Classifier.splitFilename a in
  let newDir := "thumbnails" in
  let outfile := fileName ++ "_thumbnail.jpg" in
  match convert with
  | Worker.ToolOutput output =>
      (* updateExpression = 'set thumbnail = :t' *)
      updateEntry dbPrimaryKey [SetTo "thumbnail" ":t"] [(":t", JStr ("/" ++ newDir ++ "/" ++ outfile))] ;;!
      assetClass <-! io_lift (getitem input "assetClass") ;;
      io_ret (Worker.Success (JObj [("tool", JStr output); ("dbPrimaryKey", dbPrimaryKey);
                                   ("assetClass", assetClass); ("asset", asset)]))
  | Worker.ToolError err =>
      io_ret (Worker.Failure (Worker.json_str "THB-0001_Error in image thumbnail creation") (Worker.json_str err))
  end.

(** [workflowcode/createThumbnailFromVideo.py], lines 66-206: after
    ffmpeg, the storyboard values of [Storyboard.storyboard_update] are
    written, then [INPUT['assetClass']] is read.  [listing] is
    [os.listdir(subDir)] after ffmpeg. *)
Definition createThumbnailFromVideo (ffmpeg : Worker.tool_run) (listing : list string) (input : jvalue)
    : io Worker.outcome :=
  asset <-! io_lift (getitem input "asset") ;;
  dbPrimaryKey <-! io_lift (getitem input "dbPrimaryKey") ;;
  a <-! io_lift (asset_str asset) ;;
  match ffmpeg with
  | Worker.ToolOutput output =>
      let '(_, _, expressionValues) := Storyboard.storyboard_update a listing in
      (* updateExpression = 'set thumbnail = :t, storyboard = :s' *)
      updateEntry dbPrimaryKey [SetTo "thumbnail" ":t"; SetTo "storyboard" ":s"] expressionValues ;;!
      assetClass <-! io_lift (getitem input "assetClass") ;;
      io_ret (Worker.Success (JObj [("tool", JStr output); ("dbPrimaryKey", dbPrimaryKey);
                                   ("assetClass", assetClass); ("asset", asset)]))
  | Worker.ToolError err =>
      io_ret (Worker.Failure (Worker.json_str "THB-0002_Error in video thumbnail creation") (Worker.json_str err))
  end.

(** [workflowcode/transcodeVideoDefault.py], lines 63-125: the output
    (with [INPUT['assetClass']]) is built before the catalogue update. *)
Definition transcodeVideoDefault (ffmpeg : Worker.tool_run) (input : jvalue) : io Worker.outcome :=
  asset <-! io_lift (getitem input "asset") ;;
  dbPrimaryKey <-! io_lift (getitem input "dbPrimaryKey") ;;
  a <-! io_lift (asset_str asset) ;;
  let '(_, fileName, _) := Classifier.splitFilename a in
  let newDir := "converted" in
  let outfile := fileName ++ "_PDL.mp4" in
  match ffmpeg with
  | Worker.ToolOutput output =>
      assetClass <-! io_lift (getitem input "assetClass") ;;
      (* updateExpression = 'set PDL = :t' *)
      updateEntry dbPrimaryKey [SetTo "PDL" ":t"] [(":t", JStr ("/" ++ newDir ++ "/" ++ outfile))] ;;!
      io_ret (Worker.Success (JObj [("tool", JStr output); ("dbPrimaryKey", dbPrimaryKey);
                                   ("assetClass", assetClass); ("asset", asset)]))
  | Worker.ToolError _ => io_lift (py_raise (NameError "logger"))
  end.

(** [workflowcode/distributeToS3.py], lines 54-106: every file of the
    asset's directory tree [walk] ([os.walk(filePath)]) is uploaded under
    its key ([up_ok] says which uploads S3 accepts; the first refused one
    raises), then the catalogue says ['CDN'], then [INPUT['assetClass']]
    is read. *)
Definition distributeToS3 (walk : list (string * list string)) (up_ok : string -> bool) (input : jvalue)
    : io Worker.outcome :=
  asset <-! io_lift (getitem input "asset") ;;
  dbPrimaryKey <-! io_lift (getitem input "dbPrimaryKey") ;;
  a <-! io_lift (asset_str asset) ;;
  let '(_, fileName, _) := Classifier.splitFilename a in
  io_iter (fun up => upload_file (up_ok up.2) up.2) (Distribute.upload_keys fileName walk) ;;!
  (* updateExpression = 'set File_Location = :d' *)
  updateEntry dbPrimaryKey [SetTo "File_Location" ":d"] [(":d", JStr "CDN")] ;;!
  assetClass <-! io_lift (getitem input "assetClass") ;;
  io_ret (Worker.Success (JObj [("result", JStr "success"); ("dbPrimaryKey", dbPrimaryKey);
                               ("assetClass", assetClass); ("asset", asset)])).

(** [workflowcode/registerAsset.py], lines 51-150, with the table in the
    store: a write made by [put_item] or [update_item] stays when a later
    read of the input raises. *)
Definition put_item (DOC : jvalue) : io unit :=
  fun s => match Register.put_item (catalogue s) DOC with
           | inr t' => (mkStore t' (objects s), inr tt)
           | inl e => (s, inl e)
           end.

Definition revive (key audit userFields filename : jvalue) : io unit :=
  fun s => match Register.revive (catalogue s) key audit userFields filename with
           | inr t' => (mkStore t' (objects s), inr tt)
           | inl e => (s, inl e)
           end.

Definition registered (input checksum : jvalue) : io Worker.outcome :=
  assetClass <-! io_lift (getitem input "assetClass") ;;
  asset <-! io_lift (getitem input "asset") ;;
  io_ret (Worker.Success (JObj [("dbPrimaryKey", JObj [("Checksum", checksum)]);
                               ("assetClass", assetClass); ("asset", asset)])).

(** The task branch: [put_item] in a [try] whose [except ClientError]
    tries the conditional revival, itself in a [try] whose [except
    ClientError] makes the REG-0001 failure. *)
Definition registerAsset (input : jvalue) : io Worker.outcome :=
  DOC <-! io_lift (getitem input "DOC") ;;
  fresh <-! io_catch (put_item DOC ;;! io_ret true)
                     (fun e => match e with ClientError _ => io_ret false | _ => io_lift (py_raise e) end) ;;
  if fresh then
    checksum <-! io_lift (getitem DOC "Checksum") ;;
    registered input checksum
  else
    checksum <-! io_lift (getitem DOC "Checksum") ;;
    audit <-! io_lift (getitem DOC "Audit") ;;
    userFields <-! io_lift (getitem DOC "UserFields") ;;
    filename <-! io_lift (getitem DOC "Filename") ;;
    refused <-! io_catch (revive checksum audit userFields filename ;;! io_ret false)
                         (fun e => match e with ClientError _ => io_ret true | _ => io_lift (py_raise e) end) ;;
    if refused then
      (* str(err): the refused update left the catalogue as it was *)
      fun s => io_ret (Worker.Failure
                         (Worker.json_str ("REG-0001_Duplicate file entry: The file with ID " ++
                                           Register.py_str checksum ++ " already exists"))
                         (Worker.json_str (Register.revive_error (catalogue s) checksum audit))) s
    else registered input checksum.

(** ** The lifecycle workers ([src/SFNcode]) *)

(** The audit entry [AUDIT] the lifecycle workers append. *)
Definition audit (now action workID : string) : jvalue :=
  JObj [("User", JStr "System"); ("Timestamp", JStr now); ("Action", JStr action); ("Notes", JStr workID)].

(** [deleteFiles.py], lines 56-108: the objects under [fileKey/] are
    deleted before the catalogue update; an archive source [continue]s
    before anything. *)
Definition deleteFiles (workID now : string) (input : jvalue) : io Worker.outcome :=
  source <-! io_lift (getitem input "locationSource") ;;
  destination <-! io_lift (getitem input "locationDestination") ;;
  dbPrimaryKey <-! io_lift (getitem input "dbPrimaryKey") ;;
  fk <-! io_lift (getitem input "fileKey") ;;
  fileKey <-! io_lift (Worker.jv_concat fk "/") ;;
  if jv_eq_str source "CDN" || jv_eq_str source "near_line" then
    for_prefix fileKey delete_object ;;!
    (* updateExpression = 'set File_Location = :d, Audit = list_append(Audit, :a)' *)
    updateEntry dbPrimaryKey [SetTo "File_Location" ":d"; AppendTo "Audit" ":a"]
      [(":d", destination); (":a", JList [audit now ("Asset removed from " ++ Register.py_str source) workID])] ;;!
    io_ret (Worker.Success (JObj [("result", JStr "success")]))
  else io_ret Worker.NoReport.

(** [moveFiles.py], lines 56-166: a move between the two S3 tiers copies
    every object under [fileKey/] onto itself with the destination's
    storage class; a move to the archive downloads the objects (the upload
    to the archive is not written), where an [os.makedirs] that fails
    ([mkdir] of the object's key is [false]) raises [NameError], since
    [errno] is not imported; a move from the archive does nothing.  The
    catalogue update follows in every case, before [OUTPUT.update(INPUT)],
    which raises [UnboundLocalError] when neither branch ran and no earlier
    task bound [OUTPUT]: the catalogue is then updated for a move that is
    never reported. *)
Definition moveFiles (subDir workID now : string) (mkdir : string -> bool) (prev : option (dict jvalue))
    (input : jvalue) : io (option (dict jvalue) * Worker.outcome) :=
  source <-! io_lift (getitem input "locationSource") ;;
  destination <-! io_lift (getitem input "locationDestination") ;;
  dbPrimaryKey <-! io_lift (getitem input "dbPrimaryKey") ;;
  fk <-! io_lift (getitem input "fileKey") ;;
  fileKey <-! io_lift (Worker.jv_concat fk "/") ;;
  let s3StorageClass := if jv_eq_str destination "near_line" then STANDARD_IA else STANDARD in
  let warm := (jv_eq_str source "CDN" && jv_eq_str destination "near_line") ||
              (jv_eq_str source "near_line" && jv_eq_str destination "CDN") in
  let cold := jv_eq_str source "archive" || jv_eq_str destination "archive" in
  OUTPUT <-! (if warm then
                for_prefix fileKey (fun k => copy_object k s3StorageClass) ;;!
                io_ret (Some [("result", JStr "success")])
              else if cold then
                (if jv_eq_str source "archive" then io_ret tt
                 else for_prefix fileKey (fun k => if mkdir k then io_ret tt
                                                   else io_lift (py_raise (NameError "errno")))) ;;!
                io_ret (Some [("result", JStr "success"); ("asset", JStr (subDir ++ "dummy.file"))])
              else io_ret prev) ;;
  (* updateExpression = 'set File_Location = :d, Audit = list_append(Audit, :a)' *)
  updateEntry dbPrimaryKey [SetTo "File_Location" ":d"; AppendTo "Audit" ":a"]
    [(":d", destination);
     (":a", JList [audit now ("Asset moved from " ++ Register.py_str source ++ " from " ++ Register.py_str destination) workID])] ;;!
  OUTPUT <-! io_lift (@opt_or_raise (dict jvalue) (UnboundLocalError "OUTPUT") OUTPUT) ;;
  OUTPUT' <-! io_lift (Worker.py_update OUTPUT input) ;;
  io_ret (Some OUTPUT', Worker.Success (JObj OUTPUT')).

(** ** Invariants of the stores *)

(** Actions that keep the audit trail: only [list_append] touches it. *)
Definition audit_safe (a : action) : bool :=
  match a with
  | AppendTo _ _ => true
  | SetTo x _ | RemoveAttr x => negb (String.eqb x "Audit")
  end.

(** Every audit trail of [t] is still there in [t'], possibly extended. *)
Definition audit_grows (t t' : Register.table) : Prop :=
  forall c item l, t !! c = Some item -> dict_get item "Audit" = Some (JList l) ->
    exists item' l', t' !! c = Some item' /\ dict_get item' "Audit" = Some (JList (l ++ l')%list).

Definition audit_le (s s' : store) : Prop := audit_grows (catalogue s) (catalogue s').

Definition wf_kept (s s' : store) : Prop := store_wf s -> store_wf s'.

(** One task of one of the writing workers, whatever its input, the
    tools' results and its outcome. *)
Inductive writes : store -> store -> Prop :=
| w_thumb_image convert input s : writes s (createThumbnailFromImage convert input s).1
| w_thumb_video ffmpeg listing input s : writes s (createThumbnailFromVideo ffmpeg listing input s).1
| w_transcode ffmpeg input s : writes s (transcodeVideoDefault ffmpeg input s).1
| w_distribute walk up_ok input s : writes s (distributeToS3 walk up_ok input s).1
| w_register input s : writes s (registerAsset input s).1
| w_delete workID now input s : writes s (deleteFiles workID now input s).1
| w_move subDir workID now mkdir prev input s : writes s (moveFiles subDir workID now mkdir prev input s).1.

(** The files of a directory tree as [os.walk] lists them: names without
    a separator. *)
Definition walk_ok (walk : list (string * list string)) : Prop :=
  Forall (fun d => Forall (fun f => f <> "" /\ Distribute.no_slash f = true) d.2) walk.

(** [k] is the key of an object the distribution of an asset named
    [fileName] with directory tree [walk] uploads. *)
Definition uploaded (fileName : string) (walk : list (string * list string)) (k : string) : Prop :=
  exists up, In (up, k) (Distribute.upload_keys fileName walk).

(** The workers of the execution model ([Execution.sdms_runs]) with the
    branches of this file in place of those of [Workers]: a worker
    answers [o] when its branch, from some store and with some results
    of the tools, returns [o]. *)
Inductive store_runs : string -> jvalue -> Worker.outcome -> Prop :=
| sr_identify EXT i o : Worker.identifyAssetClass EXT i = inr o -> store_runs Ingest.ACTIVITY1 i o
| sr_exif pf i o : Worker.extractExifMetadata pf i = inr o -> store_runs Ingest.ACTIVITY2a i o
| sr_mediainfo pf i o : Worker.extractMediainfoMetadata pf i = inr o -> store_runs Ingest.ACTIVITY2b i o
| sr_register i s s' o : registerAsset i s = (s', inr o) -> store_runs Ingest.ACTIVITY3 i o
| sr_thumb_image tool i s s' o : createThumbnailFromImage tool i s = (s', inr o) -> store_runs Ingest.ACTIVITY4a i o
| sr_thumb_video tool listing i s s' o :
    createThumbnailFromVideo tool listing i s = (s', inr o) -> store_runs Ingest.ACTIVITY4b i o
| sr_transcode tool i s s' o : transcodeVideoDefault tool i s = (s', inr o) -> store_runs Ingest.ACTIVITY5b i o
| sr_distribute walk up_ok i s s' o : distributeToS3 walk up_ok i s = (s', inr o) -> store_runs Ingest.ACTIVITY6 i o
| sr_cleanup ok i o : Worker.cleanUpLandingPad ok i = inr o -> store_runs Ingest.ACTIVITY7 i o.

(** ** Lemmas *)

#[local] Instance wf_kept_preorder : PreOrder wf_kept.
Proof. split; [intros s H; exact H|intros s1 s2 s3 H1 H2 H; exact (H2 (H1 H))]. Qed.

#[local] Instance audit_le_preorder : PreOrder audit_le.
Proof.
  split.
  - intros s c item l Hc Ha. exists item, []. by rewrite app_nil_r.
  - intros s1 s2 s3 H12 H23 c item l Hc Ha.
    destruct (H12 c item l Hc Ha) as (i2 & l2 & Hc2 & Ha2).
    destruct (H23 c i2 (l ++ l2)%list Hc2 Ha2) as (i3 & l3 & Hc3 & Ha3).
    exists i3, (l2 ++ l3)%list. by rewrite app_assoc.
Qed.

Lemma audit_safe_ne a x : audit_safe a = true -> x = action_attr a -> x = "Audit" ->
  exists y p, a = AppendTo y p.
Proof.
  destruct a as [y p|y p|y]; cbn; intros Hs -> ->; [| by eauto |]; by rewrite String.eqb_refl in Hs.
Qed.

(** An action that keeps the audit trail extends it or leaves it. *)
Lemma apply_action_audit vals item a item' l :
  audit_safe a = true -> dict_get item "Audit" = Some (JList l) -> apply_action vals item a = inr item' ->
  exists l', dict_get item' "Audit" = Some (JList (l ++ l')%list).
Proof.
  intros Hs Hl Ha. destruct (String.eqb_spec (action_attr a) "Audit") as [Hx|Hx].
  - destruct (audit_safe_ne a _ Hs eq_refl Hx) as (y & p & ->). cbn in Hx, Ha. subst y.
    destruct (value_of vals p) as [|v]; [discriminate|]. cbn in Ha. rewrite Hl in Ha.
    destruct v as [| | | |l2|]; try discriminate. cbn in Ha. injection Ha as <-.
    exists l2. by rewrite dict_get_set_eq.
  - exists []. rewrite app_nil_r, <- Hl. apply (apply_action_other vals item a); [congruence|done].
Qed.

Lemma update_table_audit t key acts vals t' :
  forallb audit_safe acts = true -> update_table t key acts vals = inr t' -> audit_grows t t'.
Proof.
  intros Hs Hu. destruct (update_table_inr _ _ _ _ _ Hu) as (c & item & _ & _ & Hf & ->).
  intros c' i l Hc' Ha. rewrite lookup_insert. case_decide as Heq; [|by exists i, []; rewrite app_nil_r].
  subst. rewrite Hc' in Hf. cbn in Hf. exists item.
  cut (exists l', dict_get item "Audit" = Some (JList (l ++ l')%list)); [by intros [l' ?]; exists l'|].
  refine (py_fold_inv_in (fun i => exists l', dict_get i "Audit" = Some (JList (l ++ l')%list)) _ _ _ _ _ _ Hf).
  - intros i0 a i1 Hin [l0 H0] Hstep.
    destruct (apply_action_audit vals i0 a i1 (l ++ l0)%list) as [l1 H1]; [|done|done|].
    + apply forallb_forall with (x := a) in Hs; [done|exact Hin].
    + exists (l0 ++ l1)%list. by rewrite app_assoc.
  - exists []. by rewrite app_nil_r.
Qed.

Lemma put_item_inr t DOC t' : Register.put_item t DOC = inr t' -> exists c d, t !! c = None /\ t' = <[c := d]> t.
Proof.
  unfold Register.put_item. destruct DOC as [| | | | |d]; try discriminate.
  destruct (dict_get d _) as [[| | |c| |]|]; try discriminate.
  destruct (t !! c) eqn:Hc; [discriminate|]. intros [= <-]. by exists c, d.
Qed.

Lemma put_item_audit t DOC t' : Register.put_item t DOC = inr t' -> audit_grows t t'.
Proof.
  intros (c & d & Hc & ->)%put_item_inr. intros c' i l Hc' Ha. exists i, []. rewrite app_nil_r.
  split; [|done]. rewrite lookup_insert. case_decide; [congruence|done].
Qed.

Lemma revive_audit t key a u f t' : Register.revive t key a u f = inr t' -> audit_grows t t'.
Proof.
  unfold Register.revive. destruct key as [| | |c| |]; try discriminate.
  destruct (t !! c) as [item|] eqn:Hi; [|discriminate].
  destruct (Register.location_is item "delete"); [|discriminate].
  destruct (Register.list_append (dict_get item "Audit") (Some a)) as [|a'] eqn:Hl; [discriminate|].
  cbn [py_bind py_ret]. intros [= <-] c' i l Hc' Ha.
  rewrite lookup_insert. case_decide as Heq; [|by exists i, []; rewrite app_nil_r].
  subst c'. rewrite Hi in Hc'. injection Hc' as <-. rewrite Ha in Hl.
  destruct a as [| | | |l2|]; try discriminate. cbn in Hl. injection Hl as <-.
  eexists _, l2. split; [reflexivity|]. idtac; Register.dict_simpl. reflexivity.
Qed.

(** *** The bucket *)

Lemma in_upload_keys fileName walk up k :
  In (up, k) (Distribute.upload_keys fileName walk) ->
  exists dirName files f, In (dirName, files) walk /\ In f files /\
    k = Distribute.os_path_join fileName [(Classifier.os_path_split dirName).2; f].
Proof.
  unfold Distribute.upload_keys. intros ([d fs] & Hw & Hin)%in_flat_map.
  apply in_map_iff in Hin as (f & [= _ <-] & Hf). by exists d, fs, f.
Qed.

(** Every object uploaded for [fileName] lies under [fileName/]. *)
Lemma uploaded_under fileName walk k :
  fileName <> "" -> Distribute.no_slash fileName = true -> walk_ok walk -> uploaded fileName walk k ->
  exists r, k = fileName ++ "/" ++ r.
Proof.
  intros Hn Hns Hw [up (d & fs & f & Hd & Hf & ->)%in_upload_keys].
  apply Forall_forall with (x := (d, fs)) in Hw; [|by apply list_elem_of_In].
  apply Forall_forall with (x := f) in Hw as [Hf0 Hfs]; [|by apply list_elem_of_In].
  apply Distribute.upload_key_under; auto using Distribute.os_path_split_tail.
Qed.

(** The prefix [fileName/] selects exactly the objects uploaded under
    that name, among the objects of named assets. *)
Lemma uploaded_prefix fileName fileName' walk k :
  fileName' <> "" -> Distribute.no_slash fileName' = true -> Distribute.no_slash fileName = true ->
  walk_ok walk -> uploaded fileName' walk k ->
  startswith k (fileName ++ "/") = bool_decide (fileName' = fileName).
Proof.
  intros Hn Hns Hs Hw Hu. destruct (uploaded_under _ _ _ Hn Hns Hw Hu) as [r ->].
  case_bool_decide as Heq; [subst; apply Distribute.startswith_own|].
  destruct (startswith (fileName' ++ "/" ++ r) (fileName ++ "/")) eqn:Hp; [|done].
  destruct Heq. exact (Distribute.startswith_other _ _ _ Hs Hns Hp).
Qed.

(** The source tiers [deleteFiles] handles. *)
Definition s3_tier (src : string) : Prop := src = "CDN" \/ src = "near_line".

Lemma s3_tier_test src : s3_tier src -> (jv_eq_str (JStr src) "CDN" || jv_eq_str (JStr src) "near_line") = true.
Proof. by intros [-> | ->]. Qed.

(** [deleteFiles] on an S3 tier: the deletion under [fileKey/], then the
    catalogue update. *)
Lemma deleteFiles_s3 workID now input s src dst key fk :
  getitem input "locationSource" = inr (JStr src) -> s3_tier src ->
  getitem input "locationDestination" = inr dst -> getitem input "dbPrimaryKey" = inr key ->
  getitem input "fileKey" = inr (JStr fk) ->
  deleteFiles workID now input s =
    (updateEntry key [SetTo "File_Location" ":d"; AppendTo "Audit" ":a"]
       [(":d", dst); (":a", JList [audit now ("Asset removed from " ++ src) workID])] ;;!
     io_ret (Worker.Success (JObj [("result", JStr "success")]))) (for_prefix (fk ++ "/") delete_object s).1.
Proof.
  intros Hs Ht Hd Hk Hf. unfold deleteFiles.
  unfold io_bind at 1. cbn [io_lift]. rewrite Hs.
  unfold io_bind at 1. cbn [io_lift]. rewrite Hd.
  unfold io_bind at 1. cbn [io_lift]. rewrite Hk.
  unfold io_bind at 1. cbn [io_lift]. rewrite Hf.
  unfold io_bind at 1. cbn [io_lift Worker.jv_concat py_ret]. rewrite (s3_tier_test _ Ht).
  unfold io_bind at 1. by rewrite (proj1 (for_prefix_delete (fk ++ "/") s "")).
Qed.

Lemma updateEntry_then_objects key acts vals {A} (a : A) s :
  objects ((updateEntry key acts vals ;;! io_ret a) s).1 = objects s.
Proof. unfold io_bind, updateEntry. by destruct (update_table _ _ _ _). Qed.


Lemma list_append_refused o v :
  (forall l, o <> Some (JList l)) -> Register.list_append o (Some v) = inl (ClientError "ValidationException").
Proof. intros H. destruct o as [[| | | |l|]|]; try done. by destruct (H l). Qed.

(** The lifecycle update [SET File_Location = :d, Audit = list_append(Audit, :a)]
    is refused for an item without an audit list (or without an item). *)
Lemma lifecycle_update_refused t c dst a :
  (forall item l, t !! c = Some item -> dict_get item "Audit" <> Some (JList l)) ->
  update_table t (JObj [("Checksum", JStr c)]) [SetTo "File_Location" ":d"; AppendTo "Audit" ":a"]
    [(":d", dst); (":a", a)] = inl (ClientError "ValidationException").
Proof.
  intros H. unfold update_table. rewrite key_of_checksum. cbn [py_bind].
  change (expression_ok _ _) with true. cbn [py_fold].
  assert (Hv1 : value_of [(":d", dst); (":a", a)] ":d" = inr dst) by reflexivity.
  assert (Hv2 : value_of [(":d", dst); (":a", a)] ":a" = inr a) by reflexivity.
  cbn [apply_action]. rewrite Hv1. cbn [py_bind py_ret]. rewrite Hv2. cbn [py_bind].
  rewrite dict_get_set_ne by discriminate. rewrite list_append_refused; [done|].
  intros l. destruct (t !! c) as [item|] eqn:Hc; cbn; [exact (H item l eq_refl)|discriminate].
Qed.


(** *** What the branches answer *)

(** Rewrites the reads established by [io_inv] in a [py] computation. *)
Ltac py_reads :=
  repeat first
    [ progress cbn [py_bind py_ret]
    | match goal with
      | H : ?c = inr _ |- context [?c] => rewrite H
      | H : ?b = true |- context [?b] => rewrite H
      | H : ?b = false |- context [?b] => rewrite H
      end ].

Lemma createThumbnailFromImage_answers convert input s s' o :
  createThumbnailFromImage convert input s = (s', inr o) -> Worker.createThumbnailFromImage convert input = inr o.
Proof. unfold createThumbnailFromImage, Worker.createThumbnailFromImage. intros H. io_inv; by py_reads. Qed.


Lemma createThumbnailFromVideo_answers ffmpeg listing input s s' o :
  createThumbnailFromVideo ffmpeg listing input s = (s', inr o) -> Worker.createThumbnailFromVideo ffmpeg input = inr o.
Proof. unfold createThumbnailFromVideo, Worker.createThumbnailFromVideo. intros H. io_inv; by py_reads. Qed.

Lemma transcodeVideoDefault_answers ffmpeg input s s' o :
  transcodeVideoDefault ffmpeg input s = (s', inr o) -> Worker.transcodeVideoDefault ffmpeg input = inr o.
Proof. unfold transcodeVideoDefault, Worker.transcodeVideoDefault. intros H. io_inv; by py_reads. Qed.

Lemma distributeToS3_answers walk up_ok input s s' o :
  distributeToS3 walk up_ok input s = (s', inr o) -> Worker.distributeToS3 input = inr o.
Proof. unfold distributeToS3, Worker.distributeToS3. intros H. io_inv; by py_reads. Qed.

Lemma deleteFiles_answers workID now input s s' o :
  deleteFiles workID now input s = (s', inr o) -> Worker.deleteFiles input = inr o.
Proof. unfold deleteFiles, Worker.deleteFiles. intros H. io_inv; py_reads; by simplify_eq. Qed.

Lemma moveFiles_answers subDir workID now mkdir prev input s s' r :
  moveFiles subDir workID now mkdir prev input s = (s', inr r) -> Worker.moveFiles subDir true prev input = inr r.
Proof.
  unfold moveFiles, Worker.moveFiles. intros H.
  io_inv; cbn [opt_or_raise orb py_bind py_ret] in *; simplify_eq;
    repeat (first [progress py_reads | progress cbn [orb opt_or_raise py_bind py_ret]]); done.
Qed.

Lemma put_then_ret DOC (b : bool) s s' r :
  (put_item DOC ;;! io_ret b) s = (s', r) ->
  match Register.put_item (catalogue s) DOC with
  | inr t' => s' = mkStore t' (objects s) /\ r = inr b
  | inl e => s' = s /\ r = inl e
  end.
Proof. unfold io_bind, put_item. destruct (Register.put_item _ _); cbn; intros [= <- <-]; auto. Qed.

Lemma revive_then_ret key a u f s s' r :
  (revive key a u f ;;! io_ret false) s = (s', r) ->
  match Register.revive (catalogue s) key a u f with
  | inr t' => s' = mkStore t' (objects s) /\ r = inr false
  | inl e => s' = s /\ r = inl e
  end.
Proof. unfold io_bind, revive. destruct (Register.revive _ _ _ _ _); cbn; intros [= <- <-]; auto. Qed.

Lemma put_catch DOC s s1 fresh :
  io_catch (put_item DOC ;;! io_ret true)
    (fun e => match e with ClientError _ => io_ret false | _ => io_lift (py_raise e) end) s = (s1, inr fresh) ->
  (fresh = true /\ exists t', Register.put_item (catalogue s) DOC = inr t' /\ s1 = mkStore t' (objects s)) \/
  (fresh = false /\ s1 = s /\ exists x, Register.put_item (catalogue s) DOC = inl (ClientError x)).
Proof.
  intros [Hc|(s2 & e & Hc & Hh)]%io_catch_inv; apply put_then_ret in Hc;
    destruct (Register.put_item _ _) as [e'|t'] eqn:Hp; destruct Hc as [-> Hr]; simplify_eq.
  - left. eauto.
  - destruct e'; cbv [io_ret io_lift] in Hh; simplify_eq; right; eauto.
Qed.

Lemma revive_catch key a u f s s1 r :
  io_catch (revive key a u f ;;! io_ret false)
    (fun e => match e with ClientError _ => io_ret true | _ => io_lift (py_raise e) end) s = (s1, inr r) ->
  (r = false /\ exists t', Register.revive (catalogue s) key a u f = inr t' /\ s1 = mkStore t' (objects s)) \/
  (exists err, r = true /\ s1 = s /\ Register.revive (catalogue s) key a u f = inl (ClientError err)).
Proof.
  intros [Hc|(s2 & e & Hc & Hh)]%io_catch_inv; apply revive_then_ret in Hc;
    destruct (Register.revive _ _ _ _ _) as [e'|t'] eqn:Hp; destruct Hc as [-> Hr]; simplify_eq.
  - left. eauto.
  - destruct e'; cbv [io_ret io_lift] in Hh; simplify_eq; right; eauto.
Qed.

(** With the table in the store, registration answers as [Register]
    says, and leaves the table [Register] gives. *)
Lemma registerAsset_answers input s s' o :
  registerAsset input s = (s', inr o) -> Register.registerAsset (catalogue s) input = inr (catalogue s', o).
Proof.
  unfold registerAsset, registered. intros H. io_inv; unfold Register.registerAsset; py_reads;
    apply put_catch in Hstep0 as [(? & t' & Hp & ->)|(? & -> & x & Hp)]; simplify_eq; rewrite Hp; py_reads.
  - done.
  - match goal with H : io_catch (revive _ _ _ _ ;;! _) _ _ = _ |- _ =>
      apply revive_catch in H as [(? & ? & ? & ?)|(err & _ & -> & Hr)]; [done|] end.
    by rewrite Hr.
  - match goal with H : io_catch (revive _ _ _ _ ;;! _) _ _ = _ |- _ =>
      apply revive_catch in H as [(_ & t'' & Hr & ->)|(? & ? & ? & ?)]; [|done] end.
    rewrite Hr. py_reads. done.
Qed.

(** Every answer of the branches with their writes is an answer of the
    execution model's workers ... *)
Lemma store_runs_sdms n i o : store_runs n i o -> Execution.sdms_runs n i o.
Proof.
  destruct 1.
  - by eapply Execution.run_identify.
  - by eapply Execution.run_exif.
  - by eapply Execution.run_mediainfo.
  - eapply Execution.run_register. by eapply registerAsset_answers.
  - eapply Execution.run_thumb_image. by eapply createThumbnailFromImage_answers.
  - eapply Execution.run_thumb_video. by eapply createThumbnailFromVideo_answers.
  - eapply Execution.run_transcode. by eapply transcodeVideoDefault_answers.
  - eapply Execution.run_distribute. by eapply distributeToS3_answers.
  - by eapply Execution.run_cleanup.
Qed.

(** ... so every history of an ingestion execution run by them is one of
    the model, and the theorems of [Execution] and [Dispatch] on
    reachable histories hold for them. *)
Lemma reachable_store_runs decides input h :
  Execution.reachable decides store_runs input h -> Execution.reachable decides Execution.sdms_runs input h.
Proof.
  induction 1 as [|h h' _ IH Hs]; [constructor|]. econstructor; [exact IH|].
  destruct Hs as [h tok r Hd|h s n i l o Hin Ha Hst Hr].
  - exact (Execution.step_decide _ _ _ _ _ Hd).
  - eapply Execution.step_work; eauto using store_runs_sdms.
Qed.

(** *** Writes before a failing read *)

Lemma io_lift_bind {A B} (c : py A) (k : A -> io B) s :
  io_bind (io_lift c) k s = match c with inl e => (s, inl e) | inr a => k a s end.
Proof. unfold io_bind, io_lift. by destruct c. Qed.

(** The image thumbnail records the thumbnail in the catalogue before it
    reads [INPUT['assetClass']]: an input without the class leaves the
    task unanswered with the thumbnail recorded. *)
Lemma createThumbnailFromImage_writes_then_raises output input s asset c item :
  getitem input "asset" = inr (JStr asset) -> getitem input "dbPrimaryKey" = inr (JObj [("Checksum", JStr c)]) ->
  getitem input "assetClass" = inl (KeyError "assetClass") -> catalogue s !! c = Some item ->
  exists s', createThumbnailFromImage (Worker.ToolOutput output) input s = (s', inl (KeyError "assetClass")) /\
    catalogue s' !! c = Some (dict_set item "thumbnail"
                               (JStr ("/thumbnails/" ++ (Classifier.splitFilename asset).1.2 ++ "_thumbnail.jpg"))).
Proof.
  intros Ha Hk Hc Hi. unfold createThumbnailFromImage.
  rewrite io_lift_bind, Ha. cbv beta iota. rewrite io_lift_bind, Hk. cbv beta iota.
  rewrite io_lift_bind. cbn [asset_str py_ret]. cbv beta iota.
  destruct (Classifier.splitFilename asset) as [[p fileName] e]. cbn [fst snd].
  unfold io_bind at 1. unfold updateEntry, update_table. rewrite key_of_checksum. cbn [py_bind].
  change (expression_ok _ _) with true. cbn [py_fold apply_action value_of opt_or_raise dict_get String.eqb].
  rewrite Hi. cbn. rewrite Hc. eexists. split; [reflexivity|]. cbn.
  rewrite lookup_insert_eq. reflexivity.
Qed.

(** The transcoding reads [INPUT['assetClass']] first: the same input
    leaves the catalogue alone. *)
Lemma transcodeVideoDefault_reads_first output input s asset key :
  getitem input "asset" = inr (JStr asset) -> getitem input "dbPrimaryKey" = inr key ->
  getitem input "assetClass" = inl (KeyError "assetClass") ->
  transcodeVideoDefault (Worker.ToolOutput output) input s = (s, inl (KeyError "assetClass")).
Proof.
  intros Ha Hk Hc. unfold transcodeVideoDefault.
  rewrite io_lift_bind, Ha. cbv beta iota. rewrite io_lift_bind, Hk. cbv beta iota.
  rewrite io_lift_bind. cbn [asset_str py_ret]. cbv beta iota.
  destruct (Classifier.splitFilename asset) as [[p fileName] e]. by rewrite io_lift_bind, Hc.
Qed.

(** *** The lifecycle move *)

(** The lifecycle update [SET File_Location = :d, Audit = list_append(Audit, :a)]
    of an item with an audit list. *)
Lemma lifecycle_update_ok t c item l dst a :
  t !! c = Some item -> dict_get item "Audit" = Some (JList l) ->
  update_table t (JObj [("Checksum", JStr c)]) [SetTo "File_Location" ":d"; AppendTo "Audit" ":a"]
    [(":d", dst); (":a", JList a)] =
  inr (<[c := dict_set (dict_set item "File_Location" dst) "Audit" (JList (l ++ a))]> t).
Proof.
  intros Hi Ha. unfold update_table. rewrite key_of_checksum. cbn [py_bind].
  change (expression_ok _ _) with true. cbn [py_fold]. rewrite Hi. cbn [default id].
  assert (Hv1 : value_of [(":d", dst); (":a", JList a)] ":d" = inr dst) by reflexivity.
  assert (Hv2 : value_of [(":d", dst); (":a", JList a)] ":a" = inr (JList a)) by reflexivity.
  cbn [apply_action]. rewrite Hv1. cbn [py_bind py_ret]. rewrite Hv2. cbn [py_bind].
  rewrite dict_get_set_ne by discriminate. by rewrite Ha.
Qed.

(** The download loop of a move to the archive writes nothing; it raises
    [NameError] at the first object whose directory cannot be made. *)
Lemma for_prefix_mkdir (p : string) (mkdir : string -> bool) (s : store) :
  for_prefix p (fun k => if mkdir k then io_ret tt else io_lift (@py_raise unit (NameError "errno"))) s =
    (s, if forallb mkdir (filter_prefix (objects s) p) then inr tt else inl (NameError "errno")).
Proof.
  unfold for_prefix. induction (filter_prefix (objects s) p) as [|k l IH]; [done|].
  cbn [io_iter forallb]. unfold io_bind. by destruct (mkdir k).
Qed.

(** The reads of [moveFiles] on a dict input with string tiers and file key. *)
Ltac move_reads Hs Ht Hk Hf :=
  unfold moveFiles;
  rewrite io_lift_bind, (getitem_obj _ _ _ Hs); cbv beta iota;
  rewrite io_lift_bind, (getitem_obj _ _ _ Ht); cbv beta iota;
  rewrite io_lift_bind, (getitem_obj _ _ _ Hk); cbv beta iota;
  rewrite io_lift_bind, (getitem_obj _ _ _ Hf); cbv beta iota;
  rewrite io_lift_bind; cbn [Worker.jv_concat jv_eq_str py_ret Register.py_str]; cbv beta iota.

Section Writers.

Context (R : store -> store -> Prop) `{!PreOrder R}.
Hypothesis R_objects : forall s s', catalogue s' = catalogue s -> R s s'.
Hypothesis R_update : forall s key acts vals t',
  forallb audit_safe acts = true -> update_table (catalogue s) key acts vals = inr t' -> R s (mkStore t' (objects s)).
Hypothesis R_put : forall s DOC t', Register.put_item (catalogue s) DOC = inr t' -> R s (mkStore t' (objects s)).
Hypothesis R_revive : forall s key a u f t',
  Register.revive (catalogue s) key a u f = inr t' -> R s (mkStore t' (objects s)).

Lemma rel_updateEntry key acts vals : forallb audit_safe acts = true -> io_rel R (updateEntry key acts vals).
Proof. intros Ha. apply updateEntry_rel; [done|]. intros s t'. by apply R_update. Qed.

Lemma rel_put DOC : io_rel R (put_item DOC).
Proof. intros s. unfold put_item. destruct (Register.put_item _ _) eqn:H; [reflexivity|]. exact (R_put s DOC _ H). Qed.

Lemma rel_revive key a u f : io_rel R (revive key a u f).
Proof. intros s. unfold revive. destruct (Register.revive _ _ _ _ _) eqn:H; [reflexivity|]. exact (R_revive s _ _ _ _ _ H). Qed.

Ltac rel_tac :=
  repeat first
    [ apply io_rel_bind; [done| |intros ?]
    | apply io_rel_catch; [done| |intros ?]
    | apply io_rel_ret; done | apply io_rel_lift; done
    | apply io_rel_iter; [done|intros ?]
    | apply io_rel_for_prefix; [done|intros ?]
    | apply (io_rel_upload R R_objects) | apply (io_rel_delete R R_objects)
    | apply (io_rel_copy R R_objects)
    | apply rel_updateEntry; reflexivity | apply rel_put | apply rel_revive
    | match goal with
      | |- io_rel _ (match ?x with _ => _ end) => destruct x
      | |- io_rel _ (if ?b then _ else _) => destruct b
      | |- io_rel _ (fun _ => io_ret _ _) => intros ?; reflexivity
      end ].

Lemma writes_rel s s' : writes s s' -> R s s'.
Proof.
  destruct 1 as [convert input s|ffmpeg listing input s|ffmpeg input s|walk up_ok input s|input s
                |workID now input s|subDir workID now mkdir prev input s]; revert s.
  - unfold createThumbnailFromImage. rel_tac.
  - unfold createThumbnailFromVideo. rel_tac.
  - unfold transcodeVideoDefault. rel_tac.
  - unfold distributeToS3. rel_tac.
  - unfold registerAsset, registered. rel_tac.
  - unfold deleteFiles. rel_tac.
  - unfold moveFiles. rel_tac.
Qed.

Lemma writes_rtc_rel s s' : rtc writes s s' -> R s s'.
Proof. induction 1 as [|s1 s2 s3 H _ IH]; [reflexivity|]. etrans; [exact (writes_rel _ _ H)|exact IH]. Qed.

End Writers.

(** ** Theorems *)

(** The catalogue invariant holds in every store the workers produce:
    if every item of the table is stored under its own [Checksum], it
    still is after any sequence of tasks of the writing workers
    (registration, thumbnails, transcoding, distribution, the lifecycle
    deletion and move), whatever their inputs, the tools' results and
    whether the tasks succeed, fail or raise. *)
Lemma catalogue_wf_kept s s' : rtc writes s s' -> store_wf s -> store_wf s'.
Proof.
  apply (writes_rtc_rel wf_kept).
  - intros s1 s2 Hc H. unfold store_wf in *. by rewrite Hc.
  - intros s1 key acts vals t' _ Hu H. exact (update_table_wf _ _ _ _ _ H Hu).
  - intros s1 DOC t' Hp H. exact (Register.put_item_wf _ _ _ H Hp).
  - intros s1 key a u f t' Hr H. exact (Register.revive_wf _ _ _ _ _ _ H Hr).
Qed.

(** C32. The audit trail is append-only: an item with an audit trail [l] is
    still in the table after any sequence of tasks of the writing
    workers, and its audit trail is [l] followed by the entries appended
    since. *)
Theorem audit_append_only s s' c item l :
  rtc writes s s' -> catalogue s !! c = Some item -> dict_get item "Audit" = Some (JList l) ->
  exists item' l', catalogue s' !! c = Some item' /\ dict_get item' "Audit" = Some (JList (l ++ l')%list).
Proof.
  intros Hw. revert c item l. apply (writes_rtc_rel audit_le); [| | | |exact Hw].
  - intros s1 s2 Hc c' i l' Hi Ha. exists i, []. rewrite Hc, app_nil_r. done.
  - intros s1 key acts vals t' Hs Hu. exact (update_table_audit _ _ _ _ _ Hs Hu).
  - intros s1 DOC t' Hp. exact (put_item_audit _ _ _ Hp).
  - intros s1 key a u f t' Hr. exact (revive_audit _ _ _ _ _ _ Hr).
Qed.

(** C16. The lifecycle deletion removes exactly the objects uploaded under the
    asset's name: after a [deleteFiles] task on an S3 tier with
    [fileKey = fileName], every object the distribution uploaded for an
    asset named [fileName] (whichever asset: two assets with one name,
    such as [a/v.mov] and [b/v.jpg], share their objects) is gone, and
    every object uploaded for an asset with another name is untouched,
    whether the catalogue update then succeeds or not. *)
Theorem deleteFiles_removes_asset workID now input s src dst key fileName :
  getitem input "locationSource" = inr (JStr src) -> s3_tier src ->
  getitem input "locationDestination" = inr dst -> getitem input "dbPrimaryKey" = inr key ->
  getitem input "fileKey" = inr (JStr fileName) ->
  fileName <> "" -> Distribute.no_slash fileName = true ->
  (forall walk k, walk_ok walk -> uploaded fileName walk k ->
     objects (deleteFiles workID now input s).1 !! k = None) /\
  (forall fileName' walk k, fileName' <> "" -> Distribute.no_slash fileName' = true -> fileName' <> fileName ->
     walk_ok walk -> uploaded fileName' walk k ->
     objects (deleteFiles workID now input s).1 !! k = objects s !! k).
Proof.
  intros Hs Ht Hd Hk Hf Hn Hns. rewrite (deleteFiles_s3 _ _ _ _ _ _ _ _ Hs Ht Hd Hk Hf), updateEntry_then_objects.
  split.
  - intros walk k Hw Hu. rewrite (proj2 (proj2 (for_prefix_delete _ _ _))).
    by rewrite (uploaded_prefix fileName fileName walk k Hn Hns Hns Hw Hu), bool_decide_true.
  - intros fileName' walk k Hn' Hns' Hne Hw Hu. rewrite (proj2 (proj2 (for_prefix_delete _ _ _))).
    by rewrite (uploaded_prefix fileName fileName' walk k Hn' Hns' Hns Hw Hu), bool_decide_false.
Qed.

(** C33. The lifecycle deletion removes the objects before it updates the
    catalogue: when the asset's item has no audit list (or there is no
    item), the update is refused and the task raises, unanswered, after
    every object under [fileKey/] has been deleted; the catalogue still
    gives the item its old [File_Location]. *)
Theorem deleteFiles_refused_update workID now input s src dst c fk :
  getitem input "locationSource" = inr (JStr src) -> s3_tier src ->
  getitem input "locationDestination" = inr dst ->
  getitem input "dbPrimaryKey" = inr (JObj [("Checksum", JStr c)]) ->
  getitem input "fileKey" = inr (JStr fk) ->
  (forall item l, catalogue s !! c = Some item -> dict_get item "Audit" <> Some (JList l)) ->
  exists s', deleteFiles workID now input s = (s', inl (ClientError "ValidationException")) /\
    catalogue s' = catalogue s /\
    forall k, objects s' !! k = if startswith k (fk ++ "/") then None else objects s !! k.
Proof.
  intros Hs Ht Hd Hk Hf Ha. rewrite (deleteFiles_s3 _ _ _ _ _ _ _ _ Hs Ht Hd Hk Hf).
  destruct (for_prefix_delete (fk ++ "/") s "") as (_ & Hcat & _).
  exists (for_prefix (fk ++ "/") delete_object s).1. unfold io_bind.
  assert (Ha' : forall item l, catalogue (for_prefix (fk ++ "/") delete_object s).1 !! c = Some item ->
                dict_get item "Audit" <> Some (JList l)) by (rewrite Hcat; exact Ha).
  rewrite (updateEntry_inl _ _ _ _ _ (lifecycle_update_refused _ _ _ _ Ha')).
  split; [done|]. split; [exact Hcat|]. intros k. exact (proj2 (proj2 (for_prefix_delete _ _ _))).
Qed.

(** The item of a moved asset: its location and one more audit entry. *)
Definition moved_item (item : dict jvalue) (l : list jvalue) (src dst now workID : string) : dict jvalue :=
  dict_set (dict_set item "File_Location" (JStr dst)) "Audit"
    (JList (l ++ [audit now ("Asset moved from " ++ src ++ " from " ++ dst) workID])).

(** C21. A move between the two S3 tiers changes the storage class of
    exactly the objects under [fileKey/] to the destination's
    ([STANDARD_IA] for near_line, [STANDARD] for CDN), leaves every other
    object alone, records the destination and one audit entry in the
    asset's item, and answers [{'result': 'success'}] updated with the
    input. *)
Theorem moveFiles_warm subDir workID now mkdir prev i s src dst c f item l :
  dict_get i "locationSource" = Some (JStr src) -> dict_get i "locationDestination" = Some (JStr dst) ->
  dict_get i "dbPrimaryKey" = Some (JObj [("Checksum", JStr c)]) -> dict_get i "fileKey" = Some (JStr f) ->
  (src = "CDN" /\ dst = "near_line") \/ (src = "near_line" /\ dst = "CDN") ->
  catalogue s !! c = Some item -> dict_get item "Audit" = Some (JList l) ->
  exists s', moveFiles subDir workID now mkdir prev (JObj i) s =
      (s', inr (Some (dict_update [("result", JStr "success")] i),
                Worker.Success (JObj (dict_update [("result", JStr "success")] i)))) /\
    catalogue s' = <[c := moved_item item l src dst now workID]> (catalogue s) /\
    forall k, objects s' !! k =
      if startswith k (f ++ "/") then (fun _ => if String.eqb dst "near_line" then STANDARD_IA else STANDARD) <$> objects s !! k
      else objects s !! k.
Proof.
  intros Hs Ht Hk Hf Hw Hi Ha. move_reads Hs Ht Hk Hf.
  assert (Hwarm : (String.eqb src "CDN" && String.eqb dst "near_line" ||
                   String.eqb src "near_line" && String.eqb dst "CDN") = true)
    by (destruct Hw as [[-> ->]|[-> ->]]; reflexivity).
  rewrite Hwarm. unfold io_bind at 1 2.
  destruct (for_prefix_copy (f ++ "/") (if String.eqb dst "near_line" then STANDARD_IA else STANDARD) s "")
    as (Hc & Hcat & _).
  rewrite Hc. cbv [io_ret]. unfold io_bind, updateEntry. rewrite Hcat, (lifecycle_update_ok _ _ _ _ _ _ Hi Ha).
  cbn. eexists. split; [reflexivity|]. split; [reflexivity|]. intros k.
  exact (proj2 (proj2 (for_prefix_copy _ _ s k))).
Qed.

(** C19. A move from an S3 tier to the archive first downloads every
    object under [fileKey/]: when the [os.makedirs] of some object's
    directory fails, the task raises [NameError] ([errno] is not
    imported) with the stores untouched and no report; otherwise it
    records the archive and one audit entry in the asset's item, leaves
    the bucket alone and answers the dummy asset of the working
    directory, updated with the input. *)
Theorem moveFiles_to_archive subDir workID now mkdir prev i s src c f item l :
  dict_get i "locationSource" = Some (JStr src) -> dict_get i "locationDestination" = Some (JStr "archive") ->
  dict_get i "dbPrimaryKey" = Some (JObj [("Checksum", JStr c)]) -> dict_get i "fileKey" = Some (JStr f) ->
  src <> "archive" -> catalogue s !! c = Some item -> dict_get item "Audit" = Some (JList l) ->
  moveFiles subDir workID now mkdir prev (JObj i) s =
    if forallb mkdir (filter_prefix (objects s) (f ++ "/")) then
      (mkStore (<[c := moved_item item l src "archive" now workID]> (catalogue s)) (objects s),
       inr (Some (dict_update [("result", JStr "success"); ("asset", JStr (subDir ++ "dummy.file"))] i),
            Worker.Success (JObj (dict_update [("result", JStr "success"); ("asset", JStr (subDir ++ "dummy.file"))] i))))
    else (s, inl (NameError "errno")).
Proof.
  intros Hs Ht Hk Hf Hsa Hi Ha. move_reads Hs Ht Hk Hf.
  apply String.eqb_neq in Hsa. rewrite Hsa, !andb_false_r. cbn [orb String.eqb Ascii.eqb Bool.eqb andb].
  unfold io_bind at 1 2. rewrite for_prefix_mkdir.
  destruct (forallb mkdir _); [|reflexivity]. cbv [io_ret].
  unfold io_bind, updateEntry. destruct s as [t b]. cbn [catalogue objects] in Hi |- *.
  by rewrite (lifecycle_update_ok _ _ _ _ _ _ Hi Ha).
Qed.

(** C8. The catalogue is updated before [OUTPUT.update(INPUT)] raises: on
    the first task of a [moveFiles] process, a move that takes neither
    branch (no archive tier, and not one of the two moves between the S3
    tiers, e.g. CDN to CDN) records the destination and one audit entry
    in the asset's item, and then dies of [UnboundLocalError('OUTPUT')],
    so the move is recorded but never reported. *)
Theorem moveFiles_unbound_after_update subDir workID now mkdir i s src dst c f item l :
  dict_get i "locationSource" = Some (JStr src) -> dict_get i "locationDestination" = Some (JStr dst) ->
  dict_get i "dbPrimaryKey" = Some (JObj [("Checksum", JStr c)]) -> dict_get i "fileKey" = Some (JStr f) ->
  src <> "archive" -> dst <> "archive" ->
  ~ (src = "CDN" /\ dst = "near_line") -> ~ (src = "near_line" /\ dst = "CDN") ->
  catalogue s !! c = Some item -> dict_get item "Audit" = Some (JList l) ->
  moveFiles subDir workID now mkdir None (JObj i) s =
    (mkStore (<[c := moved_item item l src dst now workID]> (catalogue s)) (objects s),
     inl (UnboundLocalError "OUTPUT")).
Proof.
  intros Hs Ht Hk Hf Hsa Hta Hw1 Hw2 Hi Ha. move_reads Hs Ht Hk Hf.
  destruct (Worker.neither_tiers src dst Hsa Hta Hw1 Hw2) as [-> ->].
  unfold io_bind, updateEntry. destruct s as [t b]. cbn [catalogue objects io_ret] in Hi |- *.
  by rewrite (lifecycle_update_ok _ _ _ _ _ _ Hi Ha).
Qed.

(** ** Witnesses *)

Definition sample_item : dict jvalue :=
  [("Checksum", JStr "abc"); ("Filename", JStr "v.mov"); ("File_Location", JStr "CDN"); ("Audit", JList [])].

Definition sample_store : store := mkStore {[ "abc" := sample_item ]} {[ "v/thumbnails/v_thumbnail_1.jpg" := STANDARD ]}.

Definition sample_delete : jvalue :=
  JObj [("locationSource", JStr "CDN"); ("locationDestination", JStr "delete");
        ("dbPrimaryKey", JObj [("Checksum", JStr "abc")]); ("fileKey", JStr "v")].

Lemma sample_store_wf : store_wf sample_store.
Proof.
  intros c i. cbn. intros (<- & <-)%lookup_singleton_Some. reflexivity.
Qed.

Lemma audit_append_only_witness :
  (rtc writes sample_store (deleteFiles "w-1" "2017-01-01T00:00:00+0000" sample_delete sample_store).1 /\
   catalogue sample_store !! "abc" = Some sample_item /\ dict_get sample_item "Audit" = Some (JList [])) /\
  exists item' l', catalogue (deleteFiles "w-1" "2017-01-01T00:00:00+0000" sample_delete sample_store).1 !! "abc" = Some item' /\
    dict_get item' "Audit" = Some (JList ([] ++ l')%list).
Proof.
  assert (H1 : rtc writes sample_store (deleteFiles "w-1" "2017-01-01T00:00:00+0000" sample_delete sample_store).1)
    by (apply rtc_once; constructor).
  assert (H2 : catalogue sample_store !! "abc" = Some sample_item) by reflexivity.
  assert (H3 : dict_get sample_item "Audit" = Some (JList [])) by reflexivity.
  split; [auto|]. exact (audit_append_only _ _ _ _ _ H1 H2 H3).
Defined.

Lemma deleteFiles_removes_asset_witness :
  (getitem sample_delete "locationSource" = inr (JStr "CDN") /\ s3_tier "CDN" /\
   getitem sample_delete "locationDestination" = inr (JStr "delete") /\
   getitem sample_delete "dbPrimaryKey" = inr (JObj [("Checksum", JStr "abc")]) /\
   getitem sample_delete "fileKey" = inr (JStr "v") /\ "v" <> "" /\ Distribute.no_slash "v" = true) /\
  ((forall walk k, walk_ok walk -> uploaded "v" walk k ->
      objects (deleteFiles "w-1" "now" sample_delete sample_store).1 !! k = None) /\
   (forall fileName' walk k, fileName' <> "" -> Distribute.no_slash fileName' = true -> fileName' <> "v" ->
      walk_ok walk -> uploaded fileName' walk k ->
      objects (deleteFiles "w-1" "now" sample_delete sample_store).1 !! k = objects sample_store !! k)).
Proof.
  assert (Ht : s3_tier "CDN") by (unfold s3_tier; left; reflexivity).
  split; [refine (conj eq_refl (conj Ht (conj eq_refl (conj eq_refl (conj eq_refl (conj _ eq_refl)))))); discriminate|].
  exact (deleteFiles_removes_asset "w-1" "now" sample_delete sample_store "CDN" (JStr "delete")
           (JObj [("Checksum", JStr "abc")]) "v" eq_refl Ht eq_refl eq_refl eq_refl ltac:(discriminate) eq_refl).
Defined.

Definition sample_item_no_audit : dict jvalue :=
  [("Checksum", JStr "abc"); ("Filename", JStr "v.mov"); ("File_Location", JStr "CDN")].

Definition sample_store_no_audit : store :=
  mkStore {[ "abc" := sample_item_no_audit ]} {[ "v/thumbnails/v_thumbnail_1.jpg" := STANDARD ]}.

Lemma sample_no_audit c item l :
  catalogue sample_store_no_audit !! c = Some item -> dict_get item "Audit" <> Some (JList l).
Proof.
  cbn. intros (<- & <-)%lookup_singleton_Some. discriminate.
Qed.

Lemma deleteFiles_refused_update_witness :
  (getitem sample_delete "locationSource" = inr (JStr "CDN") /\ s3_tier "CDN" /\
   getitem sample_delete "locationDestination" = inr (JStr "delete") /\
   getitem sample_delete "dbPrimaryKey" = inr (JObj [("Checksum", JStr "abc")]) /\
   getitem sample_delete "fileKey" = inr (JStr "v")) /\
  exists s', deleteFiles "w-1" "now" sample_delete sample_store_no_audit = (s', inl (ClientError "ValidationException")) /\
    catalogue s' = catalogue sample_store_no_audit /\
    forall k, objects s' !! k = if startswith k ("v" ++ "/") then None else objects sample_store_no_audit !! k.
Proof.
  assert (Ht : s3_tier "CDN") by (unfold s3_tier; left; reflexivity).
  split; [exact (conj eq_refl (conj Ht (conj eq_refl (conj eq_refl eq_refl))))|].
  exact (deleteFiles_refused_update "w-1" "now" sample_delete sample_store_no_audit "CDN" (JStr "delete") "abc" "v"
           eq_refl Ht eq_refl eq_refl eq_refl (sample_no_audit "abc")).
Defined.

(** A move request for the sample asset. *)
Definition sample_move (src dst : string) : dict jvalue :=
  [("locationSource", JStr src); ("locationDestination", JStr dst);
   ("dbPrimaryKey", JObj [("Checksum", JStr "abc")]); ("fileKey", JStr "v")].

Lemma sample_store_item : catalogue sample_store !! "abc" = Some sample_item.
Proof. reflexivity. Qed.

(** The thumbnail of the sample asset goes to near_line. *)
Lemma moveFiles_warm_witness :
  exists s', moveFiles "/w/" "w-1" "now" (fun _ => true) None (JObj (sample_move "CDN" "near_line")) sample_store =
      (s', inr (Some (dict_update [("result", JStr "success")] (sample_move "CDN" "near_line")),
                Worker.Success (JObj (dict_update [("result", JStr "success")] (sample_move "CDN" "near_line"))))) /\
    catalogue s' = <["abc" := moved_item sample_item [] "CDN" "near_line" "now" "w-1"]> (catalogue sample_store) /\
    forall k, objects s' !! k =
      if startswith k ("v" ++ "/") then (fun _ => if String.eqb "near_line" "near_line" then STANDARD_IA else STANDARD) <$> objects sample_store !! k
      else objects sample_store !! k.
Proof.
  apply (moveFiles_warm _ _ _ _ _ _ _ "CDN" "near_line" "abc" "v" sample_item []);
    [reflexivity..|left; split; reflexivity|exact sample_store_item|reflexivity].
Defined.

(** The sample asset has an object under [v/]: a failing [os.makedirs]
    stops its move to the archive. *)
Lemma moveFiles_to_archive_witness :
  moveFiles "/w/" "w-1" "now" (fun _ => false) None (JObj (sample_move "CDN" "archive")) sample_store =
    (sample_store, inl (NameError "errno")).
Proof.
  rewrite (moveFiles_to_archive "/w/" "w-1" "now" (fun _ => false) None (sample_move "CDN" "archive") sample_store "CDN" "abc" "v" sample_item [] eq_refl eq_refl eq_refl eq_refl
             ltac:(discriminate) sample_store_item eq_refl).
  reflexivity.
Defined.

(** A first task from CDN to CDN. *)
Lemma moveFiles_unbound_after_update_witness :
  moveFiles "/w/" "w-1" "now" (fun _ => true) None (JObj (sample_move "CDN" "CDN")) sample_store =
    (mkStore (<["abc" := moved_item sample_item [] "CDN" "CDN" "now" "w-1"]> (catalogue sample_store)) (objects sample_store),
     inl (UnboundLocalError "OUTPUT")).
Proof.
  apply (moveFiles_unbound_after_update _ _ _ _ _ _ "CDN" "CDN" "abc" "v" sample_item []);
    try reflexivity; try discriminate; intros [? ?]; discriminate.
Defined.

End Effects.
