(* ===== verification/Scripts.v ===== *)
(** * The worker scripts as processes

    Each worker script of [src/workflowcode] (and the two lifecycle
    workers of [src/SFNcode] that poll SWF) has the same [main]: the
    constants [DOMAIN = 'ITD'], [TASKLIST = 'default'], [VERSION = '1'];
    [taskName = os.path.basename(__file__)[:-3]], the script's own file
    name without [.py]; then [while True:] a long poll on the task list
    named [taskName] with the identity ['%s-01' % taskName], a repoll when
    no task came, and otherwise the task branch of [Effects] followed by
    the report.  [Scripts] models this loop over the polls the broker
    answers on that task list, threading the broker's outstanding tokens
    and the stores; the loop runs forever, so a run is a finite prefix of
    its polls.

    The theorems: a script named [n.py] polls the task list [n]; the
    deciders schedule every activity on the task list of its own name, so
    an activity is taken by a script of the repository exactly when a
    script of that name exists: every lifecycle activity, and every
    ingestion activity except the two metadata extractions (whose scripts
    are Step Functions workers) and [transcodeAudioDefault] (which has no
    script).  The scripts run side by side: [iteration] is one iteration
    of any of them, every [main] is a sequence of its iterations, and
    every iteration is a sequence of the writes of [Effects], so the
    catalogue invariant holds under any interleaving of the scripts. *)

From stdpp Require Import base list strings gmap.
From Stdlib Require Import String Ascii.
From S2P Require Import Prelude Json History Classifier Distribute Ingest Lifecycle Workers Register Store Effects.

Open Scope string_scope.
Local Open Scope py_scope.

Module Scripts.

Import Store.
Local Open Scope io_scope.

(** ** The script's name *)

(** [os.path.basename(p)] *)
Definition basename (p : string) : string := (Classifier.os_path_split p).2.

(** [s[:-3]]: all but the last three characters, nothing for a shorter
    string. *)
Definition drop_last3 (s : string) : string := substring 0 (String.length s - 3) s.

(** [os.path.basename(__file__)[:-3]] *)
Definition task_name (file : string) : string := drop_last3 (basename file).

Definition DOMAIN := "ITD".

(** The arguments of [swf.poll_for_activity_task]. *)
Record activity_request := mkRequest {
  req_domain : string;
  req_taskList : string;
  req_identity : string
}.

Definition poll_request (taskName : string) : activity_request :=
  mkRequest DOMAIN taskName (taskName ++ "-01").

(** What the broker answers to the successive polls on each task list. *)
Definition queue := string -> list Worker.activity_poll.

(** ** The loop *)

(** One iteration: a repoll, or the task handed out, its branch and the
    report of its outcome (an exception, or a refused report, ends the
    script; a task left without report stays outstanding). *)
Definition serve_step (branch : string -> jvalue -> io Worker.outcome) (b : Worker.broker)
    (p : Worker.activity_poll) : io Worker.broker :=
  match p with
  | Worker.NoActivityTask => io_ret b
  | Worker.ActivityTask tok input =>
      let b1 := Worker.claim b tok in
      o <-! branch tok input ;;
      match o with
      | Worker.NoReport => io_ret b1
      | _ => io_lift (Worker.respond b1 tok o)
      end
  end.

(** [while True:] over the polls answered so far. *)
Fixpoint serve (branch : string -> jvalue -> io Worker.outcome) (polls : list Worker.activity_poll)
    (b : Worker.broker) : io Worker.broker :=
  match polls with
  | [] => io_ret b
  | p :: ps => b' <-! serve_step branch b p ;; serve branch ps b'
  end.

(** The polls a script gets: those of its own task list. *)
Definition polls_of (q : queue) (file : string) : list Worker.activity_poll :=
  q (req_taskList (poll_request (task_name file))).

(** ** The scripts *)

(** [workflowcode/identifyAssetClass.py], [main] (lines 15-77): the
    extension table is read once, before the loop. *)
Definition identifyAssetClass_main (file : string) (fs : string -> option string) (q : queue)
    (b : Worker.broker) : io Worker.broker :=
  EXT <-! io_lift (Classifier.loadExts fs) ;;
  serve (fun _ input => io_lift (Worker.identifyAssetClass EXT input)) (polls_of q file) b.

(** [workflowcode/registerAsset.py], [main] (lines 20-153). *)
Definition registerAsset_main (file : string) (q : queue) (b : Worker.broker) : io Worker.broker :=
  serve (fun _ input => Effects.registerAsset input) (polls_of q file) b.

(** [workflowcode/createThumbnailFromImage.py], [main] (lines 29-122);
    [convert] is the result of the tool on each input. *)
Definition createThumbnailFromImage_main (file : string) (convert : jvalue -> Worker.tool_run) (q : queue)
    (b : Worker.broker) : io Worker.broker :=
  serve (fun _ input => Effects.createThumbnailFromImage (convert input) input) (polls_of q file) b.

(** [workflowcode/createThumbnailFromVideo.py], [main] (lines 35-206). *)
Definition createThumbnailFromVideo_main (file : string) (ffmpeg : jvalue -> Worker.tool_run)
    (listing : jvalue -> list string) (q : queue) (b : Worker.broker) : io Worker.broker :=
  serve (fun _ input => Effects.createThumbnailFromVideo (ffmpeg input) (listing input) input) (polls_of q file) b.

(** [workflowcode/transcodeVideoDefault.py], [main] (lines 32-125). *)
Definition transcodeVideoDefault_main (file : string) (ffmpeg : jvalue -> Worker.tool_run) (q : queue)
    (b : Worker.broker) : io Worker.broker :=
  serve (fun _ input => Effects.transcodeVideoDefault (ffmpeg input) input) (polls_of q file) b.

(** [workflowcode/distributeToS3.py], [main] (lines 21-106); [walk] is
    [os.walk] of each input's directory, [up_ok] which uploads S3 accepts. *)
Definition distributeToS3_main (file : string) (walk : jvalue -> list (string * list string))
    (up_ok : string -> bool) (q : queue) (b : Worker.broker) : io Worker.broker :=
  serve (fun _ input => Effects.distributeToS3 (walk input) up_ok input) (polls_of q file) b.

(** [workflowcode/cleanUpLandingPad.py], [main] (lines 24-77);
    [rmtree_ok] is the success of [shutil.rmtree] on each input. *)
Definition cleanUpLandingPad_main (file : string) (rmtree_ok : jvalue -> bool) (q : queue)
    (b : Worker.broker) : io Worker.broker :=
  serve (fun _ input => io_lift (Worker.cleanUpLandingPad (rmtree_ok input) input)) (polls_of q file) b.

(** [SFNcode/deleteFiles.py], [main] (lines 22-108); [stamp tok] is the
    workflow id and the time of the task [tok]. *)
Definition deleteFiles_main (file : string) (stamp : string -> string * string) (q : queue)
    (b : Worker.broker) : io Worker.broker :=
  serve (fun tok input => Effects.deleteFiles (stamp tok).1 (stamp tok).2 input) (polls_of q file) b.

(** [SFNcode/moveFiles.py], [main] (lines 22-166): the local [OUTPUT]
    survives from one task to the next; [subDir input] is
    [parseHelper.createDir(workingStorage, fileKey)], [mkdir] whether the
    [os.makedirs] of an object's directory succeeds. *)
Fixpoint moveFiles_serve (subDir : jvalue -> string) (mkdir : string -> bool) (stamp : string -> string * string)
    (polls : list Worker.activity_poll) (prev : option (dict jvalue)) (b : Worker.broker) : io Worker.broker :=
  match polls with
  | [] => io_ret b
  | Worker.NoActivityTask :: ps => moveFiles_serve subDir mkdir stamp ps prev b
  | Worker.ActivityTask tok input :: ps =>
      r <-! Effects.moveFiles (subDir input) (stamp tok).1 (stamp tok).2 mkdir prev input ;;
      b' <-! io_lift (Worker.respond (Worker.claim b tok) tok r.2) ;;
      moveFiles_serve subDir mkdir stamp ps r.1 b'
  end.

Definition moveFiles_main (file : string) (subDir : jvalue -> string) (mkdir : string -> bool) (stamp : string -> string * string)
    (q : queue) (b : Worker.broker) : io Worker.broker :=
  moveFiles_serve subDir mkdir stamp (polls_of q file) None b.

(** The scripts that poll SWF, by file name. *)
Definition swf_scripts : list string :=
  ["identifyAssetClass.py"; "registerAsset.py"; "createThumbnailFromImage.py";
   "createThumbnailFromVideo.py"; "transcodeVideoDefault.py"; "distributeToS3.py";
   "cleanUpLandingPad.py"; "deleteFiles.py"; "moveFiles.py"].

(** ** Which task lists are served *)

(** A task list is served when one of the scripts, installed in the
    directory [install f], polls it. *)
Definition served (install : string -> string) (taskList : string) : bool :=
  existsb (fun f => String.eqb (task_name (install f ++ "/" ++ f)) taskList) swf_scripts.

(** The names of the ingestion activities ([decider.py], lines 51-60). *)
Definition known_activity (n : string) : bool := match Ingest.stage_of_name n with Some _ => true | None => false end.

(** The decider's local [taskName] holds an activity name, if anything. *)
Definition locals_ok (st : Ingest.locals) : bool :=
  match Ingest.taskName st with Some n => known_activity n | None => true end.

(** A response schedules, if anything, an activity that [ok] accepts on
    the task list of the activity's own name. *)
Definition schedules_own_list (ok : string -> bool) (r : option (string * decision)) : bool :=
  match r with
  | Some (_, ScheduleActivityTask n _ _ _ l) => String.eqb l n && ok n
  | _ => true
  end.

Definition lifecycle_activity (n : string) : bool :=
  existsb (String.eqb n) [Lifecycle.ACTIVITY1; Lifecycle.ACTIVITY2; Lifecycle.ACTIVITY3].

(** ** The scripts side by side *)

(** The task branches of the scripts' loops ([moveFiles.py] apart, whose
    branch also reads the [OUTPUT] of the previous task). *)
Inductive script_branch : (string -> jvalue -> io Worker.outcome) -> Prop :=
| sb_identify EXT : script_branch (fun _ input => io_lift (Worker.identifyAssetClass EXT input))
| sb_register : script_branch (fun _ input => Effects.registerAsset input)
| sb_thumb_image convert : script_branch (fun _ input => Effects.createThumbnailFromImage (convert input) input)
| sb_thumb_video ffmpeg listing :
    script_branch (fun _ input => Effects.createThumbnailFromVideo (ffmpeg input) (listing input) input)
| sb_transcode ffmpeg : script_branch (fun _ input => Effects.transcodeVideoDefault (ffmpeg input) input)
| sb_distribute walk up_ok : script_branch (fun _ input => Effects.distributeToS3 (walk input) up_ok input)
| sb_cleanup rmtree_ok : script_branch (fun _ input => io_lift (Worker.cleanUpLandingPad (rmtree_ok input) input))
| sb_delete (stamp : string -> string * string) :
    script_branch (fun tok input => Effects.deleteFiles (stamp tok).1 (stamp tok).2 input).

(** One iteration of the loop of any script, at any point of its run:
    the scripts run side by side, and their iterations interleave in any
    order on the two stores. *)
Inductive iteration : store -> store -> Prop :=
| it_step br b p s : script_branch br -> iteration s (serve_step br b p s).1
| it_move subDir mkdir stamp p prev b s : iteration s (moveFiles_serve subDir mkdir stamp [p] prev b s).1.

(** A run of the [main] of one script, from its start, over the polls
    answered so far. *)
Inductive main_run : store -> store -> Prop :=
| mr_identify file fs q b s : main_run s (identifyAssetClass_main file fs q b s).1
| mr_register file q b s : main_run s (registerAsset_main file q b s).1
| mr_thumb_image file convert q b s : main_run s (createThumbnailFromImage_main file convert q b s).1
| mr_thumb_video file ffmpeg listing q b s : main_run s (createThumbnailFromVideo_main file ffmpeg listing q b s).1
| mr_transcode file ffmpeg q b s : main_run s (transcodeVideoDefault_main file ffmpeg q b s).1
| mr_distribute file walk up_ok q b s : main_run s (distributeToS3_main file walk up_ok q b s).1
| mr_cleanup file rmtree_ok q b s : main_run s (cleanUpLandingPad_main file rmtree_ok q b s).1
| mr_delete file stamp q b s : main_run s (deleteFiles_main file stamp q b s).1
| mr_move file subDir mkdir stamp q b s : main_run s (moveFiles_main file subDir mkdir stamp q b s).1.

(** ** Lemmas *)

Lemma rfind_from_none c s i best :
  (forall m, get m s <> Some c) -> Classifier.rfind_from c s i best = best.
Proof.
  revert i best. induction s as [|c' s IH]; intros i best H; [done|]. cbn.
  destruct (Ascii.eqb_spec c c') as [<-|_]; [destruct (H 0 eq_refl)|].
  apply IH. intros m. exact (H (S m)).
Qed.

Lemma rfind_from_app c a b i best :
  (forall m, get m b <> Some c) -> Classifier.rfind_from c (a ++ String c b) i best = Some (i + String.length a).
Proof.
  revert i best. induction a as [|x a IH]; intros i best H.
  - change ("" ++ String c b) with (String c b). cbn [Classifier.rfind_from].
    rewrite Ascii.eqb_refl, rfind_from_none by done. f_equal. cbn. lia.
  - rewrite str_app_cons. cbn [Classifier.rfind_from]. rewrite IH by done. f_equal. cbn. lia.
Qed.

Lemma substring_all s : substring 0 (String.length s) s = s.
Proof. induction s as [|c s IH]; [done|]. cbn. by rewrite IH. Qed.

Lemma substring_prefix a b : substring 0 (String.length a) (a ++ b) = a.
Proof. induction a as [|c a IH]; [by destruct b|]. rewrite str_app_cons. cbn. by rewrite IH. Qed.

Lemma substring_after a c b n : substring (S (String.length a)) n (a ++ String c b) = substring 0 n b.
Proof. induction a as [|x a IH]; [done|]. rewrite str_app_cons. exact IH. Qed.

Lemma length_app_str a b : String.length (a ++ b) = String.length a + String.length b.
Proof. induction a as [|c a IH]; [done|]. rewrite str_app_cons. cbn. by rewrite IH. Qed.

Lemma no_slash_app a b : Distribute.no_slash (a ++ b) = Distribute.no_slash a && Distribute.no_slash b.
Proof.
  unfold Distribute.no_slash. induction a as [|c a IH]; [done|].
  rewrite str_app_cons. cbn. rewrite IH. apply andb_assoc.
Qed.

(** The base name of a path ending in a name without separator. *)
Lemma basename_under dir n : Distribute.no_slash n = true -> basename (dir ++ "/" ++ n) = n.
Proof.
  intros Hn. unfold basename, Classifier.os_path_split, Classifier.rfind. cbn [snd].
  rewrite str_app_char, (rfind_from_app _ dir n 0 None); [|intros m; exact (Distribute.no_slash_get_inv n m Hn)].
  cbn [Nat.add]. rewrite <- str_app_char, length_app_str.
  rewrite !str_app_char. cbn [String.length].
  replace (_ - S (String.length dir)) with (String.length n) by lia.
  rewrite substring_after. apply substring_all.
Qed.

Lemma basename_plain n : Distribute.no_slash n = true -> basename n = n.
Proof.
  intros Hn. unfold basename, Classifier.os_path_split, Classifier.rfind. cbn [snd].
  rewrite rfind_from_none; [|intros m; exact (Distribute.no_slash_get_inv n m Hn)].
  rewrite Nat.sub_0_r. apply substring_all.
Qed.

Lemma drop_last3_py n : drop_last3 (n ++ ".py") = n.
Proof.
  unfold drop_last3. rewrite length_app_str. cbn [String.length].
  replace (String.length n + 3 - 3) with (String.length n) by lia. apply substring_prefix.
Qed.

(** A script [n.py] takes [n] as its task name, wherever it is installed. *)
Lemma task_name_script dir n : Distribute.no_slash n = true -> task_name (dir ++ "/" ++ n ++ ".py") = n.
Proof.
  intros Hn. unfold task_name. rewrite basename_under; [apply drop_last3_py|].
  by rewrite no_slash_app, Hn.
Qed.

Lemma swf_scripts_no_slash f : In f swf_scripts -> Distribute.no_slash f = true.
Proof. intros Hf. repeat destruct Hf as [<-|Hf]; [reflexivity ..|destruct Hf]. Qed.

(** Where the scripts are installed does not change what they poll. *)
(** The task name of a script file does not depend on its directory. *)
Lemma task_name_under dir f : Distribute.no_slash f = true -> task_name (dir ++ "/" ++ f) = task_name f.
Proof. intros Hf. unfold task_name. by rewrite basename_under, basename_plain. Qed.

Lemma served_anywhere install l :
  served install l = existsb (fun f => String.eqb (task_name f) l) swf_scripts.
Proof.
  apply existsb_ext_in. intros f Hf%swf_scripts_no_slash. by rewrite task_name_under.
Qed.

Lemma served_ingest install n :
  known_activity n = true ->
  served install n = true <-> n <> Ingest.ACTIVITY2a /\ n <> Ingest.ACTIVITY2b /\ n <> Ingest.ACTIVITY5c.
Proof.
  unfold known_activity. destruct (Ingest.stage_of_name n) as [st|] eqn:Hs; [intros _|discriminate].
  apply find_some in Hs as [_ Hs%String.eqb_eq]. subst n. rewrite served_anywhere.
  destruct st; vm_compute; split; try done; intros (?&?&?); congruence.
Qed.

Lemma served_lifecycle install n : lifecycle_activity n = true -> served install n = true.
Proof.
  rewrite served_anywhere. unfold lifecycle_activity.
  intros (x & Hx & Hn%String.eqb_eq)%existsb_exists. subst n.
  repeat destruct Hx as [<-|Hx]; [reflexivity ..|destruct Hx].
Qed.

(** One iteration of the ingestion decider keeps [locals_ok] and schedules
    every activity on the task list of its name. *)
Lemma ingest_decide_lists st uuid p :
  locals_ok st = true ->
  py_post (fun '(st', r) => locals_ok st' = true /\ schedules_own_list known_activity r = true)
          (Ingest.decide st uuid p).
Proof.
  intros Hst. unfold Ingest.decide, Ingest.route_completed, Ingest.schedule, executeNextTask.
  py_post_tac; cbn.
  all: try (split; [done|]).
  all: repeat match goal with
         | H : opt_or_raise _ (if ?b then _ else _) = inr _ |- _ => destruct b
         | H : opt_or_raise _ _ = inr _ |- _ => apply opt_or_raise_inr in H
         end; simplify_eq.
  all: try (unfold locals_ok in Hst; match goal with H : Ingest.taskName _ = Some _ |- _ => rewrite H in Hst end).
  all: rewrite ?String.eqb_refl, ?Hst; repeat case_match; done.
Qed.

Lemma lifecycle_decide_lists uuid p :
  py_post (fun r => schedules_own_list lifecycle_activity r = true) (Lifecycle.decide uuid p).
Proof.
  unfold Lifecycle.decide, Lifecycle.route_completed, Lifecycle.executeNextTask.
  py_post_tac; cbn; rewrite ?String.eqb_refl; repeat case_match; done.
Qed.

Lemma ingest_run_lists st polls rs e :
  locals_ok st = true -> Ingest.run st polls = (rs, e) ->
  Forall (fun r => schedules_own_list known_activity r = true) rs.
Proof.
  revert st rs e. induction polls as [|[u p] ps IH]; intros st rs e Hst; cbn; [by intros [= <- _]|].
  destruct (Ingest.decide st u p) as [|[st' r]] eqn:Hd; [by intros [= <- _]|].
  destruct (Ingest.run st' ps) eqn:Hr. intros [= <- _].
  destruct (ingest_decide_lists st u p Hst _ Hd) as [Hst' Hr'].
  constructor; [exact Hr'|]. exact (IH _ _ _ Hst' Hr).
Qed.

Lemma schedules_own_list_some ok tok n v a i l :
  schedules_own_list ok (Some (tok, ScheduleActivityTask n v a i l)) = true -> l = n /\ ok n = true.
Proof. cbn. by intros [->%String.eqb_eq ?]%andb_prop. Qed.

(** An iteration changes the stores only through its task's branch. *)
Lemma serve_step_store br b p s :
  (serve_step br b p s).1 = s \/ exists tok input, (serve_step br b p s).1 = (br tok input s).1.
Proof.
  destruct p as [|tok input]; [by left|right; exists tok, input]. unfold serve_step, io_bind.
  destruct (br tok input s) as [s1 [e|[]]]; reflexivity.
Qed.

(** A script whose branch does not write runs [Worker.worker_step] on the
    broker that has handed the task out. *)
Lemma serve_step_pure (action : jvalue -> py Worker.outcome) b p s :
  serve_step (fun _ input => io_lift (action input)) b p s =
    (s, Worker.worker_step action
          (match p with Worker.ActivityTask tok _ => Worker.claim b tok | _ => b end) p).
Proof.
  destruct p as [|tok input]; [reflexivity|]. cbv [serve_step io_bind io_lift io_ret Worker.worker_step].
  destruct (action input) as [e|[]]; reflexivity.
Qed.

Lemma branch_writes br tok input s : script_branch br -> rtc Effects.writes s (br tok input s).1.
Proof.
  destruct 1; try (apply rtc_once; constructor); reflexivity.
Qed.

Lemma iteration_writes s s' : iteration s s' -> rtc Effects.writes s s'.
Proof.
  destruct 1 as [br b p s Hbr|subDir mkdir stamp [|tok input] prev b s].
  - destruct (serve_step_store br b p s) as [->|(tok & input & ->)]; [reflexivity|]. by apply branch_writes.
  - reflexivity.
  - enough (Hm : (moveFiles_serve subDir mkdir stamp [Worker.ActivityTask tok input] prev b s).1 =
                  (Effects.moveFiles (subDir input) (stamp tok).1 (stamp tok).2 mkdir prev input s).1)
      by (rewrite Hm; apply rtc_once; constructor).
    cbn [moveFiles_serve]. unfold io_bind.
    destruct (Effects.moveFiles _ _ _ _ _ _ s) as [s1 [e|r]]; [reflexivity|].
    cbv [io_lift io_ret]. by destruct (Worker.respond _ _ _).
Qed.

Lemma serve_iterations br polls b s : script_branch br -> rtc iteration s (serve br polls b s).1.
Proof.
  intros Hbr. revert b s. induction polls as [|p ps IH]; intros b s; [reflexivity|]. cbn [serve].
  pose proof (it_step br b p s Hbr) as Hit. unfold io_bind at 1.
  destruct (serve_step br b p s) as [s1 [e|b']]; cbn in Hit |- *; [by apply rtc_once|].
  eapply rtc_l; [exact Hit|apply IH].
Qed.

Lemma moveFiles_iterations subDir mkdir stamp polls prev b s :
  rtc iteration s (moveFiles_serve subDir mkdir stamp polls prev b s).1.
Proof.
  revert prev b s. induction polls as [|[|tok input] ps IH]; intros prev b s; [reflexivity|apply IH|].
  pose proof (it_move subDir mkdir stamp (Worker.ActivityTask tok input) prev b s) as Hit.
  cbn [moveFiles_serve] in Hit |- *. unfold io_bind in Hit |- *.
  destruct (Effects.moveFiles _ _ _ _ _ _ s) as [s1 [e|r]]; [by apply rtc_once|].
  cbv [io_lift io_ret] in Hit |- *.
  destruct (Worker.respond _ _ _); [by apply rtc_once|]. eapply rtc_l; [exact Hit|apply IH].
Qed.

(** The run of any script's [main] is a sequence of its iterations. *)
Lemma main_run_iterations s s' : main_run s s' -> rtc iteration s s'.
Proof.
  destruct 1; try (apply serve_iterations; constructor).
  - unfold identifyAssetClass_main, io_bind, io_lift.
    destruct (Classifier.loadExts fs); [reflexivity|]. apply serve_iterations. constructor.
  - apply moveFiles_iterations.
Qed.

Lemma iterations_writes s s' : rtc iteration s s' -> rtc Effects.writes s s'.
Proof.
  induction 1 as [|s1 s2 s3 H _ IH]; [reflexivity|].
  etrans; [exact (iteration_writes _ _ H)|exact IH].
Qed.

(** C23. Composition of the deciders with the scripts: every activity the
    ingestion decider schedules, in any run of its process from the start,
    and every activity the lifecycle decider schedules, goes to the task
    list named after the activity; wherever the scripts are installed, a
    script polls that task list, except for the ingestion activities
    extractExifMetadata, extractMediainfoMetadata and
    transcodeAudioDefault, whose tasks no script takes. *)
Theorem deciders_tasks_served install :
  (forall polls rs e tok n v a i l,
     Ingest.run Ingest.locals0 polls = (rs, e) ->
     In (Some (tok, ScheduleActivityTask n v a i l)) rs ->
     l = n /\ (served install l = true <->
               n <> Ingest.ACTIVITY2a /\ n <> Ingest.ACTIVITY2b /\ n <> Ingest.ACTIVITY5c)) /\
  (forall uuid p tok n v a i l,
     Lifecycle.decide uuid p = inr (Some (tok, ScheduleActivityTask n v a i l)) ->
     l = n /\ served install l = true).
Proof.
  split.
  - intros polls rs e tok n v a i l Hrun Hin.
    pose proof (proj1 (List.Forall_forall _ _) (ingest_run_lists Ingest.locals0 _ _ _ eq_refl Hrun) _ Hin) as [-> Hk]%schedules_own_list_some.
    split; [done|]. by apply served_ingest.
  - intros uuid p tok n v a i l Hd.
    destruct (schedules_own_list_some _ _ _ _ _ _ _ (lifecycle_decide_lists uuid p _ Hd)) as [-> Hk].
    split; [done|]. by apply served_lifecycle.
Qed.

(** Two iterations of an ingestion decider: the start of a video execution
    and the completion of its thumbnail. *)
Definition sample_polls : list (string * decision_poll) :=
  [("u1", DecisionTask "t1" (Some (firstn 3 Ingest.video_thumb_history)));
   ("u2", DecisionTask "t2" (Some Ingest.video_thumb_history))].

Definition sample_install (f : string) : string :=
  if String.eqb f "deleteFiles.py" || String.eqb f "moveFiles.py" then "/opt/sdms/SFNcode"
  else "/opt/sdms/workflowcode".

Lemma deciders_tasks_served_witness :
  Ingest.run Ingest.locals0 sample_polls =
    ([Some ("t1", executeNextTask "u1" Ingest.ACTIVITY1 "1"
                    (JObj [("asset", JStr "/up/v/v.mov"); ("metadata", JObj [])]) Ingest.ACTIVITY1);
      Some ("t2", executeNextTask "u2" Ingest.ACTIVITY5b "1"
                    (Ingest.carried (JStr "/up/v/v.mov") (JStr "Video") (JStr "k1")) Ingest.ACTIVITY5b)], None) /\
  served sample_install Ingest.ACTIVITY5b = true.
Proof.
  assert (Hrun : Ingest.run Ingest.locals0 sample_polls =
    ([Some ("t1", executeNextTask "u1" Ingest.ACTIVITY1 "1"
                    (JObj [("asset", JStr "/up/v/v.mov"); ("metadata", JObj [])]) Ingest.ACTIVITY1);
      Some ("t2", executeNextTask "u2" Ingest.ACTIVITY5b "1"
                    (Ingest.carried (JStr "/up/v/v.mov") (JStr "Video") (JStr "k1")) Ingest.ACTIVITY5b)], None))
    by (vm_compute; reflexivity).
  split; [exact Hrun|].
  apply (proj2 (proj2 (proj1 (deciders_tasks_served sample_install) _ _ _ _ _ _ _ _ _ Hrun (or_intror (or_introl eq_refl))))).
  vm_compute. split; [|split]; discriminate.
Defined.

(** The catalogue invariant holds while the scripts run side by side: if
    every item of the [Assets] table is stored under its own [Checksum],
    it still is after any interleaving of iterations of the scripts'
    loops, in particular after the run of the [main] of any script
    ([main_run_iterations]). *)
Lemma scripts_keep_catalogue_wf s s' : rtc iteration s s' -> store_wf s -> store_wf s'.
Proof. intros H%iterations_writes. exact (Effects.catalogue_wf_kept _ _ H). Qed.

End Scripts.
