(* ===== verification/SfnScripts.v ===== *)
(** * The Step Functions worker scripts as processes

    Each script of [src/SFNcode] that works for Step Functions has the
    same [main]: the constant [ARN] of its activity, [taskName =
    os.path.basename(__file__)[:-3]] (only used in the [workerName]), then
    [while True:] a long poll [sfn.get_activity_task(activityArn=ARN,
    workerName='%s-01' % taskName)], a repoll when no task came, and
    otherwise the loop body of [Sfn].  [SfnScripts] models the polls
    answered for each activity, the handing out of each task, the loop over
    them and the [main] of each script; the SWF loop over the same polls
    ([swf_run]) is its counterpart.

    The lemmas: the whole Step Functions loop runs as the SWF loop over
    the same polls with the same body ([sfn_run_refines], the simulation
    of [Sfn] lifted from one iteration to any sequence of polls); and the
    activity a script serves is the last field of its ARN, which is not
    its own name for two scripts ([transcodeVideo],
    [extractMediaInfoMetadata]), so a state machine that names its
    activities after the scripts or after the ingestion decider's
    activities reaches neither of them. *)

From stdpp Require Import base list strings gmap.
From Stdlib Require Import String Ascii.
From S2P Require Import Prelude Json Classifier Ingest Workers Register Sfn Distribute Store Scripts.

Open Scope string_scope.
Local Open Scope py_scope.

Module SfnScripts.

Import Sfn.

(** ** Activities *)

(** [arn:aws:states:<region>:<account>:activity:<name>]: the activity's
    name is the last field of its ARN. *)
Definition arn_activity (arn : string) : string :=
  match Classifier.rfind ":"%char arn with
  | Some i => substring (S i) (String.length arn - S i) arn
  | None => arn
  end.

Definition identifyAssetClass_ARN := "arn:aws:states:us-east-1:497940546915:activity:identifyAssetClass".
Definition extractExifMetadata_ARN := "arn:aws:states:us-east-1:497940546915:activity:extractExifMetadata".
Definition extractMediainfoMetadata_ARN := "arn:aws:states:us-east-1:497940546915:activity:extractMediaInfoMetadata".
Definition registerAsset_ARN := "arn:aws:states:us-east-1:497940546915:activity:registerAsset".
Definition createThumbnailFromImage_ARN := "arn:aws:states:us-east-1:497940546915:activity:createThumbnailFromImage".
Definition transcodeVideoDefault_ARN := "arn:aws:states:us-east-1:497940546915:activity:transcodeVideo".
Definition distributeToS3_ARN := "arn:aws:states:us-east-1:497940546915:activity:distributeToS3".
Definition cleanUpLandingPad_ARN := "arn:aws:states:us-east-1:497940546915:activity:cleanUpLandingPad".

(** The Step Functions scripts, by file name, with their ARN. *)
Definition sfn_scripts : list (string * string) :=
  [("identifyAssetClass.py", identifyAssetClass_ARN); ("extractExifMetadata.py", extractExifMetadata_ARN);
   ("extractMediainfoMetadata.py", extractMediainfoMetadata_ARN); ("registerAsset.py", registerAsset_ARN);
   ("createThumbnailFromImage.py", createThumbnailFromImage_ARN);
   ("transcodeVideoDefault.py", transcodeVideoDefault_ARN); ("distributeToS3.py", distributeToS3_ARN);
   ("cleanUpLandingPad.py", cleanUpLandingPad_ARN)].

(** The arguments of [sfn.get_activity_task]. *)
Record activity_request := mkActivityRequest { activityArn : string; workerName : string }.

Definition sfn_request (arn taskName : string) : activity_request :=
  mkActivityRequest arn (taskName ++ "-01").

(** What the service answers to the successive polls of each activity. *)
Definition activity_queue := string -> list Worker.activity_poll.

(** ** The loops *)

(** One iteration: [get_activity_task] hands the task out, then the loop
    body of [Sfn]. *)
Definition sfn_iteration (action : jvalue -> py Worker.outcome) (s : service) (p : Worker.activity_poll)
    : py service :=
  match p with
  | Worker.ActivityTask tok _ => sfn_worker_step action (hand_out s tok) p
  | Worker.NoActivityTask => sfn_worker_step action s p
  end.

(** [while True:] over the polls answered so far; an exception ends the
    script. *)
Fixpoint sfn_run (action : jvalue -> py Worker.outcome) (polls : list Worker.activity_poll) (s : service)
    : py service :=
  match polls with
  | [] => ret s
  | p :: ps => s' <- sfn_iteration action s p ;; sfn_run action ps s'
  end.

(** The SWF counterpart: [poll_for_activity_task] hands the task out, then
    [Worker.worker_step]. *)
Definition swf_iteration (action : jvalue -> py Worker.outcome) (b : Worker.broker) (p : Worker.activity_poll)
    : py Worker.broker :=
  match p with
  | Worker.ActivityTask tok _ => Worker.worker_step action (Worker.claim b tok) p
  | Worker.NoActivityTask => Worker.worker_step action b p
  end.

Fixpoint swf_run (action : jvalue -> py Worker.outcome) (polls : list Worker.activity_poll) (b : Worker.broker)
    : py Worker.broker :=
  match polls with
  | [] => ret b
  | p :: ps => b' <- swf_iteration action b p ;; swf_run action ps b'
  end.

(** ** The scripts *)

(** [SFNcode/identifyAssetClass.py], [main] (lines 13-28) and its
    [loadExts] (lines 84-101), the same function as the SWF script's. *)
Definition loadExts (fs : string -> option string) : py (gmap string string) := Classifier.loadExts fs.

Definition identifyAssetClass_main (fs : string -> option string) (q : activity_queue) (s : service) : py service :=
  EXT <- loadExts fs ;;
  sfn_run (Worker.identifyAssetClass EXT) (q identifyAssetClass_ARN) s.

(** [SFNcode/extractExifMetadata.py], [main] (lines 16-26). *)
Definition extractExifMetadata_main (processFile : jvalue -> jvalue -> jvalue -> py jvalue) (q : activity_queue)
    (s : service) : py service :=
  sfn_run (Worker.extractExifMetadata processFile) (q extractExifMetadata_ARN) s.

(** [SFNcode/extractMediainfoMetadata.py], [main] (lines 20-31). *)
Definition extractMediainfoMetadata_main (processFile : jvalue -> jvalue -> jvalue -> py jvalue)
    (q : activity_queue) (s : service) : py service :=
  sfn_run (Worker.extractMediainfoMetadata processFile) (q extractMediainfoMetadata_ARN) s.

(** [SFNcode/createThumbnailFromImage.py], [main] (lines 29-39). *)
Definition createThumbnailFromImage_main (convert : jvalue -> Worker.tool_run) (q : activity_queue)
    (s : service) : py service :=
  sfn_run (fun input => Worker.createThumbnailFromImage (convert input) input) (q createThumbnailFromImage_ARN) s.

(** [SFNcode/transcodeVideoDefault.py], [main] (lines 32-42). *)
Definition transcodeVideoDefault_main (ffmpeg : jvalue -> Worker.tool_run) (q : activity_queue)
    (s : service) : py service :=
  sfn_run (fun input => Worker.transcodeVideoDefault (ffmpeg input) input) (q transcodeVideoDefault_ARN) s.

(** [SFNcode/distributeToS3.py], [main] (lines 23-34). *)
Definition distributeToS3_main (q : activity_queue) (s : service) : py service :=
  sfn_run Sfn.distributeToS3 (q distributeToS3_ARN) s.

(** [SFNcode/cleanUpLandingPad.py], [main] (lines 24-34). *)
Definition cleanUpLandingPad_main (rmtree_ok : jvalue -> bool) (q : activity_queue) (s : service) : py service :=
  sfn_run (fun input => Worker.cleanUpLandingPad (rmtree_ok input) input) (q cleanUpLandingPad_ARN) s.

(** [SFNcode/registerAsset.py], [main] (lines 20-31): the loop threads the
    catalogue table with the service. *)
Fixpoint registerAsset_run (polls : list Worker.activity_poll) (t : Register.table) (s : service)
    : py (Register.table * service) :=
  match polls with
  | [] => ret (t, s)
  | p :: ps =>
      r <- registerAsset_loop t (match p with Worker.ActivityTask tok _ => hand_out s tok | _ => s end) p ;;
      registerAsset_run ps r.1 r.2
  end.

Definition registerAsset_main (q : activity_queue) (t : Register.table) (s : service)
    : py (Register.table * service) :=
  registerAsset_run (q registerAsset_ARN) t s.

(** ** Lemmas *)

Lemma iteration_refines action b s p :
  corresponds b s -> py_rel corresponds (swf_iteration action b p) (sfn_iteration action s p).
Proof.
  intros Hc. destruct p as [|tok input]; cbn [swf_iteration sfn_iteration];
    [|apply hand_out_corresponds with (tok := tok) in Hc]; by apply sfn_step_refines.
Qed.

(** A script of [Scripts] whose branch does not write runs [swf_run] and
    leaves the stores as they are. *)
Lemma serve_pure action polls b s :
  Scripts.serve (fun _ input => Store.io_lift (action input)) polls b s = (s, swf_run action polls b).
Proof.
  revert b. induction polls as [|p ps IH]; intros b; [reflexivity|]. cbn [Scripts.serve swf_run].
  unfold Store.io_bind at 1. rewrite Scripts.serve_step_pure.
  replace (Worker.worker_step action _ p) with (swf_iteration action b p) by (by destruct p).
  destruct (swf_iteration action b p) as [e|b']; [reflexivity|]. apply IH.
Qed.

(** The one-iteration simulation of [Sfn] lifted to the loops: from
    corresponding states, the whole loop of a worker over
    any sequence of polls, with the same body under either API, ends in
    corresponding states (the same tokens handed out and retired, every
    report sent as the answer of the same kind, in the same order), or
    both loops stop at the same exception (up to the error code of a
    refused token). *)
Lemma sfn_run_refines action polls b s :
  corresponds b s -> py_rel corresponds (swf_run action polls b) (sfn_run action polls s).
Proof.
  revert b s. induction polls as [|p ps IH]; intros b s Hc; [exact Hc|]. cbn [swf_run sfn_run].
  pose proof (iteration_refines action b s p Hc) as Hi.
  destruct (swf_iteration action b p) as [e|b'], (sfn_iteration action s p) as [e'|s']; cbn in Hi |- *;
    [exact Hi|done|done|exact (IH _ _ Hi)].
Qed.

Lemma sfn_scripts_no_slash f arn : In (f, arn) sfn_scripts -> Distribute.no_slash f = true.
Proof. intros H. repeat destruct H as [[= <- <-]|H]; [reflexivity ..|destruct H]. Qed.

(** Wherever the scripts are installed, a script serves the activity of
    its own name except [transcodeVideoDefault] and
    [extractMediainfoMetadata]. *)
Lemma sfn_activity_own_name dir f arn :
  In (f, arn) sfn_scripts ->
  arn_activity arn = Scripts.task_name (dir ++ "/" ++ f) <->
  f <> "transcodeVideoDefault.py" /\ f <> "extractMediainfoMetadata.py".
Proof.
  intros Hin. rewrite Scripts.task_name_under by exact (sfn_scripts_no_slash _ _ Hin).
  repeat destruct Hin as [[= <- <-]|Hin]; try destruct Hin; vm_compute;
    split; try done; intros [? ?]; congruence.
Qed.

(** The activities the Step Functions scripts serve. *)
Definition sfn_offers (n : string) : bool :=
  existsb (fun fa => String.eqb (arn_activity fa.2) n) sfn_scripts.

(** Of the ingestion decider's activities, the Step Functions scripts
    serve all but [extractMediainfoMetadata] and [transcodeVideoDefault]
    (served under other names), [createThumbnailFromVideo] (no Step
    Functions script) and [transcodeAudioDefault] (no script at all). *)
Lemma sfn_offers_ingest st :
  sfn_offers (Ingest.stage_name st) = true <->
  Ingest.stage_name st <> Ingest.ACTIVITY2b /\ Ingest.stage_name st <> Ingest.ACTIVITY4b /\
  Ingest.stage_name st <> Ingest.ACTIVITY5b /\ Ingest.stage_name st <> Ingest.ACTIVITY5c.
Proof.
  destruct st; vm_compute; split; intros H; try done;
    destruct H as (H1 & H2 & H3 & H4);
    first [destruct (H1 eq_refl) | destruct (H2 eq_refl) | destruct (H3 eq_refl) | destruct (H4 eq_refl)].
Qed.

End SfnScripts.
