(* ===== verification/LifecycleRun.v ===== *)
(** * Executions of the lifecycle workflow

    The lifecycle decider ([Lifecycle.decide], [src/SFNcode/fileManager.py])
    and its three workers ([moveFiles], [cleanUpLandingPad], [deleteFiles])
    composed by the step relation of [Execution].  Every stage passes its
    input on ([OUTPUT.update(INPUT)]) and the decider passes each result on
    as the next input, so the request's [locationSource] reaches every
    stage.  A request whose source is the archive tier therefore reaches
    [deleteFiles] with that source, which the worker never answers: such an
    execution never completes, while the spec's scenario 4 completes a
    move from the archive after its clean-up (C37).  A move to the archive
    from an S3 tier, on the contrary, completes after the extra
    [deleteFiles] stage (C38), and a deletion from an S3 tier completes
    after [deleteFiles] alone (C17), for every primary key and file key:
    the runs are functions of the request ([to_archive_h7], [delete_h3])
    evaluated with the key and file key left symbolic. *)

From stdpp Require Import base list strings gmap.
From Stdlib Require Import String ZArith Lia.
From S2P Require Import Prelude Json History Pipeline Lifecycle Workers Execution.

Open Scope string_scope.
Local Open Scope py_scope.

Module LifecycleRun.

Import Worker Execution.

(** A process of [fileManager.py], with any uuid. *)
Inductive lifecycle_decides (p : decision_poll) : py (option (string * decision)) -> Prop :=
| lifecycle_dec uuid : lifecycle_decides p (Lifecycle.decide uuid p).

(** The lifecycle workers of [src/SFNcode]; [moveFiles] keeps the dict
    [OUTPUT] of its previous task (a Python dict, so without repeated
    keys), the clean-up's [rmtree] may fail. *)
Inductive lifecycle_runs : string -> jvalue -> outcome -> Prop :=
| run_move subDir dirs_ok prev i prev' o :
    (forall d, prev = Some d -> dict_wf d) ->
    moveFiles subDir dirs_ok prev i = inr (prev', o) -> lifecycle_runs Lifecycle.ACTIVITY1 i o
| run_cleanup ok i o :
    cleanUpLandingPad ok i = inr o -> lifecycle_runs Lifecycle.ACTIVITY2 i o
| run_delete i o :
    deleteFiles i = inr o -> lifecycle_runs Lifecycle.ACTIVITY3 i o.

(** A request (a dict) whose source tier is the archive. *)
Definition src_archive (v : jvalue) : Prop :=
  exists d, v = JObj d /\ dict_wf d /\ dict_get d "locationSource" = Some (JStr "archive").

(** ** The request's source survives every stage *)

Lemma update_src_archive out i out' :
  dict_wf out -> src_archive i -> py_update out i = inr out' -> src_archive (JObj out').
Proof.
  intros Hout (d & -> & Hwf & Hs). cbn [py_update py_ret]. intros [= <-].
  exists (dict_update out d). split; [done|]. split; [by apply dict_update_wf|].
  by rewrite dict_get_update, Hs.
Qed.

Ltac dict_literal_wf := apply (bool_decide_unpack _); vm_compute; reflexivity.

Lemma moveFiles_src_archive subDir dirs_ok prev i prev' r :
  (forall d, prev = Some d -> dict_wf d) -> src_archive i ->
  moveFiles subDir dirs_ok prev i = inr (prev', Success r) -> src_archive r.
Proof.
  intros Hprev Hi. unfold moveFiles.
  destruct (getitem i "locationSource"), (getitem i "locationDestination"), (getitem i "dbPrimaryKey"),
    (getitem i "fileKey"); cbn; try congruence.
  destruct (jv_concat _ _); cbn; [congruence|].
  repeat match goal with |- context [if ?b then _ else _] => destruct b end; cbn;
    try (unfold py_raise; congruence).
  1-2: destruct (py_update _ i) as [|out'] eqn:Hu; cbn; [congruence|];
       intros [= ? <-]; refine (update_src_archive _ _ _ _ Hi Hu); dict_literal_wf.
  destruct prev as [p|]; cbn; [|congruence].
  destruct (py_update p i) as [|out'] eqn:Hu; cbn; [congruence|].
  intros [= ? <-]. exact (update_src_archive _ _ _ (Hprev p eq_refl) Hi Hu).
Qed.

Lemma cleanUp_src_archive ok i r :
  src_archive i -> cleanUpLandingPad ok i = inr (Success r) -> src_archive r.
Proof.
  intros Hi. unfold cleanUpLandingPad. destruct (getitem i "asset"); cbn; [congruence|].
  destruct ok; cbn; [|unfold py_raise; congruence].
  destruct (py_update _ i) as [|out'] eqn:Hu; cbn; [congruence|].
  intros [= <-]. refine (update_src_archive _ _ _ _ Hi Hu). dict_literal_wf.
Qed.

(** [deleteFiles] never answers a request from the archive. *)
Lemma deleteFiles_src_archive i o : src_archive i -> deleteFiles i = inr o -> o = NoReport.
Proof.
  intros (d & -> & _ & Hs). unfold deleteFiles. rewrite (getitem_obj _ _ _ Hs). cbn.
  destruct (dict_get d "locationDestination"), (dict_get d "dbPrimaryKey"), (dict_get d "fileKey");
    cbn; try congruence.
  destruct (jv_concat _ _); cbn; unfold py_ret; congruence.
Qed.

(** After [moveFiles], a request from the archive always goes to the clean-up. *)
Lemma touches_archive_src r b : src_archive r -> Lifecycle.touches_archive r = inr b -> b = true.
Proof.
  intros (d & -> & _ & Hs). unfold Lifecycle.touches_archive.
  destruct (getitem (JObj d) "locationDestination"); cbn; [congruence|].
  destruct (jv_in_str _ _) as [|[]]; cbn; [congruence|unfold py_ret; congruence|].
  rewrite Hs. cbn. congruence.
Qed.

(** ** Requests from the archive never complete *)

Definition restore_event (h : list event) (e : event) : Prop :=
  match attrs e with
  | WorkflowExecutionStarted i => src_archive i
  | ActivityTaskScheduled _ i _ => src_archive i
  | ActivityTaskCompleted sid (Some r) =>
      exists s n i l, In s h /\ eventId s = sid /\ attrs s = ActivityTaskScheduled n i l /\
        n <> Lifecycle.ACTIVITY3 /\ src_archive r
  | ActivityTaskCompleted _ None => False
  | OtherEvent t => t <> "WorkflowExecutionCompleted"
  | _ => True
  end.

Definition restore_inv (h : list event) : Prop := forall e, In e h -> restore_event h e.

Lemma restore_event_mono h h' e : (forall x, In x h -> In x h') -> restore_event h e -> restore_event h' e.
Proof.
  intros Hsub. unfold restore_event. destruct (attrs e) as [| | |? []| | | | |]; try done.
  intros (s & n & i & l & ? & ? & ? & ? & ?). exists s, n, i, l. auto.
Qed.

Lemma restore_inv_appends h l :
  restore_inv h -> (forall a, In a l -> forall e, attrs e = a -> restore_event (appends h l) e) ->
  restore_inv (appends h l).
Proof.
  intros Hinv Hl e Hin. destruct (in_appends _ _ _ Hin) as [Hh|Ha].
  - apply (restore_event_mono h); [apply appends_incl | apply Hinv, Hh].
  - by apply (Hl _ Ha).
Qed.

(** On a history with the invariant, the decider schedules stages on
    requests from the archive and never completes. *)
Lemma decide_restore h uuid tok r :
  history_wf h = true -> restore_inv h ->
  Lifecycle.decide uuid (DecisionTask tok (Some h)) = inr r ->
  match r with
  | Some (_, ScheduleActivityTask _ _ _ i _) => src_archive i
  | Some (_, CompleteWorkflowExecution _) => False
  | None => True
  end.
Proof.
  intros Hwf Hinv Hd. unfold Lifecycle.decide in Hd.
  destruct (last_event h) as [|last] eqn:Hl; [cbn in Hd; congruence|]. cbn [py_bind] in Hd.
  pose proof (Hinv _ (last_event_in _ _ Hl)) as Hlast. unfold restore_event in Hlast.
  destruct (String.eqb (eventType last) "WorkflowExecutionStarted").
  { unfold started_input in Hd. destruct (attrs last); cbn in Hd; try congruence.
    destruct (getitem _ "locationDestination"); cbn in Hd; [congruence|].
    cbv [py_ret Lifecycle.executeNextTask] in Hd. simplify_eq. exact Hlast. }
  destruct (String.eqb (eventType last) "ActivityTaskCompleted");
    [|cbn in Hd; unfold py_ret in Hd; simplify_eq; exact I].
  destruct (completed_activity_name h last) as [|n] eqn:Hn; [cbn in Hd; congruence|].
  destruct (completed_result last) as [|res] eqn:Hr; [cbn in Hd; congruence|]. cbn [py_bind] in Hd.
  unfold completed_result in Hr. destruct (attrs last) as [| | |sid [res'|]| | | | |] eqn:Ha; try congruence.
  injection Hr as ->. destruct Hlast as (s & n' & i & l & Hs & <- & Hsa & Hn3 & Hsrc).
  rewrite (completed_activity_name_wf _ _ _ _ _ _ _ Hwf Hs Ha Hsa) in Hn. injection Hn as ->.
  revert Hd. unfold Lifecycle.route_completed.
  destruct (String.eqb_spec n Lifecycle.ACTIVITY1) as [->|H1].
  - cbn [String.eqb Lifecycle.ACTIVITY1 Ascii.eqb Bool.eqb andb].
    destruct (Lifecycle.touches_archive res) as [|b] eqn:Ht; cbn; [congruence|].
    rewrite (touches_archive_src _ _ Hsrc Ht). cbv [py_ret Lifecycle.executeNextTask]. intros [= <-]. exact Hsrc.
  - cbn.
    destruct (String.eqb_spec n Lifecycle.ACTIVITY2) as [->|H2];
      [cbv [py_ret Lifecycle.executeNextTask]; intros [= <-]; exact Hsrc|].
    apply String.eqb_neq in Hn3. rewrite Hn3. cbn.
    unfold py_ret. intros [= <-]. exact I.
Qed.

Lemma step_restore h h' :
  history_wf h = true -> restore_inv h -> step lifecycle_decides lifecycle_runs h h' -> restore_inv h'.
Proof.
  intros Hwf Hinv Hstep. destruct Hstep as [h tok r [uuid]|h s n i l o Hs Hsa Hst Hrun].
  - assert (Hwf1 : history_wf (poll_view h) = true) by by apply appends_wf.
    assert (Hinv1 : restore_inv (poll_view h)).
    { apply restore_inv_appends; [done|]. intros a [<-|[<-|[]]] e He; unfold restore_event; by rewrite He. }
    apply restore_inv_appends; [done|]. intros a Ha e He. unfold restore_event. rewrite He.
    unfold decision_events in Ha.
    destruct (Lifecycle.decide uuid _) as [|r'] eqn:Hd; [simpl in Ha; destruct Ha as [<-|[]]; discriminate|].
    pose proof (decide_restore _ _ _ _ Hwf1 Hinv1 Hd) as Hr.
    destruct r' as [[tk' [n v a' i l|res]]|]; simpl in Ha; repeat destruct Ha as [<-|Ha];
      try contradiction; try exact I; try discriminate. exact Hr.
  - pose proof (Hinv s Hs) as Hsrc. unfold restore_event in Hsrc. rewrite Hsa in Hsrc.
    apply restore_inv_appends; [done|]. intros a Ha e He. unfold restore_event. rewrite He.
    destruct Hrun as [subDir dirs_ok prev i prev' o Hprev H|ok i o H|i o H].
    + destruct o as [r| |]; simpl in Ha; repeat destruct Ha as [<-|Ha]; try contradiction; try exact I.
      exists s, Lifecycle.ACTIVITY1, i, l. split; [by apply appends_incl|]. do 2 (split; [done|]).
      split; [cbv; congruence|]. exact (moveFiles_src_archive _ _ _ _ _ _ Hprev Hsrc H).
    + destruct o as [r| |]; simpl in Ha; repeat destruct Ha as [<-|Ha]; try contradiction; try exact I.
      exists s, Lifecycle.ACTIVITY2, i, l. split; [by apply appends_incl|]. do 2 (split; [done|]).
      split; [cbv; congruence|]. exact (cleanUp_src_archive _ _ _ Hsrc H).
    + rewrite (deleteFiles_src_archive _ _ Hsrc H) in Ha. simpl in Ha.
      destruct Ha as [<-|[]]. exact I.
Qed.

(** C37. A request whose source is the archive tier never completes: on
    every history of a lifecycle execution started with such a request
    (a restore from the archive, or the deletion of an archived asset),
    there is no [WorkflowExecutionCompleted] event.  The request reaches
    [deleteFiles] unchanged and that worker never reports on an archive
    source, while the spec's scenario 4 completes a move from the archive
    after its clean-up. *)
Theorem archive_source_never_completes input h :
  src_archive input -> reachable lifecycle_decides lifecycle_runs input h ->
  forall e, In e h -> attrs e <> OtherEvent "WorkflowExecutionCompleted".
Proof.
  intros Hin Hr. assert (Hinv : restore_inv h).
  { induction Hr as [|h h' Hr IH Hs].
    - intros e [<-|[]]. exact Hin.
    - apply (step_restore h); [apply (reachable_wf _ _ _ _ Hr)|done|done]. }
  intros e He Ha. specialize (Hinv e He). unfold restore_event in Hinv. rewrite Ha in Hinv. by apply Hinv.
Qed.

(** ** Sample executions *)

Definition decide_step (h : list event) (uuid tok : string) : list event :=
  appends (poll_view h) (decision_events (Lifecycle.decide uuid (DecisionTask tok (Some (poll_view h))))).

Definition work_step (h : list event) (sid : Z) (o : outcome) : list event :=
  appends h (report_events sid o).

Definition no_event : event := mkEvent 0 DecisionTaskScheduled.

(** A decider step of [fileManager.py] on a concrete history. *)
Ltac decide_tac h uuid tok :=
  exact (step_decide _ lifecycle_runs h tok _ (lifecycle_dec _ uuid)).

(** A worker step on the task scheduled at position [k] of [h]. *)
Ltac work_tac h k o :=
  eapply (step_work _ lifecycle_runs h (nth k h no_event) _ _ _ o);
    [apply nth_In; vm_compute; lia | reflexivity | vm_compute; reflexivity | ].

Definition restore_start : jvalue := Lifecycle.request Archive CDN (JStr "k") (JStr "f").

Definition restore_h1 : list event :=
  Eval vm_compute in decide_step [mkEvent 1 (WorkflowExecutionStarted restore_start)] "u1" "t1".
Definition restore_move : outcome :=
  Eval vm_compute in match moveFiles "/tmp/" true None restore_start with inr (_, o) => o | inl _ => NoReport end.
Definition restore_h2 : list event := Eval vm_compute in work_step restore_h1 5 restore_move.
Definition restore_h3 : list event := Eval vm_compute in decide_step restore_h2 "u2" "t2".
Definition restore_clean_input : jvalue :=
  Eval vm_compute in match restore_move with Success r => r | _ => JNull end.
Definition restore_clean : outcome :=
  Eval vm_compute in match cleanUpLandingPad true restore_clean_input with inr o => o | inl _ => NoReport end.
Definition restore_h4 : list event := Eval vm_compute in work_step restore_h3 11 restore_clean.
Definition restore_h5 : list event := Eval vm_compute in decide_step restore_h4 "u3" "t3".

Lemma restore_h5_reachable : reachable lifecycle_decides lifecycle_runs restore_start restore_h5.
Proof.
  apply (reach_step _ _ _ restore_h4); [|decide_tac restore_h4 "u3" "t3"].
  apply (reach_step _ _ _ restore_h3); [|work_tac restore_h3 10%nat restore_clean;
    apply (run_cleanup true); vm_compute; reflexivity].
  apply (reach_step _ _ _ restore_h2); [|decide_tac restore_h2 "u2" "t2"].
  apply (reach_step _ _ _ restore_h1); [|work_tac restore_h1 4%nat restore_move;
    eapply (run_move "/tmp/" true None); [intros ? [=]|reflexivity]].
  apply (reach_step _ _ _ [mkEvent 1 (WorkflowExecutionStarted restore_start)]); [apply reach_start|].
  decide_tac [mkEvent 1 (WorkflowExecutionStarted restore_start)] "u1" "t1".
Qed.

Lemma archive_source_never_completes_witness :
  src_archive restore_start /\
  (exists i l, In (nth 16 restore_h5 no_event) restore_h5 /\
               attrs (nth 16 restore_h5 no_event) = ActivityTaskScheduled Lifecycle.ACTIVITY3 i l) /\
  forall e, In e restore_h5 -> attrs e <> OtherEvent "WorkflowExecutionCompleted".
Proof.
  assert (Hsrc : src_archive restore_start).
  { eexists. split; [reflexivity|]. split; [dict_literal_wf|reflexivity]. }
  split; [exact Hsrc|]. split.
  - do 2 eexists. split; [apply nth_In; vm_compute; lia|reflexivity].
  - apply (archive_source_never_completes restore_start restore_h5 Hsrc restore_h5_reachable).
Defined.

(** The activity types scheduled in a history, in order. *)
Definition scheduled_names (h : list event) : list string :=
  flat_map (fun e => match attrs e with ActivityTaskScheduled n _ _ => [n] | _ => [] end) h.

(** The run of a move to the archive from an S3 tier [src], for any
    primary key and file key: [moveFiles] (whose [os.makedirs] calls
    succeed), the clean-up (whose [rmtree] succeeds), then [deleteFiles],
    each answered by the worker on the input the decider scheduled. *)
Definition to_archive_start (src : tier) (key : jvalue) (f : string) : jvalue :=
  Lifecycle.request src Archive key (JStr f).
Definition to_archive_h0 src key f : list event :=
  [mkEvent 1 (WorkflowExecutionStarted (to_archive_start src key f))].
Definition to_archive_h1 src key f := decide_step (to_archive_h0 src key f) "u1" "t1".
Definition to_archive_move src key f : outcome :=
  match moveFiles "/tmp/" true None (to_archive_start src key f) with inr (_, o) => o | inl _ => NoReport end.
Definition to_archive_h2 src key f := work_step (to_archive_h1 src key f) 5 (to_archive_move src key f).
Definition to_archive_h3 src key f := decide_step (to_archive_h2 src key f) "u2" "t2".
Definition to_archive_clean src key f : outcome :=
  match to_archive_move src key f with
  | Success r => match cleanUpLandingPad true r with inr o => o | inl _ => NoReport end
  | _ => NoReport
  end.
Definition to_archive_h4 src key f := work_step (to_archive_h3 src key f) 11 (to_archive_clean src key f).
Definition to_archive_h5 src key f := decide_step (to_archive_h4 src key f) "u3" "t3".
Definition to_archive_delete src key f : outcome :=
  match to_archive_clean src key f with
  | Success r => match deleteFiles r with inr o => o | inl _ => NoReport end
  | _ => NoReport
  end.
Definition to_archive_h6 src key f := work_step (to_archive_h5 src key f) 17 (to_archive_delete src key f).
Definition to_archive_h7 src key f := decide_step (to_archive_h6 src key f) "u4" "t4".

(** The run of a deletion from an S3 tier: [deleteFiles] alone. *)
Definition delete_start (src : tier) (key : jvalue) (f : string) : jvalue :=
  Lifecycle.request src Deleted key (JStr f).
Definition delete_h1 src key f :=
  decide_step [mkEvent 1 (WorkflowExecutionStarted (delete_start src key f))] "u1" "t1".
Definition delete_outcome src key f : outcome :=
  match deleteFiles (delete_start src key f) with inr o => o | inl _ => NoReport end.
Definition delete_h2 src key f := work_step (delete_h1 src key f) 5 (delete_outcome src key f).
Definition delete_h3 src key f := decide_step (delete_h2 src key f) "u2" "t2".

(** The two S3 tiers. *)
Definition s3_tier (t : tier) : Prop := t = CDN \/ t = NearLine.

(** The steps of the run of a move to the archive from the tier [t]. *)
Ltac to_archive_run t key f :=
  apply (reach_step _ _ _ (to_archive_h6 t key f)); [|decide_tac (to_archive_h6 t key f) "u4" "t4"];
  apply (reach_step _ _ _ (to_archive_h5 t key f)); [|work_tac (to_archive_h5 t key f) 16%nat (to_archive_delete t key f);
    apply run_delete; reflexivity];
  apply (reach_step _ _ _ (to_archive_h4 t key f)); [|decide_tac (to_archive_h4 t key f) "u3" "t3"];
  apply (reach_step _ _ _ (to_archive_h3 t key f)); [|work_tac (to_archive_h3 t key f) 10%nat (to_archive_clean t key f);
    apply (run_cleanup true); reflexivity];
  apply (reach_step _ _ _ (to_archive_h2 t key f)); [|decide_tac (to_archive_h2 t key f) "u2" "t2"];
  apply (reach_step _ _ _ (to_archive_h1 t key f)); [|work_tac (to_archive_h1 t key f) 4%nat (to_archive_move t key f);
    eapply (run_move "/tmp/" true None); [intros ? [=]|reflexivity]];
  apply (reach_step _ _ _ (to_archive_h0 t key f)); [apply reach_start|];
  decide_tac (to_archive_h0 t key f) "u1" "t1".

(** The steps of the run of a deletion from the tier [t]. *)
Ltac delete_run t key f :=
  apply (reach_step _ _ _ (delete_h2 t key f)); [|decide_tac (delete_h2 t key f) "u2" "t2"];
  apply (reach_step _ _ _ (delete_h1 t key f)); [|work_tac (delete_h1 t key f) 4%nat (delete_outcome t key f);
    apply run_delete; reflexivity];
  apply (reach_step _ _ _ [mkEvent 1 (WorkflowExecutionStarted (delete_start t key f))]); [apply reach_start|];
  decide_tac [mkEvent 1 (WorkflowExecutionStarted (delete_start t key f))] "u1" "t1".

Lemma to_archive_reachable src key f :
  s3_tier src -> reachable lifecycle_decides lifecycle_runs (to_archive_start src key f) (to_archive_h7 src key f).
Proof. intros [-> | ->]; [to_archive_run CDN key f | to_archive_run NearLine key f]. Qed.

Lemma to_archive_shape src key f :
  s3_tier src ->
  scheduled_names (to_archive_h7 src key f) = [Lifecycle.ACTIVITY1; Lifecycle.ACTIVITY2; Lifecycle.ACTIVITY3] /\
  attrs (List.last (to_archive_h7 src key f) no_event) = OtherEvent "WorkflowExecutionCompleted".
Proof. intros [-> | ->]; split; vm_compute; reflexivity. Qed.

Lemma delete_reachable src key f :
  s3_tier src -> reachable lifecycle_decides lifecycle_runs (delete_start src key f) (delete_h3 src key f).
Proof. intros [-> | ->]; [delete_run CDN key f | delete_run NearLine key f]. Qed.

Lemma delete_shape src key f :
  s3_tier src ->
  scheduled_names (delete_h3 src key f) = [Lifecycle.ACTIVITY3] /\
  attrs (List.last (delete_h3 src key f) no_event) = OtherEvent "WorkflowExecutionCompleted".
Proof. intros [-> | ->]; split; vm_compute; reflexivity. Qed.





End LifecycleRun.
