(* ===== verification/IngestRun.v ===== *)
(** * A whole ingestion execution

    With the repository's extraction workers every ingestion execution
    stops at extraction ([Execution.sdms_ingest_stalls_at_extraction]):
    the decider passes the user metadata under ['METADATA'] and the
    workers read ['metadata'].  [IngestRun] shows that this key is all
    that stands between the decider and the spec's pipeline: with the
    extraction workers given the decider's input with the key renamed
    ([fixed_runs]), and every other worker as in the repository, an
    upload of each class with a thumbnail stage is driven by one
    [decider.py] process (its [taskName] threaded from iteration to
    iteration) through exactly the stages of the spec's table
    ([Pipeline.ingest_path]) to the completion of the execution.  The
    runs are two sample uploads, an image and a video; they document the
    diagnosis and are not properties of the repository's code, whose
    extraction workers differ from [fixed_runs]. *)

From stdpp Require Import base list strings gmap.
From Stdlib Require Import String ZArith Lia.
From S2P Require Import Prelude Json History Pipeline Ingest Workers Register Execution LifecycleRun.

Open Scope string_scope.
Local Open Scope py_scope.

Module IngestRun.

Import Worker Execution LifecycleRun.

(** The decider's input to extraction with ['METADATA'] renamed to
    ['metadata'], the key the extraction workers read. *)
Definition rename_metadata (i : jvalue) : jvalue :=
  match i with
  | JObj d => JObj (map (fun kv => (if String.eqb kv.1 "METADATA" then "metadata" else kv.1, kv.2)) d)
  | _ => i
  end.

(** The repository's workers, with the extraction workers reading the key
    the decider writes. *)
Inductive fixed_runs : string -> jvalue -> outcome -> Prop :=
| fixed_sdms n i o : sdms_runs n i o -> fixed_runs n i o
| fixed_exif pf i o : extractExifMetadata pf (rename_metadata i) = inr o -> fixed_runs Ingest.ACTIVITY2a i o
| fixed_mediainfo pf i o :
    extractMediainfoMetadata pf (rename_metadata i) = inr o -> fixed_runs Ingest.ACTIVITY2b i o.

(** One iteration of a decider process in state [st] on the history [h]:
    its new state and the history SWF records. *)
Definition ingest_step (st : Ingest.locals) (h : list event) (uuid tok : string) : Ingest.locals * list event :=
  let r := Ingest.decide st uuid (DecisionTask tok (Some (poll_view h))) in
  (match r with inr (st', _) => st' | inl _ => st end,
   appends (poll_view h) (decision_events (py_map snd r))).

(** The input of the task scheduled at position [k] of [h]. *)
Definition task_input (h : list event) (k : nat) : jvalue :=
  match attrs (nth k h no_event) with ActivityTaskScheduled _ i _ => i | _ => JNull end.

(** The report of a worker that ran to an answer. *)
Definition report (r : py outcome) : outcome := match r with inr o => o | inl _ => NoReport end.

(** ** Building histories *)

Section Build.

Context (runs : string -> jvalue -> outcome -> Prop) (input : jvalue).

Lemma reach_decide h st uuid tok h' :
  reachable ingest_decides runs input h -> h' = (ingest_step st h uuid tok).2 ->
  reachable ingest_decides runs input h'.
Proof.
  intros Hr ->. eapply reach_step; [exact Hr|]. exact (step_decide _ runs h tok _ (ingest_dec _ st uuid)).
Qed.

Lemma reach_work h k n i l o h' :
  reachable ingest_decides runs input h -> attrs (nth k h no_event) = ActivityTaskScheduled n i l ->
  (k < List.length h)%nat -> started h (eventId (nth k h no_event)) = false -> runs n i o ->
  h' = work_step h (eventId (nth k h no_event)) o -> reachable ingest_decides runs input h'.
Proof.
  intros Hr Ha Hk Hs Hrun ->. eapply reach_step; [exact Hr|].
  exact (step_work _ runs h (nth k h no_event) n i l o (nth_In _ _ Hk) Ha Hs Hrun).
Qed.

End Build.

Ltac decide_at h st uuid tok := apply (reach_decide _ _ h st uuid tok); [|vm_compute; reflexivity].
Ltac work_at h k o := eapply (reach_work _ _ h k _ _ _ o); [|reflexivity|vm_compute; lia|vm_compute; reflexivity| |vm_compute; reflexivity].

(** ** An image upload *)

Definition img_EXT : gmap string string := {[ "jpg" := "Image" ]}.

Definition img_start : jvalue :=
  JObj [("fileName", JStr "/Assets/upload/a/a.jpg"); ("metadata", JObj [("Description", JStr "beach")])].

(** [processFile] with the tools' answers for the sample. *)
Definition img_processFile (asset metadata assetClass : jvalue) : py jvalue :=
  processFile_exif "abc" "a" ".jpg" "2017-01-01T00:00:00+0000" [] [] metadata assetClass.

Definition img_s1 := Eval vm_compute in ingest_step Ingest.locals0 [mkEvent 1 (WorkflowExecutionStarted img_start)] "u1" "t1".
Definition img_o1 := Eval vm_compute in report (identifyAssetClass img_EXT (task_input img_s1.2 4)).
Definition img_h2 := Eval vm_compute in work_step img_s1.2 5 img_o1.
Definition img_s3 := Eval vm_compute in ingest_step img_s1.1 img_h2 "u2" "t2".
Definition img_o3 := Eval vm_compute in report (extractExifMetadata img_processFile (rename_metadata (task_input img_s3.2 10))).
Definition img_h4 := Eval vm_compute in work_step img_s3.2 11 img_o3.
Definition img_s5 := Eval vm_compute in ingest_step img_s3.1 img_h4 "u3" "t3".
Definition img_o5 := Eval vm_compute in report (py_map snd (Register.registerAsset ∅ (task_input img_s5.2 16))).
Definition img_h6 := Eval vm_compute in work_step img_s5.2 17 img_o5.
Definition img_s7 := Eval vm_compute in ingest_step img_s5.1 img_h6 "u4" "t4".
Definition img_o7 := Eval vm_compute in report (createThumbnailFromImage (ToolOutput "") (task_input img_s7.2 22)).
Definition img_h8 := Eval vm_compute in work_step img_s7.2 23 img_o7.
Definition img_s9 := Eval vm_compute in ingest_step img_s7.1 img_h8 "u5" "t5".
Definition img_o9 := Eval vm_compute in report (distributeToS3 (task_input img_s9.2 28)).
Definition img_h10 := Eval vm_compute in work_step img_s9.2 29 img_o9.
Definition img_s11 := Eval vm_compute in ingest_step img_s9.1 img_h10 "u6" "t6".
Definition img_o11 := Eval vm_compute in report (cleanUpLandingPad true (task_input img_s11.2 34)).
Definition img_h12 := Eval vm_compute in work_step img_s11.2 35 img_o11.
Definition img_s13 := Eval vm_compute in ingest_step img_s11.1 img_h12 "u7" "t7".

Lemma img_reachable : reachable ingest_decides fixed_runs img_start img_s13.2.
Proof.
  decide_at img_h12 img_s11.1 "u7" "t7". work_at img_s11.2 34%nat img_o11.
  2: { apply fixed_sdms, (Execution.run_cleanup true). vm_compute. reflexivity. }
  decide_at img_h10 img_s9.1 "u6" "t6". work_at img_s9.2 28%nat img_o9.
  2: { apply fixed_sdms, Execution.run_distribute. vm_compute. reflexivity. }
  decide_at img_h8 img_s7.1 "u5" "t5". work_at img_s7.2 22%nat img_o7.
  2: { apply fixed_sdms, (run_thumb_image (ToolOutput "")). vm_compute. reflexivity. }
  decide_at img_h6 img_s5.1 "u4" "t4". work_at img_s5.2 16%nat img_o5.
  2: { apply fixed_sdms. eapply (run_register ∅). reflexivity. }
  decide_at img_h4 img_s3.1 "u3" "t3". work_at img_s3.2 10%nat img_o3.
  2: { apply (fixed_exif img_processFile). vm_compute. reflexivity. }
  decide_at img_h2 img_s1.1 "u2" "t2". work_at img_s1.2 4%nat img_o1.
  2: { apply fixed_sdms, (run_identify img_EXT). vm_compute. reflexivity. }
  decide_at [mkEvent 1 (WorkflowExecutionStarted img_start)] Ingest.locals0 "u1" "t1".
  apply reach_start.
Qed.

(** ** A video upload *)

Definition vid_EXT : gmap string string := {[ "mov" := "Video" ]}.

Definition vid_start : jvalue :=
  JObj [("fileName", JStr "/Assets/upload/v/v.mov"); ("metadata", JObj [("Description", JStr "surf")])].

Definition vid_processFile (asset metadata assetClass : jvalue) : py jvalue :=
  processFile_mediainfo "def" "v" ".mov" "2017-01-01T00:00:00+0000" [] [] [] metadata assetClass.

Definition vid_s1 := Eval vm_compute in ingest_step Ingest.locals0 [mkEvent 1 (WorkflowExecutionStarted vid_start)] "u1" "t1".
Definition vid_o1 := Eval vm_compute in report (identifyAssetClass vid_EXT (task_input vid_s1.2 4)).
Definition vid_h2 := Eval vm_compute in work_step vid_s1.2 5 vid_o1.
Definition vid_s3 := Eval vm_compute in ingest_step vid_s1.1 vid_h2 "u2" "t2".
Definition vid_o3 := Eval vm_compute in report (extractMediainfoMetadata vid_processFile (rename_metadata (task_input vid_s3.2 10))).
Definition vid_h4 := Eval vm_compute in work_step vid_s3.2 11 vid_o3.
Definition vid_s5 := Eval vm_compute in ingest_step vid_s3.1 vid_h4 "u3" "t3".
Definition vid_o5 := Eval vm_compute in report (py_map snd (Register.registerAsset ∅ (task_input vid_s5.2 16))).
Definition vid_h6 := Eval vm_compute in work_step vid_s5.2 17 vid_o5.
Definition vid_s7 := Eval vm_compute in ingest_step vid_s5.1 vid_h6 "u4" "t4".
Definition vid_o7 := Eval vm_compute in report (createThumbnailFromVideo (ToolOutput "") (task_input vid_s7.2 22)).
Definition vid_h8 := Eval vm_compute in work_step vid_s7.2 23 vid_o7.
Definition vid_s9 := Eval vm_compute in ingest_step vid_s7.1 vid_h8 "u5" "t5".
Definition vid_o9 := Eval vm_compute in report (transcodeVideoDefault (ToolOutput "") (task_input vid_s9.2 28)).
Definition vid_h10 := Eval vm_compute in work_step vid_s9.2 29 vid_o9.
Definition vid_s11 := Eval vm_compute in ingest_step vid_s9.1 vid_h10 "u6" "t6".
Definition vid_o11 := Eval vm_compute in report (distributeToS3 (task_input vid_s11.2 34)).
Definition vid_h12 := Eval vm_compute in work_step vid_s11.2 35 vid_o11.
Definition vid_s13 := Eval vm_compute in ingest_step vid_s11.1 vid_h12 "u7" "t7".
Definition vid_o13 := Eval vm_compute in report (cleanUpLandingPad true (task_input vid_s13.2 40)).
Definition vid_h14 := Eval vm_compute in work_step vid_s13.2 41 vid_o13.
Definition vid_s15 := Eval vm_compute in ingest_step vid_s13.1 vid_h14 "u8" "t8".

Lemma vid_reachable : reachable ingest_decides fixed_runs vid_start vid_s15.2.
Proof.
  decide_at vid_h14 vid_s13.1 "u8" "t8". work_at vid_s13.2 40%nat vid_o13.
  2: { apply fixed_sdms, (Execution.run_cleanup true). vm_compute. reflexivity. }
  decide_at vid_h12 vid_s11.1 "u7" "t7". work_at vid_s11.2 34%nat vid_o11.
  2: { apply fixed_sdms, Execution.run_distribute. vm_compute. reflexivity. }
  decide_at vid_h10 vid_s9.1 "u6" "t6". work_at vid_s9.2 28%nat vid_o9.
  2: { apply fixed_sdms, (run_transcode (ToolOutput "")). vm_compute. reflexivity. }
  decide_at vid_h8 vid_s7.1 "u5" "t5". work_at vid_s7.2 22%nat vid_o7.
  2: { apply fixed_sdms, (run_thumb_video (ToolOutput "")). vm_compute. reflexivity. }
  decide_at vid_h6 vid_s5.1 "u4" "t4". work_at vid_s5.2 16%nat vid_o5.
  2: { apply fixed_sdms. eapply (run_register ∅). reflexivity. }
  decide_at vid_h4 vid_s3.1 "u3" "t3". work_at vid_s3.2 10%nat vid_o3.
  2: { apply (fixed_mediainfo vid_processFile). vm_compute. reflexivity. }
  decide_at vid_h2 vid_s1.1 "u2" "t2". work_at vid_s1.2 4%nat vid_o1.
  2: { apply fixed_sdms, (run_identify vid_EXT). vm_compute. reflexivity. }
  decide_at [mkEvent 1 (WorkflowExecutionStarted vid_start)] Ingest.locals0 "u1" "t1".
  apply reach_start.
Qed.

(** With the extraction workers reading the key the decider writes
    (['METADATA'] renamed to ['metadata']) and every other worker as in
    the repository, one [decider.py] process drives an image upload and a
    video upload through exactly the stages of the spec's pipeline table
    for their class, in order, to the completion of the execution: the
    key mismatch of the extraction step is the only obstacle to
    ingestion ([Execution.sdms_ingest_stalls_at_extraction]). *)
Lemma ingest_completes_with_fixed_extraction :
  (exists h, reachable ingest_decides fixed_runs img_start h /\
     scheduled_names h = map Ingest.stage_name (ingest_path Image) /\
     attrs (List.last h no_event) = OtherEvent "WorkflowExecutionCompleted") /\
  (exists h, reachable ingest_decides fixed_runs vid_start h /\
     scheduled_names h = map Ingest.stage_name (ingest_path Video) /\
     attrs (List.last h no_event) = OtherEvent "WorkflowExecutionCompleted").
Proof.
  split; [exists img_s13.2; split; [exact img_reachable|] | exists vid_s15.2; split; [exact vid_reachable|]];
    split; vm_compute; reflexivity.
Qed.

End IngestRun.
