(* ===== verification/Dispatch.v ===== *)
(** * No double dispatch

    The spec's orchestration core must interpret each event of a history
    exactly once and never dispatch twice (its section 1).  Both deciders
    schedule an activity only when the last workflow event is the start of
    the execution or the completion of an activity; the scheduling event
    then becomes the last workflow event, so a second decision task on the
    same history schedules nothing.  This file states that property of the
    deciders as the class [DispatchOnEvents], proves it for
    [decider.py] and [fileManager.py], and shows that in every execution
    built by [Execution.step] with such a decider, every
    [ActivityTaskScheduled] event answers a start or completion event that
    no other scheduling event answered before.  With the broker handing
    each task to one worker, at most one task is ever waiting for a worker
    (the one just scheduled), and once an activity has failed no workflow
    event follows: the execution is never completed. *)

From stdpp Require Import base list strings.
From Stdlib Require Import String ZArith Lia.
From S2P Require Import Prelude Json History Ingest Lifecycle Workers Execution LifecycleRun.

Open Scope string_scope.
Local Open Scope py_scope.

Module Dispatch.

Import Worker Execution LifecycleRun.

(** An event that calls for a decision: the start of the execution or the
    completion of an activity (the two types the deciders route on). *)
Definition armed (e : event) : bool :=
  String.eqb (eventType e) "WorkflowExecutionStarted" || String.eqb (eventType e) "ActivityTaskCompleted".

Definition is_scheduled (e : event) : bool :=
  match attrs e with ActivityTaskScheduled _ _ _ => true | _ => false end.

(** The checker: walking the history with the last workflow event seen so
    far, every scheduling event must follow an armed event. *)
Fixpoint dispatch_ok_from (last : option event) (h : list event) : bool :=
  match h with
  | [] => true
  | e :: h' =>
      if is_workflow_event e then
        (negb (is_scheduled e) || match last with Some l => armed l | None => false end) &&
        dispatch_ok_from (Some e) h'
      else dispatch_ok_from last h'
  end.

Definition dispatch_ok (h : list event) : bool := dispatch_ok_from None h.

(** What a decider promises: it answers with a decision (a scheduling or
    the completion) only when the last workflow event of the history it
    was given calls for one. *)
Class DispatchOnEvents (decides : decision_poll -> py (option (string * decision)) -> Prop) :=
  dispatch_on_events : forall tok h tk d,
    decides (DecisionTask tok (Some h)) (inr (Some (tk, d))) ->
    exists e, last_event h = inr e /\ armed e = true.

(** The last workflow event, starting from [last]. *)
Definition last_wf_from (last : option event) (h : list event) : option event :=
  fold_left (fun acc e => if is_workflow_event e then Some e else acc) h last.

Definition check_next (last : option event) (e : event) : bool :=
  if is_workflow_event e then
    negb (is_scheduled e) || match last with Some l => armed l | None => false end
  else true.

Lemma dispatch_ok_from_snoc last h e :
  dispatch_ok_from last (h ++ [e])%list = dispatch_ok_from last h && check_next (last_wf_from last h) e.
Proof.
  revert last. induction h as [|e' h IH]; intros last; cbn.
  - unfold check_next. destruct (is_workflow_event e); [by rewrite andb_true_r|done].
  - destruct (is_workflow_event e'); rewrite IH; [apply andb_assoc|done].
Qed.

Lemma last_wf_from_snoc last h e :
  last_wf_from last (h ++ [e])%list = if is_workflow_event e then Some e else last_wf_from last h.
Proof. unfold last_wf_from. by rewrite fold_left_app. Qed.

(** [last_event] is the last workflow event. *)
Lemma last_event_last_wf h :
  last_event h = match last_wf_from None h with Some e => inr e | None => inl IndexError end.
Proof.
  induction h as [|e h IH] using rev_ind; [reflexivity|].
  rewrite last_wf_from_snoc. unfold last_event in *. rewrite workflow_events_app.
  unfold workflow_events at 2. cbn. destruct (is_workflow_event e).
  - apply py_last_app.
  - by rewrite app_nil_r.
Qed.

(** Appending bookkeeping ([Decision*]) events changes neither the check
    nor the last workflow event. *)
Lemma decision_event_not_wf i a :
  a = DecisionTaskScheduled \/ a = DecisionTaskStarted \/ a = DecisionTaskCompleted \/
  a = OtherEvent "DecisionTaskTimedOut" ->
  is_workflow_event (mkEvent i a) = false.
Proof. by intros [ -> | [ -> | [ -> | -> ]]]. Qed.

Lemma append_bookkeeping h a :
  (a = DecisionTaskScheduled \/ a = DecisionTaskStarted \/ a = DecisionTaskCompleted \/
   a = OtherEvent "DecisionTaskTimedOut") ->
  dispatch_ok (append h a) = dispatch_ok h /\ last_wf_from None (append h a) = last_wf_from None h.
Proof.
  intros Ha. unfold dispatch_ok, append. rewrite dispatch_ok_from_snoc, last_wf_from_snoc.
  unfold check_next. rewrite (decision_event_not_wf _ _ Ha). by rewrite andb_true_r.
Qed.

(** A workflow event that is not a scheduling keeps the check. *)
Lemma append_not_scheduled h a :
  (forall n i l, a <> ActivityTaskScheduled n i l) ->
  dispatch_ok (append h a) = dispatch_ok h.
Proof.
  intros Ha. unfold dispatch_ok, append. rewrite dispatch_ok_from_snoc. unfold check_next.
  destruct (is_workflow_event _); [|by rewrite andb_true_r].
  unfold is_scheduled. cbn. destruct a; try by rewrite andb_true_r. exfalso. by eapply Ha.
Qed.

Lemma append_scheduled h n i l e :
  last_wf_from None h = Some e -> armed e = true ->
  dispatch_ok (append h (ActivityTaskScheduled n i l)) = dispatch_ok h.
Proof.
  intros Hl Ha. unfold dispatch_ok, append. rewrite dispatch_ok_from_snoc, Hl. unfold check_next.
  cbn. rewrite Ha. by rewrite andb_true_r.
Qed.

Lemma dispatch_ok_from_app last h1 h2 :
  dispatch_ok_from last (h1 ++ h2)%list =
    dispatch_ok_from last h1 && dispatch_ok_from (last_wf_from last h1) h2.
Proof.
  revert last. induction h1 as [|e h1 IH]; intros last; [done|]. cbn.
  destruct (is_workflow_event e); rewrite IH; [apply andb_assoc|done].
Qed.

Lemma last_wf_from_some y h c : last_wf_from (Some y) h = Some c -> c = y \/ In c h.
Proof.
  unfold last_wf_from. revert y. induction h as [|z h IH]; intros y Hy; cbn in Hy; [injection Hy as ->; by left|].
  destruct (is_workflow_event z).
  - destruct (IH z Hy) as [->|Hin]; right; [left|right]; done.
  - destruct (IH y Hy) as [->|Hin]; [by left|by right; right].
Qed.

(** After a workflow event [x], the last workflow event is [x] or a later one. *)
Lemma last_wf_from_cons_in last x h c :
  is_workflow_event x = true -> last_wf_from last (x :: h) = Some c -> c = x \/ In c h.
Proof. intros Hx. unfold last_wf_from at 1. cbn. rewrite Hx. apply last_wf_from_some. Qed.

(** ** The two deciders keep the promise *)

#[export] Instance ingest_dispatch : DispatchOnEvents ingest_decides.
Proof.
  intros tok h tk d Hd. inversion Hd as [st uuid Heq]. revert Heq. unfold Ingest.decide.
  destruct (last_event h) as [|e] eqn:Hl; [cbn; congruence|]. intros Heq. exists e. split; [done|].
  revert Heq. cbn [py_bind]. unfold armed.
  destruct (String.eqb _ "WorkflowExecutionStarted"); [done|].
  destruct (String.eqb _ "ActivityTaskCompleted"); [done|]. cbn. congruence.
Qed.

#[export] Instance lifecycle_dispatch : DispatchOnEvents lifecycle_decides.
Proof.
  intros tok h tk d Hd. inversion Hd as [uuid Heq]. revert Heq. unfold Lifecycle.decide.
  destruct (last_event h) as [|e] eqn:Hl; [cbn; congruence|]. intros Heq. exists e. split; [done|].
  revert Heq. cbn [py_bind]. unfold armed.
  destruct (String.eqb _ "WorkflowExecutionStarted"); [done|].
  destruct (String.eqb _ "ActivityTaskCompleted"); [done|]. cbn. unfold py_ret. congruence.
Qed.

(** ** One pending task at a time, and nothing after a failure *)

Definition is_failed (e : event) : bool :=
  match attrs e with ActivityTaskFailed _ _ _ => true | _ => false end.

(** A task scheduled and not yet handed to a worker. *)
Definition pending (h : list event) (s : event) : Prop :=
  In s h /\ is_scheduled s = true /\ started h (eventId s) = false.

(** The only task that can be pending is the one whose scheduling is the
    last workflow event. *)
Definition pending_last (h : list event) : Prop :=
  forall s, pending h s -> last_wf_from None h = Some s.

(** The checker of deadness: once a failure has been recorded, no workflow
    event follows. *)
Fixpoint dead_ok_from (failed : bool) (h : list event) : bool :=
  match h with
  | [] => true
  | e :: h' => (negb failed || negb (is_workflow_event e)) && dead_ok_from (failed || is_failed e) h'
  end.

Definition dead_ok (h : list event) : bool := dead_ok_from false h.

Lemma dead_ok_from_app f h1 h2 :
  dead_ok_from f (h1 ++ h2)%list = dead_ok_from f h1 && dead_ok_from (f || existsb is_failed h1) h2.
Proof.
  revert f. induction h1 as [|e h1 IH]; intros f; cbn; [by rewrite orb_false_r|].
  rewrite IH, orb_assoc. apply andb_assoc.
Qed.

Lemma started_append h a sid :
  started (append h a) sid =
    started h sid || match a with ActivityTaskStarted sid' => Z.eqb sid' sid | _ => false end.
Proof. unfold started, append. rewrite existsb_app. cbn. by rewrite orb_false_r. Qed.

Lemma failed_is_workflow e : is_failed e = true -> is_workflow_event e = true.
Proof. unfold is_failed, is_workflow_event, eventType. by destruct (attrs e). Qed.

Lemma scheduled_is_workflow e : is_scheduled e = true -> is_workflow_event e = true.
Proof. unfold is_scheduled, is_workflow_event, eventType. by destruct (attrs e). Qed.

(** A pending task of [append h a] is a pending task of [h] or the new event. *)
Lemma pending_append h a s :
  pending (append h a) s ->
  (pending h s /\ match a with ActivityTaskStarted sid' => sid' <> eventId s | _ => True end) \/
  s = mkEvent (Z.of_nat (List.length h) + 1) a.
Proof.
  intros (Hin & Hs & Hst). unfold append in Hin. apply in_app_or in Hin as [Hin|[<-|[]]]; [left|by right].
  rewrite started_append in Hst. apply orb_false_iff in Hst as [Hst Ha].
  split; [done|]. destruct a; try done. by apply Z.eqb_neq in Ha.
Qed.

(** With a failure recorded and nothing after it, the last workflow event is a failure. *)
Lemma dead_last_failed h :
  dead_ok h = true -> existsb is_failed h = true ->
  exists f, last_wf_from None h = Some f /\ is_failed f = true.
Proof.
  induction h as [|e h IH] using rev_ind; [done|]. unfold dead_ok.
  rewrite dead_ok_from_app, existsb_app, last_wf_from_snoc. cbn.
  intros Hok Hf. apply andb_true_iff in Hok as [Hok He]. rewrite andb_true_r in He.
  destruct (existsb is_failed h) eqn:Hh; cbn in *.
  - destruct (is_workflow_event e); [done|]. by apply IH.
  - rewrite orb_false_r in Hf. rewrite (failed_is_workflow _ Hf). by exists e.
Qed.


Lemma dead_ok_append h a :
  dead_ok (append h a) =
    dead_ok h && (negb (existsb is_failed h) || negb (is_workflow_event (mkEvent (Z.of_nat (List.length h) + 1) a))).
Proof. unfold dead_ok, append. rewrite dead_ok_from_app. cbn. by rewrite !andb_true_r. Qed.

Lemma dead_ok_from_true_nil l : dead_ok_from true l = true -> Forall (fun e => is_workflow_event e = false) l.
Proof.
  induction l as [|e l IH]; cbn; [constructor|].
  intros [He Hl]%andb_true_iff. constructor; [by apply negb_true_iff|]. by apply IH.
Qed.

Lemma failed_append h a :
  existsb is_failed (append h a) = existsb is_failed h || match a with ActivityTaskFailed _ _ _ => true | _ => false end.
Proof. unfold append. rewrite existsb_app. cbn. by rewrite orb_false_r. Qed.

(** ** Executions never dispatch twice *)

Section NoDoubleDispatch.

Context (decides : decision_poll -> py (option (string * decision)) -> Prop) `{!DispatchOnEvents decides}.
Context (runs : string -> jvalue -> outcome -> Prop).

Lemma step_dispatch h h' : dispatch_ok h = true -> step decides runs h h' -> dispatch_ok h' = true.
Proof.
  intros Hok Hstep. destruct Hstep as [h tok r Hd|h s n i l o Hs Hsa Hst Hrun].
  - unfold poll_view, appends in *. cbn [fold_left] in *.
    set (h1 := append (append h DecisionTaskScheduled) DecisionTaskStarted) in *.
    assert (Hh1 : dispatch_ok h1 = dispatch_ok h /\ last_wf_from None h1 = last_wf_from None h).
    { unfold h1. pose proof (append_bookkeeping h DecisionTaskScheduled ltac:(tauto)) as [A1 B1].
      pose proof (append_bookkeeping (append h DecisionTaskScheduled) DecisionTaskStarted ltac:(tauto))
        as [A2 B2].
      split; congruence. }
    destruct r as [e|[[tk' [n v a i l|res]]|]]; cbn [decision_events fold_left].
    + rewrite (proj1 (append_bookkeeping h1 (OtherEvent "DecisionTaskTimedOut") ltac:(tauto))).
      by rewrite (proj1 Hh1).
    + destruct (dispatch_on_events tok h1 tk' _ Hd) as (e & Hl & Ha).
      rewrite last_event_last_wf in Hl. destruct (last_wf_from None h1) as [e'|] eqn:He'; [|congruence].
      injection Hl as ->.
      destruct (append_bookkeeping h1 DecisionTaskCompleted ltac:(tauto)) as [Hd1 Hl1].
      rewrite (append_scheduled _ n i l e); [by rewrite Hd1, (proj1 Hh1)|by rewrite Hl1|done].
    + rewrite append_not_scheduled by (intros; discriminate).
      rewrite (proj1 (append_bookkeeping h1 DecisionTaskCompleted ltac:(tauto))). by rewrite (proj1 Hh1).
    + rewrite (proj1 (append_bookkeeping h1 (OtherEvent "DecisionTaskTimedOut") ltac:(tauto))).
      by rewrite (proj1 Hh1).
  - unfold appends. destruct o; cbn [report_events fold_left];
      rewrite ?append_not_scheduled by (intros; discriminate); done.
Qed.

Lemma reachable_dispatch_ok input h : reachable decides runs input h -> dispatch_ok h = true.
Proof.
  induction 1 as [|h h' Hr IH Hs]; [done|]. by apply (step_dispatch h).
Qed.

(** C39. No double dispatch: in every execution, between any two
    scheduling events lies a start or completion event that calls for the
    second one.  So each start or completion event is answered by at most
    one [ScheduleActivityTask], whatever the number of decision tasks
    that see it, for every decider that schedules only on such events
    (both deciders of the repository, [ingest_dispatch] and
    [lifecycle_dispatch]). *)
Theorem no_double_dispatch input h h1 e1 h2 e2 h3 :
  reachable decides runs input h -> h = (h1 ++ e1 :: h2 ++ e2 :: h3)%list ->
  is_scheduled e1 = true -> is_scheduled e2 = true ->
  exists c, In c h2 /\ armed c = true.
Proof.
  intros Hr -> H1 H2. pose proof (reachable_dispatch_ok _ _ Hr) as Hok.
  unfold dispatch_ok in Hok.
  replace (h1 ++ e1 :: h2 ++ e2 :: h3)%list with ((h1 ++ e1 :: h2) ++ e2 :: h3)%list in Hok
    by by rewrite <- app_assoc.
  rewrite dispatch_ok_from_app in Hok. apply andb_true_iff in Hok as [_ Hok]. cbn in Hok.
  assert (Hwf2 : is_workflow_event e2 = true).
  { unfold is_scheduled in H2. unfold is_workflow_event, eventType. by destruct (attrs e2). }
  rewrite Hwf2, H2 in Hok. cbn in Hok.
  destruct (last_wf_from None (h1 ++ e1 :: h2)) as [c|] eqn:Hc; [|done].
  apply andb_true_iff in Hok as [Ha _]. exists c. split; [|done].
  rewrite <- (app_nil_r h1) in Hc at 1. unfold last_wf_from in Hc. rewrite fold_left_app in Hc.
  fold (last_wf_from (last_wf_from None h1) (e1 :: h2)) in Hc.
  assert (Hwf1 : is_workflow_event e1 = true).
  { unfold is_scheduled in H1. unfold is_workflow_event, eventType. by destruct (attrs e1). }
  destruct (last_wf_from_cons_in _ _ _ _ Hwf1 Hc) as [->|Hin]; [|done].
  unfold is_scheduled in H1. unfold armed, eventType in Ha. by destruct (attrs e1).
Qed.

(** No task is pending when the last workflow event calls for a decision. *)
Lemma pending_last_armed h e s :
  pending_last h -> last_wf_from None h = Some e -> armed e = true -> ~ pending h s.
Proof.
  intros Hp Hl Ha Hs. pose proof (Hp s Hs) as Hs'. rewrite Hl in Hs'. injection Hs' as ->.
  destruct Hs as (_ & Hsch & _). unfold is_scheduled in Hsch. unfold armed, eventType in Ha.
  by destruct (attrs s).
Qed.

(** Appending an event that is not a scheduling adds no pending task. *)
Lemma pending_append_other h a s :
  (forall n i l, a <> ActivityTaskScheduled n i l) -> pending (append h a) s -> pending h s.
Proof.
  intros Ha Hs. destruct (pending_append _ _ _ Hs) as [[Hh _]| -> ]; [done|].
  destruct Hs as (_ & Hsch & _). unfold is_scheduled in Hsch. cbn in Hsch.
  destruct a; try done. exfalso. by eapply Ha.
Qed.

Lemma step_pending h h' : pending_last h -> step decides runs h h' -> pending_last h'.
Proof.
  intros Hp Hstep. destruct Hstep as [h tok r Hd|h s0 n i l o Hs0 Hsa Hst Hrun].
  - unfold poll_view, appends in *. cbn [fold_left] in *.
    set (h1 := append (append h DecisionTaskScheduled) DecisionTaskStarted) in *.
    assert (Hl1 : last_wf_from None h1 = last_wf_from None h).
    { unfold h1. by rewrite (proj2 (append_bookkeeping _ DecisionTaskStarted ltac:(tauto))),
        (proj2 (append_bookkeeping _ DecisionTaskScheduled ltac:(tauto))). }
    assert (Hp1 : forall s, pending h1 s -> pending h s).
    { intros s Hs. unfold h1 in Hs. by do 2 apply pending_append_other in Hs; try (intros; discriminate). }
    assert (Hpl1 : pending_last h1).
    { intros s' Hs'. rewrite Hl1. by apply Hp, Hp1. }
    assert (Hdec : forall tk d, r = inr (Some (tk, d)) -> forall s, ~ pending h1 s).
    { intros tk d -> s Hs. destruct (dispatch_on_events _ _ _ _ Hd) as (e & Hl & Ha).
      rewrite last_event_last_wf in Hl. destruct (last_wf_from None h1) as [e'|] eqn:He; [|congruence].
      injection Hl as ->. exact (pending_last_armed h1 e s Hpl1 He Ha Hs). }
    destruct r as [e|[[tk' d]|]]; cbn [decision_events fold_left].
    + intros s Hs. apply pending_append_other in Hs; [|intros; discriminate].
      rewrite (proj2 (append_bookkeeping h1 (OtherEvent "DecisionTaskTimedOut") ltac:(tauto))), Hl1.
      by apply Hp, Hp1.
    + destruct d as [n v a i l|res]; cbn [fold_left]; intros s Hs.
      * destruct (pending_append _ _ _ Hs) as [[Hs' _]| -> ].
        -- apply pending_append_other in Hs'; [|intros; discriminate]. by destruct (Hdec _ _ eq_refl s Hs').
        -- unfold append at 1. by rewrite last_wf_from_snoc.
      * apply pending_append_other in Hs; [|intros; discriminate].
        apply pending_append_other in Hs; [|intros; discriminate]. by destruct (Hdec _ _ eq_refl s Hs).
    + intros s Hs. apply pending_append_other in Hs; [|intros; discriminate].
      rewrite (proj2 (append_bookkeeping h1 (OtherEvent "DecisionTaskTimedOut") ltac:(tauto))), Hl1.
      by apply Hp, Hp1.
  - assert (Hs0p : pending h s0).
    { split; [done|]. split; [unfold is_scheduled; by rewrite Hsa|done]. }
    assert (Hstarted : forall s, pending (append h (ActivityTaskStarted (eventId s0))) s -> False).
    { intros s Hs. destruct (pending_append _ _ _ Hs) as [[Hs' Hne]| -> ].
      - pose proof (Hp _ Hs') as E1. pose proof (Hp _ Hs0p) as E2. rewrite E1 in E2.
        injection E2 as ->. by apply Hne.
      - destruct Hs as (_ & Hsch & _). done. }
    unfold appends. destruct o; cbn [report_events fold_left]; intros s Hs.
    + apply pending_append_other in Hs; [|intros; discriminate]. by destruct (Hstarted s Hs).
    + apply pending_append_other in Hs; [|intros; discriminate]. by destruct (Hstarted s Hs).
    + by destruct (Hstarted s Hs).
Qed.

(** After a failure, a decider answers with no decision. *)
Lemma decides_after_failure h tok r f :
  decides (DecisionTask tok (Some h)) r -> last_wf_from None h = Some f -> is_failed f = true ->
  forall tk d, r <> inr (Some (tk, d)).
Proof.
  intros Hd Hl Hf tk d ->. destruct (dispatch_on_events _ _ _ _ Hd) as (e & He & Ha).
  rewrite last_event_last_wf, Hl in He. injection He as ->.
  unfold is_failed in Hf. unfold armed, eventType in Ha. by destruct (attrs e).
Qed.

Lemma step_dead h h' : dead_ok h = true -> pending_last h -> step decides runs h h' -> dead_ok h' = true.
Proof.
  intros Hok Hp Hstep. destruct Hstep as [h tok r Hd|h s0 n i l o Hs0 Hsa Hst Hrun].
  - unfold poll_view, appends in *. cbn [fold_left] in *.
    assert (Hbk : forall h a, a = DecisionTaskScheduled \/ a = DecisionTaskStarted \/
                  a = DecisionTaskCompleted \/ a = OtherEvent "DecisionTaskTimedOut" ->
                  dead_ok h = true -> dead_ok (append h a) = true /\
                  existsb is_failed (append h a) = existsb is_failed h /\
                  last_wf_from None (append h a) = last_wf_from None h).
    { intros h0 a Ha H0. rewrite dead_ok_append, failed_append, H0, (decision_event_not_wf _ _ Ha).
      rewrite orb_true_r, (proj2 (append_bookkeeping h0 a Ha)).
      split; [done|]. split; [|done]. destruct Ha as [ -> | [ -> | [ -> | -> ]]]; by rewrite orb_false_r. }
    destruct (Hbk h DecisionTaskScheduled ltac:(tauto) Hok) as (Hok1 & Hf1 & Hl1).
    destruct (Hbk _ DecisionTaskStarted ltac:(tauto) Hok1) as (Hok2 & Hf2 & Hl2).
    set (h1 := append (append h DecisionTaskScheduled) DecisionTaskStarted) in *.
    destruct r as [e|[[tk' d]|]]; cbn [decision_events fold_left].
    1,3: exact (proj1 (Hbk h1 (OtherEvent "DecisionTaskTimedOut") ltac:(tauto) Hok2)).
    destruct (existsb is_failed h) eqn:Hfh.
    + destruct (dead_last_failed h Hok Hfh) as (f & Hl & Hf).
      assert (Hl' : last_wf_from None h1 = Some f) by by rewrite Hl2, Hl1.
      destruct (decides_after_failure h1 tok _ f Hd Hl' Hf tk' d eq_refl).
    + destruct (Hbk h1 DecisionTaskCompleted ltac:(tauto) Hok2) as (Hok3 & Hf3 & _).
      destruct d; cbn [decision_events fold_left];
        rewrite dead_ok_append, Hok3, Hf3, Hf2, Hf1, ?Hfh; reflexivity.
  - destruct (existsb is_failed h) eqn:Hfh.
    + exfalso. destruct (dead_last_failed h Hok Hfh) as (f & Hl & Hf).
      assert (Hpend : pending h s0) by (split; [done|]; split; [unfold is_scheduled; by rewrite Hsa|done]).
      rewrite (Hp _ Hpend) in Hl. injection Hl as ->.
      unfold is_failed in Hf. by rewrite Hsa in Hf.
    + unfold appends. destruct o; cbn [report_events fold_left];
        rewrite ?dead_ok_append, ?failed_append, Hok, Hfh; reflexivity.
Qed.

Lemma reachable_pending_dead input h :
  reachable decides runs input h -> pending_last h /\ dead_ok h = true.
Proof.
  induction 1 as [|h h' Hr [Hp Hd] Hs].
  - split; [|done]. intros s (Hin & Hsch & _). destruct Hin as [<-|[]]. done.
  - split; [by apply (step_pending h)|by apply (step_dead h)].
Qed.

(** C40. A failed activity ends the execution without completing it: in
    every execution driven by a decider that decides only on start or
    completion events, with a broker that hands each task to one worker,
    once an [ActivityTaskFailed] event is recorded no workflow event
    follows: nothing is scheduled and the execution is never completed,
    while the spec requires a [CompleteExecution] carrying the failure's
    reason.  (Only one task is ever pending, so no other report can
    arrive either.) *)
Theorem failure_ends_without_completion input h h1 f h2 :
  reachable decides runs input h -> h = (h1 ++ f :: h2)%list -> is_failed f = true ->
  Forall (fun e => is_workflow_event e = false) h2.
Proof.
  intros Hr -> Hf. destruct (reachable_pending_dead _ _ Hr) as [_ Hok].
  unfold dead_ok in Hok. rewrite dead_ok_from_app in Hok. apply andb_true_iff in Hok as [_ Hok].
  cbn in Hok. rewrite Hf, !orb_true_r in Hok. apply andb_true_iff in Hok as [_ Hok].
  by apply dead_ok_from_true_nil.
Qed.

End NoDoubleDispatch.

Lemma no_double_dispatch_witness :
  exists c, In c (firstn 5 (skipn 5 sample_h3)) /\ armed c = true.
Proof.
  apply (no_double_dispatch ingest_decides sdms_runs sample_start sample_h3
           (firstn 4 sample_h3) (nth 4 sample_h3 no_event) (firstn 5 (skipn 5 sample_h3))
           (nth 10 sample_h3 no_event) (skipn 11 sample_h3));
    [exact sample_h3_reachable | vm_compute; reflexivity | reflexivity | reflexivity].
Defined.


(** A domain action that fails on every task (the spec's domain-action
    failure), and an ingestion execution in which classification fails. *)
Definition failing_runs (n : string) (i : jvalue) (o : outcome) : Prop :=
  o = Failure (json_str "domain action failed") (json_str "exit status 1").

Definition failed_h1 : list event :=
  Eval vm_compute in appends (poll_view sample_h0)
    (decision_events (py_map snd (Ingest.decide Ingest.locals0 "u1" (DecisionTask "t1" (Some (poll_view sample_h0)))))).

Definition failed_h2 : list event :=
  Eval vm_compute in appends failed_h1
    (report_events 5 (Failure (json_str "domain action failed") (json_str "exit status 1"))).

Definition failed_h3 : list event :=
  Eval vm_compute in appends (poll_view failed_h2)
    (decision_events (py_map snd (Ingest.decide Ingest.locals0 "u2" (DecisionTask "t2" (Some (poll_view failed_h2)))))).

Lemma failed_h3_reachable : reachable ingest_decides failing_runs sample_start failed_h3.
Proof.
  apply (reach_step _ _ _ failed_h2 failed_h3);
    [|exact (step_decide _ failing_runs failed_h2 "t2" _ (ingest_dec _ Ingest.locals0 "u2"))].
  apply (reach_step _ _ _ failed_h1 failed_h2).
  - apply (reach_step _ _ _ sample_h0 failed_h1); [apply reach_start|].
    exact (step_decide _ failing_runs sample_h0 "t1" _ (ingest_dec _ Ingest.locals0 "u1")).
  - eapply (step_work _ failing_runs failed_h1 (nth 4 failed_h1 no_event) _ _ _
              (Failure (json_str "domain action failed") (json_str "exit status 1")));
      [apply nth_In; vm_compute; lia | reflexivity | vm_compute; reflexivity | reflexivity].
Qed.

Lemma failure_ends_without_completion_witness :
  Forall (fun e => is_workflow_event e = false) (skipn 7 failed_h3).
Proof.
  apply (failure_ends_without_completion ingest_decides failing_runs sample_start failed_h3
           (firstn 6 failed_h3) (nth 6 failed_h3 no_event) (skipn 7 failed_h3));
    [exact failed_h3_reachable | vm_compute; reflexivity | reflexivity].
Defined.

End Dispatch.
