(* ===== verification/Harness.v ===== *)
(** * The test harness ([src/workflowcode/testHarness.py])

    The harness starts executions and pokes the catalogue by hand:
    [runTest] copies a sample upload, deletes its catalogue entry and
    starts an ingestion execution ([defaultRun], version 2, task list
    [default]); [delTest] starts a lifecycle execution ([fileManager],
    version 1) that deletes a stored video; [transcodeTest] rebuilds a
    storyboard as the video thumbnail worker does; [dbTest] and [dbTest2]
    are two hand-written catalogue updates.

    [Harness] models each function: the start requests as records, the
    catalogue as the [Register] table ([databaseHelper.deleteEntry] and
    [table.update_item] with the semantics of DynamoDB's [DeleteItem] and
    [UpdateItem]), the storyboard with [Storyboard].  The lemmas: the
    deletion test's request is the deletion of a video on the CDN tier,
    so it runs to completion in the lifecycle execution model after the
    single stage [deleteFiles] ([LifecycleRun.delete_reachable]); the ingestion test's request is
    answered by scheduling the classification of the uploaded copy;
    [dbTest] dies of [NameError] whenever its fallback is needed; [dbTest2]
    writes an attribute no worker reads. *)

From stdpp Require Import base list strings gmap.
From Stdlib Require Import String ZArith Lia.
From S2P Require Import Prelude Json History Ingest Lifecycle Deciders Classifier Storyboard Workers Register Execution LifecycleRun.

Open Scope string_scope.
Local Open Scope py_scope.

Module Harness.

Import Worker Execution LifecycleRun.

(** The arguments of [swf.start_workflow_execution]. *)
Record start_request := mkStart {
  workflowId : string;
  workflowType : string * string;
  taskList : string;
  req_input : jvalue
}.

(** The module's constants (lines 19-22). *)
Definition DOMAIN := "ITD".
Definition WORKFLOW := "defaultRun".
Definition VERSION := "2".
Definition TASKLIST := "default".

Definition testV : string :=
  "/trim.6A7FE5FA-5321-4BF1-87D7-D26937142263_76ed9582-7da6-44ef-a0af-e22596297573/trim.6A7FE5FA-5321-4BF1-87D7-D26937142263_76ed9582-7da6-44ef-a0af-e22596297573.MOV".
Definition testI : string :=
  "/image_509b2a45-de95-4757-9a4e-58d1e28b362a/image_509b2a45-de95-4757-9a4e-58d1e28b362a.jpeg".

(** [runTest(args)], lines 36-88: the catalogue entry of the sample is
    deleted ([databaseHelper.deleteEntry(key)]), then the ingestion
    execution is started with the copy under [/Assets/upload]. *)
Definition runTest (t : Register.table) (args : list string) (now : string)
    : py (Register.table * start_request) :=
  kind <- py_index args 1 ;;
  let '(fileIn, sha1) :=
    if String.eqb kind "V" then (testV, "6e508f0ed03da2b98ceb091827b569877037d1ef")
    else (testI, "afbf98c0070e5f048c21d7d17e24cd05401971f7") in
  let t' := delete sha1 t in
  let AUDIT := [("User", JStr "System"); ("Timestamp", JStr now);
                ("Action", JStr "File uploaded"); ("Notes", JStr "test harness")] in
  let MA := [("Description", JStr "test harness run"); ("Audit", JList [JObj AUDIT])] in
  let INPUT := [("fileName", JStr ("/Assets/upload" ++ fileIn)); ("metadata", JObj MA)] in
  id <- py_index args 2 ;;
  ret (t', mkStart ("test-" ++ id) (WORKFLOW, VERSION) TASKLIST (JObj INPUT)).

(** [main(args)] (lines 28-34): [runTest(args)], the other tests are
    commented out.  [MA] and [AUDIT] are module-level dicts that
    [runTest] fills; it runs once per process, so they start empty. *)
Definition main (t : Register.table) (args : list string) (now : string)
    : py (Register.table * start_request) :=
  runTest t args now.

(** [delTest(args)], lines 91-132: [args[1]] is read, but both branches'
    values are overwritten at lines 103-104. *)
Definition delTest (args : list string) : py start_request :=
  _ <- py_index args 1 ;;
  let sha1 := "fc7a224388045ba3ffb1d6e647c331d747ca46c8" in
  let fileKey := "trim.74CFE8B3-6DE3-406B-8A45-37B3BB9F9E69_850995df-b3eb-47b6-bb35-d6f9b453ce3e" in
  let INPUT := [("dbPrimaryKey", JObj [("Checksum", JStr sha1)]); ("fileKey", JStr fileKey);
                ("assetClass", JStr "Video"); ("locationSource", JStr "CDN");
                ("locationDestination", JStr "delete")] in
  id <- py_index args 2 ;;
  ret (mkStart ("test-" ++ id) ("fileManager", "1") "fileManager" (JObj INPUT)).

(** Line 186: the harness's [thumbSpan], relative to the asset. *)
Definition harness_src (fileName : string) (n : Z) : string :=
  Storyboard.newDir ++ "/" ++ fileName ++ "_thumbnail_" ++ py_str_int n ++ ".jpg".

(** [transcodeTest()], lines 135-209, after [ffmpeg]: the VTT file and
    the values of the (commented-out) catalogue update. *)
Definition transcodeTest (listing : list string) : string * string * dict jvalue :=
  let asset := "/Assets/test" ++ testV in
  let '(_, fileName, _) := Classifier.splitFilename asset in
  let counter := Storyboard.count_thumbs listing in
  let vtt := fileName ++ ".vtt" in
  let index := py_str_int (Storyboard.keyframe_index counter) in
  let thumbnail := Storyboard.newDir ++ "/" ++ fileName ++ "_thumbnail_" ++ index ++ ".jpg" in
  (vtt, Storyboard.vtt_text (harness_src fileName) counter,
   [(":t", JStr thumbnail); (":s", JStr (Storyboard.newDir ++ "/" ++ vtt))]).

Definition dbTest_key : string := "afbf98c0070e5f048c21d7d17e24cd05401971f7".

(** [dbTest()], lines 211-256: [SET thumbnails.thumbnail = :t] needs an
    item with a map [thumbnails]; otherwise DynamoDB answers
    [ValidationException] and the handler builds [{':t': M}] with a name
    [M] that is not defined. *)
Definition dbTest (t : Register.table) : py Register.table :=
  match t !! dbTest_key with
  | Some item =>
      match dict_get item "thumbnails" with
      | Some (JObj m) =>
          ret (<[dbTest_key := dict_set item "thumbnails"
                  (JObj (dict_set m "thumbnail"
                     (JStr "thumbnails/image_509b2a45-de95-4757-9a4e-58d1e28b362a_thumbnail.jpg")))]> t)
      | _ => py_raise (NameError "M")
      end
  | None => py_raise (NameError "M")
  end.

Definition dbTest2_key : string := "76b5f1bc9100b32447e6116b321c14e51cd59fe3".

(** [dbTest2()], lines 259-286: [SET #f = :t] with [#f = 'File Location'];
    [UpdateItem] creates the item if it is missing. *)
Definition dbTest2 (t : Register.table) : Register.table :=
  let item := default [("Checksum", JStr dbTest2_key)] (t !! dbTest2_key) in
  <[dbTest2_key := dict_set item "File Location" (JStr "CDN")]> t.

(** ** Theorems *)

Definition del_args : list string := ["testHarness.py"; "V"; "1"].

Definition del_start : jvalue :=
  Eval vm_compute in match delTest del_args with inr r => req_input r | inl _ => JNull end.

(** The harness's request is the deletion request of a stored video on
    the CDN tier. *)
Lemma del_start_request :
  del_start = delete_start Pipeline.CDN (JObj [("Checksum", JStr "fc7a224388045ba3ffb1d6e647c331d747ca46c8")])
    "trim.74CFE8B3-6DE3-406B-8A45-37B3BB9F9E69_850995df-b3eb-47b6-bb35-d6f9b453ce3e".
Proof. reflexivity. Qed.

Lemma delTest_input args id :
  py_index args 1 <> inl IndexError -> py_index args 2 = inr id ->
  delTest args = inr (mkStart ("test-" ++ id) ("fileManager", "1") "fileManager" del_start).
Proof.
  intros H1 H2. unfold delTest. destruct (py_index args 1) as [e|a] eqn:Ha.
  - by rewrite (py_index_err _ _ _ Ha) in H1.
  - cbn [py_bind]. by rewrite H2.
Qed.

(** The harness's deletion test completes: called with at least two
    arguments, [delTest] starts a [fileManager] execution on the
    [fileManager] task list, and that execution has a history in the
    execution model that schedules [deleteFiles] only and ends with the
    completion of the execution. *)
Lemma delTest_completes args :
  (3 <= List.length args)%nat ->
  exists r, delTest args = inr r /\ workflowType r = ("fileManager", "1") /\
    taskList r = Lifecycle.TASKLIST /\
    exists h, reachable lifecycle_decides lifecycle_runs (req_input r) h /\
      scheduled_names h = [Lifecycle.ACTIVITY3] /\
      attrs (List.last h no_event) = OtherEvent "WorkflowExecutionCompleted".
Proof.
  intros Hlen. destruct args as [|a0 [|a1 [|a2 rest]]]; cbn in Hlen; [lia..|].
  eexists. rewrite (delTest_input _ a2).
  - split; [reflexivity|]. split; [reflexivity|]. split; [reflexivity|].
    rewrite del_start_request. eexists.
    split; [exact (delete_reachable _ _ _ (or_introl eq_refl)) | exact (delete_shape _ _ _ (or_introl eq_refl))].
  - by rewrite (py_index_nonneg (a0 :: a1 :: a2 :: rest) 1 a1 eq_refl : py_index _ 1 = _).
  - exact (py_index_nonneg (a0 :: a1 :: a2 :: rest) 2 a2 eq_refl).
Qed.

(** The ingestion test: whatever its sample, the request goes to the
    [defaultRun] workflow on the [default] task list the ingestion decider
    polls, and the decider answers its start by scheduling the
    classification of the uploaded copy with the harness's metadata. *)
Lemma runTest_schedules_classification t args now t' r st uuid tok :
  runTest t args now = inr (t', r) ->
  workflowType r = ("defaultRun", "2") /\ taskList r = "default" /\
  exists f m,
    Ingest.decide st uuid (DecisionTask tok (Some [mkEvent 1 (WorkflowExecutionStarted (req_input r))])) =
      inr (Ingest.mkLocals (Some Ingest.ACTIVITY1),
           Some (tok, executeNextTask uuid Ingest.ACTIVITY1 "1"
                        (JObj [("asset", JStr f); ("metadata", m)]) Ingest.ACTIVITY1)) /\
    (f = "/Assets/upload" ++ testV \/ f = "/Assets/upload" ++ testI).
Proof.
  unfold runTest. destruct (py_index args 1) as [|kind]; [discriminate|]. cbn [py_bind].
  destruct (String.eqb kind "V"); cbn [py_bind py_ret];
    (destruct (py_index args 2) as [|id]; [discriminate|]); cbn [py_bind py_ret];
    intros [= <- <-]; (split; [done|]); (split; [done|]);
    (eexists _, _; split; [reflexivity|tauto]).
Qed.

(** The harness's two tests reach the two deciders: [main]'s request is
    on the task list the ingestion decider polls, [delTest]'s on the one
    the lifecycle decider polls, and the two differ. *)
Lemma harness_requests_routed t args now t' r r' :
  main t args now = inr (t', r) -> delTest args = inr r' ->
  taskList r = Deciders.dr_taskList Deciders.ingest_request /\
  taskList r' = Deciders.dr_taskList Deciders.fileManager_request /\ taskList r <> taskList r'.
Proof.
  intros Hm Hd. destruct (runTest_schedules_classification t args now t' r Ingest.locals0 "u" "t" Hm) as (_ & Hr & _).
  unfold delTest in Hd. destruct (py_index args 1); [discriminate|]. cbn [py_bind] in Hd.
  destruct (py_index args 2); [discriminate|]. cbn [py_bind py_ret] in Hd. injection Hd as <-.
  rewrite Hr. split; [done|]. split; [done|]. discriminate.
Qed.

(** [dbTest] only succeeds on an item that already holds a map
    [thumbnails]; on any other catalogue its fallback dies of [NameError]. *)
Lemma dbTest_fallback_crashes t :
  (forall item m, t !! dbTest_key = Some item -> dict_get item "thumbnails" <> Some (JObj m)) ->
  dbTest t = inl (NameError "M").
Proof.
  intros H. unfold dbTest. destruct (t !! dbTest_key) as [item|] eqn:Ht; [|done].
  destruct (dict_get item "thumbnails") as [[| | | | |m]|] eqn:Hg; try done.
  by destruct (H item m eq_refl).
Qed.

(** [dbTest2] keeps the catalogue invariant and never changes the
    [File_Location] the workers read: it writes ['File Location']. *)
Lemma dbTest2_keeps_location t :
  Register.table_wf t ->
  Register.table_wf (dbTest2 t) /\
  forall c, (dbTest2 t !! c) ≫= (fun i => dict_get i "File_Location") =
            (t !! c) ≫= (fun i => dict_get i "File_Location").
Proof.
  intros Hwf. unfold dbTest2. split.
  - intros c item. destruct (decide (c = dbTest2_key)) as [->|Hne].
    + rewrite lookup_insert_eq. intros [= <-]. rewrite dict_get_set_ne by done.
      destruct (t !! dbTest2_key) as [i|] eqn:Ht; cbn; [by apply Hwf|done].
    + rewrite lookup_insert_ne by done. apply Hwf.
  - intros c. destruct (decide (c = dbTest2_key)) as [->|Hne].
    + rewrite lookup_insert_eq. cbn. rewrite dict_get_set_ne by done.
      by destruct (t !! dbTest2_key).
    + by rewrite lookup_insert_ne.
Qed.

End Harness.
